(* ===== verification/_CoqProject ===== *)
-Q . S2P
Spec2Rocq.v
Hint.v
Types.v
MockData.v
JsString.v
StepList.v
Graph.v
Editor.v
FlowNodes.v
Studio.v
CreateDialog.v
StudioPage.v
Chrome.v
Meetings.v
Documents.v
MeetingDetail.v
Agents.v
ParseEmail.v
EmailToMeeting.v
Workflows.v
SetupSession.v
Dashboard.v
Library.v
Demo.v
Projects.v
Layout.v
Landing.v
Marketing.v
ViteDashboard.v
