(* ===== verification/Spec2Rocq.v ===== *)
(** * A verification development for the tacit workflow editor

    The repository is a web front end (Next.js pages under
    [src/tacit_frontend/src], an older Vite copy under [src/src]) whose
    most engineered component is the workflow graph editor,
    [components/workflow/WorkflowBuilder.tsx]. A parent page owns an
    ordered list of steps and passes it to the editor with an
    [onStepsChange] callback; the editor keeps ReactFlow nodes and edges of
    its own, turns user gestures (delete a node, connect two nodes, drag a
    node) into a proposed new list, and, in an effect that runs whenever
    the list changes, rebuilds nodes and edges from the list: a start and
    an end anchor around one node per step, and the chain of edges
    [start -> step 0 -> ... -> end]. The studio page
    ([app/studio/page.tsx]) hosts the editor, appends steps from its
    palette and saves the workflow; the create-workflow dialog hosts it
    too. A Supabase edge function ([supabase/functions/parse-meeting-email])
    turns an email into meeting details through an AI gateway; the Vite
    page [EmailToMeeting] calls it. The other pages (meetings, meeting
    detail, documents, agents) are React components over the fixtures of
    [data/mockData.ts], each with dialogs whose callbacks the page
    supplies, all inside the shell [TacitChrome]. Each is modelled the
    same way: a state record, one definition per handler returning the
    new state and the outputs (alerts, toasts, navigation, callback
    arguments), the render as a value, and a step relation with the
    events its rendered controls raise.

    ** Files

    - [Spec2Rocq] (this file): notation ([a === b] for JavaScript's strict
      string equality, scope [js_scope]), the JavaScript array primitives
      the source calls ([findIndex] returning [-1], [splice], the stable
      [Array.prototype.sort] as [js_sort], [join] as [js_join], truthy
      [||] on strings as [js_or]) with their lemmas, the hint database
      [s2p] and the tactics [case_streq] and [decide_goal].
    - [Hint] (Module [Hint]): the tip box of [components/ui/hint.tsx],
      its variant table and icon map; [cn] is a parameter.
    - [Types] (Module [Types]): [types/index.ts] — [WorkflowStepType], [WorkflowStep] (the
      [config] field, never read, is left out), [Partial<WorkflowStep>]
      as [StepPatch] with the spread merge, the palette table
      [WORKFLOW_STEP_TYPES], and the records [Agent], [Meeting],
      [Workflow], [Project], [Document], [KnowledgeItem].
    - [MockData]: the fixture arrays of [data/mockData.ts], as values.
    - [JsString]: [trim], [toLowerCase], [includes], [split] on one
      character and the regular expression replacements of the run
      dialog, on ASCII strings.
    - [StepList] (Module [StepList]): the list each handler of the editor
      proposes — [delete_steps] ([handleDeleteNode]), [update_steps]
      ([handleUpdateNode]), [connect_steps] ([onConnect]'s reordering),
      [add_step] (the palette callback), all renumbering with [renumber];
      the invariant [dense] (orders read 0..n-1).
    - [Graph] (Module [Graph]): the effect — [sync_nodes] (the [setNodes]
      updater with its [needsUpdate] test), [build_edges] (the chain) and
      [select_edges] (the [setEdges] updater), composed as [sync].
    - [Editor] (Module [Editor]): the component as a state machine. Its
      state is [Editor] (the parent's [steps], the [nodes], the [edges]);
      [handle] is one gesture's handler, [step] runs it and, when it called
      [onStepsChange], the effect on the new list, as React does; [mount]
      is the first render; [reachable] is the inductive set of states the
      studio reaches from an empty list. The trash button calls the
      [handleDeleteNode] closure each node stores ([Graph.node_onDelete]),
      over the list of the render that last rebuilt it. The canvas library
      is the interface [FlowRenderer] (a type class: [addEdge], drag moves
      and the Backspace removal of selected nodes and edges, with the laws
      the proofs use), implemented by [ReactFlowModel].
    - [FlowNodes] (Module [FlowNodes]): the node components
      [CustomNode], [StartNode], [EndNode] of [WorkflowBuilder.tsx] as
      card values, with the delete button's [EvDelete].
    - [Studio] (Module [Studio]): the studio page's [handleSave] (split at
      its [await] into [save_begin] and [save_finish]) and
      [handleDiscard], and the create dialog's [handleSubmit].
    - [CreateDialog] (Module [CreateDialog]): [CreateWorkflowModal.tsx]
      composed with the [WorkflowBuilder] it embeds: the form's inputs,
      Cancel, the disabled submit button, and the builder, mounted on the
      dialog's steps while the dialog is open, whose [Editor.step] the
      dialog's [setSteps] receives; the dialog renders no palette, so the
      builder receives canvas gestures only. The file's Section takes the
      [FlowRenderer] of [Editor] as its Context.
    - [StudioPage] (Module [StudioPage]): [app/studio/page.tsx] composed
      with the [WorkflowBuilder] it renders (the page keeps the builder's
      nodes and edges, the builder reads the page's [steps]) and the
      [ToolsSidebar] palette; [page_step] runs every control, a builder
      gesture through [Editor.step], a save through [Studio.save_begin],
      its continuation, with the [name] its closure captured, through
      [Studio.save_finish]; [studio_view] is the render.
    - [Chrome] (Module [Chrome]): [layout/TacitChrome.tsx], the shell of
      every page — its state (with the expanded sidebar groups as a
      [gmap]), all 15 handlers as [handle], [meetingsByAgent], the render
      as the value [view], the events a rendered control raises
      ([available]) and the [reachable] states; [chrome_equiv] identifies
      states that render alike, with [Proper] instances for setoid
      rewriting.
    - [Meetings]: [app/meetings/page.tsx] (Module [MeetingsPage]) and the
      three dialogs it drives, [ScheduleMeetingModal],
      [ConnectGoogleCalendarModal] and [ImportGoogleCalendarModal]
      (Modules [ScheduleModal], [ConnectModal], [ImportModal]), composed
      in one [step] relation, with the two dialogs' renders; the agent
      menu both render is [MeetingAgents]'.
    - [Documents] (Module [DocumentsPage]): [app/documents/page.tsx] — the
      load effect, the [sourceId] normalisation, the filters, the viewer's
      file-name logic ([new URL(..).pathname] a parameter) split at its
      [await], the render with the viewer, and the page's controls as one
      step on the state with its content requests in flight.
    - [MeetingDetail] (Module [MeetingDetail]): the meeting page
      [app/meetings/[meetingId]/page.tsx] — the lookup and its not-found
      branch, the tabs, the sidebar, and [handleCitationClick] over an
      explicit DOM state (highlight classes and pending timers); the
      fixtures are section variables.
    - [Agents]: [app/agents/page.tsx] (Module [AgentsPage]) and
      [AddAgentModal.tsx] (Module [AddAgentModal]), every handler of the
      dialog's growable question and channel lists.
    - [Workflows]: [app/workflows/page.tsx] (Module [WorkflowsPage]) and
      [RunWorkflowModal.tsx] (Module [RunModal]) — the search, the run,
      execute and delete handlers, the meeting picker and the cards, in one
      step relation with its reachable states.
    - [ParseEmail] (Module [ParseEmail]): the edge function as [serve], its
      [try] body as [extract] returning a [result] (a thrown message or a
      value); the key, the gateway and [JSON.parse] are section variables.
    - [EmailToMeeting] (Module [EmailToMeeting]): [src/src/pages/
      EmailToMeeting.tsx] — both handlers split at their [await], the
      [zod] schema as [validate], the field edits and the render. The page
      calls the edge function through the class [ParseFunction]; its
      theorems are proved against the class, and the instance
      [edge_function] is [ParseEmail.serve] read the way the Supabase
      client reads a response.

    - [SetupSession] (Module [SetupSession]): [src/src/pages/
      SetupSession.tsx] — the form, its submit split at the [await] with
      the browser's constraint validation as the guard, and the persona
      texts.

    - [Dashboard] (Module [Dashboard]): the home page [app/page.tsx] with
      [components/dashboard/] — the sidebar, the dashboard view, the
      session detail and its window-event listener, the configuration
      drawer and its 2-second timers, the start and schedule modals — as
      one step relation in which pending timers fire in any order; the
      state of each component lives as long as it is mounted. The 100 ms
      scroll timeouts the listener arms are counted beside the page state
      ([fire_page_timer]).

    - [Library] (Module [Library]): [src/src/pages/KnowledgeLibrary.tsx],
      the assets, the render and the statistics.
    - [Demo] (Module [Demo]): [src/src/pages/SessionDemo.tsx], the clock
      ([formatTime], with [padStart] as [js_padStart]), the recording
      toggle, the transcript and the render ([demo_view]).
    - [Projects] (Modules [AddProjectModal], [TopBar], [KnowledgeDocument]):
      [components/modals/AddProjectModal.tsx] and the project switcher
      [components/layout/TopBar.tsx] that hosts it (no page renders it),
      and the render of [components/modals/KnowledgeDocumentModal.tsx].
    - [Layout] (Modules [SidebarContext], [AppSidebar], [DashboardHeader]):
      the context of [contexts/TacitSidebarContext.tsx] as the class
      [TacitSidebar] with its laws, whose instance is [TacitChrome]'s
      handlers; [components/layout/AppSidebar.tsx] as a client proved
      against the class; and [components/dashboard/DashboardHeader.tsx].
    - [ViteDashboard] (Module [ViteDashboard]): the Vite copy of the home
      page, [src/src/pages/Dashboard.tsx], with the copies of its
      components under [src/src/components/dashboard/], translated on the
      state of [Dashboard]; the four components the page imports that the
      Vite sources lack are [Dashboard]'s.
    - [Landing] (Modules [Hero], [Index]): the Vite landing page, the
      carousel of [src/src/components/sections/Hero.tsx] as a timed step
      relation (a clock in milliseconds, the interval's next firing and
      the resume timeouts' due times; time cannot pass a due timer), with
      the Embla drag as an event, its render ([hero_view]: slides, dots,
      statistics), a labelled slideshow specification, and the page's
      navigation.
    - [Marketing] (Modules [Features], [HowItWorks], [Demos]): the static
      sections of the landing page as their data arrays and the views that
      map over them.

    ** What is proved

    - The editor's reachable states are consistent (C1): dense orders,
      distinct non-anchor ids, no two nodes with one id, every node an
      anchor or a step's, and every delete button's captured list valid;
      proved by induction on [reachable] from the handler lemmas. A node,
      anchors included, may be missing: the Backspace key (C11) removes
      nodes without a callback, and the next callback's effect puts the
      anchors back.
    - Reordering on connect (C2-C4): the source moves before an earlier
      target but AFTER a later one (the target's index is read before the
      splice); the result is a permutation, densely numbered.
    - The effect (C5-C8, C17, C18, C40): the edges are exactly the chain
      and form a simple path; persisting nodes keep their position; the
      effect is idempotent; the anchors present are reused; an empty list
      gets no edge at all (the spec expects start to end); a new step's
      node gets the fallback position of its index and a closure over the
      current list.
    - Gestures (C9-C15): after a callback the edge ids are the chain's;
      the trash button proposes the list of the node's closure, which
      after a reorder undoes it (C10); re-connecting adjacent steps
      changes nothing; add then delete is the identity; adding a step
      moves no node.
    - Studio page (C20, C21, C32): [handleSave] saves the stale (blank)
      description when the user answers the prompt; its branches; at most
      one save is in flight, exactly while Save reads "Saving...".
    - Node cards (C22): the palette table has a row for every step type,
      so a step's card always shows its type's colour, icon and label.
    - The edge function (C23-C25): an unset or empty key, a gateway error,
      and the success answer.
    - Agents (C26): no reachable state of the agents page empties the
      dialog's question or channel lists.
    - The two copies of the dashboard (C19): the Vite page built from the
      copies under [src/src] takes the same steps as [app/page.tsx].
    - The hero carousel (C27, C36) refines the labelled slideshow its
      comments describe (the interval ticks only while auto-playing, a
      pick pauses on its slide, a resume resumes on the same slide, a drag
      keeps auto-play), and a paused carousel resumes within ten seconds.
    - Chrome (C28, C39): on every page without props the session detail
      and the automations are unreachable; [meetingsByAgent] groups
      exactly the completed meetings under their known agents.
    - The home page's timers (C29) terminate: a drawer timer removes
      itself and arms at most one scroll timeout, which arms nothing.
    - The create dialog (C30) never creates a workflow: its list stays
      empty, so its submit button stays disabled.
    - Meetings (C31, C34, C37, C38): the import dialog's invariants, the
      document count that ignores the meeting, the import payload, and the
      schedule dialog's alert.
    - The demo clock (C33) is five characters below 100 minutes and six
      from 100 to 999.
    - Documents (C16, C35): a closed viewer's late answer is shown under
      the next document's title while that document's request is still in
      flight; after normalisation the viewer always requests the id.
    - Beyond the claims, the library proves the helper lemmas of each
      component, e.g. [EmailToMeeting.edge_error_message] (every failure
      of the edge function reaches the page as the client's generic
      message) and [WorkflowsPage.execute_from_reachable] (a run always
      names a fixture workflow and a completed meeting), the citation
      handler and its timer ([MeetingDetail.citation_click_then_timer])
      and that no control of the meeting page calls it, the studio alert
      that names the workflow as it was at the click
      ([StudioPage.save_alert_names_clicked_name]), and, in [Dashboard],
      the invariant that makes [selectedSession!] safe, the progress bar
      within 0 and 100 per cent for clicks inside the bar, and reachable
      interleavings in which a drawer timer loses its asset or closes a
      drawer opened later; in [Layout], that at most one link of the
      sidebar is active on any path and that the sidebar's toggle switches
      its render for every provider that keeps the context's laws; in
      [Landing], the carousel's invariant and that a second dot click
      does not postpone the first click's timeout.

    ** Bounds, fuel, what is left out

    Every definition is structural; there is no fuel. Positions are [Z],
    order numbers and indices [nat], statuses and the chrome's clock [N],
    the carousel's clock [nat] milliseconds; none of them is near a
    machine bound in the code. The carousel's timers are the only ones
    given due times: elsewhere the order in which timers fire is what
    matters, and any order is allowed. Strings are ASCII, so
    lengths count characters where JavaScript counts UTF-16 units. Async
    handlers are split at each [await]; the answer of the awaited call is
    an event, so interleavings with other events are explicit. Date
    parsing and locale formatting, [new URL], [parseInt] and the network
    are parameters. Class names are kept where the code computes them and
    icons by name; routing beyond the route list, the UI kit under
    [components/ui/] and the internals of ReactFlow beyond the laws of
    [FlowRenderer] are not modelled: they are libraries the sources only
    call. PROJECT.json lists each part with its status. *)

From stdpp Require Export base list strings gmap pretty.
From Stdlib Require Export ZArith Lia Permutation Sorted.

(** ** Notation of the development

    JavaScript's strict equality on strings, [a === b], is [String.eqb]. *)

Declare Scope js_scope.
Delimit Scope js_scope with js.
Notation "a === b" := (String.eqb a b) (at level 70, no associativity) : js_scope.
Open Scope js_scope.

(** ** JavaScript array primitives used by the source

    [Array.prototype.findIndex] returns the index of the first element that
    satisfies the predicate, and [-1] when there is none; it is kept as a
    [Z] so that the source's comparisons with [-1] read as written. *)

Fixpoint js_findIndex {A} (p : A -> bool) (l : list A) : Z :=
  match l with
  | [] => (-1)%Z
  | x :: l' => if p x then 0%Z
               else match js_findIndex p l' with
                    | (-1)%Z => (-1)%Z
                    | i => (1 + i)%Z
                    end
  end.

(** [arr.splice(i, 1)] removes the element at index [i] (the source reads the
    removed element back by destructuring). *)
Definition js_splice_remove {A} (i : nat) (l : list A) : option A * list A :=
  (l !! i, delete i l).

(** [arr.splice(i, 0, x)] inserts [x] before index [i]; an index past the
    end appends, as JavaScript clamps the start to the length. *)
Definition js_splice_insert {A} (i : nat) (x : A) (l : list A) : list A :=
  take i l ++ x :: drop i l.

(** ** Automation shared by the components *)

Create HintDb s2p discriminated.

(** Case analysis on a string comparison left in the goal. *)
Ltac case_streq :=
  match goal with
  | |- context [String.eqb ?a ?b] =>
      destruct (String.eqb_spec a b); subst; simpl
  end.

(** Close a decidable goal about concrete data by evaluation. *)
Ltac decide_goal :=
  match goal with
  | |- ?P => apply (bool_decide_unpack P); vm_compute; reflexivity
  end.

(** ** Generic lemmas on the JavaScript primitives *)

Section ArrayPrimitives.
Context {A : Type}.
Implicit Types (l : list A) (p : A -> bool).

Lemma js_findIndex_range p l :
  js_findIndex p l = (-1)%Z \/ (0 <= js_findIndex p l < Z.of_nat (length l))%Z.
Proof.
  induction l as [|x l IH]; simpl; [by left|].
  destruct (p x); [right; lia|].
  destruct IH as [-> | IH]; [by left|].
  destruct (js_findIndex p l) eqn:E; try lia; right; lia.
Qed.

(** The recursive case of [findIndex], with its match on [-1] unfolded. *)
Lemma js_findIndex_cons_false p x l :
  p x = false ->
  js_findIndex p (x :: l) =
    if (js_findIndex p l =? -1)%Z then (-1)%Z else (1 + js_findIndex p l)%Z.
Proof.
  intros Hp. simpl. rewrite Hp.
  destruct (js_findIndex_range p l) as [-> | R]; [done|].
  destruct (js_findIndex p l) as [|z|z]; simpl; try done; lia.
Qed.

Lemma js_findIndex_none p l :
  js_findIndex p l = (-1)%Z <-> Forall (fun x => p x = false) l.
Proof.
  induction l as [|x l IH]; [simpl; split; auto|].
  rewrite Forall_cons. destruct (p x) eqn:Hp.
  - simpl. rewrite Hp. split; [lia| intros [? _]; congruence].
  - rewrite <- IH, js_findIndex_cons_false by done.
    pose proof (js_findIndex_range p l).
    destruct (Z.eqb_spec (js_findIndex p l) (-1)); split; intros; try tauto; lia.
Qed.

(** A non-negative result is the index of the first element satisfying
    the predicate. *)
Lemma js_findIndex_some p l (i : nat) :
  js_findIndex p l = Z.of_nat i ->
  (exists x, l !! i = Some x /\ p x = true) /\
  (forall j y, j < i -> l !! j = Some y -> p y = false).
Proof.
  revert i. induction l as [|x l IH]; intros i; [simpl; lia|].
  destruct (p x) eqn:Hp.
  - simpl. rewrite Hp. intros Hi. assert (i = 0) as -> by lia.
    split; [eauto|]. intros; lia.
  - rewrite js_findIndex_cons_false by done. intros Hi.
    assert (js_findIndex p l = Z.of_nat (pred i) /\ i <> 0) as [Hk Hi0].
    { destruct (Z.eqb_spec (js_findIndex p l) (-1)); lia. }
    destruct i as [|k]; [done|]. simpl in Hk.
    destruct (IH k Hk) as [[y [Hy Hpy]] Hlt].
    split; [eauto|].
    intros [|j] z Hj Hz; simpl in Hz; [by simplify_eq|].
    apply (Hlt j); [lia|done].
Qed.

(** Conversely, the first index whose element satisfies the predicate is
    what [findIndex] returns. *)
Lemma js_findIndex_first p l (i : nat) x :
  l !! i = Some x -> p x = true ->
  (forall j y, j < i -> l !! j = Some y -> p y = false) ->
  js_findIndex p l = Z.of_nat i.
Proof.
  revert i. induction l as [|z l IH]; intros i Hx Hp Hlt; [done|].
  destruct i as [|i]; simpl in Hx.
  - simplify_eq. simpl. by rewrite Hp.
  - rewrite js_findIndex_cons_false by (apply (Hlt 0); [lia|done]).
    rewrite (IH i); [|done|done|].
    + destruct (Z.eqb_spec (Z.of_nat i) (-1)); lia.
    + intros j y Hj Hy. apply (Hlt (S j)); [lia|done].
Qed.

Lemma js_splice_insert_length i x l :
  length (js_splice_insert i x l) = S (length l).
Proof.
  unfold js_splice_insert. rewrite length_app. simpl.
  rewrite length_take, length_drop. lia.
Qed.

(** Removing an element and inserting it again anywhere permutes the
    list. *)
Lemma js_splice_move_perm i j x l :
  l !! i = Some x ->
  js_splice_insert j x (delete i l) ≡ₚ l.
Proof.
  intros Hx. unfold js_splice_insert.
  rewrite <- Permutation_middle, take_drop.
  symmetry. by apply delete_Permutation.
Qed.

Lemma js_splice_insert_lookup_eq i x l :
  i <= length l -> js_splice_insert i x l !! i = Some x.
Proof.
  intros Hi. unfold js_splice_insert.
  rewrite lookup_app_r; rewrite length_take; [|lia].
  by replace (i - min i (length l)) with 0 by lia.
Qed.
(** Indices before the insertion point are untouched ... *)
Lemma js_splice_insert_lookup_lt i x l k :
  k < i -> i <= length l -> js_splice_insert i x l !! k = l !! k.
Proof.
  intros Hk Hi. unfold js_splice_insert.
  rewrite lookup_app_l by (rewrite length_take; lia). by apply lookup_take_lt.
Qed.

(** ... and the ones from it on move up by one. *)
Lemma js_splice_insert_lookup_ge i x l k :
  i <= k -> i <= length l -> js_splice_insert i x l !! S k = l !! k.
Proof.
  intros Hk Hi. unfold js_splice_insert.
  rewrite lookup_app_r by (rewrite length_take; lia).
  rewrite length_take. replace (S k - min i (length l)) with (S (k - i)) by lia.
  simpl. rewrite lookup_drop. f_equal. lia.
Qed.
Lemma existsb_false_forall p l :
  existsb p l = false -> forall x, In x l -> p x = false.
Proof.
  intros H x Hx. destruct (p x) eqn:E; [|done].
  assert (existsb p l = true) by (apply existsb_exists; eauto). congruence.
Qed.
End ArrayPrimitives.

#[export] Hint Resolve js_splice_insert_length : s2p.

(** ** [Array.prototype.sort] and [Array.prototype.join]

    [sort] with a comparator is stable since ES2019: elements the
    comparator does not separate keep their order. The model is the stable
    insertion sort: each element, in array order, goes before the first
    element already placed that the comparator puts strictly after it. *)
Fixpoint js_sort_insert {A} (cmp : A -> A -> Z) (x : A) (l : list A) : list A :=
  match l with
  | [] => [x]
  | y :: l' => if (cmp x y <? 0)%Z then x :: y :: l' else y :: js_sort_insert cmp x l'
  end.

Definition js_sort {A} (cmp : A -> A -> Z) (l : list A) : list A :=
  fold_left (fun acc x => js_sort_insert cmp x acc) l [].

(** [join(sep)]: [undefined] entries print as the empty string. *)
Fixpoint js_join (sep : string) (l : list (option string)) : string :=
  match l with
  | [] => ""
  | [x] => default "" x
  | x :: l' => default "" x ++ sep ++ js_join sep l'
  end.

(** JavaScript truthiness of a string: [s || d] is [d] on the empty
    string. *)
Definition js_or (s d : string) : string := if String.eqb s "" then d else s.

Section SortJoin.
Context {A : Type} (cmp : A -> A -> Z).

Lemma js_sort_insert_perm x l : js_sort_insert cmp x l ≡ₚ x :: l.
Proof.
  induction l as [|y l IH]; simpl; [done|].
  case_match; [done|]. rewrite IH. apply perm_swap.
Qed.

Lemma js_sort_fold_perm l acc :
  fold_left (fun acc x => js_sort_insert cmp x acc) l acc ≡ₚ acc ++ l.
Proof.
  revert acc. induction l as [|x l IH]; intros acc; simpl; [by rewrite app_nil_r|].
  rewrite IH, js_sort_insert_perm. by rewrite <- Permutation_middle.
Qed.

(** Sorting only reorders the array. *)
Lemma js_sort_perm l : js_sort cmp l ≡ₚ l.
Proof. unfold js_sort. by rewrite js_sort_fold_perm. Qed.

Section Keyed.
(** A comparator of the form [(a, b) => key(a) - key(b)]. *)
Context (key : A -> Z) (Hkey : forall a b, cmp a b = (key a - key b)%Z).

Lemma js_sort_insert_sorted x l :
  Sorted (fun a b => key a <= key b)%Z l ->
  Sorted (fun a b => key a <= key b)%Z (js_sort_insert cmp x l).
Proof.
  induction 1 as [|y l Hs IH Hhd]; simpl; [auto|].
  rewrite Hkey. destruct (Z.ltb_spec (key x - key y) 0).
  - constructor; [by constructor|]. constructor. lia.
  - constructor; [done|]. destruct l as [|z l]; simpl.
    + constructor. lia.
    + inversion Hhd; subst. rewrite Hkey.
      destruct (Z.ltb_spec (key x - key z) 0); constructor; lia.
Qed.

(** The sorted array is in nondecreasing order of the key. *)
Lemma js_sort_sorted l : Sorted (fun a b => key a <= key b)%Z (js_sort cmp l).
Proof.
  unfold js_sort. cut (forall acc, Sorted (fun a b => key a <= key b)%Z acc ->
    Sorted (fun a b => key a <= key b)%Z
      (fold_left (fun acc x => js_sort_insert cmp x acc) l acc)).
  { intros H. apply H. constructor. }
  induction l as [|x l IH]; intros acc Hacc; simpl; [done|].
  by apply IH, js_sort_insert_sorted.
Qed.
End Keyed.
End SortJoin.

Lemma js_or_empty d : js_or "" d = d.
Proof. done. Qed.

Lemma js_or_nonempty s d : s <> "" -> js_or s d = s.
Proof. intros H. unfold js_or. by rewrite (proj2 (String.eqb_neq _ _) H). Qed.

Lemma Sorted_weaken {A} (R R' : relation A) l :
  (forall x y, R x y -> R' x y) -> Sorted R l -> Sorted R' l.
Proof.
  intros HR. induction 1 as [|x l Hs IH Hhd]; constructor; [done|].
  destruct Hhd; constructor; auto.
Qed.

(** [array.find(x => key(x) === i)] finds an element when [i] is a key
    of the array, and the element found has that key. *)
Lemma find_key_some {A} (key : A -> string) i l :
  i ∈ key <$> l -> exists x, List.find (fun x => key x === i) l = Some x /\ key x = i /\ x ∈ l.
Proof.
  intros Hi. destruct (List.find (fun x => key x === i) l) as [x|] eqn:E.
  - apply List.find_some in E as [Hx Hk]. apply String.eqb_eq in Hk.
    exists x. split_and!; [done|done|by apply list_elem_of_In].
  - exfalso. apply list_elem_of_fmap in Hi as (y & -> & Hy).
    apply list_elem_of_In in Hy. apply (List.find_none _ _ E) in Hy.
    by rewrite String.eqb_refl in Hy.
Qed.

Lemma elem_of_list_filter_In {A} (f : A -> bool) x l :
  x ∈ List.filter f l <-> x ∈ l /\ f x = true.
Proof. by rewrite !list_elem_of_In, filter_In. Qed.

Lemma Forall_of_sublist {A} (P : A -> Prop) (l l' : list A) :
  l' `sublist_of` l -> Forall P l -> Forall P l'.
Proof.
  intros Hs. rewrite !Forall_forall. intros H x Hx. apply H. by eapply elem_of_sublist.
Qed.

(** [Array.prototype.filter] keeps a sublist. *)
Lemma List_filter_sublist {A} (f : A -> bool) (l : list A) : List.filter f l `sublist_of` l.
Proof.
  induction l as [|x l IH]; simpl; [constructor|].
  destruct (f x); [by apply sublist_skip|by apply sublist_cons].
Qed.

(** Filtering on a projection commutes with the projection. *)
Lemma fmap_List_filter {A B} (f : A -> B) (p : B -> bool) (l : list A) :
  f <$> List.filter (fun x => p (f x)) l = List.filter p (f <$> l).
Proof.
  induction l as [|x l IH]; [done|]. cbn [List.filter]. rewrite fmap_cons. cbn [List.filter].
  destruct (p (f x)); [rewrite fmap_cons; f_equal|]; exact IH.
Qed.

Lemma NoDup_list_filter {A} (f : A -> bool) l : NoDup l -> NoDup (List.filter f l).
Proof. rewrite !NoDup_ListNoDup. apply List.NoDup_filter. Qed.

Lemma js_or_empty_fallback s : js_or s "" = s.
Proof. unfold js_or. by destruct (String.eqb_spec s ""). Qed.
