(* ===== verification/Hint.v ===== *)
(** * Hint: the hint box of [components/ui/hint.tsx]

    The pages show short tips in a [Hint]: a box whose classes come from
    the [cva] table [hintVariants] and whose icon from [iconMap], both by
    the [variant] prop, ["tip"] when it is not given. [cn] of
    [@/lib/utils], which joins the variant's classes with the caller's
    [className] (resolving conflicting utility classes), is not among the
    sources: it is a parameter of the render. *)

From S2P Require Import Spec2Rocq.

Module Hint.

Inductive HintVariant := tip | info | help | warning | error | success.

(** [hintVariants] (lines 6-23): the base classes, then the variant's. *)
Definition variant_classes (v : HintVariant) : string :=
  match v with
  | tip | info | help => "bg-blue-500/10 text-blue-300 border border-blue-500/20"
  | warning => "bg-yellow-500/10 text-yellow-300 border border-yellow-500/20"
  | error => "bg-red-500/10 text-red-300 border border-red-500/20"
  | success => "bg-green-500/10 text-green-300 border border-green-500/20"
  end%string.

Definition hintVariants (v : option HintVariant) : string :=
  ("flex items-start gap-2 rounded-md p-3 text-sm " ++ variant_classes (default tip v))%string.

(** [iconMap] (lines 29-36), the icons by name. *)
Definition iconMap (v : HintVariant) : string :=
  match v with
  | tip | info | help => "Info"
  | warning => "AlertTriangle"
  | error => "AlertCircle"
  | success => "CheckCircle2"
  end%string.

(** [Hint] (lines 38-47): the box's class ([cn] of the variant's and the
    caller's), its icon and its children. *)
Record HintView (A : Type) := mkHintView { hv_class : string; hv_icon : string; hv_children : A }.
Arguments mkHintView {A}.
Arguments hv_class {A}.
Arguments hv_icon {A}.

Section Render.
Variable cn : string -> option string -> string.

Definition hint {A} (className : option string) (variant : option HintVariant) (children : A) : HintView A :=
  let v := default tip variant in
  mkHintView (cn (hintVariants (Some v)) className) (iconMap v) children.

(** The three variants meant to inform look alike: the same classes and
    the same icon, which is the one of a hint without [variant]. *)
Lemma informational_hints_alike {A} c (x : A) :
  forall v, v = tip \/ v = info \/ v = help ->
  hv_class (hint c (Some v) x) = hv_class (hint c None x) /\ hv_icon (hint c (Some v) x) = "Info"%string.
Proof. intros v [->|[->| ->]]; split; reflexivity. Qed.

End Render.

End Hint.
