(* ===== verification/Types.v ===== *)
(** * Types: the data model of [src/tacit_frontend/src/types/index.ts]

    The step kinds of a workflow, the [WorkflowStep] record the editor keeps
    in its ordered list, the palette table [WORKFLOW_STEP_TYPES] that gives
    each kind its display label (declared twice in the source, in
    [WorkflowBuilder.tsx] and [ToolsSidebar.tsx], with the same rows), and
    the records of the other interfaces of the file. Optional TypeScript
    fields ([name?: string]) are [option]s. The [config] field of a step, a
    free-form [Record<string, any>] that no code of the repository reads,
    is not modelled. *)

From S2P Require Import Spec2Rocq.

Module Types.

(** [export type WorkflowStepType = 'extract_topics' | ...] *)
Inductive WorkflowStepType :=
| extract_topics
| summarize
| extract_quotes
| generate_action_items
| create_transcript
| format_markdown
| export_pdf
| export_docx
| custom_prompt.

#[export] Instance WorkflowStepType_eq_dec : EqDecision WorkflowStepType.
Proof. solve_decision. Defined.

(** The string value of each kind, as written in the union type. *)
Definition step_type_value (t : WorkflowStepType) : string :=
  match t with
  | extract_topics => "extract_topics"
  | summarize => "summarize"
  | extract_quotes => "extract_quotes"
  | generate_action_items => "generate_action_items"
  | create_transcript => "create_transcript"
  | format_markdown => "format_markdown"
  | export_pdf => "export_pdf"
  | export_docx => "export_docx"
  | custom_prompt => "custom_prompt"
  end.

(** [interface WorkflowStep { id; name?; description?; type; config?; order? }] *)
Record WorkflowStep := mkStep {
  step_id : string;
  step_name : option string;
  step_description : option string;
  step_type : WorkflowStepType;
  step_order : option nat
}.

#[export] Instance WorkflowStep_eq_dec : EqDecision WorkflowStep.
Proof. solve_decision. Defined.

(** [{ ...s, order: idx }] *)
Definition set_order (idx : nat) (s : WorkflowStep) : WorkflowStep :=
  mkStep (step_id s) (step_name s) (step_description s) (step_type s) (Some idx).

(** A [Partial<WorkflowStep>]: each field may be present, and a present
    optional field may hold [undefined] ([Some None]). *)
Record StepPatch := mkPatch {
  patch_id : option string;
  patch_name : option (option string);
  patch_description : option (option string);
  patch_type : option WorkflowStepType;
  patch_order : option (option nat)
}.

Definition override {A} (o : option A) (a : A) : A :=
  match o with Some b => b | None => a end.

(** [{ ...s, ...updates }]: a field present in the patch replaces the
    step's. *)
Definition merge_step (s : WorkflowStep) (u : StepPatch) : WorkflowStep :=
  mkStep (override (patch_id u) (step_id s))
         (override (patch_name u) (step_name s))
         (override (patch_description u) (step_description s))
         (override (patch_type u) (step_type s))
         (override (patch_order u) (step_order s)).

(** A row of [WORKFLOW_STEP_TYPES]. *)
Record StepTypeInfo := mkInfo {
  info_value : WorkflowStepType;
  info_label : string;
  info_description : string;
  info_color : string;
  info_icon : string
}.

(** The palette table of [WorkflowBuilder.tsx] (lines 23-33), repeated in
    [ToolsSidebar.tsx] (lines 6-16). The icons are emoji, kept here as
    their names. *)
Definition WORKFLOW_STEP_TYPES : list StepTypeInfo := [
  mkInfo extract_topics "Extract Topics" "Extract key topics" "bg-blue-500" "clipboard";
  mkInfo summarize "Summarize" "Create summary" "bg-green-500" "memo";
  mkInfo extract_quotes "Extract Quotes" "Extract quotes" "bg-purple-500" "speech-balloon";
  mkInfo generate_action_items "Action Items" "Generate actions" "bg-orange-500" "check-mark";
  mkInfo create_transcript "Transcript" "Create transcript" "bg-pink-500" "page";
  mkInfo format_markdown "Markdown" "Format as Markdown" "bg-cyan-500" "memo";
  mkInfo export_pdf "Export PDF" "Export as PDF" "bg-red-500" "closed-book";
  mkInfo export_docx "Export DOCX" "Export as DOCX" "bg-indigo-500" "blue-book";
  mkInfo custom_prompt "Custom" "Custom prompt" "bg-gray-500" "gear"
]%string.

(** [WORKFLOW_STEP_TYPES.find(t => t.value === stepType)] *)
Definition find_step_type (t : WorkflowStepType) : option StepTypeInfo :=
  List.find (fun i => bool_decide (info_value i = t)) WORKFLOW_STEP_TYPES.

(** [stepTypeInfo?.label || 'New Step']: JavaScript's [||] falls back on
    an empty label too. *)
Definition default_step_name (t : WorkflowStepType) : string :=
  match find_step_type t with
  | Some i => if String.eqb (info_label i) "" then "New Step" else info_label i
  | None => "New Step"
  end.

(** ** The other interfaces of [types/index.ts] *)

Inductive AgentStatus := Active | Inactive.

#[export] Instance AgentStatus_eq_dec : EqDecision AgentStatus.
Proof. solve_decision. Defined.

Record Agent := mkAgent {
  agent_id : string;
  agent_name : string;
  agent_persona : string;
  agent_description : string;
  agent_status : AgentStatus;
  agent_channels : list string;
  agent_lastActive : option string;
  agent_systemPrompt : option string;
  agent_questions : option (list string)
}.

#[export] Instance Agent_eq_dec : EqDecision Agent.
Proof. solve_decision. Defined.

Inductive MeetingStatus := Scheduled | InProgress | Completed | Cancelled.

#[export] Instance MeetingStatus_eq_dec : EqDecision MeetingStatus.
Proof. solve_decision. Defined.

Record Meeting := mkMeeting {
  meeting_id : string;
  meeting_title : string;
  meeting_description : string;
  meeting_status : MeetingStatus;
  meeting_scheduledAt : string;
  meeting_agentIds : list string;
  meeting_participants : option (list string);
  meeting_duration : option string;
  meeting_meetingLink : option string;
  meeting_workflowId : option string;
  meeting_summary : option (list string)
}.

#[export] Instance Meeting_eq_dec : EqDecision Meeting.
Proof. solve_decision. Defined.

Record Workflow := mkWorkflow {
  workflow_id : string;
  workflow_name : string;
  workflow_description : option string;
  workflow_steps : list WorkflowStep;
  workflow_createdAt : option string;
  workflow_updatedAt : option string
}.

Record Project := mkProject {
  project_id : string;
  project_name : string;
  project_description : option string;
  project_isPersonal : option bool
}.

Record Document := mkDocument {
  document_id : string;
  document_name : string;
  document_title : string;
  document_type : string;
  document_description : option string;
  document_sourceName : option string;
  document_createdAt : string;
  document_sourceId : option string;
  document_source : option string;
  document_content : option string;
  document_fileUrl : option string
}.

(** [KnowledgeItem]; its free-form [metadata] is not read by any code and
    is left out. *)
Record KnowledgeItem := mkKnowledgeItem {
  ki_id : string;
  ki_title : string;
  ki_type : string;
  ki_content : string;
  ki_createdAt : string;
  ki_createdDate : option string;
  ki_agentName : option string;
  ki_sourceMeetingTitle : option string;
  ki_markdownContent : option string;
  ki_contentSnippet : option string
}.

End Types.
