(* ===== verification/MockData.v ===== *)
(** * MockData: the fixture data of [src/tacit_frontend/src/data/mockData.ts]

    The arrays [agents], [meetings], [workflows], [documents] and
    [projects] that the pages and the chrome read, as values of the records
    of [Types]. Absent optional fields are [None]. *)

From S2P Require Import Spec2Rocq.
From S2P Require Import Types.
Import Types.

Module MockData.

Definition agents : list Agent := [
  mkAgent "agent_1" "SOC2 Auditor" "Compliance Specialist"
    "Expert in SOC2 compliance audits, security controls, and regulatory requirements. Ensures all security practices meet industry standards."
    Active ["Zoom"; "Teams"; "Meet"] (Some "2024-01-15")
    (Some "You are a SOC2 compliance auditor with expertise in security controls and regulatory requirements.")
    (Some ["What security controls are currently in place?";
           "How are access controls managed?";
           "What is the incident response process?"]);
  mkAgent "agent_2" "Product Manager" "Product Strategy Expert"
    "Specializes in product strategy, roadmap planning, and feature prioritization. Helps align product decisions with business goals."
    Active ["Zoom"; "Meet"] (Some "2024-01-14")
    (Some "You are a product manager focused on strategic planning and feature prioritization.")
    (Some ["What are the key user pain points?";
           "How does this feature align with our roadmap?";
           "What is the expected impact on user engagement?"]);
  mkAgent "agent_3" "Technical Writer" "Documentation Specialist"
    "Creates clear, comprehensive technical documentation. Transforms complex technical information into accessible content."
    Inactive ["Teams"] None
    (Some "You are a technical writer who creates clear and comprehensive documentation.")
    (Some ["Who is the target audience for this documentation?";
           "What level of technical detail is required?";
           "What format should the documentation follow?"])
]%string.

Definition meetings : list Meeting := [
  mkMeeting "meeting_1" "Q4 Security Review"
    "Review security controls and compliance status for Q4" Completed
    "2024-01-10T10:00:00Z" ["agent_1"] (Some ["John Doe"; "Jane Smith"])
    (Some "45 minutes") (Some "https://zoom.us/j/123456789") None None;
  mkMeeting "meeting_2" "Product Roadmap Planning"
    "Discuss Q1 product roadmap and feature priorities" Scheduled
    "2024-01-20T14:00:00Z" ["agent_2"] (Some ["Alice Johnson"; "Bob Williams"])
    (Some "60 minutes") (Some "https://meet.google.com/abc-defg-hij") None None;
  mkMeeting "meeting_3" "API Documentation Review"
    "Review and update API documentation" InProgress
    "2024-01-15T11:00:00Z" ["agent_3"] (Some ["Charlie Brown"])
    (Some "30 minutes") (Some "https://teams.microsoft.com/l/meetup-join/123") None None
]%string.

(** The fixture steps carry only [id], [type] and [order]. *)
Definition workflows : list Workflow := [
  mkWorkflow "workflow_1" "Meeting Summary to PDF"
    (Some "Extract topics, summarize, and export as PDF")
    [mkStep "step_1" None None extract_topics (Some 0);
     mkStep "step_2" None None summarize (Some 1);
     mkStep "step_3" None None export_pdf (Some 2)]
    (Some "2024-01-01T00:00:00Z") (Some "2024-01-01T00:00:00Z");
  mkWorkflow "workflow_2" "Action Items Extraction"
    (Some "Extract action items and format as markdown")
    [mkStep "step_4" None None generate_action_items (Some 0);
     mkStep "step_5" None None format_markdown (Some 1)]
    (Some "2024-01-05T00:00:00Z") (Some "2024-01-05T00:00:00Z")
]%string.

Definition documents : list Document := [
  mkDocument "doc_1" "Q4 Security Review Summary" "Q4 Security Review Summary" "Summary"
    (Some "Summary of security controls and compliance status") (Some "Q4 Security Review")
    "2024-01-10T11:00:00Z" (Some "meeting_1") (Some "meeting")
    (Some "Summary of security controls and compliance status...") None;
  mkDocument "doc_2" "Product Roadmap Q1 2024" "Product Roadmap Q1 2024" "Document"
    (Some "Product roadmap for Q1 2024") (Some "Product Roadmap Planning")
    "2024-01-12T10:00:00Z" (Some "meeting_2") (Some "meeting") None None
]%string.

Definition projects : list Project := [
  mkProject "project_personal" "Personal" (Some "Personal workspace") (Some true);
  mkProject "project_work" "Work" (Some "Work projects") (Some false)
]%string.

End MockData.
