(* ===== verification/JsString.v ===== *)
(** * JsString: the JavaScript string built-ins the pages call

    [String.prototype.trim], [toLowerCase], [toUpperCase], [includes] and
    the two [replace] calls of [RunWorkflowModal.tsx] (line 131), on
    strings of ASCII characters. [trim] removes the ASCII white space and
    line terminators of ECMAScript (tab, line feed, vertical tab, form feed,
    carriage return, space); the non-ASCII white space it also removes does
    not occur in this model's strings. *)

From S2P Require Import Spec2Rocq.
From Stdlib Require Import Ascii.

Module JsString.

Definition is_js_space (c : ascii) : bool :=
  match nat_of_ascii c with
  | 9 | 10 | 11 | 12 | 13 | 32 => true
  | _ => false
  end.

Fixpoint trim_start (s : string) : string :=
  match s with
  | EmptyString => EmptyString
  | String c s' => if is_js_space c then trim_start s' else s
  end.

(** Drop the white space at the end: a space survives only when something
    other than white space follows it. *)
Fixpoint trim_end (s : string) : string :=
  match s with
  | EmptyString => EmptyString
  | String c s' =>
      let r := trim_end s' in
      if is_js_space c && String.eqb r "" then EmptyString else String c r
  end.

(** [s.trim()] *)
Definition js_trim (s : string) : string := trim_end (trim_start s).

(** [!s.trim()]: the trimmed string is empty, i.e. falsy. *)
Definition js_blank (s : string) : bool := String.eqb (js_trim s) "".

Definition lower_ascii (c : ascii) : ascii :=
  let n := nat_of_ascii c in
  if (65 <=? n) && (n <=? 90) then ascii_of_nat (n + 32) else c.

Definition upper_ascii (c : ascii) : ascii :=
  let n := nat_of_ascii c in
  if (97 <=? n) && (n <=? 122) then ascii_of_nat (n - 32) else c.

Fixpoint string_map (f : ascii -> ascii) (s : string) : string :=
  match s with
  | EmptyString => EmptyString
  | String c s' => String (f c) (string_map f s')
  end.

(** [s.toLowerCase()] *)
Definition js_toLowerCase (s : string) : string := string_map lower_ascii s.

Fixpoint is_prefix (p s : string) : bool :=
  match p, s with
  | EmptyString, _ => true
  | String a p', String b s' => Ascii.eqb a b && is_prefix p' s'
  | _, _ => false
  end.

(** [s.includes(sub)]: some suffix of [s] starts with [sub]. *)
Fixpoint js_includes (s sub : string) : bool :=
  is_prefix sub s ||
  match s with
  | EmptyString => false
  | String _ s' => js_includes s' sub
  end.

(** [/\w/]: letters, digits and the underscore. *)
Definition is_word_char (c : ascii) : bool :=
  let n := nat_of_ascii c in
  ((48 <=? n) && (n <=? 57)) || ((65 <=? n) && (n <=? 90))
  || ((97 <=? n) && (n <=? 122)) || (n =? 95).

(** [s.replace(/_/g, ' ')] *)
Definition replace_underscores (s : string) : string :=
  string_map (fun c => if Ascii.eqb c "_"%char then " "%char else c) s.

(** [s.replace(/\b\w/g, l => l.toUpperCase())]: a word character that
    starts the string or follows a non-word character is upper-cased.
    [prev_word] says whether the previous character was a word
    character. *)
Fixpoint capitalize_words_from (prev_word : bool) (s : string) : string :=
  match s with
  | EmptyString => EmptyString
  | String c s' =>
      String (if negb prev_word && is_word_char c then upper_ascii c else c)
             (capitalize_words_from (is_word_char c) s')
  end.

Definition capitalize_words (s : string) : string := capitalize_words_from false s.

(** [s.split(sep)] with a one-character separator: the pieces between
    separators, [""] for the empty string. *)
Fixpoint js_split (sep : ascii) (s : string) : list string :=
  match s with
  | EmptyString => [""]
  | String c s' =>
      if Ascii.eqb c sep then "" :: js_split sep s'
      else match js_split sep s' with
           | x :: xs => String c x :: xs
           | [] => [String c ""]
           end
  end.

(** Whether [c] occurs in [s] ([s.includes(c)] for one character). *)
Fixpoint has_char (c : ascii) (s : string) : bool :=
  match s with
  | EmptyString => false
  | String d s' => Ascii.eqb d c || has_char c s'
  end.

(** [s.padStart(n, c)] for a one-character [c]: [c] repeated up to length
    [n] in front of [s]. *)
Definition js_padStart (n : nat) (c : ascii) (s : string) : string :=
  String.append (String.string_of_list_ascii (repeat c (n - String.length s))) s.

(** The double-quote character, for the messages built with template
    literals around a quoted name. *)
Definition dquote : string := String (ascii_of_nat 34) EmptyString.

(** ** Laws *)

Lemma trim_start_idem s : trim_start (trim_start s) = trim_start s.
Proof.
  induction s as [|c s IH]; [done|]. simpl.
  destruct (is_js_space c) eqn:E; [done|]. simpl. by rewrite E.
Qed.

Lemma string_map_length f s : String.length (string_map f s) = String.length s.
Proof. induction s; simpl; auto. Qed.

Lemma string_length_append s t : String.length (s ++ t) = String.length s + String.length t.
Proof. induction s; simpl; auto. Qed.

Lemma js_includes_empty s : js_includes s "" = true.
Proof. destruct s; reflexivity. Qed.

Lemma is_prefix_refl s : is_prefix s s = true.
Proof. induction s as [|c s IH]; [done|]. simpl. by rewrite Ascii.eqb_refl, IH. Qed.

Lemma js_includes_refl s : js_includes s s = true.
Proof. destruct s; simpl; [done|]. by rewrite Ascii.eqb_refl, is_prefix_refl. Qed.

Lemma js_split_no_sep sep s : has_char sep s = false -> js_split sep s = [s].
Proof.
  induction s as [|c s IH]; simpl; [done|].
  intros [H1 H2]%orb_false_iff. by rewrite H1, IH.
Qed.

(** Splitting at the first separator. *)
Lemma js_split_app sep s1 s2 :
  has_char sep s1 = false -> js_split sep (s1 ++ String sep s2) = s1 :: js_split sep s2.
Proof.
  induction s1 as [|c s1 IH]; simpl.
  - by rewrite Ascii.eqb_refl.
  - intros [H1 H2]%orb_false_iff. by rewrite H1, IH.
Qed.

End JsString.
