(* ===== verification/StepList.v ===== *)
(** * StepList: the canonical ordered step list and the handlers that edit it

    [WorkflowBuilder.tsx] never mutates the [steps] prop: each handler
    computes a new list and hands it to the parent through [onStepsChange].
    This file models the list each handler proposes, as an [option]:
    [None] when the handler returns without calling [onStepsChange], [Some l]
    when it calls it with [l].

    - [renumber]: the [.map((s, idx) => ({ ...s, order: idx }))] applied
      after every structural change;
    - [delete_steps]: the list part of [handleDeleteNode] (lines 153-161);
    - [update_steps]: the list part of [handleUpdateNode] (lines 163-165);
    - [connect_steps]: the reordering of [onConnect] (lines 197-207);
    - [add_step]: [handleAddStep] (lines 213-226) and the palette callback
      of the studio page ([studio/page.tsx], lines 122-141), which build the
      same step.

    The invariant is [dense]: the [order] fields read [0, 1, ..., n-1] in
    list order. *)

From S2P Require Import Spec2Rocq.
From S2P Require Import Types.
Import Types.

Module StepList.

(** The identities of the two anchor nodes (lines 147-148). *)
Definition START_NODE_ID : string := "start-node".
Definition END_NODE_ID : string := "end-node".

Definition is_anchor (i : string) : bool :=
  (i === START_NODE_ID) || (i === END_NODE_ID).

Definition has_id (i : string) (s : WorkflowStep) : bool := step_id s === i.

(** [steps.map((s, idx) => ({ ...s, order: idx }))] *)
Definition renumber (steps : list WorkflowStep) : list WorkflowStep :=
  imap set_order steps.

(** [handleDeleteNode], its effect on the list:
    [if (nodeId === START_NODE_ID || nodeId === END_NODE_ID) return;]
    then [onStepsChange(steps.filter(s => s.id !== nodeId).map(...))]. *)
Definition delete_steps (nodeId : string) (steps : list WorkflowStep)
  : option (list WorkflowStep) :=
  if is_anchor nodeId then None
  else Some (renumber (List.filter (fun s => negb (has_id nodeId s)) steps)).

(** [handleUpdateNode], its effect on the list:
    [steps.map(s => s.id === nodeId ? { ...s, ...updates } : s)], handed
    to [onStepsChange] whether or not a step matched. *)
Definition update_steps (nodeId : string) (updates : StepPatch)
    (steps : list WorkflowStep) : option (list WorkflowStep) :=
  Some ((fun s => if has_id nodeId s then merge_step s updates else s) <$> steps).

(** [onConnect], its effect on the list: find both ends; when both are
    steps and the target is not already right after the source, take the
    source out with [splice(sourceIndex, 1)] and put it back with
    [splice(targetIndex, 0, removed)], the target's index taken before the
    removal. *)
Definition connect_steps (source target : string) (steps : list WorkflowStep)
  : option (list WorkflowStep) :=
  let sourceIndex := js_findIndex (has_id source) steps in
  let targetIndex := js_findIndex (has_id target) steps in
  if negb (sourceIndex =? -1)%Z && negb (targetIndex =? -1)%Z
     && negb (sourceIndex + 1 =? targetIndex)%Z
  then
    match js_splice_remove (Z.to_nat sourceIndex) steps with
    | (Some removed, newSteps) =>
        Some (renumber (js_splice_insert (Z.to_nat targetIndex) removed newSteps))
    | (None, _) => None
    end
  else None.

(** [id: `step_${Date.now()}`], [now] being the clock in milliseconds. *)
Definition fresh_step_id (now : N) : string := "step_" ++ pretty now.

(** The step both add handlers build:
    [{ id, type: stepType, name: stepTypeInfo?.label || 'New Step',
       order: steps.length }]. *)
Definition new_step (now : N) (t : WorkflowStepType) (steps : list WorkflowStep)
  : WorkflowStep :=
  mkStep (fresh_step_id now) (Some (default_step_name t)) None t (Some (length steps)).

(** The palette callback of the studio page ([studio/page.tsx], lines
    122-142): [setSteps([...steps, newStep])]. Its own label table (lines
    123-133) gives each type the label of [WORKFLOW_STEP_TYPES], so the
    name is [default_step_name]; [handleAddStep] of the builder (lines
    213-226) computes the same list but is passed to no component. *)
Definition add_step (now : N) (t : WorkflowStepType) (steps : list WorkflowStep)
  : list WorkflowStep :=
  steps ++ [new_step now t steps].

(** ** The invariant: dense order numbers *)

Definition dense (steps : list WorkflowStep) : Prop :=
  step_order <$> steps = Some <$> seq 0 (length steps).

#[export] Instance dense_dec steps : Decision (dense steps).
Proof. unfold dense. apply _. Defined.

(** ** Renumbering *)

Lemma renumber_lookup steps k :
  renumber steps !! k = set_order k <$> steps !! k.
Proof. apply list_lookup_imap. Qed.

Lemma renumber_length steps : length (renumber steps) = length steps.
Proof. apply length_imap. Qed.

(** Renumbering keeps the identities, in order. *)
Lemma renumber_ids steps : step_id <$> renumber steps = step_id <$> steps.
Proof.
  apply list_eq. intros k. rewrite !list_lookup_fmap, renumber_lookup.
  by destruct (steps !! k).
Qed.

Lemma dense_lookup steps :
  dense steps <-> forall k s, steps !! k = Some s -> step_order s = Some k.
Proof.
  unfold dense. split.
  - intros H k s Hk. apply (f_equal (lookup k)) in H.
    rewrite !list_lookup_fmap, Hk, lookup_seq_lt in H
      by (eapply lookup_lt_Some; eauto).
    by simplify_eq.
  - intros H. apply list_eq. intros k. rewrite !list_lookup_fmap.
    destruct (steps !! k) as [s|] eqn:Hk.
    + rewrite lookup_seq_lt by (eapply lookup_lt_Some; eauto).
      simpl. by rewrite (H k s Hk).
    + rewrite lookup_seq_ge; [done|]. by apply lookup_ge_None_1.
Qed.

Lemma renumber_dense steps : dense (renumber steps).
Proof.
  apply dense_lookup. intros k s. rewrite renumber_lookup.
  destruct (steps !! k); simpl; intros; by simplify_eq.
Qed.

(** On a dense list renumbering changes nothing. *)
Lemma renumber_of_dense steps : dense steps -> renumber steps = steps.
Proof.
  rewrite dense_lookup. intros H. apply list_eq. intros k.
  rewrite renumber_lookup. destruct (steps !! k) as [[] |] eqn:Hk; [|done].
  specialize (H _ _ Hk). simpl in *. by subst.
Qed.

#[export] Hint Resolve renumber_dense renumber_of_dense : s2p.

(** ** Reordering on a connection *)

(** When both ends are steps and the target does not already follow the
    source, [onConnect] proposes the list with the source taken out of
    index [i] and put back at the target's old index [j], renumbered. *)
Lemma connect_steps_move source target steps i j x :
  js_findIndex (has_id source) steps = Z.of_nat i ->
  js_findIndex (has_id target) steps = Z.of_nat j ->
  i + 1 <> j -> steps !! i = Some x ->
  connect_steps source target steps =
    Some (renumber (js_splice_insert j x (delete i steps))).
Proof.
  intros Hi Hj Hij Hx. unfold connect_steps, js_splice_remove.
  rewrite Hi, Hj, !Nat2Z.id, Hx.
  replace (Z.of_nat i =? -1)%Z with false by lia.
  replace (Z.of_nat j =? -1)%Z with false by lia.
  replace (Z.of_nat i + 1 =? Z.of_nat j)%Z with false by lia.
  done.
Qed.

(** The handler returns without calling [onStepsChange] exactly when an end
    is not a step (an anchor or a stale id), or the target already follows
    the source. *)
Lemma connect_steps_none_iff source target steps :
  connect_steps source target steps = None <->
  js_findIndex (has_id source) steps = (-1)%Z \/
  js_findIndex (has_id target) steps = (-1)%Z \/
  (js_findIndex (has_id source) steps + 1 = js_findIndex (has_id target) steps)%Z.
Proof.
  destruct (js_findIndex_range (has_id source) steps) as [Hs|Hs].
  { unfold connect_steps. rewrite Hs. simpl. tauto. }
  destruct (js_findIndex_range (has_id target) steps) as [Ht|Ht].
  { unfold connect_steps. rewrite Ht. simpl. rewrite andb_false_r. tauto. }
  destruct (Z.eqb_spec (js_findIndex (has_id source) steps + 1)
                       (js_findIndex (has_id target) steps)) as [E|E].
  { unfold connect_steps. rewrite E, Z.eqb_refl, andb_false_r. tauto. }
  destruct (js_findIndex_some (has_id source) steps
              (Z.to_nat (js_findIndex (has_id source) steps))) as [[x [Hx _]] _];
    [lia|].
  rewrite (connect_steps_move source target steps
             (Z.to_nat (js_findIndex (has_id source) steps))
             (Z.to_nat (js_findIndex (has_id target) steps)) x);
    [|lia|lia|lia|done].
  split; [done|lia].
Qed.

(** The step [findIndex] lands on carries the identity it looked for. *)
Lemma js_findIndex_has_id i steps (k : nat) :
  js_findIndex (has_id i) steps = Z.of_nat k ->
  exists s, steps !! k = Some s /\ step_id s = i.
Proof.
  intros H. destruct (js_findIndex_some _ _ _ H) as [[s [Hs Hid]] _].
  exists s. split; [done|]. by apply String.eqb_eq.
Qed.

Lemma renumber_id_lookup steps k :
  (step_id <$> renumber steps) !! k = step_id <$> steps !! k.
Proof. by rewrite renumber_ids, list_lookup_fmap. Qed.

(** The two cases of the move, read off the positions: with the target
    before the source the source lands just before the target ... *)
Lemma connect_lookup_before steps i j x y :
  j < i -> steps !! i = Some x -> steps !! j = Some y ->
  renumber (js_splice_insert j x (delete i steps)) !! j = Some (set_order j x) /\
  renumber (js_splice_insert j x (delete i steps)) !! S j = Some (set_order (S j) y).
Proof.
  intros Hji Hx Hy.
  assert (i < length steps) by (eapply lookup_lt_Some; eauto).
  assert (length (delete i steps) = length steps - 1) by (apply length_delete; eauto).
  rewrite !renumber_lookup, js_splice_insert_lookup_eq by lia.
  rewrite js_splice_insert_lookup_ge by lia.
  by rewrite list_lookup_delete_lt, Hy.
Qed.

(** ... and with the target after the source, it lands just after it. *)
Lemma connect_lookup_after steps i j x y :
  i < j -> steps !! i = Some x -> steps !! j = Some y ->
  renumber (js_splice_insert j x (delete i steps)) !! j = Some (set_order j x) /\
  renumber (js_splice_insert j x (delete i steps)) !! pred j = Some (set_order (pred j) y).
Proof.
  intros Hij Hx Hy.
  assert (j < length steps) by (eapply lookup_lt_Some; eauto).
  assert (length (delete i steps) = length steps - 1) by (apply length_delete; eauto).
  rewrite !renumber_lookup, js_splice_insert_lookup_eq by lia.
  rewrite js_splice_insert_lookup_lt by lia.
  rewrite list_lookup_delete_ge by lia.
  by replace (S (pred j)) with j by lia; rewrite Hy.
Qed.

(** ** Properties of the handlers *)

(** C2: Connecting a step to a step that comes before it moves the source
    to just before the target: the source ends at the target's old index
    and the target right after it. *)
Theorem connect_moves_source_before_earlier_target source target steps i j :
  js_findIndex (has_id source) steps = Z.of_nat i ->
  js_findIndex (has_id target) steps = Z.of_nat j ->
  j < i ->
  exists steps', connect_steps source target steps = Some steps' /\
    (step_id <$> steps') !! j = Some source /\
    (step_id <$> steps') !! S j = Some target.
Proof.
  intros Hi Hj Hji.
  destruct (js_findIndex_has_id _ _ _ Hi) as [x [Hx <-]].
  destruct (js_findIndex_has_id _ _ _ Hj) as [y [Hy <-]].
  rewrite (connect_steps_move _ _ _ i j x) by (done || lia).
  eexists; split; [done|].
  destruct (connect_lookup_before steps i j x y) as [E1 E2]; [done..|].
  by rewrite !list_lookup_fmap, E1, E2.
Qed.

(** C3: Connecting a step to a step at least two places after it moves the
    source to just AFTER the target, not before it: [targetIndex] is taken
    before the source is spliced out, so the insertion lands one place
    past the target. *)
Theorem connect_moves_source_after_later_target source target steps i j :
  js_findIndex (has_id source) steps = Z.of_nat i ->
  js_findIndex (has_id target) steps = Z.of_nat j ->
  i + 1 < j ->
  exists steps', connect_steps source target steps = Some steps' /\
    (step_id <$> steps') !! pred j = Some target /\
    (step_id <$> steps') !! j = Some source.
Proof.
  intros Hi Hj Hij.
  destruct (js_findIndex_has_id _ _ _ Hi) as [x [Hx <-]].
  destruct (js_findIndex_has_id _ _ _ Hj) as [y [Hy <-]].
  rewrite (connect_steps_move _ _ _ i j x) by (done || lia).
  eexists; split; [done|].
  destruct (connect_lookup_after steps i j x y) as [E1 E2]; [lia|done..|].
  by rewrite !list_lookup_fmap, E1, E2.
Qed.

(** A reorder only permutes the steps, and renumbers them. *)
Lemma connect_steps_perm source target steps steps' :
  connect_steps source target steps = Some steps' ->
  step_id <$> steps' ≡ₚ step_id <$> steps /\ dense steps'.
Proof.
  unfold connect_steps, js_splice_remove.
  destruct (_ && _); [|done].
  destruct (steps !! _) as [x|] eqn:Hx; [|done].
  intros [= <-]. split; [|apply renumber_dense].
  rewrite renumber_ids. by rewrite js_splice_move_perm.
Qed.

(** C4: A reorder only permutes the steps, and the list it proposes is
    densely numbered. *)
Theorem connect_steps_permutes source target steps steps' :
  connect_steps source target steps = Some steps' ->
  step_id <$> steps' ≡ₚ step_id <$> steps /\ dense steps'.
Proof. apply connect_steps_perm. Qed.

Lemma filter_ids i steps :
  step_id <$> List.filter (fun s => negb (has_id i s)) steps =
  List.filter (fun j => negb (j === i)) (step_id <$> steps).
Proof.
  induction steps as [|s steps IH]; [done|]. simpl.
  change (has_id i s) with (step_id s === i).
  destruct (step_id s === i); simpl; [exact IH | f_equal; exact IH].
Qed.

Lemma filter_no_match i steps :
  i ∉ step_id <$> steps ->
  List.filter (fun s => negb (has_id i s)) steps = steps.
Proof.
  induction steps as [|s steps IH]; [done|]. simpl.
  rewrite not_elem_of_cons. intros [Hne Hrest].
  change (has_id i s) with (step_id s === i).
  destruct (String.eqb_spec (step_id s) i); [congruence|]. simpl.
  f_equal. by apply IH.
Qed.

(** Fresh identities are never mistaken for an anchor. *)
Lemma fresh_step_id_not_anchor now : is_anchor (fresh_step_id now) = false.
Proof. reflexivity. Qed.

(** What a deletion proposes: the ids without the deleted one, densely
    numbered. *)
Lemma delete_steps_result nodeId steps steps' :
  delete_steps nodeId steps = Some steps' ->
  step_id <$> steps' = List.filter (fun j => negb (j === nodeId)) (step_id <$> steps) /\
  dense steps'.
Proof.
  unfold delete_steps. destruct (is_anchor nodeId); [done|].
  intros [= <-]. split; [|apply renumber_dense].
  by rewrite renumber_ids, filter_ids.
Qed.

(** C14: Deleting a step node hands the parent the list without every step
    of that identity, renumbered densely; deleting an anchor proposes
    nothing. *)
Theorem delete_steps_spec nodeId steps :
  (delete_steps nodeId steps =
    if is_anchor nodeId then None
    else Some (renumber (List.filter (fun s => negb (has_id nodeId s)) steps))) /\
  forall steps', delete_steps nodeId steps = Some steps' ->
    step_id <$> steps' = List.filter (fun j => negb (j === nodeId)) (step_id <$> steps) /\
    dense steps'.
Proof. split; [done|]. apply delete_steps_result. Qed.

(** C13: Adding a step and deleting it again gives back the list it was
    added to, when that list was densely numbered and the clock gave a
    fresh identity. *)
Theorem add_then_delete_roundtrip now t steps :
  dense steps -> fresh_step_id now ∉ step_id <$> steps ->
  delete_steps (fresh_step_id now) (add_step now t steps) = Some steps.
Proof.
  intros Hd Hf. unfold delete_steps. rewrite fresh_step_id_not_anchor.
  unfold add_step. rewrite List.filter_app, filter_no_match by done.
  simpl. unfold has_id. simpl. rewrite String.eqb_refl. simpl.
  by rewrite app_nil_r, renumber_of_dense.
Qed.

(** Adding a step to a densely numbered list keeps it dense: the new step
    gets [order = steps.length]. *)
Lemma add_step_dense now t steps :
  dense steps -> dense (add_step now t steps).
Proof.
  unfold dense, add_step. intros Hd.
  rewrite fmap_app, length_app, Nat.add_1_r, seq_S, fmap_app, Hd. done.
Qed.

(** An update that carries no [order] field keeps a dense list dense. *)
Lemma update_steps_dense nodeId u steps steps' :
  patch_order u = None -> dense steps ->
  update_steps nodeId u steps = Some steps' -> dense steps'.
Proof.
  rewrite !dense_lookup. intros Hu Hd [= <-] k s.
  rewrite list_lookup_fmap. destruct (steps !! k) as [s0|] eqn:Hk; [|done].
  intros [= <-]. specialize (Hd k s0 Hk).
  destruct (has_id nodeId s0); [|done]. unfold merge_step. by rewrite Hu.
Qed.

(** A three-step sample: A, B, C with orders 0, 1, 2. *)
Definition sample_steps : list WorkflowStep :=
  renumber [mkStep "A" None None summarize None;
            mkStep "B" None None export_pdf None;
            mkStep "C" None None custom_prompt None].

(** The reordering example: connecting C to A in [A(0), B(1), C(2)]
    proposes [C(0), A(1), B(2)]. *)
Example connect_C_to_A :
  connect_steps "C" "A" sample_steps =
    Some (renumber [mkStep "C" None None custom_prompt None;
                    mkStep "A" None None summarize None;
                    mkStep "B" None None export_pdf None]).
Proof. reflexivity. Qed.

(** [updates] is a [Partial<WorkflowStep>], so an update may carry an
    [order] and break the numbering: here A gets order 5. *)
Example update_steps_breaks_dense :
  exists steps',
    update_steps "A" (mkPatch None None None None (Some (Some 5))) sample_steps = Some steps' /\
    dense sample_steps /\ ~ dense steps'.
Proof.
  eexists. split; [reflexivity|]. split; [reflexivity|].
  unfold dense. simpl. discriminate.
Qed.

(** ** Witnesses *)

Lemma connect_moves_source_before_earlier_target_witness :
  exists steps', connect_steps "C" "A" sample_steps = Some steps' /\
    (step_id <$> steps') !! 0 = Some "C"%string /\
    (step_id <$> steps') !! 1 = Some "A"%string.
Proof.
  apply (connect_moves_source_before_earlier_target "C" "A" sample_steps 2 0);
    [reflexivity | reflexivity | lia].
Defined.

Lemma connect_moves_source_after_later_target_witness :
  exists steps', connect_steps "A" "C" sample_steps = Some steps' /\
    (step_id <$> steps') !! 1 = Some "C"%string /\
    (step_id <$> steps') !! 2 = Some "A"%string.
Proof.
  apply (connect_moves_source_after_later_target "A" "C" sample_steps 0 2);
    [reflexivity | reflexivity | lia].
Defined.

Lemma connect_steps_permutes_witness :
  exists steps', connect_steps "A" "C" sample_steps = Some steps' /\
    step_id <$> steps' ≡ₚ step_id <$> sample_steps /\ dense steps'.
Proof.
  eexists. split; [reflexivity|].
  apply (connect_steps_permutes "A" "C" sample_steps). reflexivity.
Defined.

Lemma delete_steps_spec_witness :
  step_id <$> renumber [mkStep "A" None None summarize None;
                        mkStep "C" None None custom_prompt None] =
    List.filter (fun j => negb (j === "B")) (step_id <$> sample_steps) /\
  dense (renumber [mkStep "A" None None summarize None;
                   mkStep "C" None None custom_prompt None]).
Proof.
  apply (proj2 (delete_steps_spec "B" sample_steps)). reflexivity.
Defined.

Lemma add_then_delete_roundtrip_witness :
  delete_steps (fresh_step_id 1700) (add_step 1700 export_docx sample_steps) =
    Some sample_steps.
Proof.
  apply add_then_delete_roundtrip; [reflexivity|].
  apply (bool_decide_unpack (fresh_step_id 1700 ∉ step_id <$> sample_steps)).
  vm_compute. reflexivity.
Defined.

End StepList.
