(* ===== verification/Graph.v ===== *)
(** * Graph: the canvas nodes and edges and the synchronisation effect

    The [useEffect] of [WorkflowBuilder.tsx] (lines 229-355) that runs after
    every change of the [steps] prop, and the node and edge records it
    builds:

    - [sync_nodes] is the [setNodes] updater (lines 230-292): it keeps the
      start and end anchors, and either rebuilds the step nodes in list
      order, reusing each node's previous position ([needsUpdate] holds), or
      only refreshes the [data.step] payload of the nodes it has;
    - [build_edges] is the chain [start -> steps[0] -> ... -> end]
      (lines 295-343);
    - [select_edges] is the [setEdges] updater (lines 345-354), which keeps
      the current edge array when its id set equals the new one.

    A step node's [data] also stores the callbacks [onDelete] and
    [onUpdate] of the render in which the node was built. [CustomNode]
    calls [data.onDelete] (line 76): it is [handleDeleteNode], a closure
    over the [steps] of that render, so a node keeps, as [node_onDelete],
    the list its delete button will act on. The rebuild branch stores the
    current list; the refresh branch ([{...node.data, step}]) keeps the old
    closure. [onUpdate] is never called and is not kept. The edges'
    [type], [animated] and the stroke's width and filter are rendering
    details that no code reads back; the stroke colour is kept since it
    distinguishes the last edge. *)

From S2P Require Import Spec2Rocq.
From S2P Require Import Types.
From S2P Require Import StepList.
Import Types.
Import StepList.

Module Graph.

(** [position: { x, y }] *)
Record Position := mkPos { pos_x : Z; pos_y : Z }.

#[export] Instance Position_eq_dec : EqDecision Position.
Proof. solve_decision. Defined.

(** The node [type]: ['start'], ['end'] or ['custom']. *)
Inductive NodeKind := NStart | NEnd | NCustom.

#[export] Instance NodeKind_eq_dec : EqDecision NodeKind.
Proof. solve_decision. Defined.

(** A ReactFlow node: [data] is [{}] for the anchors ([None], and no
    closure) and [{ step, onDelete, onUpdate }] for a step node, whose
    [onDelete] closure is represented by the [steps] it captured. *)
Record Node := mkNode {
  node_id : string;
  node_type : NodeKind;
  node_position : Position;
  node_data : option WorkflowStep;
  node_onDelete : list WorkflowStep
}.

#[export] Instance Node_eq_dec : EqDecision Node.
Proof. solve_decision. Defined.

(** A ReactFlow edge. *)
Record Edge := mkEdge {
  edge_id : string;
  edge_source : string;
  edge_target : string;
  edge_stroke : string
}.

#[export] Instance Edge_eq_dec : EqDecision Edge.
Proof. solve_decision. Defined.

(** [{...node, data: {...node.data, step}}] *)
Definition with_step (n : Node) (s : WorkflowStep) : Node :=
  mkNode (node_id n) (node_type n) (node_position n) (Some s) (node_onDelete n).

(** ** The [setNodes] updater of the effect *)

(** [currentNodes.find(n => n.id === id)] *)
Definition find_node (i : string) (ns : list Node) : option Node :=
  List.find (fun n => node_id n === i) ns.

(** The anchors made at first render (lines 235-247). *)
Definition default_start_node : Node :=
  mkNode START_NODE_ID NStart (mkPos 400 50) None [].
Definition default_end_node : Node :=
  mkNode END_NODE_ID NEnd (mkPos 400 600) None [].

(** [currentNodes.find(n => n.id === START_NODE_ID) || {...}] *)
Definition start_node_of (ns : list Node) : Node :=
  match find_node START_NODE_ID ns with Some n => n | None => default_start_node end.
Definition end_node_of (ns : list Node) : Node :=
  match find_node END_NODE_ID ns with Some n => n | None => default_end_node end.

(** [new Set(steps.map(s => s.id))] *)
Definition step_id_set (steps : list WorkflowStep) : gset string :=
  list_to_set (step_id <$> steps).

(** [new Set(currentNodes.map(n => n.id).filter(id => id !== START_NODE_ID
    && id !== END_NODE_ID))] *)
Definition node_id_set (ns : list Node) : gset string :=
  list_to_set (List.filter (fun i => negb (is_anchor i)) (node_id <$> ns)).

(** [needsUpdate] (lines 250-254). *)
Definition needsUpdate (steps : list WorkflowStep) (currentNodes : list Node) : bool :=
  let currentStepIds := step_id_set steps in
  let currentNodeIds := node_id_set currentNodes in
  (length currentNodes =? 0)
  || negb (length steps =? size currentNodeIds)
  || existsb (fun s => negb (bool_decide (step_id s ∈ currentNodeIds))) steps
  || existsb (fun n => negb (is_anchor (node_id n))
                       && negb (bool_decide (node_id n ∈ currentStepIds)))
             currentNodes.

(** The position a new step node gets: [{ x: 400, y: 200 + index * 150 }]. *)
Definition fallback_position (index : nat) : Position :=
  mkPos 400 (200 + Z.of_nat index * 150).

(** One step node of the rebuild (lines 258-270): the previous node of the
    same id gives the position; [onDelete] is the [handleDeleteNode] of
    this render, a closure over [steps]. *)
Definition mk_step_node (steps : list WorkflowStep) (currentNodes : list Node) (index : nat)
  (step : WorkflowStep) : Node :=
  mkNode (step_id step) NCustom
    (match find_node (step_id step) currentNodes with
     | Some existingNode => node_position existingNode
     | None => fallback_position index
     end)
    (Some step) steps.

(** The refresh of an existing node (lines 277-288). *)
Definition refresh_node (steps : list WorkflowStep) (node : Node) : Node :=
  match List.find (fun s => step_id s === node_id node) steps with
  | Some step => with_step node step
  | None => node
  end.

(** The [setNodes] updater (lines 230-292). *)
Definition sync_nodes (steps : list WorkflowStep) (currentNodes : list Node) : list Node :=
  let startNode := start_node_of currentNodes in
  let endNode := end_node_of currentNodes in
  if needsUpdate steps currentNodes || (length currentNodes =? 0) then
    startNode :: imap (mk_step_node steps currentNodes) steps ++ [endNode]
  else
    startNode ::
      (refresh_node steps <$>
         List.filter (fun n => negb (is_anchor (node_id n))) currentNodes)
      ++ [endNode].

(** ** The edges of the effect *)

(** [`e${source}-${target}`] *)
Definition chain_edge_id (source target : string) : string :=
  "e" ++ source ++ "-" ++ target.

Definition green_stroke : string := "#22c55e".
Definition red_stroke : string := "rgb(239, 68, 68)".

Definition chain_edge (source target stroke : string) : Edge :=
  mkEdge (chain_edge_id source target) source target stroke.

(** [steps.slice(0, -1).forEach((step, index) => ... steps[index + 1])] *)
Fixpoint middle_edges (steps : list WorkflowStep) : list Edge :=
  match steps with
  | s1 :: ((s2 :: _) as rest) =>
      chain_edge (step_id s1) (step_id s2) green_stroke :: middle_edges rest
  | _ => []
  end.

(** [newEdges] (lines 295-343). *)
Definition build_edges (steps : list WorkflowStep) : list Edge :=
  match steps with
  | [] => []
  | s0 :: _ =>
      [chain_edge START_NODE_ID (step_id s0) green_stroke]
      ++ middle_edges steps
      ++ match last steps with
         | Some sl => [chain_edge (step_id sl) END_NODE_ID red_stroke]
         | None => []
         end
  end.

(** The [setEdges] updater (lines 345-354). *)
Definition select_edges (newEdges currentEdges : list Edge) : list Edge :=
  let currentIds : gset string := list_to_set (edge_id <$> currentEdges) in
  let newIds : gset string := list_to_set (edge_id <$> newEdges) in
  if negb (size currentIds =? size newIds)
     || existsb (fun i => negb (bool_decide (i ∈ newIds))) (elements currentIds)
  then newEdges
  else currentEdges.

(** The whole effect: both updaters, on the editor's node and edge arrays. *)
Definition sync (steps : list WorkflowStep) (nodes : list Node) (edges : list Edge)
  : list Node * list Edge :=
  (sync_nodes steps nodes, select_edges (build_edges steps) edges).

(** ** The edge chain *)

(** The pairs of neighbours of a list: [x0 -> x1 -> ... -> xn]. *)
Fixpoint consecutive (l : list string) : list (string * string) :=
  match l with
  | x :: ((y :: _) as rest) => (x, y) :: consecutive rest
  | _ => []
  end.

Definition edge_ends (e : Edge) : string * string := (edge_source e, edge_target e).

(** The node ids the edges run through: start, the steps in order, end. *)
Definition chain_ids (steps : list WorkflowStep) : list string :=
  START_NODE_ID :: (step_id <$> steps) ++ [END_NODE_ID].

Lemma consecutive_lookup l x y :
  (x, y) ∈ consecutive l <-> exists k, l !! k = Some x /\ l !! S k = Some y.
Proof.
  induction l as [|a l IH]; simpl.
  { split; [by intros ?%not_elem_of_nil|]. intros (k & H & _). done. }
  destruct l as [|b l].
  { split; [by intros ?%not_elem_of_nil|]. intros ([|k] & ? & ?); done. }
  rewrite elem_of_cons, IH. split.
  - intros [[= -> ->] | (k & Hk & Hk')]; [by exists 0|]. by exists (S k).
  - intros ([|k] & Hk & Hk'); simpl in *; [simplify_eq; by left|]. right; eauto.
Qed.

(** The middle edges and the last one follow the steps in order. *)
Lemma tail_edges_chain s0 rest :
  exists sl, last (s0 :: rest) = Some sl /\
    edge_ends <$> (middle_edges (s0 :: rest) ++ [chain_edge (step_id sl) END_NODE_ID red_stroke])
    = consecutive ((step_id <$> s0 :: rest) ++ [END_NODE_ID]).
Proof.
  revert s0. induction rest as [|s1 rest IH]; intros s0.
  - exists s0. split; done.
  - destruct (IH s1) as (sl & Hl & He). exists sl. split.
    + rewrite last_cons, Hl. done.
    + simpl in *. f_equal. exact He.
Qed.

(** C5: On a non-empty list the effect draws exactly the chain
    [start -> steps[0] -> ... -> steps[n-1] -> end], in order. *)
Theorem build_edges_chain steps :
  steps <> [] ->
  edge_ends <$> build_edges steps = consecutive (chain_ids steps).
Proof.
  destruct steps as [|s0 rest]; [done|]. intros _.
  destruct (tail_edges_chain s0 rest) as (sl & Hl & He).
  unfold build_edges. rewrite Hl, fmap_app, He. done.
Qed.

(** C6: With distinct node ids the chain is a simple path: the one edge
    leaving the [k]-th node of [start, steps..., end] enters the
    [(k+1)]-th, and the end node has no edge out. *)
Theorem build_edges_successor steps k x :
  steps <> [] -> NoDup (chain_ids steps) ->
  chain_ids steps !! k = Some x ->
  forall y, (x, y) ∈ edge_ends <$> build_edges steps <-> chain_ids steps !! S k = Some y.
Proof.
  intros Hne Hnd Hk y. rewrite build_edges_chain, consecutive_lookup by done.
  split; [|eauto].
  intros (k' & Hk' & Hy). by rewrite (NoDup_lookup _ _ _ _ Hnd Hk Hk').
Qed.


(** ** Nodes: anchors and positions *)

Lemma find_node_app i l1 l2 :
  find_node i (l1 ++ l2) =
    match find_node i l1 with Some n => Some n | None => find_node i l2 end.
Proof.
  induction l1 as [|n l1 IH]; [done|]. unfold find_node in *. simpl.
  destruct (node_id n === i); [done|]. exact IH.
Qed.

Lemma find_node_id i ns n : find_node i ns = Some n -> node_id n = i.
Proof. intros H. apply List.find_some in H as [_ H]. by apply String.eqb_eq. Qed.

Lemma find_node_None i ns : find_node i ns = None -> i ∉ node_id <$> ns.
Proof.
  intros H Hin. apply list_elem_of_fmap in Hin as (n & -> & Hn).
  apply list_elem_of_In in Hn. apply (List.find_none _ _ H) in Hn.
  by rewrite String.eqb_refl in Hn.
Qed.

Lemma start_node_of_id ns : node_id (start_node_of ns) = START_NODE_ID.
Proof.
  unfold start_node_of. destruct (find_node _ ns) eqn:E; [|done].
  by apply find_node_id in E.
Qed.

Lemma end_node_of_id ns : node_id (end_node_of ns) = END_NODE_ID.
Proof.
  unfold end_node_of. destruct (find_node _ ns) eqn:E; [|done].
  by apply find_node_id in E.
Qed.

(** On an empty list the [setEdges] updater drops every edge. *)
Lemma select_edges_nil es : select_edges [] es = [].
Proof.
  unfold select_edges. destruct es as [|e es]; [done|].
  destruct (negb _ || _) eqn:E; [done|]. exfalso.
  apply orb_false_iff in E as [E _]. apply negb_false_iff, Nat.eqb_eq in E.
  rewrite fmap_nil, list_to_set_nil, size_empty in E.
  apply size_empty_inv in E. set_solver.
Qed.

(** Nodes that all fail [needsUpdate]'s last test for an empty list are
    anchors. *)
Lemma only_anchors_left ns :
  existsb (fun n => negb (is_anchor (node_id n)) && negb (bool_decide (node_id n ∈ step_id_set []))) ns = false ->
  List.filter (fun n => negb (is_anchor (node_id n))) ns = [].
Proof.
  induction ns as [|n ns IH]; [done|]. cbn [existsb List.filter].
  rewrite (bool_decide_eq_false_2 (node_id n ∈ step_id_set [])) by (unfold step_id_set; set_solver).
  destruct (is_anchor (node_id n)); simpl; [exact IH|done].
Qed.

(** C18: With no step the effect keeps no edge at all, not even a
    [start -> end] edge or one the user drew, and the canvas keeps just
    the two anchors, whatever node and edge arrays it starts from. *)
Theorem build_edges_empty ns es :
  build_edges [] = [] /\ (sync [] ns es).2 = [] /\
  node_id <$> (sync [] ns es).1 = [START_NODE_ID; END_NODE_ID].
Proof.
  split_and!; [done|apply select_edges_nil|]. unfold sync, sync_nodes. simpl fst.
  destruct (needsUpdate [] ns || _) eqn:E; simpl; rewrite ?start_node_of_id, ?end_node_of_id; [done|].
  apply orb_false_iff in E as [E _]. unfold needsUpdate in E.
  apply orb_false_iff in E as [_ E]. rewrite (only_anchors_left _ E). simpl.
  by rewrite end_node_of_id.
Qed.

(** A step that is not an anchor is never found at an anchor node. *)
Lemma find_node_skip_start i ns rest :
  is_anchor i = false -> find_node i (start_node_of ns :: rest) = find_node i rest.
Proof.
  intros Ha. unfold find_node at 1. simpl. rewrite start_node_of_id.
  unfold is_anchor in Ha. apply orb_false_iff in Ha as [Ha _].
  rewrite String.eqb_sym, Ha. done.
Qed.

(** The first node of a rebuilt list with a given id is the one made from
    the first step with that id. *)
Lemma find_node_imap (f : nat -> WorkflowStep -> Node) i steps s :
  (forall k s', node_id (f k s') = step_id s') ->
  List.find (has_id i) steps = Some s ->
  exists k, steps !! k = Some s /\ find_node i (imap f steps) = Some (f k s).
Proof.
  revert f. induction steps as [|x steps IH]; intros f Hf Hs; [done|].
  rewrite imap_cons. unfold find_node. simpl. rewrite Hf.
  simpl in Hs. change (has_id i x) with (step_id x === i) in Hs.
  destruct (step_id x === i).
  - simplify_eq. by exists 0.
  - destruct (IH (f ∘ S)) as (k & Hk & Hfind); [intros; apply Hf|done|].
    exists (S k). split; [done|]. exact Hfind.
Qed.

Lemma find_node_fmap_refresh i steps l :
  find_node i (refresh_node steps <$> l) = refresh_node steps <$> find_node i l.
Proof.
  induction l as [|n l IH]; [done|]. unfold find_node in *. simpl.
  assert (node_id (refresh_node steps n) = node_id n) as ->.
  { unfold refresh_node. by case_match. }
  destruct (node_id n === i); [done|]. exact IH.
Qed.

Lemma find_node_filter_steps i ns :
  is_anchor i = false ->
  find_node i (List.filter (fun n => negb (is_anchor (node_id n))) ns) = find_node i ns.
Proof.
  intros Ha. induction ns as [|n ns IH]; [done|]. simpl List.filter.
  destruct (is_anchor (node_id n)) eqn:Han; simpl.
  - unfold find_node at 2. simpl.
    destruct (String.eqb_spec (node_id n) i) as [<-|]; [congruence|exact IH].
  - unfold find_node in *. simpl. destruct (node_id n === i); [done|exact IH].
Qed.

Lemma refresh_node_found steps n s :
  List.find (has_id (node_id n)) steps = Some s -> refresh_node steps n = with_step n s.
Proof. intros H. unfold refresh_node. change (List.find (has_id (node_id n)) steps) with
  (List.find (fun s => step_id s === node_id n) steps) in H. by rewrite H. Qed.

(** The first node of a step's id after the effect: the position of the
    node it had, the first step of that id. *)
Lemma sync_nodes_position steps ns i s n :
  is_anchor i = false ->
  List.find (has_id i) steps = Some s ->
  find_node i ns = Some n ->
  exists n', find_node i (sync_nodes steps ns) = Some n' /\
    node_position n' = node_position n /\ node_data n' = Some s.
Proof.
  intros Ha Hs Hn. unfold sync_nodes.
  destruct (needsUpdate steps ns || (length ns =? 0)).
  - rewrite find_node_skip_start, find_node_app by done.
    destruct (find_node_imap (mk_step_node steps ns) i steps s) as (k & Hk & ->);
      [done|done|].
    eexists; split; [done|]. unfold mk_step_node.
    apply List.find_some in Hs as [_ Hid]. apply String.eqb_eq in Hid.
    rewrite Hid, Hn. done.
  - rewrite find_node_skip_start, find_node_app, find_node_fmap_refresh,
      find_node_filter_steps, Hn by done. simpl.
    eexists; split; [done|].
    rewrite (refresh_node_found steps n s); [done|].
    by rewrite (find_node_id _ _ _ Hn).
Qed.

(** ** [needsUpdate] through the step-node ids *)

(** [currentNodes.map(n => n.id).filter(...)] as a list. *)
Definition step_node_ids (ns : list Node) : list string :=
  List.filter (fun i => negb (is_anchor i)) (node_id <$> ns).

(** [needsUpdate] written over the ids of the step nodes only. *)
Definition needs_update_ids (steps : list WorkflowStep) (empty : bool)
    (ids : list string) : bool :=
  empty
  || negb (length steps =? size (list_to_set ids : gset string))
  || existsb (fun s => negb (bool_decide (step_id s ∈ (list_to_set ids : gset string)))) steps
  || existsb (fun i => negb (bool_decide (i ∈ step_id_set steps))) ids.

Lemma needsUpdate_ids steps ns :
  needsUpdate steps ns = needs_update_ids steps (length ns =? 0) (step_node_ids ns).
Proof.
  unfold needsUpdate, needs_update_ids, node_id_set, step_node_ids. do 2 f_equal.
  induction ns as [|n ns IH]; [done|]. simpl.
  destruct (is_anchor (node_id n)); simpl; rewrite IH; done.
Qed.

Lemma filter_nonanchor_id (l : list string) :
  Forall (fun i => is_anchor i = false) l ->
  List.filter (fun i => negb (is_anchor i)) l = l.
Proof. induction 1 as [|i l Hi _ IH]; [done|]. simpl. by rewrite Hi, IH. Qed.

(** A list of distinct, non-anchor step ids does not ask for a rebuild. *)
Lemma needs_update_ids_steps steps :
  NoDup (step_id <$> steps) ->
  needs_update_ids steps false (step_id <$> steps) = false.
Proof.
  intros Hnd. unfold needs_update_ids, step_id_set.
  rewrite size_list_to_set, length_fmap, Nat.eqb_refl by done. simpl.
  apply orb_false_iff. split; apply not_true_iff_false; rewrite existsb_exists;
    intros (x & Hx & Hb); apply negb_true_iff, bool_decide_eq_false in Hb;
    apply Hb, elem_of_list_to_set.
  - apply list_elem_of_fmap_2, list_elem_of_In, Hx.
  - by apply list_elem_of_In.
Qed.

(** A step with no node makes the effect rebuild. *)
Lemma needsUpdate_new_step steps ns s :
  In s steps -> find_node (step_id s) ns = None -> needsUpdate steps ns = true.
Proof.
  intros Hs Hn. unfold needsUpdate.
  apply orb_true_iff; left. apply orb_true_iff; right.
  apply existsb_exists. exists s. split; [done|].
  apply negb_true_iff, bool_decide_eq_false.
  unfold node_id_set.
  rewrite elem_of_list_to_set, list_elem_of_In, filter_In. intros [Hin _].
  by apply (find_node_None _ _ Hn), list_elem_of_In.
Qed.

(** C40: A step that has no node yet gets a new node at the fallback
    position of its index, [{ x: 400, y: 200 + index * 150 }], whose delete
    button acts on the current list. *)
Theorem sync_nodes_places_new_step steps ns i s :
  is_anchor i = false ->
  List.find (has_id i) steps = Some s ->
  find_node i ns = None ->
  exists k, steps !! k = Some s /\
    find_node i (sync_nodes steps ns) = Some (mkNode i NCustom (fallback_position k) (Some s) steps).
Proof.
  intros Ha Hs Hn.
  pose proof (List.find_some _ _ Hs) as [Hin Hid]. apply String.eqb_eq in Hid.
  unfold sync_nodes. rewrite (needsUpdate_new_step steps ns s Hin) by (by rewrite Hid).
  rewrite orb_true_l, find_node_skip_start, find_node_app by done.
  destruct (find_node_imap (mk_step_node steps ns) i steps s) as (k & Hk & ->);
    [done|done|].
  exists k. split; [done|]. unfold mk_step_node. by rewrite Hid, Hn.
Qed.

(** ** The edge updater *)

Lemma select_edges_self es : select_edges es es = es.
Proof.
  unfold select_edges. rewrite Nat.eqb_refl. simpl.
  destruct (existsb _ _) eqn:E; [|done].
  apply existsb_exists in E as (x & Hx & Hb).
  apply negb_true_iff, bool_decide_eq_false in Hb.
  exfalso. apply Hb, elem_of_elements, list_elem_of_In, Hx.
Qed.

(** The updater either adopts the new edges or keeps the current ones. *)
Lemma select_edges_cases newEdges es :
  select_edges newEdges es = newEdges \/ select_edges newEdges es = es.
Proof. unfold select_edges. destruct (_ || _); auto. Qed.

(** ** A second pass of the effect *)

Lemma node_ids_filter ns :
  node_id <$> List.filter (fun n => negb (is_anchor (node_id n))) ns = step_node_ids ns.
Proof.
  induction ns as [|n ns IH]; [done|]. unfold step_node_ids in *. simpl.
  destruct (is_anchor (node_id n)); simpl; [exact IH|f_equal; exact IH].
Qed.

Lemma step_node_ids_nonanchor ns :
  Forall (fun i => is_anchor i = false) (step_node_ids ns).
Proof.
  apply Forall_forall. intros i Hi. apply list_elem_of_In, filter_In in Hi as [_ Hi].
  by apply negb_true_iff.
Qed.

Lemma node_ids_imap_mk ns steps :
  node_id <$> imap (mk_step_node steps ns) steps = step_id <$> steps.
Proof.
  apply list_eq. intros k. rewrite !list_lookup_fmap, list_lookup_imap.
  by destruct (steps !! k).
Qed.

Lemma node_ids_refresh steps (l : list Node) :
  node_id <$> (refresh_node steps <$> l) = node_id <$> l.
Proof.
  apply list_eq. intros k. rewrite !list_lookup_fmap.
  destruct (l !! k); simpl; [|done]. unfold refresh_node. by case_match.
Qed.

Lemma find_node_cons_ne i n l :
  node_id n <> i -> find_node i (n :: l) = find_node i l.
Proof.
  intros Hne. unfold find_node. simpl.
  by rewrite (proj2 (String.eqb_neq _ _) Hne).
Qed.

Lemma find_node_anchor_none a mid :
  is_anchor a = true -> Forall (fun i => is_anchor i = false) (node_id <$> mid) ->
  find_node a mid = None.
Proof.
  intros Ha. induction mid as [|n mid IH]; intros Hf; [done|].
  simpl in Hf. apply Forall_cons in Hf as [Hn Hrest].
  unfold find_node. simpl.
  destruct (String.eqb_spec (node_id n) a) as [E|]; [congruence|]. by apply IH.
Qed.

Lemma filter_framed ns mid :
  Forall (fun i => is_anchor i = false) (node_id <$> mid) ->
  List.filter (fun n => negb (is_anchor (node_id n)))
    (start_node_of ns :: mid ++ [end_node_of ns]) = mid.
Proof.
  intros Hmid. simpl. rewrite start_node_of_id. simpl.
  rewrite List.filter_app. simpl. rewrite end_node_of_id. simpl.
  rewrite app_nil_r. clear -Hmid. induction mid as [|n mid IH]; [done|].
  simpl in Hmid. apply Forall_cons in Hmid as [Hn Hrest]. simpl. rewrite Hn. simpl.
  f_equal. by apply IH.
Qed.

(** A list the effect produced has the shape [start :: mid ++ [end]] with
    no anchor in [mid]; on such a list the effect takes its branch from the
    ids of [mid] alone and finds the same anchors. *)
Lemma sync_nodes_framed steps ns mid :
  Forall (fun i => is_anchor i = false) (node_id <$> mid) ->
  let R := start_node_of ns :: mid ++ [end_node_of ns] in
  sync_nodes steps R =
    if needs_update_ids steps false (node_id <$> mid)
    then start_node_of ns :: imap (mk_step_node steps R) steps ++ [end_node_of ns]
    else start_node_of ns :: (refresh_node steps <$> mid) ++ [end_node_of ns].
Proof.
  intros Hmid R.
  assert (start_node_of R = start_node_of ns) as Hs.
  { unfold R, start_node_of at 1, find_node. simpl.
    by rewrite start_node_of_id, String.eqb_refl. }
  assert (end_node_of R = end_node_of ns) as He.
  { unfold R, end_node_of at 1.
    rewrite find_node_cons_ne by (rewrite start_node_of_id; discriminate).
    rewrite find_node_app, find_node_anchor_none by done.
    unfold find_node. simpl. by rewrite end_node_of_id, String.eqb_refl. }
  assert (List.filter (fun n => negb (is_anchor (node_id n))) R = mid) as Hf
    by (by apply filter_framed).
  assert (step_node_ids R = node_id <$> mid) as Hids by (by rewrite <- node_ids_filter, Hf).
  unfold sync_nodes. rewrite needsUpdate_ids, Hids, Hs, He, Hf.
  replace (length R =? 0) with false by (unfold R; done).
  by rewrite orb_false_r.
Qed.

Lemma find_step_nodup steps k s :
  NoDup (step_id <$> steps) -> steps !! k = Some s ->
  List.find (has_id (step_id s)) steps = Some s.
Proof.
  revert k. induction steps as [|x steps IH]; intros k Hnd Hk; [done|].
  simpl in Hnd. apply NoDup_cons in Hnd as [Hx Hnd].
  simpl. change (has_id (step_id s) x) with (step_id x === step_id s).
  destruct k as [|k]; simpl in Hk.
  - simplify_eq. by rewrite String.eqb_refl.
  - destruct (String.eqb_spec (step_id x) (step_id s)) as [E|]; [|by eapply IH].
    exfalso. apply Hx. rewrite E. apply list_elem_of_fmap_2.
    by eapply list_elem_of_lookup_2.
Qed.

Lemma refresh_imap_mk steps ns :
  NoDup (step_id <$> steps) ->
  refresh_node steps <$> imap (mk_step_node steps ns) steps = imap (mk_step_node steps ns) steps.
Proof.
  intros Hnd. apply list_eq. intros k. rewrite list_lookup_fmap, list_lookup_imap.
  destruct (steps !! k) as [s|] eqn:Hk; [|done]. simpl. f_equal.
  by rewrite (refresh_node_found steps _ s) by (by eapply find_step_nodup).
Qed.

Lemma refresh_refresh steps n :
  refresh_node steps (refresh_node steps n) = refresh_node steps n.
Proof.
  unfold refresh_node.
  destruct (List.find (fun s => step_id s === node_id n) steps) eqn:E;
    simpl; by rewrite E.
Qed.

(** C8: The effect is idempotent: run again on the nodes and edges it
    produced, with the same steps, it changes nothing, as long as the step
    ids are distinct and none is an anchor id. *)
Theorem sync_idempotent steps ns es :
  NoDup (step_id <$> steps) ->
  Forall (fun i => is_anchor i = false) (step_id <$> steps) ->
  sync steps (sync_nodes steps ns) (select_edges (build_edges steps) es) =
    sync steps ns es.
Proof.
  intros Hnd Hna. unfold sync. f_equal.
  - destruct (needsUpdate steps ns || (length ns =? 0)) eqn:E.
    + assert (sync_nodes steps ns =
                start_node_of ns :: imap (mk_step_node steps ns) steps ++ [end_node_of ns])
        as -> by (unfold sync_nodes; by rewrite E).
      rewrite sync_nodes_framed by (by rewrite node_ids_imap_mk).
      rewrite node_ids_imap_mk, needs_update_ids_steps by done.
      by rewrite refresh_imap_mk.
    + assert (sync_nodes steps ns =
                start_node_of ns :: (refresh_node steps <$>
                  List.filter (fun n => negb (is_anchor (node_id n))) ns)
                  ++ [end_node_of ns])
        as -> by (unfold sync_nodes; by rewrite E).
      rewrite sync_nodes_framed
        by (rewrite node_ids_refresh, node_ids_filter; apply step_node_ids_nonanchor).
      rewrite node_ids_refresh, node_ids_filter.
      apply orb_false_iff in E as [E E0]. rewrite needsUpdate_ids, E0 in E.
      rewrite E. f_equal. f_equal. apply list_eq. intros k.
      rewrite !list_lookup_fmap. destruct (_ !! k); [|done]. simpl.
      by rewrite refresh_refresh.
  - destruct (select_edges_cases (build_edges steps) es) as [E|E]; rewrite E;
      [apply select_edges_self | exact E].
Qed.

(** ** What the effect establishes *)

Lemma node_id_set_alt ns : node_id_set ns = list_to_set (step_node_ids ns).
Proof. reflexivity. Qed.

(** After the effect the step nodes are exactly the steps: the set of
    non-anchor node ids is the set of step ids, on both branches. *)
Lemma sync_nodes_id_set steps ns :
  Forall (fun i => is_anchor i = false) (step_id <$> steps) ->
  node_id_set (sync_nodes steps ns) = step_id_set steps.
Proof.
  intros Hna. rewrite (node_id_set_alt (sync_nodes steps ns)).
  destruct (needsUpdate steps ns || (length ns =? 0)) eqn:E.
  - assert (sync_nodes steps ns =
              start_node_of ns :: imap (mk_step_node steps ns) steps ++ [end_node_of ns])
      as -> by (unfold sync_nodes; by rewrite E).
    rewrite <- node_ids_filter, filter_framed, node_ids_imap_mk;
      [done|by rewrite node_ids_imap_mk].
  - assert (sync_nodes steps ns =
              start_node_of ns :: (refresh_node steps <$>
                List.filter (fun n => negb (is_anchor (node_id n))) ns)
                ++ [end_node_of ns])
      as -> by (unfold sync_nodes; by rewrite E).
    rewrite <- node_ids_filter, filter_framed
      by (rewrite node_ids_refresh, node_ids_filter; apply step_node_ids_nonanchor).
    rewrite node_ids_refresh, node_ids_filter.
    apply orb_false_iff in E as [E E0]. rewrite needsUpdate_ids, E0 in E.
    unfold needs_update_ids in E. apply orb_false_iff in E as [E E4].
    apply orb_false_iff in E as [_ E3].
    apply set_eq. intros x. rewrite elem_of_list_to_set. split.
    + intros Hx. apply list_elem_of_In in Hx.
      pose proof (existsb_false_forall _ _ E4 x Hx) as Hb;
      apply negb_false_iff, bool_decide_eq_true in Hb; idtac.
      done.
    + unfold step_id_set. rewrite elem_of_list_to_set.
      intros (s & -> & Hs)%list_elem_of_fmap. apply list_elem_of_In in Hs.
      pose proof (existsb_false_forall _ _ E3 s Hs) as Hb;
      apply negb_false_iff, bool_decide_eq_true in Hb.
      by apply elem_of_list_to_set in Hb.
Qed.

(** After the edge updater the edge ids are the chain's, whichever array
    it kept. *)
Lemma select_edges_ids newEdges es :
  (list_to_set (edge_id <$> select_edges newEdges es) : gset string) =
    list_to_set (edge_id <$> newEdges).
Proof.
  unfold select_edges. destruct (_ || _) eqn:E; [done|].
  apply orb_false_iff in E as [Hsz Hall].
  apply negb_false_iff, Nat.eqb_eq in Hsz.
  apply set_subseteq_size_eq; [|lia].
  intros x Hx. apply elem_of_elements, list_elem_of_In in Hx.
  pose proof (existsb_false_forall _ _ Hall x Hx) as Hb;
      apply negb_false_iff, bool_decide_eq_true in Hb; done.
Qed.

(** The ids of the effect's node array, on each branch. *)
Lemma sync_nodes_node_ids steps ns :
  node_id <$> sync_nodes steps ns =
    START_NODE_ID :: (if needsUpdate steps ns || (length ns =? 0) then step_id <$> steps
                      else step_node_ids ns) ++ [END_NODE_ID].
Proof.
  unfold sync_nodes. destruct (_ || _); simpl; rewrite fmap_app; simpl;
    rewrite start_node_of_id, end_node_of_id.
  - by rewrite node_ids_imap_mk.
  - by rewrite node_ids_refresh, node_ids_filter.
Qed.

(** The closures of the effect's nodes: the anchors', those of the old
    nodes it keeps, and the current list for the nodes it builds. *)
Lemma sync_nodes_closures (P : list WorkflowStep -> Prop) steps ns :
  P [] -> P steps -> Forall (fun n => P (node_onDelete n)) ns ->
  Forall (fun n => P (node_onDelete n)) (sync_nodes steps ns).
Proof.
  intros Hnil Hs Hns. rewrite Forall_forall in Hns.
  assert (forall i d, P (node_onDelete d) ->
            P (node_onDelete (match find_node i ns with Some n => n | None => d end))) as Hend.
  { intros i d Hd. destruct (find_node i ns) eqn:E; [|done].
    apply Hns. apply List.find_some in E as [E _]. by apply list_elem_of_In. }
  unfold sync_nodes, start_node_of, end_node_of. destruct (_ || _); constructor;
    try (apply Hend; exact Hnil); apply Forall_app; (split; [|constructor; [apply Hend; exact Hnil|constructor]]).
  - apply Forall_lookup. intros k n. rewrite list_lookup_imap. destruct (steps !! k); simpl; [|done].
    intros [= <-]. exact Hs.
  - apply Forall_fmap, Forall_forall. intros n Hn.
    apply elem_of_list_filter_In in Hn as [Hn _].
    unfold refresh_node. simpl. destruct (List.find _ steps); simpl; by apply Hns.
Qed.

(** The ends of the effect's node array. *)
Lemma sync_nodes_ends steps ns :
  head (sync_nodes steps ns) = Some (start_node_of ns) /\
  last (sync_nodes steps ns) = Some (end_node_of ns) /\
  node_id (start_node_of ns) = START_NODE_ID /\
  node_id (end_node_of ns) = END_NODE_ID.
Proof.
  split_and!; [| |apply start_node_of_id|apply end_node_of_id];
    unfold sync_nodes; destruct (_ || _); try done;
    rewrite app_comm_cons; apply last_snoc.
Qed.

(** C7: The effect never moves a step node that persists: the node it
    keeps for a step has the position of the node of that id it had, and
    carries the (first) step of that id, on both branches. *)
Theorem sync_nodes_keeps_position steps ns i s n :
  is_anchor i = false ->
  List.find (has_id i) steps = Some s ->
  find_node i ns = Some n ->
  exists n', find_node i (sync_nodes steps ns) = Some n' /\
    node_position n' = node_position n /\ node_data n' = Some s.
Proof. apply sync_nodes_position. Qed.

(** C17: Whatever the branch, the effect's node array starts with the
    start anchor and ends with the end anchor: the very node of that id the
    array had, position included, and the default anchor at [(400, 50)] or
    [(400, 600)] only when the array had none. *)
Theorem sync_nodes_anchors steps ns :
  (forall n, find_node START_NODE_ID ns = Some n -> head (sync_nodes steps ns) = Some n) /\
  (find_node START_NODE_ID ns = None -> head (sync_nodes steps ns) = Some default_start_node) /\
  (forall n, find_node END_NODE_ID ns = Some n -> last (sync_nodes steps ns) = Some n) /\
  (find_node END_NODE_ID ns = None -> last (sync_nodes steps ns) = Some default_end_node).
Proof.
  destruct (sync_nodes_ends steps ns) as (Hh & Hl & _).
  unfold start_node_of, end_node_of in *.
  split_and!; intros; [by simplify_option_eq..].
Qed.

(** ** Witnesses *)

Lemma build_edges_chain_witness :
  edge_ends <$> build_edges sample_steps = consecutive (chain_ids sample_steps).
Proof. apply build_edges_chain. decide_goal. Defined.


(** The nodes of the first render of the sample list. *)
Definition sample_nodes : list Node := sync_nodes sample_steps [].

(** The sample list with a step appended. *)
Definition sample_steps_added : list WorkflowStep := add_step 9 summarize sample_steps.

Lemma build_edges_successor_witness :
  (("A"%string, "B"%string) ∈ edge_ends <$> build_edges sample_steps <->
   chain_ids sample_steps !! 2 = Some "B"%string).
Proof.
  apply (build_edges_successor sample_steps 1 "A").
  - decide_goal.
  - decide_goal.
  - reflexivity.
Defined.

Lemma sync_nodes_keeps_position_witness :
  exists n', find_node "B" (sync_nodes sample_steps_added sample_nodes) = Some n' /\
    node_position n' = mkPos 400 350 /\
    node_data n' = Some (mkStep "B" None None export_pdf (Some 1)).
Proof.
  apply (sync_nodes_keeps_position sample_steps_added sample_nodes "B"
           (mkStep "B" None None export_pdf (Some 1))
           (mkNode "B" NCustom (mkPos 400 350) (Some (mkStep "B" None None export_pdf (Some 1)))
              sample_steps));
    reflexivity.
Defined.

Lemma sync_nodes_places_new_step_witness :
  exists k, sample_steps_added !! k = Some (new_step 9 summarize sample_steps) /\
    find_node (fresh_step_id 9) (sync_nodes sample_steps_added sample_nodes) =
      Some (mkNode (fresh_step_id 9) NCustom (fallback_position k)
              (Some (new_step 9 summarize sample_steps)) sample_steps_added).
Proof.
  apply sync_nodes_places_new_step; reflexivity.
Defined.

Lemma sync_idempotent_witness :
  sync sample_steps_added (sync_nodes sample_steps_added sample_nodes)
       (select_edges (build_edges sample_steps_added) (build_edges sample_steps)) =
  sync sample_steps_added sample_nodes (build_edges sample_steps).
Proof.
  apply sync_idempotent.
  - apply (bool_decide_unpack (NoDup (step_id <$> sample_steps_added))).
    vm_compute. reflexivity.
  - apply (bool_decide_unpack (Forall (fun i => is_anchor i = false)
                                      (step_id <$> sample_steps_added))).
    vm_compute. reflexivity.
Defined.

End Graph.
