(* ===== verification/Editor.v ===== *)
(** * Editor: the workflow builder as a state machine

    [WorkflowBuilder] keeps two pieces of state of its own, [nodes] and
    [edges] ([useNodesState], [useEdgesState], lines 150-151), and reads
    the [steps] its parent owns. A user gesture runs one handler, which
    updates [nodes]/[edges] through their setters and may call
    [onStepsChange]; the parent stores the new list, React renders again,
    and, because [steps] changed, the synchronisation effect ([Graph.sync])
    runs on the updated node and edge arrays. When the handler does not call
    [onStepsChange] the effect does not run. [step] composes the two the
    way React runs them.

    The canvas library is reached through the [FlowRenderer] interface: the
    [addEdge] helper [onConnect] calls, and the two kinds of change
    ReactFlow hands to [onNodesChange]/[onEdgesChange] (lines 362-363): the
    position changes of a drag, and the removals of its default delete key
    (Backspace), which removes the selected nodes, anchors included, with
    their edges and the selected edges, without any callback of the
    builder. Its laws are what the editor's theorems use; [ReactFlowModel]
    implements them the way the library does for the calls this file
    makes.

    The trash button of a step node calls [data.onDelete] (line 76), the
    [handleDeleteNode] closure stored when the node was last rebuilt
    ([Graph.node_onDelete]): the list it filters is that closure's, which
    after a reorder is no longer the current one. [CustomNode] never calls
    [data.onUpdate], and the builder's own [handleAddStep] (lines 213-226)
    is passed to no component; the parent that adds steps is the studio
    page ([studio/page.tsx]), whose palette callback appends a step to the
    current list ([EvAdd]). *)

From S2P Require Import Spec2Rocq.
From S2P Require Import Types.
From S2P Require Import StepList.
From S2P Require Import Graph.
Import Types.
Import StepList Graph.

Module Editor.

(** What the editor needs of the canvas library. *)
Class FlowRenderer := {
  (** [addEdge({ ...params, ... }, eds)] for a connection [source -> target] *)
  flow_addEdge : string -> string -> list Edge -> list Edge;
  (** ReactFlow's position change for a dragged node *)
  flow_moveNode : string -> Position -> list Node -> list Node;
  (** [addEdge] only appends edges of the connection ... *)
  flow_addEdge_appends : forall s t es, exists extra,
    flow_addEdge s t es = es ++ extra /\ Forall (fun e => edge_ends e = (s, t)) extra;
  (** ... and none when that connection is already drawn. *)
  flow_addEdge_exists : forall s t es,
    (s, t) ∈ edge_ends <$> es -> flow_addEdge s t es = es;
  (** ReactFlow's delete key on a selection of nodes and edges: the nodes
      and edges left *)
  flow_remove : list string -> list string -> list Node -> list Edge -> list Node * list Edge;
  (** A drag changes positions only. *)
  flow_moveNode_ids : forall i p ns, node_id <$> flow_moveNode i p ns = node_id <$> ns;
  (** A drag keeps each node's closure. *)
  flow_moveNode_closures : forall i p ns, node_onDelete <$> flow_moveNode i p ns = node_onDelete <$> ns;
  (** A removal only drops nodes. *)
  flow_remove_sublist : forall ni ei ns es, (flow_remove ni ei ns es).1 `sublist_of` ns
}.

(** The editor's state: the parent's [steps] and the component's own
    [nodes] and [edges]. *)
Record Editor := mkEditor {
  ed_steps : list WorkflowStep;
  ed_nodes : list Node;
  ed_edges : list Edge
}.

(** The user gestures. A connection's ends are [string | null]. *)
Inductive Event :=
| EvDelete (nodeId : string)
| EvUpdate (nodeId : string) (updates : StepPatch)
| EvConnect (source target : option string)
| EvAdd (now : N) (t : WorkflowStepType)
| EvMove (nodeId : string) (p : Position)
| EvRemove (nodeIds edgeIds : list string).

(** The node part of [handleUpdateNode] (lines 168-180):
    [data.step] becomes [{ ...node.data.step, ...updates }]. The anchors
    carry no step and the handler is never invoked on them. *)
Definition update_node (nodeId : string) (updates : StepPatch) (n : Node) : Node :=
  if node_id n === nodeId then
    match node_data n with
    | Some st => with_step n (merge_step st updates)
    | None => n
    end
  else n.

(** [handleDeleteNode] (lines 153-161) of a render whose [steps] were
    [steps]: the node and edge setters take updater functions and so act
    on the current arrays, the list handed to [onStepsChange] is the
    closure's. *)
Definition handleDeleteNode (steps : list WorkflowStep) (nodeId : string)
  (nodes : list Node) (edges : list Edge) : list Node * list Edge * option (list WorkflowStep) :=
  if is_anchor nodeId then (nodes, edges, None)
  else (List.filter (fun n => negb (node_id n === nodeId)) nodes,
        List.filter (fun ed => negb (edge_source ed === nodeId)
                               && negb (edge_target ed === nodeId)) edges,
        delete_steps nodeId steps).

Section WithRenderer.
Context `{FlowRenderer}.

(** One handler: the new [nodes] and [edges] it sets, and the list it hands
    to [onStepsChange], if it calls it. *)
Definition handle (ev : Event) (e : Editor)
  : list Node * list Edge * option (list WorkflowStep) :=
  let steps := ed_steps e in
  let nodes := ed_nodes e in
  let edges := ed_edges e in
  match ev with
  | EvDelete nodeId =>
      (* the trash button of the node (line 76) calls the node's
         [data.onDelete(data.step.id)]: [handleDeleteNode] of the render
         that built the node, lines 153-161, over that render's steps *)
      match find_node nodeId nodes with
      | Some n =>
          match node_data n with
          | Some st => handleDeleteNode (node_onDelete n) (step_id st) nodes edges
          | None => (nodes, edges, None)
          end
      | None => (nodes, edges, None)
      end
  | EvUpdate nodeId updates =>
      (* handleUpdateNode, lines 163-181 *)
      (update_node nodeId updates <$> nodes, edges, update_steps nodeId updates steps)
  | EvConnect (Some source) (Some target) =>
      (* onConnect, lines 183-211 *)
      (nodes, flow_addEdge source target edges, connect_steps source target steps)
  | EvConnect _ _ => (nodes, edges, None)
  | EvAdd now t =>
      (* the palette callback of studio/page.tsx, lines 122-142 *)
      (nodes, edges, Some (add_step now t steps))
  | EvMove nodeId p =>
      (* onNodesChange with a position change *)
      (flow_moveNode nodeId p nodes, edges, None)
  | EvRemove ni ei =>
      (* the delete key: onNodesChange and onEdgesChange with removals *)
      let '(nodes', edges') := flow_remove ni ei nodes edges in (nodes', edges', None)
  end.

(** The handler, then the parent's [setSteps] and the effect when the
    handler called [onStepsChange]. *)
Definition step (e : Editor) (ev : Event) : Editor :=
  match handle ev e with
  | (nodes, edges, None) => mkEditor (ed_steps e) nodes edges
  | (nodes, edges, Some steps') =>
      let '(nodes', edges') := sync steps' nodes edges in
      mkEditor steps' nodes' edges'
  end.

(** The first render: empty node and edge arrays, then the effect. *)
Definition mount (steps : list WorkflowStep) : Editor :=
  let '(nodes, edges) := sync steps [] [] in mkEditor steps nodes edges.

End WithRenderer.

(** ** ReactFlow's behaviour for the calls the editor makes *)

(** [addEdge]: an edge with the same ends (and no handles) already there
    leaves the array as it is; otherwise the new edge, with id
    [reactflow__edge-<source>-<target>], is appended. *)
Definition rf_addEdge (s t : string) (es : list Edge) : list Edge :=
  if existsb (fun e => (edge_source e === s) && (edge_target e === t)) es then es
  else es ++ [mkEdge ("reactflow__edge-" ++ s ++ "-" ++ t) s t "rgb(16, 185, 129)"].

(** [applyNodeChanges] with one [position] change. *)
Definition rf_moveNode (i : string) (p : Position) (ns : list Node) : list Node :=
  (fun n => if node_id n === i then mkNode (node_id n) (node_type n) p (node_data n) (node_onDelete n)
            else n) <$> ns.

(** The delete key: [applyNodeChanges] and [applyEdgeChanges] with a
    [remove] change for each selected node, each selected edge and each
    edge of a removed node. *)
Definition rf_remove (ni ei : list string) (ns : list Node) (es : list Edge) : list Node * list Edge :=
  (List.filter (fun n => negb (bool_decide (node_id n ∈ ni))) ns,
   List.filter (fun e => negb (bool_decide (edge_id e ∈ ei)) && negb (bool_decide (edge_source e ∈ ni))
                         && negb (bool_decide (edge_target e ∈ ni))) es).

#[export] Program Instance ReactFlowModel : FlowRenderer := {|
  flow_addEdge := rf_addEdge;
  flow_moveNode := rf_moveNode;
  flow_remove := rf_remove
|}.
Next Obligation.
  intros s t es. unfold rf_addEdge. destruct (existsb _ _).
  - exists []. by rewrite app_nil_r.
  - eexists. split; [done|]. by constructor.
Qed.
Next Obligation.
  intros s t es Hin. unfold rf_addEdge.
  apply list_elem_of_fmap in Hin as (e & Heq & He).
  replace (existsb _ es) with true; [done|]. symmetry.
  apply existsb_exists. exists e. split; [by apply list_elem_of_In|].
  unfold edge_ends in Heq. simplify_eq. by rewrite !String.eqb_refl.
Qed.
Next Obligation.
  intros i p ns. unfold rf_moveNode. rewrite <- list_fmap_compose. apply list_fmap_ext.
  intros _ n _. simpl. by destruct (node_id n === i).
Qed.
Next Obligation.
  intros i p ns. unfold rf_moveNode. rewrite <- list_fmap_compose. apply list_fmap_ext.
  intros _ n _. simpl. by destruct (node_id n === i).
Qed.
Next Obligation. intros ni ei ns es. apply List_filter_sublist. Qed.

(** ** Generic facts about the step function *)

Section Properties.
Context `{FlowRenderer}.

Lemma step_none e ev ns es :
  handle ev e = (ns, es, None) -> step e ev = mkEditor (ed_steps e) ns es.
Proof. unfold step. by intros ->. Qed.

Lemma step_some e ev ns es l :
  handle ev e = (ns, es, Some l) ->
  step e ev = mkEditor l (sync_nodes l ns) (select_edges (build_edges l) es).
Proof. unfold step. by intros ->. Qed.

(** C9: After every gesture that hands a list to the parent, the edges
    carry exactly the ids of the chain of that list, whatever drawn edges
    there were before. *)
Theorem callback_edges_are_chain e ev ns es l :
  handle ev e = (ns, es, Some l) ->
  (list_to_set (edge_id <$> ed_edges (step e ev)) : gset string) =
    list_to_set (edge_id <$> build_edges l).
Proof. intros Hh. rewrite (step_some _ _ _ _ _ Hh). apply select_edges_ids. Qed.

(** C12: Connecting a step to the step that already follows it, along an
    edge already drawn, changes nothing: [addEdge] finds the connection,
    the list is not reordered and no callback fires. *)
Theorem connect_adjacent_noop e a b :
  js_findIndex (has_id a) (ed_steps e) <> (-1)%Z ->
  (js_findIndex (has_id a) (ed_steps e) + 1 = js_findIndex (has_id b) (ed_steps e))%Z ->
  (a, b) ∈ edge_ends <$> ed_edges e ->
  step e (EvConnect (Some a) (Some b)) = e.
Proof.
  intros _ Hadj Hin.
  assert (connect_steps a b (ed_steps e) = None) as Hc
    by (apply connect_steps_none_iff; tauto).
  rewrite (step_none _ _ (ed_nodes e) (ed_edges e)); [by destruct e|].
  simpl. by rewrite flow_addEdge_exists, Hc.
Qed.

(** ** The invariant of the reachable states *)

(** The gestures the page can raise, and what the environment guarantees
    of them: no control raises an update ([CustomNode] never calls
    [data.onUpdate]), and the clock gives a new id to each added step. *)
Definition ev_ok (e : Editor) (ev : Event) : Prop :=
  match ev with
  | EvUpdate _ _ => False
  | EvAdd now _ => fresh_step_id now ∉ step_id <$> ed_steps e
  | _ => True
  end.

(** The states the studio page can reach: it mounts the editor on an empty
    list and then applies gestures. *)
Inductive reachable : Editor -> Prop :=
| reach_mount : reachable (mount [])
| reach_step e ev : reachable e -> ev_ok e ev -> reachable (step e ev).

Definition steps_ok (steps : list WorkflowStep) : Prop :=
  dense steps /\ NoDup (step_id <$> steps) /\
  Forall (fun i => is_anchor i = false) (step_id <$> steps).

Definition nodes_ok (steps : list WorkflowStep) (ns : list Node) : Prop :=
  node_id_set ns = step_id_set steps /\
  head (node_id <$> ns) = Some START_NODE_ID /\
  last (node_id <$> ns) = Some END_NODE_ID.

(** What the canvas keeps in every state: no two nodes with one id, and
    no node but the anchors and the nodes of steps of the list. *)
Definition canvas_ok (steps : list WorkflowStep) (ns : list Node) : Prop :=
  NoDup (node_id <$> ns) /\
  Forall (fun i => is_anchor i = true \/ i ∈ step_id <$> steps) (node_id <$> ns).

(** Every delete button acts on a valid list. *)
Definition closures_ok (ns : list Node) : Prop :=
  Forall steps_ok (node_onDelete <$> ns).

Definition editor_inv (e : Editor) : Prop :=
  steps_ok (ed_steps e) /\ canvas_ok (ed_steps e) (ed_nodes e) /\ closures_ok (ed_nodes e).

Lemma update_steps_ids nodeId u steps steps' :
  patch_id u = None -> update_steps nodeId u steps = Some steps' ->
  step_id <$> steps' = step_id <$> steps.
Proof.
  intros Hu [= <-]. rewrite <- list_fmap_compose. apply list_fmap_ext.
  intros _ s _. simpl. destruct (has_id nodeId s); [|done].
  unfold merge_step. simpl. by rewrite Hu.
Qed.

Lemma steps_ok_filter (f : string -> bool) steps steps' :
  steps_ok steps -> dense steps' ->
  step_id <$> steps' = List.filter f (step_id <$> steps) -> steps_ok steps'.
Proof.
  intros (_ & Hnd & Hna) Hd Hids. split_and!; [done| |]; rewrite Hids.
  - apply NoDup_ListNoDup, List.NoDup_filter, NoDup_ListNoDup, Hnd.
  - apply Forall_forall. intros x Hx. apply list_elem_of_In, filter_In in Hx as [Hx _].
    apply list_elem_of_In in Hx. by eapply Forall_forall in Hna.
Qed.

Lemma steps_ok_perm steps steps' :
  steps_ok steps -> dense steps' ->
  step_id <$> steps' ≡ₚ step_id <$> steps -> steps_ok steps'.
Proof.
  intros (_ & Hnd & Hna) Hd Hp. split_and!; [done| |].
  - by rewrite Hp.
  - by rewrite Hp.
Qed.

Lemma steps_ok_add now t steps :
  steps_ok steps -> fresh_step_id now ∉ step_id <$> steps ->
  steps_ok (add_step now t steps).
Proof.
  intros (Hd & Hnd & Hna) Hf. unfold add_step.
  split_and!; [by apply add_step_dense| |]; rewrite fmap_app; simpl.
  - apply NoDup_app. split_and!; [done| |by apply NoDup_singleton].
    intros x Hx ->%list_elem_of_singleton. done.
  - apply Forall_app. split; [done|]. constructor; [|constructor].
    apply fresh_step_id_not_anchor.
Qed.

Lemma find_node_elem i ns n : find_node i ns = Some n -> n ∈ ns.
Proof. intros [Hin _]%List.find_some. by apply list_elem_of_In. Qed.

(** Each handler that calls [onStepsChange] proposes a good list: the
    trash button the closure's list without the step, the others the
    current list changed. *)
Lemma handle_steps_ok e ev ns es l :
  steps_ok (ed_steps e) -> closures_ok (ed_nodes e) -> ev_ok e ev ->
  handle ev e = (ns, es, Some l) -> steps_ok l.
Proof.
  intros Hok Hcl Hev. destruct ev as [i|i u|[a|] [b|]|now t|i p|ni ei]; simpl; try done.
  - destruct (find_node i (ed_nodes e)) as [n|] eqn:Hf; [|done].
    destruct (node_data n) as [st|]; [|done]. unfold handleDeleteNode.
    destruct (is_anchor (step_id st)) eqn:Ha; [done|]. intros [= _ _ Hl].
    destruct (delete_steps_result _ _ _ Hl). eapply steps_ok_filter; [|done..].
    unfold closures_ok in Hcl. rewrite Forall_forall in Hcl. apply Hcl.
    apply list_elem_of_fmap_2. by apply (find_node_elem i).
  - intros [= _ _ Hl]. destruct (connect_steps_perm _ _ _ _ Hl).
    by eapply steps_ok_perm.
  - intros [= _ _ <-]. by apply steps_ok_add.
  - destruct (flow_remove ni ei (ed_nodes e) (ed_edges e)). done.
Qed.

(** A builder gesture keeps the list valid. *)
Lemma editor_step_steps_ok ed ev :
  steps_ok (ed_steps ed) -> closures_ok (ed_nodes ed) -> ev_ok ed ev ->
  steps_ok (ed_steps (step ed ev)).
Proof.
  intros Hok Hcl Hev. unfold step. destruct (handle ev ed) as [[ns es] [l|]] eqn:Hh; [|done].
  destruct (sync l ns es). by eapply handle_steps_ok.
Qed.

Lemma mount_steps l : ed_steps (mount l) = l.
Proof. unfold mount. by destruct (sync l [] []). Qed.

Lemma steps_ok_nil : steps_ok [].
Proof. split_and!; [done|constructor|constructor]. Qed.

Lemma head_last_fmap {A B} (f : A -> B) (l : list A) :
  head (f <$> l) = f <$> head l /\ last (f <$> l) = f <$> last l.
Proof.
  split; [by destruct l|]. induction l as [|x l IH]; [done|].
  destruct l as [|y l]; [done|]. exact IH.
Qed.

(** The effect re-establishes the node invariant from any node array. *)
Lemma sync_nodes_ok steps ns :
  Forall (fun i => is_anchor i = false) (step_id <$> steps) ->
  nodes_ok steps (sync_nodes steps ns).
Proof.
  intros Hna. destruct (sync_nodes_ends steps ns) as (Hh & Hl & Hs & He).
  unfold nodes_ok. destruct (head_last_fmap node_id (sync_nodes steps ns)) as [-> ->].
  split_and!; [by apply sync_nodes_id_set|by rewrite Hh, <- Hs|by rewrite Hl, <- He].
Qed.


(** The effect leaves a sound canvas from any array without duplicates. *)
Lemma sync_canvas_ok steps ns :
  steps_ok steps -> NoDup (node_id <$> ns) -> canvas_ok steps (sync_nodes steps ns).
Proof.
  intros (_ & Hnd & Hna) Hns. split.
  - rewrite sync_nodes_node_ids.
    set (mid := if needsUpdate steps ns || (length ns =? 0) then step_id <$> steps else step_node_ids ns).
    assert (NoDup mid /\ Forall (fun i => is_anchor i = false) mid) as [Hm Hma].
    { unfold mid. destruct (_ || _); [done|]. split; [|apply step_node_ids_nonanchor].
      by apply NoDup_list_filter. }
    rewrite Forall_forall in Hma.
    apply NoDup_cons_2; [|apply NoDup_app; split_and!; [done| |apply NoDup_singleton]].
    + intros [Hi|Hi]%elem_of_app; [apply Hma in Hi; discriminate|].
      apply list_elem_of_singleton in Hi. discriminate.
    + intros x Hx Hy. apply list_elem_of_singleton in Hy. subst. apply Hma in Hx. discriminate.
  - apply Forall_forall. intros i Hi. destruct (is_anchor i) eqn:Ha; [by left|right].
    assert (i ∈ node_id_set (sync_nodes steps ns)) as Hs.
    { apply elem_of_list_to_set, elem_of_list_filter_In. by rewrite Ha. }
    rewrite sync_nodes_id_set in Hs by done. by apply elem_of_list_to_set in Hs.
Qed.

(** What a handler does to the nodes: drop some (delete, delete key),
    move some, or leave them, so ids and closures form sublists. *)
Lemma handle_nodes_sublist e ev ns es o :
  ev_ok e ev -> handle ev e = (ns, es, o) ->
  node_id <$> ns `sublist_of` node_id <$> ed_nodes e /\
  node_onDelete <$> ns `sublist_of` node_onDelete <$> ed_nodes e.
Proof.
  intros Hev. destruct ev as [i|i u|[a|] [b|]|now t|i p|ni ei]; simpl; try done.
  - destruct (find_node i (ed_nodes e)) as [n|]; [|by intros [= <- _ _]].
    destruct (node_data n) as [st|]; [|by intros [= <- _ _]]. unfold handleDeleteNode.
    destruct (is_anchor (step_id st)); intros [= <- _ _]; [done|].
    split; apply fmap_sublist, List_filter_sublist.
  - by intros [= <- _ _].
  - by intros [= <- _ _].
  - by intros [= <- _ _].
  - by intros [= <- _ _].
  - by intros [= <- _ _].
  - intros [= <- _ _]. by rewrite flow_moveNode_ids, flow_moveNode_closures.
  - pose proof (flow_remove_sublist ni ei (ed_nodes e) (ed_edges e)) as Hs.
    destruct (flow_remove ni ei (ed_nodes e) (ed_edges e)). intros [= <- _ _].
    split; by apply fmap_sublist.
Qed.

Lemma canvas_ok_sublist steps ns ns' :
  node_id <$> ns' `sublist_of` node_id <$> ns -> canvas_ok steps ns -> canvas_ok steps ns'.
Proof.
  intros Hs [Hnd Hin]. split; [by eapply sublist_NoDup|by eapply Forall_of_sublist].
Qed.

(** A property of the delete buttons' lists that holds of the empty list
    and of every list a callback proposes survives the gesture: the
    handlers only drop or move nodes, and the effect builds new nodes with
    the proposed list or the empty one. *)
Lemma step_closures (P : list WorkflowStep -> Prop) e ev :
  P [] -> ev_ok e ev ->
  (forall ns es l, handle ev e = (ns, es, Some l) -> P l) ->
  Forall (fun n => P (node_onDelete n)) (ed_nodes e) ->
  Forall (fun n => P (node_onDelete n)) (ed_nodes (step e ev)).
Proof.
  intros H0 Hev Hl Hns. destruct (handle ev e) as [[ns es] o] eqn:Hh.
  destruct (handle_nodes_sublist _ _ _ _ _ Hev Hh) as [_ Hcls].
  assert (Forall (fun n => P (node_onDelete n)) ns).
  { change (Forall (P ∘ node_onDelete) ns). apply Forall_fmap.
    eapply Forall_of_sublist; [exact Hcls|]. by apply Forall_fmap. }
  destruct o as [l|].
  - rewrite (step_some _ _ _ _ _ Hh). apply sync_nodes_closures; [done|by eapply Hl|done].
  - by rewrite (step_none _ _ _ _ Hh).
Qed.

(** One gesture keeps the invariant. *)
Lemma editor_step_inv e ev : editor_inv e -> ev_ok e ev -> editor_inv (step e ev).
Proof.
  intros (Hok & Hcv & Hcl) Hev. split_and!.
  - by apply editor_step_steps_ok.
  - destruct (handle ev e) as [[ns es] o] eqn:Hh.
    destruct (handle_nodes_sublist _ _ _ _ _ Hev Hh) as [Hids _]. destruct o as [l|].
    + rewrite (step_some _ _ _ _ _ Hh). apply sync_canvas_ok; [by eapply handle_steps_ok|].
      eapply sublist_NoDup; [apply Hcv|exact Hids].
    + rewrite (step_none _ _ _ _ Hh). by eapply canvas_ok_sublist.
  - unfold closures_ok. apply Forall_fmap. apply (step_closures steps_ok); [apply steps_ok_nil|done| |].
    + intros ns es l. by apply handle_steps_ok.
    + change (Forall (steps_ok ∘ node_onDelete) (ed_nodes e)). by apply Forall_fmap.
Qed.

(** The first render is sound. *)
Lemma mount_inv : editor_inv (mount []).
Proof. vm_compute. split_and!; repeat constructor; set_solver. Qed.

(** C1: Every state the studio can reach keeps a valid list and a sound
    canvas: its steps are densely numbered with distinct, non-anchor ids;
    no two nodes share an id and every node is an anchor or the node of a
    step of the list; every delete button acts on a valid list. A step's
    node or an anchor may be missing: ReactFlow's delete key removes nodes
    without a callback (C11). *)
Theorem reachable_inv e : reachable e -> editor_inv e.
Proof. induction 1; [apply mount_inv|by apply editor_step_inv]. Qed.

Lemma find_has_id_some i steps :
  i ∈ step_id <$> steps -> exists s, List.find (has_id i) steps = Some s.
Proof.
  intros (x & -> & Hx)%list_elem_of_fmap.
  destruct (List.find (has_id (step_id x)) steps) as [s|] eqn:E; [eauto|].
  apply list_elem_of_In in Hx. apply (List.find_none _ _ E) in Hx.
  unfold has_id in Hx. by rewrite String.eqb_refl in Hx.
Qed.

(** C15: Adding a step moves no existing step node: every step that had a
    node keeps its position. *)
Theorem add_keeps_positions e now t i n :
  is_anchor i = false -> i ∈ step_id <$> ed_steps e ->
  find_node i (ed_nodes e) = Some n ->
  exists n', find_node i (ed_nodes (step e (EvAdd now t))) = Some n' /\
    node_position n' = node_position n.
Proof.
  intros Ha Hin Hn.
  rewrite (step_some e (EvAdd now t) (ed_nodes e) (ed_edges e) (add_step now t (ed_steps e)))
    by reflexivity. simpl.
  destruct (find_has_id_some i (add_step now t (ed_steps e))) as [s Hs].
  { unfold add_step. rewrite fmap_app. apply elem_of_app. by left. }
  destruct (sync_nodes_position _ _ i s n Ha Hs Hn) as (n' & ? & ? & _). eauto.
Qed.


End Properties.


(** ** Witnesses, with the ReactFlow model *)

Definition sample_editor : Editor := mount sample_steps.

Lemma callback_edges_are_chain_witness :
  (list_to_set (edge_id <$> ed_edges (step sample_editor (EvAdd 9 summarize))) : gset string) =
    list_to_set (edge_id <$> build_edges (add_step 9 summarize sample_steps)).
Proof. eapply callback_edges_are_chain. reflexivity. Defined.

Lemma connect_adjacent_noop_witness :
  step sample_editor (EvConnect (Some "A"%string) (Some "B"%string)) = sample_editor.
Proof.
  apply connect_adjacent_noop.
  - decide_goal.
  - reflexivity.
  - apply (bool_decide_unpack (("A"%string, "B"%string) ∈ edge_ends <$> ed_edges sample_editor)).
    vm_compute. reflexivity.
Defined.

Lemma reachable_inv_witness :
  editor_inv (step (mount []) (EvAdd 1 summarize)).
Proof.
  apply reachable_inv. apply reach_step; [apply reach_mount|].
  apply (bool_decide_unpack (fresh_step_id 1 ∉ step_id <$> ed_steps (mount []))).
  vm_compute. reflexivity.
Defined.

Lemma add_keeps_positions_witness :
  exists n', find_node "B" (ed_nodes (step sample_editor (EvAdd 9 summarize))) = Some n' /\
    node_position n' = mkPos 400 350.
Proof.
  apply (add_keeps_positions sample_editor 9 summarize "B"
           (mkNode "B" NCustom (mkPos 400 350) (Some (mkStep "B" None None export_pdf (Some 1))) sample_steps));
    [reflexivity| |reflexivity].
  apply (bool_decide_unpack ("B"%string ∈ step_id <$> ed_steps sample_editor)).
  vm_compute. reflexivity.
Defined.





End Editor.
