(* ===== verification/FlowNodes.v ===== *)
(** * FlowNodes: the node components of the workflow canvas

    [WorkflowBuilder.tsx] registers three node components with ReactFlow
    ([nodeTypes], lines 131-135): [CustomNode] for a step (lines 41-95),
    [StartNode] and [EndNode] for the anchors (lines 97-129). The render of
    each is a value here: a step's card shows the colour, icon and label
    of its row of [WORKFLOW_STEP_TYPES] (falling back to a grey gear and
    the raw type when there is no row), the step's name, its description
    when truthy, and a delete button that raises the editor's [EvDelete].
    A step node whose [data.step] is missing would throw: [node_view]
    returns [None] there. *)

From S2P Require Import Spec2Rocq.
From S2P Require Import Types.
From S2P Require Import JsString.
From S2P Require Import StepList.
From S2P Require Import Graph.
From S2P Require Import Editor.
Import Types JsString Graph.

Module FlowNodes.

Inductive NodeCard :=
| StartCard                                   (* [StartNode] *)
| EndCard                                     (* [EndNode] *)
| StepCard (color icon : string) (name : option string) (label : string)
           (description : option string) (on_delete : Editor.Event).

(** [CustomNode] (lines 41-95). *)
Definition custom_node_view (s : WorkflowStep) : NodeCard :=
  let stepType := find_step_type (step_type s) in
  StepCard (js_or (default "" (info_color <$> stepType)) "bg-gray-500")
    (js_or (default "" (info_icon <$> stepType)) "gear")
    (step_name s)
    (js_or (default "" (info_label <$> stepType)) (step_type_value (step_type s)))
    (match step_description s with
     | Some d => if d === "" then None else Some d
     | None => None
     end)
    (Editor.EvDelete (step_id s)).

(** [nodeTypes] (lines 131-135): the component ReactFlow renders for a
    node of each type. *)
Definition node_view (n : Node) : option NodeCard :=
  match node_type n with
  | NStart => Some StartCard
  | NEnd => Some EndCard
  | NCustom => custom_node_view <$> node_data n
  end.

(** The minimap's [colorMap] (lines 398-408), from a Tailwind class to a
    hex colour. *)
Definition colorMap : list (string * string) := [
  ("bg-blue-500", "#3b82f6"); ("bg-green-500", "#22c55e"); ("bg-purple-500", "#a855f7");
  ("bg-orange-500", "#f97316"); ("bg-pink-500", "#ec4899"); ("bg-cyan-500", "#06b6d4");
  ("bg-red-500", "#ef4444"); ("bg-indigo-500", "#6366f1"); ("bg-gray-500", "#6b7280")
]%string.

Definition color_lookup (c : string) : option string := snd <$> List.find (fun kv => kv.1 === c) colorMap.

(** The minimap's [nodeColor] (lines 388-412): green and red for the
    anchors; for a step, the hex of its type's colour class ([||] falling
    back to grey); grey for a step node without a step. *)
Definition nodeColor (n : Node) : string :=
  match node_type n with
  | NStart => "#22c55e"
  | NEnd => "#ef4444"
  | NCustom =>
      match node_data n with
      | Some s =>
          js_or (default "" (color_lookup
                   (js_or (default "" (info_color <$> find_step_type (step_type s))) "bg-gray-500")))
                "#6b7280"
      | None => "#6b7280"
      end
  end%string.

(** The colour, icon and label a step card shows. *)
Definition card_style (c : NodeCard) : option (string * string * string) :=
  match c with
  | StepCard color icon _ label _ _ => Some (color, icon, label)
  | _ => None
  end.

(** ** Properties *)

(** Each step type has its row of the table, with non-empty label, colour
    and icon. *)
Lemma step_type_row t :
  exists i, find_step_type t = Some i /\ info_value i = t /\
    info_label i <> ""%string /\ info_color i <> ""%string /\ info_icon i <> ""%string.
Proof. destruct t; eexists; split_and!; [reflexivity|..]; done. Qed.

(** C22: The palette table covers the step type: every step's card shows
    the colour, icon and label of its type's row, never the grey gear or
    the raw type, and a new step of that type is named by the same
    label. *)
Theorem step_card_uses_row s :
  exists i, find_step_type (step_type s) = Some i /\ info_value i = step_type s /\
    card_style (custom_node_view s) = Some (info_color i, info_icon i, info_label i) /\
    default_step_name (step_type s) = info_label i.
Proof.
  destruct (step_type_row (step_type s)) as (i & Hf & Hv & Hl & Hc & Hi).
  exists i. split_and!; [done|done| |].
  - unfold custom_node_view, card_style. rewrite Hf. simpl. by rewrite !js_or_nonempty.
  - unfold default_step_name. rewrite Hf. by case_streq.
Qed.

(** The minimap paints a step node with the hex of the colour class its
    card shows: the two colour tables of the file agree on every step
    type. *)
Lemma minimap_matches_card n s :
  node_type n = NCustom -> node_data n = Some s ->
  exists c i l hex, card_style (custom_node_view s) = Some (c, i, l) /\
    color_lookup c = Some hex /\ nodeColor n = hex.
Proof.
  intros Ht Hd. unfold nodeColor. rewrite Ht, Hd.
  unfold custom_node_view, card_style. destruct (step_type s); eexists _, _, _, _; split_and!; reflexivity.
Qed.

End FlowNodes.
