(* ===== verification/Studio.v ===== *)
(** * Studio: the pages that own a workflow's step list

    - [Studio]: [app/studio/page.tsx], the full-screen studio: its state
      ([name], [description], [steps], [isSaving]), the asynchronous
      [handleSave] split into the part that runs before the [await] and the
      part that runs after it, [handleDiscard], and the palette callback
      (modelled as [Editor.EvAdd]);
    - [CreateModal]: [components/modals/CreateWorkflowModal.tsx],
      [handleSubmit].

    The workflows list page and its run dialog are in [Workflows].

    The browser dialogs are inputs: [prompt] returns [None] when cancelled,
    [confirm] a boolean; [alert] is an output message. *)

From S2P Require Import Spec2Rocq.
From S2P Require Import Types.
From S2P Require Import JsString.
From S2P Require Import StepList.
Import Types.
Import JsString StepList.

Module Studio.

Record StudioState := mkStudio {
  st_name : string;
  st_description : string;
  st_steps : list WorkflowStep;
  st_isSaving : bool
}.

(** The object [handleSave] logs as the workflow to save. *)
Record SavePayload := mkPayload {
  payload_name : string;
  payload_description : string;
  payload_steps : list WorkflowStep
}.

(** How [handleSave] ends before its [await]. *)
Inductive SaveResult :=
| SaveRejected (alert : string)
| SaveCancelled
| SaveStarted (payload : SavePayload).

Definition initial_studio : StudioState := mkStudio "" "" [] false.

(** [handleSave] up to the [await] (lines 19-46). [answer] is what
    [prompt] returns when it is shown. The payload reads [description] from
    the closure of the render that created the handler: the
    [setDescription] call does not change it. *)
Definition save_begin (st : StudioState) (answer : option string)
  : StudioState * SaveResult :=
  if js_blank (st_name st) || (length (st_steps st) =? 0) then
    (st, SaveRejected "Please provide a workflow name and add at least one step.")
  else
    let started (st' : StudioState) :=
      (mkStudio (st_name st') (st_description st') (st_steps st') true,
       SaveStarted (mkPayload (js_trim (st_name st)) (js_trim (st_description st))
                              (renumber (st_steps st)))) in
    if js_blank (st_description st) then
      match answer with
      | None => (st, SaveCancelled)
      | Some userDescription =>
          if negb (js_blank userDescription) then
            started (mkStudio (st_name st) (js_trim userDescription) (st_steps st)
                              (st_isSaving st))
          else (st, SaveRejected "Description is required to save the workflow.")
      end
    else started st.

(** [handleSave] after the [await] (lines 49-52), on the page's state at
    that time. The alert reads [name] from the closure of the render whose
    handler was clicked: [name] is that value, not the current one. *)
Definition save_finish (name : string) (st : StudioState) : StudioState * string :=
  (mkStudio (st_name st) (st_description st) (st_steps st) false,
   ("Workflow " ++ dquote ++ name ++ dquote ++ " saved successfully!")%string).

(** The Save button's [disabled] (line 101). *)
Definition save_disabled (st : StudioState) : bool :=
  st_isSaving st || js_blank (st_name st) || (length (st_steps st) =? 0).

(** [handleDiscard] (lines 58-62): the route it navigates to. *)
Definition handleDiscard (confirmed : bool) : option string :=
  if confirmed then Some "/workflows" else None.

(** ** Properties of [handleSave] *)

Lemma js_trim_of_blank s : js_blank s = true -> js_trim s = "".
Proof. unfold js_blank. by intros ?%String.eqb_eq. Qed.

(** C20: When the description is blank and the user types one into the
    prompt, the description is stored in the state, but the workflow that
    is saved carries the stale, blank one: [description.trim()] is read
    from the closure, after [setDescription] only scheduled the update. *)
Theorem save_prompted_description_is_lost st d st' p :
  js_blank (st_name st) = false -> st_steps st <> [] ->
  js_blank (st_description st) = true -> js_blank d = false ->
  save_begin st (Some d) = (st', SaveStarted p) ->
  st_description st' = js_trim d /\ payload_description p = "".
Proof.
  intros Hn Hs Hd Hu. unfold save_begin. rewrite Hn, Hd, Hu.
  destruct (st_steps st) eqn:E; [done|]. simpl.
  intros [= <- <-]. simpl. split; [done|]. by apply js_trim_of_blank.
Qed.

(** C21: [handleSave] on every branch: it alerts and changes nothing when
    the name is blank or there is no step; it stops when the prompt is
    cancelled or answered blank; otherwise it sets [isSaving] and saves the
    trimmed name with the steps renumbered densely. *)
Theorem save_begin_spec st a :
  let '(st', r) := save_begin st a in
  match r with
  | SaveStarted p =>
      js_blank (st_name st) = false /\ st_steps st <> [] /\ st_isSaving st' = true /\
      payload_name p = js_trim (st_name st) /\ payload_steps p = renumber (st_steps st) /\
      dense (payload_steps p) /\ st_steps st' = st_steps st
  | _ => st' = st
  end.
Proof.
  unfold save_begin.
  destruct (js_blank (st_name st)) eqn:Hn; [done|].
  destruct (st_steps st) as [|s0 rest] eqn:Hs; [done|]. simpl.
  assert (st_steps st <> []) by (by rewrite Hs).
  destruct (js_blank (st_description st)).
  - destruct a as [d|]; [|done]. destruct (js_blank d); simpl; [done|].
    rewrite <- Hs. split_and!; auto using renumber_dense.
  - simpl. rewrite <- Hs. split_and!; auto using renumber_dense.
Qed.

(** ** [CreateWorkflowModal] *)

Record ModalState := mkModal {
  modal_name : string;
  modal_description : string;
  modal_steps : list WorkflowStep;
  modal_open : bool
}.

(** The object passed to [onCreate]. *)
Record CreatePayload := mkCreate {
  create_name : string;
  create_description : option string;
  create_steps : list WorkflowStep
}.

(** [handleSubmit] (lines 39-53): on a non-blank name and at least one step
    it calls [onCreate], resets the form and closes the dialog. *)
Definition handleSubmit (st : ModalState) : ModalState * option CreatePayload :=
  if negb (js_blank (modal_name st)) && (0 <? length (modal_steps st)) then
    (mkModal "" "" [] false,
     Some (mkCreate (js_trim (modal_name st))
                    (if js_blank (modal_description st) then None
                     else Some (js_trim (modal_description st)))
                    (renumber (modal_steps st))))
  else (st, None).

(** Submitting either creates a workflow with the trimmed name, a
    description only when one was typed, and densely renumbered steps, and
    resets and closes the form; or does nothing at all. *)
Theorem handleSubmit_spec st :
  (js_blank (modal_name st) = false -> modal_steps st <> [] ->
   handleSubmit st =
     (mkModal "" "" [] false,
      Some (mkCreate (js_trim (modal_name st))
                     (if js_blank (modal_description st) then None
                      else Some (js_trim (modal_description st)))
                     (renumber (modal_steps st))))) /\
  (js_blank (modal_name st) = true \/ modal_steps st = [] -> handleSubmit st = (st, None)).
Proof.
  unfold handleSubmit. split.
  - intros Hn Hs. rewrite Hn. destruct (modal_steps st); [done|]. done.
  - intros [Hn|Hs]; [by rewrite Hn|]. rewrite Hs. by rewrite andb_false_r.
Qed.

(** ** Witnesses *)

Definition sample_studio : StudioState :=
  mkStudio "Digest" "" sample_steps false.

Lemma save_prompted_description_is_lost_witness :
  st_description (fst (save_begin sample_studio (Some "Weekly digest"))) = "Weekly digest" /\
  match snd (save_begin sample_studio (Some "Weekly digest")) with
  | SaveStarted p => payload_description p = ""
  | _ => False
  end.
Proof.
  destruct (save_prompted_description_is_lost sample_studio "Weekly digest"
              (fst (save_begin sample_studio (Some "Weekly digest")))
              (mkPayload "Digest" "" (renumber sample_steps)))
    as [H1 H2]; [reflexivity | decide_goal | reflexivity | reflexivity
                | reflexivity | ].
  split; [exact H1|]. simpl. exact H2.
Defined.

Lemma handleSubmit_spec_witness :
  handleSubmit (mkModal "  Digest " "" sample_steps true) =
    (mkModal "" "" [] false, Some (mkCreate "Digest" None (renumber sample_steps))).
Proof.
  apply (proj1 (handleSubmit_spec (mkModal "  Digest " "" sample_steps true)));
    [reflexivity | decide_goal].
Defined.

End Studio.
