(* ===== verification/CreateDialog.v ===== *)
(** * CreateDialog: the create-workflow dialog with the builder it embeds

    [CreateWorkflowModal.tsx] owns a form ([name], [description]) and the
    step list of the [WorkflowBuilder] it renders ([steps={steps}
    onStepsChange={setSteps}], line 99): the dialog is the builder's
    parent, as the studio page is. The builder lives inside the dialog's
    content, which is mounted only while the dialog is open: opening it
    mounts the builder on the dialog's current steps, closing it drops the
    builder's node and edge state, while the form state of the dialog
    component survives.

    [dialog_step] composes [Studio.handleSubmit] with [Editor.step]: a
    builder gesture runs the editor's step, whose new list the dialog
    stores. Unlike the studio page, the dialog renders no palette, and the
    builder adds no step of its own ([handleAddStep] is passed to no
    component): the gestures it receives are the canvas ones (the trash
    button, a connection, a drag, the delete key). The theorem shows that
    on every reachable state the list is empty, so the "Create Workflow"
    button stays disabled and a submit creates nothing: the dialog cannot
    create a workflow. *)

From S2P Require Import Spec2Rocq.
From S2P Require Import Types.
From S2P Require Import JsString.
From S2P Require Import StepList.
From S2P Require Import Graph.
From S2P Require Import Editor.
From S2P Require Import Studio.
Import Types JsString StepList Graph Editor Studio.

Module CreateDialog.

(** The dialog's component state with the mounted builder's, [None]
    while the dialog is closed. *)
Record CreateDialog := mkDialog {
  dlg_form : ModalState;
  dlg_builder : option Editor.Editor
}.

Definition initial_dialog : CreateDialog := mkDialog (mkModal "" "" [] false) None.

Inductive DialogEvent :=
| DOpen                          (* the page's button sets [open] *)
| DSetName (v : string)          (* line 78 *)
| DSetDescription (v : string)   (* line 89 *)
| DBuilder (ev : Editor.Event)   (* a gesture on the embedded builder *)
| DCancel                        (* line 107, [onOpenChange(false)] *)
| DSubmit.                       (* the form's submit, line 70 *)

Definition with_form (f : ModalState) (d : CreateDialog) : CreateDialog :=
  mkDialog f (dlg_builder d).

(** The submit button's [disabled] (line 114). *)
Definition create_disabled (f : ModalState) : bool :=
  js_blank (modal_name f) || bool_decide (modal_steps f = []).

Section WithRenderer.
Context `{FlowRenderer}.

Definition dialog_step (d : CreateDialog) (e : DialogEvent) : CreateDialog * option CreatePayload :=
  let f := dlg_form d in
  match e with
  | DOpen =>
      (mkDialog (mkModal (modal_name f) (modal_description f) (modal_steps f) true)
         (Some (Editor.mount (modal_steps f))), None)
  | DSetName v => (with_form (mkModal v (modal_description f) (modal_steps f) (modal_open f)) d, None)
  | DSetDescription v => (with_form (mkModal (modal_name f) v (modal_steps f) (modal_open f)) d, None)
  | DBuilder ev =>
      match dlg_builder d with
      | Some ed =>
          let ed' := Editor.step ed ev in
          (mkDialog (mkModal (modal_name f) (modal_description f) (ed_steps ed') (modal_open f)) (Some ed'), None)
      | None => (d, None)
      end
  | DCancel => (mkDialog (mkModal (modal_name f) (modal_description f) (modal_steps f) false) None, None)
  | DSubmit =>
      let '(f', pl) := handleSubmit f in
      (mkDialog f' (if modal_open f' then dlg_builder d else None), pl)
  end.

(** The gestures the embedded builder can receive: the canvas ones. No
    control of the dialog adds a step ([EvAdd]) and [CustomNode] never
    calls [data.onUpdate] ([EvUpdate]). *)
Definition dialog_gesture (ev : Editor.Event) : Prop :=
  match ev with
  | EvAdd _ _ | EvUpdate _ _ => False
  | _ => True
  end.

(** The controls of the open dialog; a builder gesture needs the mounted
    builder; the submit needs the enabled button (an implicit submission
    by the Enter key does nothing while the default button is disabled). *)
Definition dialog_available (d : CreateDialog) (e : DialogEvent) : Prop :=
  match e with
  | DOpen => modal_open (dlg_form d) = false
  | DBuilder ev => is_Some (dlg_builder d) /\ dialog_gesture ev
  | DSubmit => modal_open (dlg_form d) = true /\ create_disabled (dlg_form d) = false
  | _ => modal_open (dlg_form d) = true
  end.

Inductive dialog_reachable : CreateDialog -> Prop :=
| dreach_init : dialog_reachable initial_dialog
| dreach_step d e : dialog_reachable d -> dialog_available d e -> dialog_reachable (dialog_step d e).1.

(** ** Properties *)

Definition empty_closures (ns : list Node) : Prop :=
  Forall (fun n => node_onDelete n = []) ns.

(** The dialog's invariant: its list is empty, the builder is mounted
    exactly while the dialog is open, and the mounted builder has the
    empty list and only delete buttons over the empty list. *)
Definition dialog_inv (d : CreateDialog) : Prop :=
  modal_steps (dlg_form d) = [] /\
  (is_Some (dlg_builder d) <-> modal_open (dlg_form d) = true) /\
  (forall ed, dlg_builder d = Some ed -> ed_steps ed = [] /\ empty_closures (ed_nodes ed)).

Lemma gesture_ev_ok ed ev : dialog_gesture ev -> ev_ok ed ev.
Proof. by destruct ev. Qed.

(** On an empty builder, no canvas gesture proposes a step: the trash
    button filters the empty list of its closure, a connection finds no
    step. *)
Lemma empty_handle_nil ed ev ns es l :
  dialog_gesture ev -> ed_steps ed = [] -> empty_closures (ed_nodes ed) ->
  handle ev ed = (ns, es, Some l) -> l = [].
Proof.
  intros Hg Hs Hc. destruct ev as [i|i u|[a|] [b|]|now t|i p|ni ei]; simpl; try done.
  - destruct (find_node i (ed_nodes ed)) as [n|] eqn:Hf; [|done].
    destruct (node_data n) as [st|]; [|done]. unfold handleDeleteNode.
    unfold empty_closures in Hc. rewrite Forall_forall in Hc.
    rewrite (Hc n (find_node_elem _ _ _ Hf)). unfold delete_steps.
    destruct (is_anchor (step_id st)); [done|]. by intros [= _ _ <-].
  - rewrite Hs. done.
  - destruct (flow_remove ni ei (ed_nodes ed) (ed_edges ed)). done.
Qed.

Lemma empty_builder_step ed ev :
  dialog_gesture ev -> ed_steps ed = [] -> empty_closures (ed_nodes ed) ->
  ed_steps (step ed ev) = [] /\ empty_closures (ed_nodes (step ed ev)).
Proof.
  intros Hg Hs Hc. split.
  - unfold step. destruct (handle ev ed) as [[ns es] [l|]] eqn:Hh; [|done].
    rewrite (empty_handle_nil _ _ _ _ _ Hg Hs Hc Hh). by destruct (sync [] ns es).
  - apply (step_closures (fun l => l = [])); [done|by apply gesture_ev_ok| |done].
    intros ns es l. by apply empty_handle_nil.
Qed.

Lemma mount_empty : ed_steps (mount []) = [] /\ empty_closures (ed_nodes (mount [])).
Proof. vm_compute. split; [done|repeat constructor]. Qed.

Lemma closed_inv f : modal_steps f = [] -> modal_open f = false -> dialog_inv (mkDialog f None).
Proof. intros Hs Ho. split_and!; [done|simpl; rewrite Ho; by split; [intros [? ?]|]|done]. Qed.

Lemma dialog_step_inv d e : dialog_inv d -> dialog_available d e -> dialog_inv (dialog_step d e).1.
Proof.
  intros (Hst & Hb & Hs) Hav. destruct d as [[n de st o] b]; simpl in *. subst st.
  destruct e as [| v | v | ev | | ]; simpl in *.
  - split_and!; [done|by split|]. intros ed [= <-]. apply mount_empty.
  - split_and!; done.
  - split_and!; done.
  - destruct Hav as ([ed ->] & Hg). destruct (Hs ed eq_refl) as [Hes Hec].
    pose proof (empty_builder_step ed ev Hg Hes Hec) as Hnew. simpl. split_and!; [apply Hnew| |].
    + split; [intros _; apply Hb; by eexists|intros _; by eexists].
    + by intros ? [= <-].
  - by apply closed_inv.
  - unfold handleSubmit. simpl. rewrite andb_false_r. simpl.
    destruct o; [by split_and!|by apply closed_inv].
Qed.

(** C30: The dialog cannot create a workflow: in every state a user
    reaches, its list is empty, so the "Create Workflow" button is
    disabled and a submit hands nothing to [onCreate]. *)
Theorem dialog_never_creates d :
  dialog_reachable d ->
  modal_steps (dlg_form d) = [] /\ create_disabled (dlg_form d) = true /\
  (dialog_step d DSubmit).2 = None.
Proof.
  intros Hr. assert (dialog_inv d) as (Hst & _ & _).
  { induction Hr as [|d e _ IH Hav]; [|by apply dialog_step_inv].
    by apply closed_inv. }
  destruct d as [[n de st o] b]. simpl in *. subst st. split_and!; [done|unfold create_disabled; simpl|].
  - by rewrite orb_true_r.
  - unfold handleSubmit. simpl. by rewrite andb_false_r.
Qed.

End WithRenderer.

(** A dialog opened and named, where the user then connects the anchors
    and presses the delete key on the start node. *)
Definition digest_dialog : CreateDialog :=
  let d1 := (dialog_step initial_dialog DOpen).1 in
  let d2 := (dialog_step d1 (DSetName "Digest")).1 in
  let d3 := (dialog_step d2 (DBuilder (Editor.EvConnect (Some START_NODE_ID) (Some END_NODE_ID)))).1 in
  (dialog_step d3 (DBuilder (Editor.EvRemove [START_NODE_ID] []))).1.

Lemma dialog_never_creates_witness :
  dialog_reachable digest_dialog /\
  modal_steps (dlg_form digest_dialog) = [] /\ create_disabled (dlg_form digest_dialog) = true /\
  (dialog_step digest_dialog DSubmit).2 = None.
Proof.
  assert (dialog_reachable digest_dialog) as Hr.
  { repeat apply dreach_step; try apply dreach_init; simpl; try done; by split. }
  split; [exact Hr|]. exact (dialog_never_creates digest_dialog Hr).
Defined.

End CreateDialog.
