(* ===== verification/StudioPage.v ===== *)
(** * StudioPage: the studio page composed with the builder and the palette

    [app/studio/page.tsx] owns [name], [description], [steps] and
    [isSaving] ([Studio.StudioState]) and renders three children: the
    header (Back, the name input, Discard, Save), the [WorkflowBuilder]
    canvas with [steps={steps} onStepsChange={setSteps}] (line 117), and
    the [ToolsSidebar] palette whose [onAddStep] appends a step (lines
    121-142, the editor's [EvAdd]).

    The page keeps the builder's own [nodes] and [edges]; the builder it
    renders reads the page's [steps] as its prop ([builder]). [handleSave]
    is split at its [await] ([Studio.save_begin], [Studio.save_finish]):
    between the click and the timer that resumes it, every other control
    of the page stays live, so the model keeps the saves in flight, each
    with the [name] its closure captured.

    The page's invariant ([page_inv]) says that the builder it renders is
    a state of [Editor.reachable] with the editor's invariant (the page
    stores each list the builder proposes and passes it back), and that
    the saves in flight are at most one, exactly while [isSaving] is set;
    the theorem shows that the Save button then reads "Saving..." and
    Save and Discard are disabled. *)

From S2P Require Import Spec2Rocq.
From S2P Require Import Types.
From S2P Require Import JsString.
From S2P Require Import StepList.
From S2P Require Import Graph.
From S2P Require Import Editor.
From S2P Require Import FlowNodes.
From S2P Require Import Studio.
Import Types JsString StepList Graph Editor FlowNodes Studio.

Module StudioPage.

(** ** The palette, [ToolsSidebar.tsx] *)

(** One button of the palette (lines 27-44): its key, colour, icon, label
    and description, and the type its click hands to [onAddStep]. *)
Record PaletteButton := mkPaletteButton {
  pb_key : string;
  pb_color : string;
  pb_icon : string;
  pb_label : string;
  pb_description : string;
  pb_value : WorkflowStepType
}.

(** [ToolsSidebar] (lines 22-48): a button per row of its table, the
    same rows as [WORKFLOW_STEP_TYPES]. *)
Definition tools_sidebar : list PaletteButton :=
  (fun i => mkPaletteButton (step_type_value (info_value i)) (info_color i) (info_icon i)
              (info_label i) (info_description i) (info_value i)) <$> WORKFLOW_STEP_TYPES.

(** ** The page *)

(** The page's state, the builder's [nodes] and [edges], and the saves
    awaiting their timer, each with the [name] of its closure. *)
Record Page := mkPage {
  pg_studio : StudioState;
  pg_nodes : list Node;
  pg_edges : list Edge;
  pg_pending : list string
}.

(** The builder as the page renders it: its state, with the page's
    [steps] as the prop. *)
Definition builder (p : Page) : Editor.Editor :=
  mkEditor (st_steps (pg_studio p)) (pg_nodes p) (pg_edges p).

(** The first render: the empty studio and the builder mounted on it. *)
Definition initial_page `{FlowRenderer} : Page :=
  let ed := Editor.mount [] in mkPage initial_studio (ed_nodes ed) (ed_edges ed) [].

Inductive PageEvent :=
| PBack                           (* the Back button, line 74 *)
| PSetName (v : string)           (* the name input, line 87 *)
| PDiscard (confirmed : bool)     (* Discard, line 92, with [confirm]'s answer *)
| PSave (answer : option string)  (* Save, line 100, with [prompt]'s answer *)
| PSaveResumes                    (* the timer of line 49 fires *)
| PBuilder (ev : Editor.Event).   (* a canvas gesture, or a palette button ([EvAdd]) *)

Inductive PageOutput :=
| Navigate (path : string)        (* [router.push] *)
| AlertMsg (msg : string)         (* [alert] *)
| LogSave (p : SavePayload).      (* the [console.log] of line 42 *)

Definition with_studio (st : StudioState) (p : Page) : Page :=
  mkPage st (pg_nodes p) (pg_edges p) (pg_pending p).

Section WithRenderer.
Context `{FlowRenderer}.

(** The page's controls. A save that starts logs its payload and leaves
    its continuation in flight; the continuation clears [isSaving] on the
    state of the moment and alerts its closure's [name]. A builder gesture
    runs the editor's step on the rendered builder; the page stores the
    list the builder hands to [onStepsChange]. *)
Definition page_step (p : Page) (e : PageEvent) : Page * list PageOutput :=
  let st := pg_studio p in
  match e with
  | PBack => (p, [Navigate "/workflows"])
  | PSetName v => (with_studio (mkStudio v (st_description st) (st_steps st) (st_isSaving st)) p, [])
  | PDiscard c =>
      (p, match handleDiscard c with Some r => [Navigate r] | None => [] end)
  | PSave a =>
      match save_begin st a with
      | (st', SaveRejected m) => (with_studio st' p, [AlertMsg m])
      | (st', SaveCancelled) => (with_studio st' p, [])
      | (st', SaveStarted pl) =>
          (mkPage st' (pg_nodes p) (pg_edges p) (pg_pending p ++ [st_name st]), [LogSave pl])
      end
  | PSaveResumes =>
      match pg_pending p with
      | n :: rest =>
          let '(st', m) := save_finish n st in (mkPage st' (pg_nodes p) (pg_edges p) rest, [AlertMsg m])
      | [] => (p, [])
      end
  | PBuilder ev =>
      let ed' := Editor.step (builder p) ev in
      (mkPage (mkStudio (st_name st) (st_description st) (ed_steps ed') (st_isSaving st))
         (ed_nodes ed') (ed_edges ed') (pg_pending p), [])
  end.

(** The enabled controls: Discard is disabled while saving (line 93), Save
    by [save_disabled] (line 101); a continuation runs only when one is in
    flight; a builder gesture is one the editor can receive ([ev_ok]). *)
Definition page_available (p : Page) (e : PageEvent) : Prop :=
  match e with
  | PDiscard _ => st_isSaving (pg_studio p) = false
  | PSave _ => save_disabled (pg_studio p) = false
  | PSaveResumes => pg_pending p <> []
  | PBuilder ev => ev_ok (builder p) ev
  | _ => True
  end.

Inductive page_reachable : Page -> Prop :=
| preach_init : page_reachable initial_page
| preach_step p e : page_reachable p -> page_available p e -> page_reachable (page_step p e).1.

(** The render (lines 64-146): the header's input and buttons, the cards
    ReactFlow draws for the builder's nodes ([FlowNodes.node_view]), and
    the palette. *)
Record StudioView := mkStudioView {
  sv_name : string;
  sv_discard_disabled : bool;
  sv_save_disabled : bool;
  sv_save_label : string;
  sv_canvas : list (option NodeCard);
  sv_palette : list PaletteButton
}.

Definition studio_view (p : Page) : StudioView :=
  let st := pg_studio p in
  mkStudioView (st_name st) (st_isSaving st) (save_disabled st)
    (if st_isSaving st then "Saving..." else "Save")
    (node_view <$> pg_nodes p) tools_sidebar.

End WithRenderer.

(** ** Properties *)

(** What [handleSave] leaves of the state on each branch: the name and
    the list as they were; [isSaving] set and the list renumbered into the
    payload when it starts, nothing changed otherwise. *)
Lemma save_begin_shape st a :
  let '(st', r) := save_begin st a in
  st_steps st' = st_steps st /\
  match r with
  | SaveStarted pl => st_isSaving st' = true /\ st_steps st <> [] /\
                      payload_steps pl = renumber (st_steps st)
  | _ => st' = st
  end.
Proof.
  unfold save_begin.
  destruct (js_blank (st_name st)); [done|].
  destruct (st_steps st) as [|s0 rest] eqn:Hs; [done|]. simpl.
  destruct (js_blank (st_description st)); [destruct a as [d|]; [destruct (js_blank d)|]|];
    simpl; by rewrite ?Hs.
Qed.

(** The palette offers every step type, each with one button, the first
    button of its type being labelled as the new step will be named. *)
Lemma palette_offers_each_type :
  NoDup (pb_value <$> tools_sidebar) /\
  forall t, exists b, List.find (fun b => bool_decide (pb_value b = t)) tools_sidebar = Some b /\
    pb_label b = default_step_name t.
Proof.
  split; [apply (bool_decide_unpack _); by vm_compute|].
  intros t. destruct t; eexists; split; reflexivity.
Qed.

Section Properties.
Context `{FlowRenderer}.

Lemma builder_initial : builder initial_page = Editor.mount [].
Proof.
  unfold builder, initial_page. pose proof (mount_steps []) as Hm.
  by destruct (Editor.mount []); simpl in *; subst.
Qed.

Lemma builder_step p ev : builder (page_step p (PBuilder ev)).1 = Editor.step (builder p) ev.
Proof. unfold builder. simpl. by destruct (Editor.step _ ev). Qed.

(** The page's invariant: the rendered builder is a state the editor
    reaches, its list is valid, and the saves in flight are at most one,
    exactly while [isSaving] is set. *)
Definition page_inv (p : Page) : Prop :=
  Editor.reachable (builder p) /\ editor_inv (builder p) /\
  (st_isSaving (pg_studio p) = true <-> pg_pending p <> []) /\ length (pg_pending p) <= 1.

Lemma page_inv_initial : page_inv initial_page.
Proof.
  unfold page_inv. rewrite builder_initial. split_and!; [apply reach_mount|apply mount_inv|done|simpl; lia].
Qed.

Lemma page_step_inv p e : page_inv p -> page_available p e -> page_inv (page_step p e).1.
Proof.
  intros (Hr & Hok & Hs & Hl) Hav. destruct p as [st ns es pend].
  destruct e as [| v | c | a | | ev]; simpl in *; try done.
  - pose proof (save_begin_shape st a) as Hsh.
    destruct (save_begin st a) as [st' [m| |pl]]; simpl in *; destruct Hsh as [Hst Hsh].
    + subst. unfold with_studio, builder. simpl. by split_and!.
    + subst. unfold with_studio, builder. simpl. by split_and!.
    + destruct Hsh as (Hsv & _ & _).
      assert (pend = []) as ->.
      { destruct pend; [done|]. exfalso. unfold save_disabled in Hav.
        assert (st_isSaving st = true) as E by (apply Hs; done). by rewrite E in Hav. }
      unfold page_inv, builder in *; simpl in *. rewrite Hst.
      split_and!; [done|done|split; [done|intros _; exact Hsv]|simpl; lia].
  - destruct pend as [|n [|n' rest]]; simpl in *; [done| |lia].
    split_and!; [exact Hr|exact Hok|split; [done|by intros []]|simpl; lia].
  - pose proof (builder_step (mkPage st ns es pend) ev) as Hb. simpl in Hb.
    unfold page_inv. rewrite Hb. split_and!.
    + by apply reach_step.
    + by apply editor_step_inv.
    + exact Hs.
    + exact Hl.
Qed.

Lemma page_reachable_inv p : page_reachable p -> page_inv p.
Proof.
  induction 1 as [|p e _ IH Hav]; [apply page_inv_initial|by apply page_step_inv].
Qed.

(** Every state the page reaches renders a save button that says
    "Saving..." exactly while a save is in flight. *)
Lemma save_label_saving p :
  page_inv p -> (sv_save_label (studio_view p) = "Saving..." <-> pg_pending p <> []).
Proof.
  intros (_ & _ & Hs & _). unfold studio_view. simpl. rewrite <- Hs.
  destruct (st_isSaving (pg_studio p)); [done|]. split; intros E; discriminate E.
Qed.

(** C32: The Save button cannot start a second save: in every state the
    page reaches at most one save is in flight, the button says
    "Saving..." exactly while one is, and then both Save and Discard are
    disabled, although the name input and the builder stay live. *)
Theorem studio_single_save p :
  page_reachable p ->
  length (pg_pending p) <= 1 /\
  (sv_save_label (studio_view p) = "Saving..." <-> pg_pending p <> []) /\
  (pg_pending p <> [] -> sv_save_disabled (studio_view p) = true /\ sv_discard_disabled (studio_view p) = true).
Proof.
  intros Hr%page_reachable_inv. split_and!; [apply Hr|by apply save_label_saving|].
  destruct Hr as (_ & _ & Hs & _). intros Hp%Hs. unfold studio_view, save_disabled. simpl.
  by rewrite Hp.
Qed.

End Properties.

(** ** Witnesses, with the ReactFlow model *)

(** The studio after naming the workflow and adding a summarize step from
    the palette, and after clicking Save with a description typed into the
    prompt. *)
Definition digest_page : Page :=
  let p1 := (page_step initial_page (PSetName "Digest")).1 in
  (page_step p1 (PBuilder (EvAdd 1 summarize))).1.

Definition saving_page : Page := (page_step digest_page (PSave (Some "Daily digest"))).1.

Lemma digest_page_reachable : page_reachable digest_page.
Proof.
  apply preach_step; [apply preach_step; [apply preach_init|done]|].
  vm_compute. set_solver.
Qed.

Lemma saving_page_reachable : page_reachable saving_page.
Proof. apply preach_step; [exact digest_page_reachable|reflexivity]. Qed.

(** While the save is in flight the user renames the workflow; the alert
    that ends the save names the workflow as it was when Save was
    clicked, while the input shows the new name. *)
Example save_alert_names_clicked_name :
  let p := (page_step saving_page (PSetName "Weekly")).1 in
  (page_step p PSaveResumes).2 =
    [AlertMsg ("Workflow " ++ dquote ++ "Digest" ++ dquote ++ " saved successfully!")] /\
  sv_name (studio_view (page_step p PSaveResumes).1) = "Weekly".
Proof. split; reflexivity. Qed.

Lemma studio_single_save_witness :
  length (pg_pending saving_page) <= 1 /\
  (sv_save_label (studio_view saving_page) = "Saving..." <-> pg_pending saving_page <> []) /\
  (pg_pending saving_page <> [] ->
     sv_save_disabled (studio_view saving_page) = true /\ sv_discard_disabled (studio_view saving_page) = true).
Proof. apply studio_single_save. exact saving_page_reachable. Defined.

End StudioPage.
