(* ===== verification/Chrome.v ===== *)
(** * Chrome: the application shell of [components/layout/TacitChrome.tsx]

    [TacitChrome] wraps the agents, meetings, workflows and documents pages.
    It keeps eleven pieces of [useState] (the [ChromeState] record): the
    sidebar and user menu flags, which sidebar groups are expanded, the
    session picked in the sidebar, the audio player flag, the configuration
    drawer with the automation it configures and its three form fields,
    and the list of generated assets. Its sidebar lists the completed
    meetings of the mock data grouped by agent ([meetingsByAgent]).

    - [handle] is every handler of the file, on the state, with what it
      asks of the outside: a route for [router.push] and the argument of
      [onSessionDetailChange];
    - [view] is what the JSX renders, as data: the sidebar groups and their
      items, the drawer's title, the session detail view when it shows,
      and whether the page content shows;
    - [available] says which events a rendered control can raise, and
      [reachable] the states a user can reach from the first render.

    [new Date(s).getTime()] and [toLocaleDateString] are library calls:
    section variables [getTime] and [formatDate]. *)

From S2P Require Import Spec2Rocq.
From S2P Require Import Types.
From S2P Require Import MockData.
From S2P Require Import JsString.
Import Types.
Import JsString.

Module Chrome.

(** [type AutomationType = "summary" | ... | "minutes"] (lines 11-17). *)
Inductive AutomationType := summary | insights | training | actions | kb_article | minutes.

#[export] Instance AutomationType_eq_dec : EqDecision AutomationType.
Proof. solve_decision. Defined.

Definition automation_type_value (t : AutomationType) : string :=
  match t with
  | summary => "summary"
  | insights => "insights"
  | training => "training"
  | actions => "actions"
  | kb_article => "kb-article"
  | minutes => "minutes"
  end.

(** [interface GeneratedAsset] (lines 19-25). *)
Record GeneratedAsset := mkAsset {
  asset_id : string;
  asset_type : AutomationType;
  asset_title : string;
  asset_icon : string;
  asset_timestamp : string
}.

(** The [currentAutomation] object (lines 50-54). *)
Record Automation := mkAutomation {
  auto_type : AutomationType;
  auto_title : string;
  auto_icon : string
}.

(** The props that change behaviour (lines 27-31): [showSessionDetail]
    defaults to [false]; [onSessionDetailChange] may be absent. *)
Record ChromeProps := mkProps {
  showSessionDetail : bool;
  hasSessionDetailChange : bool
}.

(** Every page of the repository renders [<TacitChrome>] with no props. *)
Definition default_props : ChromeProps := mkProps false false.

(** The component's state (lines 37-58). *)
Record ChromeState := mkChrome {
  isSidebarOpen : bool;
  isUserDropdownOpen : bool;
  expandedGroups : gmap string bool;
  selectedSession : option Meeting;
  isPlaying : bool;
  isConfigDrawerOpen : bool;
  currentAutomation : option Automation;
  outputTone : string;
  targetAudience : string;
  additionalInstructions : string;
  generatedAssets : list GeneratedAsset
}.

Definition initial_expanded : gmap string bool :=
  <["agent_1" := true]> (<["agent_2" := true]> (<["all-automations" := true]>
    (<["drafts" := true]> ∅))).

Definition initial_chrome : ChromeState :=
  mkChrome false false initial_expanded None false false None "professional" "" "" [].

(** [expandedGroups[groupId] ?? false], and the truthiness test
    [expandedGroups["drafts"] && ...]: both read an absent key as
    [false]. *)
Definition is_expanded (m : gmap string bool) (g : string) : bool :=
  default false (m !! g).

(** ** [meetingsByAgent] (lines 61-87) *)

(** The [grouped] object: its keys in insertion order (agent ids are not
    array indices, so [Object.values] keeps that order). *)
Abbreviation Grouped := (list (string * (Agent * list Meeting))) (only parsing).

(** [if (!grouped[agentId]) grouped[agentId] = { agent, meetings: [] };
     grouped[agentId].meetings.push(meeting)] *)
Fixpoint group_push (agentId : string) (agent : Agent) (m : Meeting) (g : Grouped) : Grouped :=
  match g with
  | [] => [(agentId, (agent, [m]))]
  | (k, (a, ms)) :: g' =>
      if k === agentId then (k, (a, ms ++ [m])) :: g'
      else (k, (a, ms)) :: group_push agentId agent m g'
  end.

(** [agents.find(a => a.id === agentId)] *)
Definition find_agent (agents : list Agent) (agentId : string) : option Agent :=
  List.find (fun a => agent_id a === agentId) agents.

(** The two nested [forEach] loops. *)
Definition group_meeting (agents : list Agent) (g : Grouped) (m : Meeting) : Grouped :=
  fold_left (fun g agentId =>
               match find_agent agents agentId with
               | Some agent => group_push agentId agent m g
               | None => g
               end) (meeting_agentIds m) g.

Definition is_completed (m : Meeting) : bool := bool_decide (meeting_status m = Completed).

Section Grouping.
(** [new Date(s).getTime()] *)
Variable getTime : string -> Z.

(** [(a, b) => new Date(b.scheduledAt).getTime() - new Date(a.scheduledAt).getTime()] *)
Definition by_recent (a b : Meeting) : Z :=
  (getTime (meeting_scheduledAt b) - getTime (meeting_scheduledAt a))%Z.

Definition meetingsByAgent (agents : list Agent) (meetings : list Meeting) : Grouped :=
  let grouped := fold_left (group_meeting agents) (List.filter is_completed meetings) [] in
  (fun '(k, (a, ms)) => (k, (a, js_sort by_recent ms))) <$> grouped.
End Grouping.

(** ** Handlers (lines 89-166) *)

(** What a handler asks of the outside world. *)
Record ChromeOutput := mkOutput {
  out_route : option string;
  out_sessionDetail : option bool
}.

Definition no_output : ChromeOutput := mkOutput None None.

Inductive ChromeEvent :=
| EvToggleSidebar                 (* hamburger, close button, overlay *)
| EvOpenSidebar                   (* openSidebar through the context *)
| EvCloseSidebar                  (* closeSidebar through the context *)
| EvToggleUserDropdown            (* the avatar *)
| EvLogout                        (* the dropdown's Logout button *)
| EvToggleGroup (groupId : string)
| EvOpenSession (m : Meeting)     (* a sidebar item *)
| EvBackToDashboard               (* the breadcrumb's Home *)
| EvTogglePlay
| EvOpenConfig (t : AutomationType) (title icon : string)   (* Apply *)
| EvCloseConfig
| EvSetTone (v : string)
| EvSetAudience (v : string)
| EvSetInstructions (v : string)
| EvRunAutomation (now : N) (timestamp : string).

(** [`asset-${currentAutomation.type}-${Date.now()}`] *)
Definition asset_id_of (t : AutomationType) (now : N) : string :=
  "asset-" ++ automation_type_value t ++ "-" ++ pretty now.

Definition handle (p : ChromeProps) (s : ChromeState) (ev : ChromeEvent)
  : ChromeState * ChromeOutput :=
  let 'mkChrome sb ud eg sel pl dr cur tone aud ins assets := s in
  match ev with
  | EvToggleSidebar =>
      (mkChrome (negb sb) ud eg sel pl dr cur tone aud ins assets, no_output)
  | EvOpenSidebar => (mkChrome true ud eg sel pl dr cur tone aud ins assets, no_output)
  | EvCloseSidebar => (mkChrome false ud eg sel pl dr cur tone aud ins assets, no_output)
  | EvToggleUserDropdown =>
      (mkChrome sb (negb ud) eg sel pl dr cur tone aud ins assets, no_output)
  | EvLogout => (s, mkOutput (Some "/login") None)
  | EvToggleGroup g =>
      (mkChrome sb ud (<[g := negb (is_expanded eg g)]> eg) sel pl dr cur tone aud ins assets,
       no_output)
  | EvOpenSession m =>
      (mkChrome false ud eg (Some m) pl dr cur tone aud ins assets,
       mkOutput None (if hasSessionDetailChange p then Some true else None))
  | EvBackToDashboard =>
      (mkChrome sb ud eg None pl dr cur tone aud ins assets,
       mkOutput None (if hasSessionDetailChange p then Some false else None))
  | EvTogglePlay => (mkChrome sb ud eg sel (negb pl) dr cur tone aud ins assets, no_output)
  | EvOpenConfig t title icon =>
      (mkChrome sb ud eg sel pl true (Some (mkAutomation t title icon)) "professional" "" ""
                assets, no_output)
  | EvCloseConfig => (mkChrome sb ud eg sel pl false cur tone aud ins assets, no_output)
  | EvSetTone v => (mkChrome sb ud eg sel pl dr cur v aud ins assets, no_output)
  | EvSetAudience v => (mkChrome sb ud eg sel pl dr cur tone v ins assets, no_output)
  | EvSetInstructions v => (mkChrome sb ud eg sel pl dr cur tone aud v assets, no_output)
  | EvRunAutomation now ts =>
      match cur with
      | None => (s, no_output)
      | Some a =>
          (mkChrome sb ud eg sel pl false cur tone aud ins
                    (mkAsset (asset_id_of (auto_type a) now) (auto_type a) (auto_title a)
                             (auto_icon a) ts :: assets), no_output)
      end
  end.

(** ** What is rendered (lines 195-541) *)

(** [automationOptions] (lines 168-175); the icons by name. *)
Definition automationOptions : list (AutomationType * string * string * string) := [
  (summary, "Generate Summary", "page-facing-up", "Create a comprehensive summary of the session");
  (insights, "Extract Insights", "light-bulb", "Identify key insights and patterns");
  (training, "Create Training Material", "books", "Generate training content from the session");
  (actions, "Extract Action Items", "check-mark-button", "Identify and list action items");
  (kb_article, "Generate KB Article", "open-book", "Create a knowledge base article");
  (minutes, "Generate Meeting Minutes", "memo", "Create formal meeting minutes")
]%string.

(** [getAgentIcon] (lines 189-193). *)
Definition getAgentIcon (agentName : string) : string :=
  if js_includes (js_toLowerCase agentName) "ross" then "man" else "woman".

(** [ids.map(id => agents.find(a => a.id === id)?.name).join(", ") || fallback] *)
Definition agent_names_text (agents : list Agent) (ids : list string) (fallback : string)
  : string :=
  js_or (js_join ", " ((fun i => agent_name <$> find_agent agents i) <$> ids)) fallback.

(** One sidebar group: icon, label, whether expanded, and the items shown
    when it is. *)
Record GroupView := mkGroupView {
  gv_id : string;
  gv_icon : string;
  gv_label : string;
  gv_expanded : bool;
  gv_items : option (list string)
}.

Definition items_or (l : list string) (empty : string) : list string :=
  match l with [] => [empty] | _ => l end.

Definition past_session_views (eg : gmap string bool) (g : Grouped) : list GroupView :=
  (fun '(_, (a, ms)) =>
     mkGroupView (agent_id a) (getAgentIcon (agent_name a)) (agent_name a)
       (is_expanded eg (agent_id a))
       (if is_expanded eg (agent_id a)
        then Some (items_or (meeting_title <$> ms) "No completed sessions") else None)) <$> g.

Record DetailView := mkDetail {
  dv_breadcrumb : string;
  dv_title : string;
  dv_session_id : string;
  dv_agent_names : string;
  dv_topic : string;
  dv_participants : option string;
  dv_date : string;
  dv_duration : option string;
  dv_play_icon : string;
  dv_assets : option (list GeneratedAsset);
  dv_automation_titles : list string
}.

Record ChromeView := mkView {
  v_sidebar_open : bool;
  v_user_dropdown_active : bool;
  v_past_sessions : list GroupView;
  v_no_past_sessions : bool;
  v_automations : GroupView;
  v_drafts : GroupView;
  v_overlay : bool;
  v_drawer_open : bool;
  v_drawer_title : string;
  v_detail : option DetailView;
  v_children : bool
}.

(** [selectedSession && (showSessionDetail !== false)] (line 424). *)
Definition detail_shown (p : ChromeProps) (s : ChromeState) : bool :=
  match selectedSession s with Some _ => showSessionDetail p | None => false end.

Section View.
Variable getTime : string -> Z.
(** [formatDate] (lines 177-187): [toLocaleDateString("en-US", ...)]. *)
Variable formatDate : string -> string.

Definition detail_view (s : ChromeState) (m : Meeting) : DetailView :=
  mkDetail (agent_names_text MockData.agents (meeting_agentIds m) "Unknown Agent")
    (meeting_title m) (meeting_id m)
    (agent_names_text MockData.agents (meeting_agentIds m) "Unknown")
    (meeting_description m)
    (match meeting_participants m with
     | Some (_ :: _ as ps) => Some (js_join ", " (Some <$> ps))
     | _ => None
     end)
    (formatDate (meeting_scheduledAt m))
    (match meeting_duration m with
     | Some d => if String.eqb d "" then None else Some d
     | None => None
     end)
    (if isPlaying s then "pause" else "play")
    (match generatedAssets s with [] => None | l => Some l end)
    ((fun '(_, t, _, _) => t) <$> automationOptions).

Definition view (p : ChromeProps) (s : ChromeState) : ChromeView :=
  let g := meetingsByAgent getTime MockData.agents MockData.meetings in
  let eg := expandedGroups s in
  mkView (isSidebarOpen s) (isUserDropdownOpen s)
    (past_session_views eg g) (bool_decide (g = []))
    (mkGroupView "all-automations" "zap" "All Automations" (is_expanded eg "all-automations")
       (if is_expanded eg "all-automations"
        then Some (items_or (workflow_name <$> MockData.workflows) "No workflows") else None))
    (mkGroupView "drafts" "memo" "Drafts" (is_expanded eg "drafts")
       (if is_expanded eg "drafts" then Some ["No draft automations"] else None))
    (isSidebarOpen s) (isConfigDrawerOpen s)
    (match currentAutomation s with
     | Some a => "Configure " ++ auto_title a
     | None => "Configure Automation"
     end)
    (match selectedSession s with
     | Some m => if showSessionDetail p then Some (detail_view s m) else None
     | None => None
     end)
    (negb (detail_shown p s)).

(** The drawer's form (lines 356-410): its title, the tone select with
    its options, the two text fields, and the two buttons with the events
    they raise. The drawer is always in the DOM; [open] only slides it
    in. *)
Definition tone_options : list (string * string) := [
  ("professional", "Professional"); ("casual", "Casual"); ("technical", "Technical");
  ("friendly", "Friendly"); ("formal", "Formal")]%string.

Record DrawerView := mkDrawerView {
  dr_open : bool;
  dr_title : string;
  dr_tone : string;
  dr_tone_options : list (string * string);
  dr_audience : string;
  dr_instructions : string;
  dr_close : ChromeEvent;
  dr_run : N -> string -> ChromeEvent
}.

Definition drawer_view (s : ChromeState) : DrawerView :=
  mkDrawerView (isConfigDrawerOpen s)
    (match currentAutomation s with
     | Some a => "Configure " ++ auto_title a
     | None => "Configure Automation"
     end)
    (outputTone s) tone_options (targetAudience s) (additionalInstructions s)
    EvCloseConfig EvRunAutomation.

End View.

(** The events a rendered control can raise. The drawer is always in the
    DOM (its [open] class only slides it in), so its controls are always
    there; the session detail view's controls exist only while it shows. *)
Definition available (getTime : string -> Z) (p : ChromeProps) (s : ChromeState) (ev : ChromeEvent) : Prop :=
  match ev with
  | EvToggleGroup gid =>
      gid ∈ fst <$> meetingsByAgent getTime MockData.agents MockData.meetings \/ gid = "all-automations" \/ gid = "drafts"
  | EvOpenSession m =>
      exists gid a ms, (gid, (a, ms)) ∈ meetingsByAgent getTime MockData.agents MockData.meetings /\
        is_expanded (expandedGroups s) (agent_id a) = true /\ m ∈ ms
  | EvBackToDashboard | EvTogglePlay => detail_shown p s = true
  | EvOpenConfig t title icon =>
      detail_shown p s = true /\
      exists d, (t, title, icon, d) ∈ automationOptions
  | _ => True
  end.

(** The states a user reaches from the first render by events of
    rendered controls. *)
Inductive reachable (getTime : string -> Z) (p : ChromeProps) : ChromeState -> Prop :=
| reach_init : reachable getTime p initial_chrome
| reach_step s ev :
    reachable getTime p s -> available getTime p s ev ->
    reachable getTime p (handle p s ev).1.

(** Two maps of [expandedGroups] that expand the same groups. *)
Definition groups_equiv (m1 m2 : gmap string bool) : Prop :=
  forall g, is_expanded m1 g = is_expanded m2 g.

Definition with_groups (s : ChromeState) (m : gmap string bool) : ChromeState :=
  mkChrome (isSidebarOpen s) (isUserDropdownOpen s) m (selectedSession s) (isPlaying s)
    (isConfigDrawerOpen s) (currentAutomation s) (outputTone s) (targetAudience s)
    (additionalInstructions s) (generatedAssets s).

(** States equal up to which absent groups are written out as [false]. *)
Definition chrome_equiv (s1 s2 : ChromeState) : Prop :=
  groups_equiv (expandedGroups s1) (expandedGroups s2) /\ with_groups s1 ∅ = with_groups s2 ∅.



(** ** [meetingsByAgent] *)

Section GroupingFacts.
Variable agents : list Agent.

(** What the grouping keeps: distinct keys, each the id of the agent
    [find] returns for it, with meetings satisfying [P]. *)
Definition group_inv (P : string -> Meeting -> Prop) (g : Grouped) : Prop :=
  NoDup (fst <$> g) /\
  forall k a ms, (k, (a, ms)) ∈ g -> find_agent agents k = Some a /\ forall m, m ∈ ms -> P k m.

Lemma group_push_keys k a m g k' :
  k' ∈ fst <$> group_push k a m g <-> k' = k \/ k' ∈ fst <$> g.
Proof.
  induction g as [|[k0 [a0 ms0]] g IH]; simpl; [set_solver|].
  case_streq; rewrite !elem_of_cons, ?IH; naive_solver.
Qed.

Lemma group_push_nodup k a m g : NoDup (fst <$> g) -> NoDup (fst <$> group_push k a m g).
Proof.
  induction g as [|[k0 [a0 ms0]] g IH]; simpl; intros Hnd; [by apply NoDup_singleton|].
  apply NoDup_cons in Hnd as [Hn Hnd].
  case_streq; apply NoDup_cons; split; auto. rewrite group_push_keys. naive_solver.
Qed.

Lemma group_push_sound k a m g k' a' ms' :
  (k', (a', ms')) ∈ group_push k a m g ->
  (k', (a', ms')) ∈ g \/ (k' = k /\ a' = a /\ ms' = [m]) \/
  (k' = k /\ exists ms0, (k, (a', ms0)) ∈ g /\ ms' = ms0 ++ [m]).
Proof.
  induction g as [|[k0 [a0 ms0]] g IH]; simpl.
  { rewrite list_elem_of_singleton. intros [= -> -> ->]. auto. }
  case_streq; rewrite !elem_of_cons.
  - intros [[= -> -> ->]|H]; [|set_solver]. right; right. split; [done|]. set_solver.
  - intros [H|H]; [set_solver|].
    destruct (IH H) as [?|[?|(-> & ms1 & ? & ->)]]; set_solver.
Qed.

Lemma group_push_mono k a m g k' a' ms' :
  (k', (a', ms')) ∈ g -> exists ms'', (k', (a', ms'')) ∈ group_push k a m g /\ ms' ⊆ ms''.
Proof.
  induction g as [|[k0 [a0 ms0]] g IH]; simpl; [set_solver|].
  case_streq; rewrite elem_of_cons; intros [E|H].
  - injection E as <- <- <-. exists (ms' ++ [m]). set_solver.
  - exists ms'. set_solver.
  - injection E as <- <- <-. exists ms'. set_solver.
  - destruct (IH H) as (ms'' & ? & ?). exists ms''. set_solver.
Qed.

Lemma group_push_here k a m g :
  (forall a0 ms0, (k, (a0, ms0)) ∈ g -> a0 = a) ->
  exists ms, (k, (a, ms)) ∈ group_push k a m g /\ m ∈ ms.
Proof.
  induction g as [|[k0 [a0 ms0]] g IH]; simpl; intros Ha; [exists [m]; set_solver|].
  case_streq.
  - rewrite (Ha a0 ms0) by set_solver. exists (ms0 ++ [m]). set_solver.
  - destruct IH as (ms & ? & ?); [intros a1 ms1 H; apply (Ha a1 ms1); set_solver|].
    exists ms. set_solver.
Qed.

Lemma group_push_inv (P : string -> Meeting -> Prop) k a m g :
  group_inv P g -> find_agent agents k = Some a -> P k m -> group_inv P (group_push k a m g).
Proof.
  intros [Hnd Hg] Hk Hp. split; [by apply group_push_nodup|].
  intros k' a' ms' [H|[(-> & -> & ->)|(-> & ms0 & H & ->)]]%group_push_sound.
  - by apply Hg.
  - set_solver.
  - destruct (Hg _ _ _ H) as [? Hms]. split; [done|]. intros m'.
    rewrite elem_of_app, list_elem_of_singleton. intros [?| ->]; auto.
Qed.

Lemma group_meeting_inv (P : string -> Meeting -> Prop) g m :
  group_inv P g -> (forall k, k ∈ meeting_agentIds m -> P k m) ->
  group_inv P (group_meeting agents g m).
Proof.
  unfold group_meeting. generalize (meeting_agentIds m) as ids.
  intros ids. revert g. induction ids as [|k ids IH]; intros g Hg Hp; simpl; [done|].
  apply IH; [|set_solver]. destruct (find_agent agents k) eqn:Hk; [|done].
  apply group_push_inv; [done..|]. set_solver.
Qed.

Lemma group_meeting_mono g m k' a' ms' :
  (k', (a', ms')) ∈ g ->
  exists ms'', (k', (a', ms'')) ∈ group_meeting agents g m /\ ms' ⊆ ms''.
Proof.
  unfold group_meeting. generalize (meeting_agentIds m) as ids.
  intros ids. revert g ms'. induction ids as [|k ids IH]; intros g ms' H; simpl; [eauto|].
  destruct (find_agent agents k); [|auto].
  destruct (group_push_mono k a m g k' a' ms' H) as (ms1 & H1 & ?).
  destruct (IH _ _ H1) as (ms2 & ? & ?). exists ms2. set_solver.
Qed.

Lemma find_agent_unique (P : string -> Meeting -> Prop) g k a :
  group_inv P g -> find_agent agents k = Some a -> forall a0 ms0, (k, (a0, ms0)) ∈ g -> a0 = a.
Proof. intros [_ Hg] Hk a0 ms0 H. destruct (Hg _ _ _ H) as [Hk' _]. congruence. Qed.

Lemma group_meeting_here g m k a :
  group_inv (fun _ _ => True) g -> k ∈ meeting_agentIds m -> find_agent agents k = Some a ->
  exists ms, (k, (a, ms)) ∈ group_meeting agents g m /\ m ∈ ms.
Proof.
  unfold group_meeting. generalize (meeting_agentIds m) as ids.
  intros ids. revert g. induction ids as [|k0 ids IH]; intros g Hg Hin Hk; simpl; [set_solver|].
  apply elem_of_cons in Hin as [->|Hin].
  - rewrite Hk. destruct (group_push_here k0 a m g) as (ms & H & Hm);
      [by eapply find_agent_unique|].
    clear IH. revert Hm H. generalize (group_push k0 a m g). revert ms.
    induction ids as [|k1 ids IH]; intros ms g' Hm H; simpl; [eauto|].
    destruct (find_agent agents k1); [|eauto].
    destruct (group_push_mono k1 a0 m g' _ _ _ H) as (ms1 & ? & ?).
    apply (IH ms1); [set_solver|done].
  - apply IH; [|done..]. destruct (find_agent agents k0) eqn:Hk0; [|done].
    by apply group_push_inv.
Qed.

Lemma group_fold_inv (P : string -> Meeting -> Prop) l g :
  group_inv P g -> (forall m k, m ∈ l -> k ∈ meeting_agentIds m -> P k m) ->
  group_inv P (fold_left (group_meeting agents) l g).
Proof.
  revert g. induction l as [|m l IH]; intros g Hg Hl; simpl; [done|].
  apply IH; [|intros m' k Hm'; apply Hl; set_solver].
  apply group_meeting_inv; [done|]. intros k Hk. apply Hl; set_solver.
Qed.

Lemma group_fold_mono l g k a ms :
  (k, (a, ms)) ∈ g ->
  exists ms', (k, (a, ms')) ∈ fold_left (group_meeting agents) l g /\ ms ⊆ ms'.
Proof.
  revert g ms. induction l as [|m l IH]; intros g ms H; simpl; [eauto|].
  destruct (group_meeting_mono g m k a ms H) as (ms1 & H1 & ?).
  destruct (IH _ _ H1) as (ms2 & ? & ?). exists ms2. set_solver.
Qed.

Lemma group_fold_here l g m k a :
  group_inv (fun _ _ => True) g -> m ∈ l -> k ∈ meeting_agentIds m ->
  find_agent agents k = Some a ->
  exists ms, (k, (a, ms)) ∈ fold_left (group_meeting agents) l g /\ m ∈ ms.
Proof.
  revert g. induction l as [|m0 l IH]; intros g Hg Hm Hk Ha; simpl; [set_solver|].
  apply elem_of_cons in Hm as [->|Hm].
  - destruct (group_meeting_here g m0 k a) as (ms & H & ?); [done..|].
    destruct (group_fold_mono l _ _ _ _ H) as (ms' & ? & ?). exists ms'. set_solver.
  - apply IH; [|done..]. by apply group_meeting_inv.
Qed.
End GroupingFacts.


Lemma elem_of_filter_completed m l :
  m ∈ List.filter is_completed l <-> m ∈ l /\ meeting_status m = Completed.
Proof.
  rewrite !list_elem_of_In, filter_In. unfold is_completed.
  by rewrite bool_decide_eq_true.
Qed.

Lemma elem_of_sorted_groups getTime k a ms (g : Grouped) :
  (k, (a, ms)) ∈ (fun '(k, (a, ms)) => (k, (a, js_sort (by_recent getTime) ms))) <$> g <->
  exists ms0, (k, (a, ms0)) ∈ g /\ ms = js_sort (by_recent getTime) ms0.
Proof.
  rewrite list_elem_of_fmap. split.
  - intros ([k' [a' ms']] & E & H). injection E as -> -> ->. eauto.
  - intros (ms0 & H & ->). by exists (k, (a, ms0)).
Qed.

Lemma elem_of_js_sort {A} (cmp : A -> A -> Z) x l : x ∈ js_sort cmp l <-> x ∈ l.
Proof. by rewrite (js_sort_perm cmp l). Qed.

(** C39: [meetingsByAgent] groups exactly the completed meetings under
    each of their known agents: the groups have distinct agent ids, each
    the id of the agent [find] returns; a group holds only completed
    meetings of the repository's list that name its agent, most recent
    first; and every completed meeting appears under every known agent it
    names. *)
Theorem meetingsByAgent_spec getTime agents meetings :
  let g := meetingsByAgent getTime agents meetings in
  NoDup (fst <$> g) /\
  (forall k a ms, (k, (a, ms)) ∈ g ->
     find_agent agents k = Some a /\
     Sorted (fun m1 m2 => getTime (meeting_scheduledAt m2) <= getTime (meeting_scheduledAt m1))%Z ms /\
     forall m, m ∈ ms -> m ∈ meetings /\ meeting_status m = Completed /\ k ∈ meeting_agentIds m) /\
  (forall m k a, m ∈ meetings -> meeting_status m = Completed -> k ∈ meeting_agentIds m ->
     find_agent agents k = Some a -> exists ms, (k, (a, ms)) ∈ g /\ m ∈ ms).
Proof.
  unfold meetingsByAgent. simpl.
  set (l := List.filter is_completed meetings).
  set (P := fun k m => m ∈ meetings /\ meeting_status m = Completed /\ k ∈ meeting_agentIds m).
  assert (group_inv agents P (fold_left (group_meeting agents) l [])) as [Hnd Hg].
  { apply group_fold_inv; [split; [constructor|set_solver]|].
    intros m k Hm Hk. apply elem_of_filter_completed in Hm as [? ?]. by repeat split. }
  split_and!.
  - rewrite <- list_fmap_compose.
    erewrite list_fmap_ext; [done|]. by intros _ [? [? ?]] _.
  - intros k a ms (ms0 & H & ->)%elem_of_sorted_groups.
    destruct (Hg _ _ _ H) as [? Hms]. split_and!; [done| |].
    + apply (Sorted_weaken
        (fun a b => - getTime (meeting_scheduledAt a) <= - getTime (meeting_scheduledAt b))%Z);
        [intros x y Hxy; lia|].
      apply js_sort_sorted. intros x y. unfold by_recent. lia.
    + intros m Hm%elem_of_js_sort. by apply Hms.
  - intros m k a Hm Hc Hk Ha.
    destruct (group_fold_here agents l [] m k a) as (ms & ? & ?);
      [split; [constructor|set_solver]|by apply elem_of_filter_completed|done..|].
    exists (js_sort (by_recent getTime) ms). rewrite elem_of_sorted_groups, elem_of_js_sort. eauto.
Qed.

(** ** The expanded groups up to their reading *)

#[export] Instance groups_equiv_equiv : Equivalence groups_equiv.
Proof.
  split; [by intros m g | by intros m1 m2 H g | intros m1 m2 m3 H1 H2 g; by rewrite H1].
Qed.

#[export] Instance is_expanded_proper : Proper (groups_equiv ==> eq ==> eq) is_expanded.
Proof. intros m1 m2 H g ? <-. apply H. Qed.

Lemma is_expanded_insert m g h b :
  is_expanded (<[g := b]> m) h = if decide (g = h) then b else is_expanded m h.
Proof.
  unfold is_expanded. case_decide as E;
    [subst; by rewrite lookup_insert_eq | by rewrite lookup_insert_ne].
Qed.

(** [toggleGroup]'s update reads the map only through [is_expanded]. *)
#[export] Instance toggle_proper g :
  Proper (groups_equiv ==> groups_equiv) (fun m => <[g := negb (is_expanded m g)]> m).
Proof. intros m1 m2 H h. rewrite !is_expanded_insert, H. case_decide; [done|apply H]. Qed.

#[export] Instance chrome_equiv_equiv : Equivalence chrome_equiv.
Proof.
  split.
  - intros s. split; [reflexivity|done].
  - intros s1 s2 [H1 H2]. split; [by symmetry|done].
  - intros s1 s2 s3 [H1 H2] [H3 H4]. split; [by etrans|congruence].
Qed.

Lemma chrome_equiv_fields s1 s2 :
  chrome_equiv s1 s2 ->
  groups_equiv (expandedGroups s1) (expandedGroups s2) /\
  s2 = with_groups s1 (expandedGroups s2).
Proof.
  destruct s1, s2. unfold chrome_equiv, with_groups. simpl.
  intros [H E]. injection E. intros. subst. done.
Qed.

(** Every handler maps equivalent states to equivalent states. *)
#[export] Instance handle_proper p ev :
  Proper (chrome_equiv ==> chrome_equiv) (fun s => (handle p s ev).1).
Proof.
  intros s1 s2 [Hg ->]%chrome_equiv_fields. destruct s1. simpl in *.
  destruct ev; simpl; try (split; [done|reflexivity]).
  - split; [by apply toggle_proper|done].
  - destruct currentAutomation0; (split; [done|reflexivity]).
Qed.

(** What is rendered reads the map only through [is_expanded]. *)
#[export] Instance view_proper getTime formatDate p :
  Proper (chrome_equiv ==> eq) (view getTime formatDate p).
Proof.
  intros s1 s2 [Hg ->]%chrome_equiv_fields.
  unfold view, with_groups, past_session_views, detail_shown, detail_view.
  cbn -[meetingsByAgent].
  rewrite !(Hg "all-automations"), !(Hg "drafts"). f_equal.
  apply list_fmap_ext. intros _ [k [a ms]] _. by rewrite Hg.
Qed.

(** ** Properties *)

Section Properties.
Variable getTime : string -> Z.
Variable formatDate : string -> string.

Lemma view_no_detail_default s : v_detail (view getTime formatDate default_props s) = None.
Proof. unfold view, detail_shown. by destruct (selectedSession s). Qed.

Lemma view_children_default s : v_children (view getTime formatDate default_props s) = true.
Proof. unfold view, detail_shown. by destruct (selectedSession s). Qed.

Lemma available_default_detail s ev :
  available getTime default_props s ev ->
  match ev with
  | EvBackToDashboard | EvTogglePlay | EvOpenConfig _ _ _ => False
  | _ => True
  end.
Proof.
  intros H. destruct ev; try exact I; simpl in H; unfold detail_shown in H;
    destruct (selectedSession s); simpl in H; try done; by destruct H.
Qed.


(** C28: On every page of the repository ([<TacitChrome>] without props,
    so [showSessionDetail] is [false]) the session detail view never
    renders: picking a session in the sidebar leaves the page content in
    place, the configuration drawer never opens, no automation is selected
    and no asset is ever generated. *)
Theorem chrome_default_no_automation s :
  reachable getTime default_props s ->
  currentAutomation s = None /\ isConfigDrawerOpen s = false /\ generatedAssets s = [] /\
  v_detail (view getTime formatDate default_props s) = None /\
  v_children (view getTime formatDate default_props s) = true.
Proof.
  intros Hr. rewrite view_no_detail_default, view_children_default.
  induction Hr as [|s ev Hr IH Hav]; [done|].
  apply available_default_detail in Hav. destruct IH as (Hc & Hd & Ha & _).
  destruct s; simpl in *; subst; destruct ev; done.
Qed.

Lemma toggle_twice_equiv p s g :
  chrome_equiv (handle p (handle p s (EvToggleGroup g)).1 (EvToggleGroup g)).1 s.
Proof.
  destruct s. split; [|done]. intros h. simpl. rewrite !is_expanded_insert.
  case_decide; [subst; by rewrite decide_True, negb_involutive|done].
Qed.

(** Toggling a sidebar group twice renders exactly what was rendered
    before. *)
Theorem toggle_group_twice_view p s g :
  view getTime formatDate p (handle p (handle p s (EvToggleGroup g)).1 (EvToggleGroup g)).1 =
  view getTime formatDate p s.
Proof. by rewrite toggle_twice_equiv. Qed.

End Properties.

(** Only up to the equivalence: toggling a group that the initial map does
    not list twice leaves an explicit [false] behind. *)
Example toggle_twice_changes_map :
  expandedGroups (handle default_props (handle default_props initial_chrome
    (EvToggleGroup "agent_3")).1 (EvToggleGroup "agent_3")).1 <> initial_expanded.
Proof. intros H. apply (f_equal (lookup "agent_3")) in H. vm_compute in H. discriminate. Qed.

(** ** Witnesses and examples on the mock data *)

(** The clock [new Date(s).getTime()] is irrelevant to the mock data: one
    meeting is completed. *)
Definition zero_time (_ : string) : Z := 0%Z.

Definition first_meeting : Meeting :=
  default (mkMeeting "" "" "" Completed "" [] None None None None None) (head MockData.meetings).

(** The sidebar of the first render: one group, the SOC2 Auditor's, open
    on its one completed session; then the automations and drafts. *)
Example initial_sidebar :
  v_past_sessions (view zero_time id default_props initial_chrome) =
    [mkGroupView "agent_1" "woman" "SOC2 Auditor" true (Some ["Q4 Security Review"])] /\
  gv_items (v_automations (view zero_time id default_props initial_chrome)) =
    Some ["Meeting Summary to PDF"; "Action Items Extraction"].
Proof. split; vm_compute; reflexivity. Qed.

(** An unknown agent id prints as an empty entry of the join: the
    breadcrumb reads ", SOC2 Auditor", and two unknown ids give ", "
    instead of the "Unknown Agent" fallback. *)
Example agent_names_unknown_entry :
  agent_names_text MockData.agents ["agent_9"; "agent_1"] "Unknown Agent" = ", SOC2 Auditor" /\
  agent_names_text MockData.agents ["agent_8"; "agent_9"] "Unknown Agent" = ", " /\
  agent_names_text MockData.agents ["agent_9"] "Unknown Agent" = "Unknown Agent".
Proof. split_and!; vm_compute; reflexivity. Qed.

Definition after_open_session : ChromeState :=
  (handle default_props initial_chrome (EvOpenSession first_meeting)).1.

Lemma chrome_default_no_automation_witness :
  currentAutomation after_open_session = None /\ isConfigDrawerOpen after_open_session = false /\
  generatedAssets after_open_session = [] /\
  v_detail (view zero_time id default_props after_open_session) = None /\
  v_children (view zero_time id default_props after_open_session) = true.
Proof.
  apply (chrome_default_no_automation zero_time id).
  apply (reach_step zero_time default_props initial_chrome); [constructor|].
  exists "agent_1", (default (mkAgent "" "" "" "" Active [] None None None) (head MockData.agents)),
         [first_meeting].
  split_and!; decide_goal.
Defined.

Definition detail_props : ChromeProps := mkProps true false.

Definition detail_run : ChromeState :=
  let s1 := (handle detail_props initial_chrome (EvOpenSession first_meeting)).1 in
  let s2 := (handle detail_props s1 (EvOpenConfig summary "Generate Summary" "page-facing-up")).1 in
  (handle detail_props s2 (EvRunAutomation 1700000000000 "January 10, 2024 at 10:00 AM")).1.

(** With [showSessionDetail] set, the automation flow works: opening
    a session, applying "Generate Summary" and running it is a reachable
    path whose result lists one asset, named after the automation's type
    and the clock, with the drawer closed again. *)
Example detail_props_generate_asset :
  reachable zero_time detail_props detail_run /\
  generatedAssets detail_run =
    [mkAsset "asset-summary-1700000000000" summary "Generate Summary" "page-facing-up"
             "January 10, 2024 at 10:00 AM"] /\
  isConfigDrawerOpen detail_run = false.
Proof.
  split_and!; [|vm_compute; reflexivity..].
  apply reach_step; [|exact I].
  apply reach_step;
    [|split; [reflexivity|exists "Create a comprehensive summary of the session"; decide_goal]].
  apply reach_step; [constructor|].
  exists "agent_1", (default (mkAgent "" "" "" "" Active [] None None None) (head MockData.agents)),
         [first_meeting].
  split_and!; decide_goal.
Qed.

End Chrome.
