(* ===== verification/Meetings.v ===== *)
(** * Meetings: the meetings page and the three dialogs it opens

    - [ScheduleModal]: [components/modals/ScheduleMeetingModal.tsx], a form
      with a link, one agent picked among the active agents, and a
      description; [handleSubmit] hands a trimmed payload to [onSchedule]
      and resets the form;
    - [ConnectModal]: [components/modals/ConnectGoogleCalendarModal.tsx],
      whose button calls [onConnect] and closes the dialog;
    - [ImportModal]: [components/modals/ImportGoogleCalendarModal.tsx], a
      set of selected calendar events (a JavaScript [Set], iterated in
      insertion order: a duplicate-free list here) and an agent per
      selected event; [handleImport] hands one entry per selected event to
      [onImport] and resets;
    - [MeetingsPage]: [app/meetings/page.tsx], the search filter, the
      cards, and the page state that owns the three dialogs' [open] flags
      and the calendar connection. [step] composes a dialog's handler with
      the page's callbacks the way the props wire them.

    [alert] is an output message; [console.log] is not modelled. *)

From S2P Require Import Spec2Rocq.
From S2P Require Import Types.
From S2P Require Import MockData.
From S2P Require Import JsString.
Import Types.
Import JsString.

Module MeetingAgents.

(** [agents.filter(a => a.status === 'Active')], read by both dialogs. *)
Definition activeAgents : list Agent :=
  List.filter (fun a => bool_decide (agent_status a = Active)) MockData.agents.

Definition is_active_agent (i : string) : Prop := i ∈ agent_id <$> activeAgents.

(** [activeAgents.find(a => a.id === selectedAgentId)?.name || "Selected"] *)
Definition picked_agent_label (i : string) : string :=
  match List.find (fun a => agent_id a === i) activeAgents with
  | Some a => js_or (agent_name a) "Selected"
  | None => "Selected"
  end.

(** An item of the agent menu both dialogs render: the agent's id, name
    and persona, and whether it is the checked one; the menu is the
    items, or the disabled "No active agents available". *)
Record AgentItem := mkAgentItem {
  ai_id : string;
  ai_name : string;
  ai_persona : string;
  ai_checked : bool
}.

Inductive AgentMenu := AgentItems (items : list AgentItem) | NoActiveAgents.

End MeetingAgents.
Import MeetingAgents.

Module ScheduleModal.

Record ScheduleState := mkSchedule {
  meetingLink : string;
  selectedAgentId : option string;
  description : string;
  isAgentDropdownOpen : bool
}.

Definition initial_schedule : ScheduleState := mkSchedule "" None "" false.

(** The argument of [onSchedule]. *)
Record SchedulePayload := mkSchedulePayload {
  sp_meetingLink : string;
  sp_agentIds : list string;
  sp_description : string
}.

(** [meetingLink.trim() && selectedAgentId && description.trim()] *)
Definition can_submit (st : ScheduleState) : bool :=
  negb (js_blank (meetingLink st)) && bool_decide (selectedAgentId st <> None)
  && negb (js_blank (description st)).

(** [handleSubmit] (lines 50-64): the new form, and the payload handed to
    [onSchedule] (after which [onOpenChange(false)] closes the dialog). *)
Definition handleSubmit (st : ScheduleState) : ScheduleState * option SchedulePayload :=
  match selectedAgentId st with
  | Some a =>
      if negb (js_blank (meetingLink st)) && negb (js_blank (description st)) then
        (mkSchedule "" None "" (isAgentDropdownOpen st),
         Some (mkSchedulePayload (js_trim (meetingLink st)) [a] (js_trim (description st))))
      else (st, None)
  | None => (st, None)
  end.

(** The submit button's [disabled] (line 192). *)
Definition submit_disabled (st : ScheduleState) : bool :=
  js_blank (meetingLink st) || bool_decide (selectedAgentId st = None)
  || js_blank (description st).

(** The dropdown trigger's text (lines 112-114). *)
Definition trigger_label (st : ScheduleState) : string :=
  match selectedAgentId st with
  | Some i => if i === "" then "Choose an agent..." else picked_agent_label i
  | None => "Choose an agent..."
  end.

(** The menu's items (lines 120-154): [isSelected] is
    [selectedAgentId === agent.id]. *)
Definition schedule_menu (sel : option string) : AgentMenu :=
  match activeAgents with
  | [] => NoActiveAgents
  | l => AgentItems ((fun a => mkAgentItem (agent_id a) (agent_name a) (agent_persona a)
                                  (bool_decide (sel = Some (agent_id a)))) <$> l)
  end.

(** The dialog's form (lines 80-196): the link, the trigger's text and
    whether it is muted, the menu while the dropdown is open, the badge
    under it while an agent is selected (the agent's name, [undefined]
    when it is not an active one), the description and the submit
    button's [disabled]. *)
Record ScheduleView := mkScheduleView {
  sv_link : string;
  sv_trigger : string;
  sv_trigger_muted : bool;
  sv_menu : option AgentMenu;
  sv_badge : option (option string);
  sv_description : string;
  sv_submit_disabled : bool
}.

Definition schedule_view (st : ScheduleState) : ScheduleView :=
  let picked := match selectedAgentId st with
                | Some i => if i === "" then None else Some i
                | None => None
                end in
  mkScheduleView (meetingLink st) (trigger_label st) (bool_decide (picked = None))
    (if isAgentDropdownOpen st then Some (schedule_menu (selectedAgentId st)) else None)
    ((fun i => agent_name <$> List.find (fun a => agent_id a === i) activeAgents) <$> picked)
    (description st) (submit_disabled st).

Inductive ScheduleEvent :=
| SSetLink (v : string)
| SSetDescription (v : string)
| SSetDropdown (b : bool)
| SPickAgent (agentId : string)     (* a [DropdownMenuItem] *)
| SSubmit.

(** The dialog's handlers; [SSubmit] gives the payload for [onSchedule]. *)
Definition schedule_handle (st : ScheduleState) (ev : ScheduleEvent)
  : ScheduleState * option SchedulePayload :=
  match ev with
  | SSetLink v => (mkSchedule v (selectedAgentId st) (description st) (isAgentDropdownOpen st), None)
  | SSetDescription v =>
      (mkSchedule (meetingLink st) (selectedAgentId st) v (isAgentDropdownOpen st), None)
  | SSetDropdown b => (mkSchedule (meetingLink st) (selectedAgentId st) (description st) b, None)
  | SPickAgent i => (mkSchedule (meetingLink st) (Some i) (description st) false, None)
  | SSubmit => handleSubmit st
  end.


End ScheduleModal.

Module ConnectModal.

(** What the dialog shows (lines 49-85): the already-connected note or the
    permissions list, the first button's label, and whether the connect
    button is there. *)
Record ConnectView := mkConnectView {
  cv_already_connected : bool;
  cv_cancel_label : string;
  cv_connect_button : bool
}.

Definition connect_view (isConnected : bool) : ConnectView :=
  mkConnectView isConnected (if isConnected then "Close" else "Cancel") (negb isConnected).

End ConnectModal.

Module ImportModal.

(** [interface GoogleCalendarEvent] (lines 26-33). *)
Record CalendarEvent := mkEvent {
  ev_id : string;
  ev_title : string;
  ev_start : string;
  ev_end : string;
  ev_link : string;
  ev_description : string
}.

Record ImportState := mkImport {
  selectedEvents : list string;           (* a Set, in insertion order *)
  eventAgents : gmap string string
}.

Definition initial_import : ImportState := mkImport [] ∅.

(** One entry of the argument of [onImport]. *)
Record ImportedMeeting := mkImported {
  im_eventId : string;
  im_agentIds : list string;
  im_context : string
}.

(** [toggleEvent] (lines 55-66): a selected event is removed with its
    agent; another is appended. *)
Definition toggleEvent (st : ImportState) (eventId : string) : ImportState :=
  if bool_decide (eventId ∈ selectedEvents st) then
    mkImport (List.filter (fun e => negb (e === eventId)) (selectedEvents st))
             (delete eventId (eventAgents st))
  else mkImport (selectedEvents st ++ [eventId]) (eventAgents st).

(** The dropdown item's [setEventAgents({ ...eventAgents, [event.id]: agent.id })]. *)
Definition assignAgent (st : ImportState) (eventId agentId : string) : ImportState :=
  mkImport (selectedEvents st) (<[eventId := agentId]> (eventAgents st)).

(** [handleImport] (lines 68-79): the entries for [onImport], then the
    reset. An agent id is kept when truthy. *)
Definition handleImport (events : list CalendarEvent) (st : ImportState)
  : ImportState * list ImportedMeeting :=
  (initial_import,
   (fun eventId =>
      mkImported eventId
        (match eventAgents st !! eventId with
         | Some a => if String.eqb a "" then [] else [a]
         | None => []
         end)
        (js_or (default "" (ev_description <$> List.find (fun e => ev_id e === eventId) events)) ""))
     <$> selectedEvents st).

(** The Import button's [disabled] and label (lines 214-216). *)
Definition import_disabled (st : ImportState) : bool := bool_decide (selectedEvents st = []).

Definition import_label (st : ImportState) : string :=
  match selectedEvents st with
  | [] => "Import "
  | l => "Import (" ++ pretty (N.of_nat (length l)) ++ ")"
  end.

(** The dialog's body (lines 97-206), as data. A selected event's card
    shows the agent picker: its label and the menu of active agents with
    the checked one, or the disabled "No active agents available". *)

Record EventCard := mkEventCard {
  ec_key : string;
  ec_selected : bool;
  ec_title : string;
  ec_start : string;
  ec_description : option string;
  ec_picker : option (string * AgentMenu)
}.

Inductive ImportBody := NoEvents | EventCards (cards : list EventCard).

(** The picker's label (lines 148-150): the assigned agent's name when
    [eventAgents[event.id]] is truthy. *)
Definition picker_label (sel : option string) : string :=
  match sel with
  | Some a => if a === "" then "Choose an agent..." else picked_agent_label a
  | None => "Choose an agent..."
  end.

(** The menu (lines 157-193): [isAgentSelected] is [selectedAgentId === agent.id]. *)
Definition agent_menu (sel : option string) : AgentMenu :=
  match activeAgents with
  | [] => NoActiveAgents
  | l => AgentItems ((fun a => mkAgentItem (agent_id a) (agent_name a) (agent_persona a)
                                  (bool_decide (sel = Some (agent_id a)))) <$> l)
  end.

Section View.
(** [new Date(event.start).toLocaleString()]. *)
Variable toLocaleString : string -> string.

Definition event_card (st : ImportState) (ev : CalendarEvent) : EventCard :=
  let isSelected := bool_decide (ev_id ev ∈ selectedEvents st) in
  let sel := eventAgents st !! ev_id ev in
  mkEventCard (ev_id ev) isSelected (ev_title ev) (toLocaleString (ev_start ev))
    (if ev_description ev === "" then None else Some (ev_description ev))
    (if isSelected then Some (picker_label sel, agent_menu sel) else None).

Definition import_body (events : list CalendarEvent) (st : ImportState) : ImportBody :=
  match events with
  | [] => NoEvents
  | _ => EventCards (event_card st <$> events)
  end.
End View.

End ImportModal.

Module MeetingsPage.
Import ScheduleModal ImportModal.

(** The page's state (lines 20-24) with the state of the dialogs it
    mounts (they stay mounted while closed, so their state persists). *)
Record MeetingsState := mkMeetings {
  searchQuery : string;
  isModalOpen : bool;
  isConnectModalOpen : bool;
  isImportModalOpen : bool;
  isGoogleCalendarConnected : bool;
  schedule : ScheduleState;
  import : ImportState
}.

Definition initial_meetings : MeetingsState :=
  mkMeetings "" false false false false initial_schedule initial_import.

(** [filteredMeetings] (lines 26-29). *)
Definition matches_meeting (q : string) (m : Meeting) : bool :=
  js_includes (js_toLowerCase (meeting_title m)) (js_toLowerCase q)
  || js_includes (js_toLowerCase (meeting_description m)) (js_toLowerCase q).

Definition filteredMeetings (q : string) (ms : list Meeting) : list Meeting :=
  List.filter (matches_meeting q) ms.

(** [handleScheduleMeeting] (lines 31-43): the alert, naming each agent or
    ['Unknown']. *)
Definition handleScheduleMeeting (p : SchedulePayload) : string :=
  "Meeting with " ++
  js_join ", " ((fun i => Some (match List.find (fun a => agent_id a === i) MockData.agents with
                                | Some a => js_or (agent_name a) "Unknown"
                                | None => "Unknown"
                                end)) <$> sp_agentIds p)
  ++ " would be scheduled.".

Definition connect_alert : string := "Google Calendar connected! (This is a demo)".

(** [handleImportMeetings] (lines 51-59). *)
Definition handleImportMeetings (l : list ImportedMeeting) : string :=
  pretty (N.of_nat (length l)) ++ " meeting(s) imported with agents assigned!".

(** [mockGoogleCalendarEvents] (lines 62-87). *)
Definition mockGoogleCalendarEvents : list CalendarEvent := [
  mkEvent "google_event_1" "Team Standup" "2025-11-25T10:00:00Z" "2025-11-25T10:30:00Z"
    "https://meet.google.com/standup-123" "Daily team standup meeting";
  mkEvent "google_event_2" "Client Presentation" "2025-11-25T14:00:00Z" "2025-11-25T15:00:00Z"
    "https://zoom.us/j/client-presentation" "Present Q4 results to client";
  mkEvent "google_event_3" "Product Review" "2025-12-25T11:00:00Z" "2025-12-25T12:00:00Z"
    "https://meet.google.com/product-review" "Review product roadmap and features"
]%string.

(** [getStatusBadge] (lines 100-113): variant and label; the [default]
    branch is unreachable for the typed status. *)
Definition getStatusBadge (s : MeetingStatus) : string * string :=
  match s with
  | Scheduled => ("outline", "Scheduled")
  | InProgress => ("default", "In Progress")
  | Completed => ("secondary", "Completed")
  | Cancelled => ("destructive", "Cancelled")
  end.

(** [getMeetingAgents] (lines 115-117): in the order of [agents], not of
    the ids. *)
Definition getMeetingAgents (agentIds : list string) : list Agent :=
  List.filter (fun a => bool_decide (agent_id a ∈ agentIds)) MockData.agents.

(** [documents.filter(doc => doc.sourceId === meeting.id || doc.source === 'meeting').length] *)
Definition documentCount (m : Meeting) : nat :=
  length (List.filter (fun d => bool_decide (document_sourceId d = Some (meeting_id m))
                                || bool_decide (document_source d = Some "meeting"))
                      MockData.documents).

(** One meeting card (lines 197-260). *)
Record MeetingCard := mkCard {
  card_title : string;
  card_badge : string * string;
  card_description : string;
  card_date : string;
  card_duration : option string;
  card_agents : option (list string * option nat);   (* two names, and "+n" *)
  card_documents : option (nat * string)             (* count and "s" or "" *)
}.

Section Cards.
(** [formatDate] (lines 89-98): [toLocaleDateString]. *)
Variable formatDate : string -> string.

Definition meeting_card (m : Meeting) : MeetingCard :=
  let ags := getMeetingAgents (meeting_agentIds m) in
  let n := documentCount m in
  mkCard (meeting_title m) (getStatusBadge (meeting_status m)) (meeting_description m)
    (formatDate (meeting_scheduledAt m))
    (match meeting_duration m with
     | Some d => if String.eqb d "" then None else Some d
     | None => None
     end)
    (match ags with
     | [] => None
     | _ => Some (agent_name <$> take 2 ags,
                  if 2 <? length ags then Some (length ags - 2) else None)
     end)
    (if 0 <? n then Some (n, if n =? 1 then "" else "s") else None).

(** The list part of the page (lines 189-287): the cards, or the empty
    state with its message and whether the call to action shows. *)
Inductive MeetingsBody :=
| Cards (cards : list MeetingCard)
| Empty (message : string) (call_to_action : bool).

Definition meetings_body (st : MeetingsState) : MeetingsBody :=
  match filteredMeetings (searchQuery st) MockData.meetings with
  | [] =>
      if String.eqb (searchQuery st) ""
      then Empty "Get started by scheduling your first meeting" true
      else Empty "Try adjusting your search terms" false
  | l => Cards (meeting_card <$> l)
  end.
End Cards.

(** The page's gestures and those of its dialogs. *)
Inductive MeetingsEvent :=
| MSetSearch (q : string)
| MOpenSchedule                      (* header button or empty-state button *)
| MOpenConnect                       (* shown while not connected *)
| MOpenImport                        (* shown once connected *)
| MClickCard (m : Meeting)
| MSchedule (e : ScheduleEvent)
| MCloseSchedule                     (* Cancel, Escape or the overlay *)
| MConnect                           (* the dialog's Connect button *)
| MCloseConnect
| MToggleEvent (eventId : string)
| MAssignAgent (eventId agentId : string)
| MImport
| MCloseImport.

(** What a gesture asks of the browser. *)
Record MeetingsOutput := mkMOut {
  mo_alert : option string;
  mo_route : option string;
  mo_imported : list ImportedMeeting
}.

Definition mquiet : MeetingsOutput := mkMOut None None [].

Definition step (st : MeetingsState) (ev : MeetingsEvent) : MeetingsState * MeetingsOutput :=
  let 'mkMeetings q sm cm im conn sch imp := st in
  match ev with
  | MSetSearch q' => (mkMeetings q' sm cm im conn sch imp, mquiet)
  | MOpenSchedule => (mkMeetings q true cm im conn sch imp, mquiet)
  | MOpenConnect => (mkMeetings q sm true im conn sch imp, mquiet)
  | MOpenImport => (mkMeetings q sm cm true conn sch imp, mquiet)
  | MClickCard m => (st, mkMOut None (Some ("/meetings/" ++ meeting_id m)%string) [])
  | MSchedule e =>
      match schedule_handle sch e with
      | (sch', Some p) =>
          (* onSchedule, then onOpenChange(false) *)
          (mkMeetings q false cm im conn sch' imp, mkMOut (Some (handleScheduleMeeting p)) None [])
      | (sch', None) => (mkMeetings q sm cm im conn sch' imp, mquiet)
      end
  | MCloseSchedule => (mkMeetings q false cm im conn sch imp, mquiet)
  | MConnect =>
      (* handleConnect: onConnect(), then onOpenChange(false) *)
      (mkMeetings q sm false im true sch imp, mkMOut (Some connect_alert) None [])
  | MCloseConnect => (mkMeetings q sm false im conn sch imp, mquiet)
  | MToggleEvent e => (mkMeetings q sm cm im conn sch (toggleEvent imp e), mquiet)
  | MAssignAgent e a => (mkMeetings q sm cm im conn sch (assignAgent imp e a), mquiet)
  | MImport =>
      let '(imp', l) := handleImport mockGoogleCalendarEvents imp in
      (mkMeetings q sm cm false conn sch imp', mkMOut (Some (handleImportMeetings l)) None l)
  | MCloseImport => (mkMeetings q sm cm false conn sch imp, mquiet)
  end.

(** The gestures a rendered control allows: a dialog's controls only while
    it is open, the header's calendar button by the connection, a card
    only when listed, a dropdown item only for an active agent and a
    selected event, the disabled buttons never. *)
Definition available (st : MeetingsState) (ev : MeetingsEvent) : Prop :=
  match ev with
  | MOpenConnect => isGoogleCalendarConnected st = false
  | MOpenImport => isGoogleCalendarConnected st = true
  | MClickCard m => m ∈ filteredMeetings (searchQuery st) MockData.meetings
  | MSchedule e =>
      isModalOpen st = true /\
      match e with
      | SPickAgent i => is_active_agent i
      | SSubmit => submit_disabled (schedule st) = false
      | _ => True
      end
  | MCloseSchedule => isModalOpen st = true
  | MConnect => isConnectModalOpen st = true /\ isGoogleCalendarConnected st = false
  | MCloseConnect => isConnectModalOpen st = true
  | MToggleEvent e => isImportModalOpen st = true /\ e ∈ ev_id <$> mockGoogleCalendarEvents
  | MAssignAgent e a =>
      isImportModalOpen st = true /\ e ∈ selectedEvents (import st) /\ is_active_agent a
  | MImport => isImportModalOpen st = true /\ import_disabled (import st) = false
  | MCloseImport => isImportModalOpen st = true
  | _ => True
  end.

Inductive reachable : MeetingsState -> Prop :=
| reach_init : reachable initial_meetings
| reach_step st ev : reachable st -> available st ev -> reachable (step st ev).1.

(** ** Properties *)

(** The import dialog's own invariant: the selection has no duplicate,
    holds calendar events only, and agents are assigned to selected events
    and are active. *)
Definition import_ok (st : ImportState) : Prop :=
  NoDup (selectedEvents st) /\
  (forall e, e ∈ selectedEvents st -> e ∈ ev_id <$> mockGoogleCalendarEvents) /\
  (forall e a, eventAgents st !! e = Some a -> e ∈ selectedEvents st /\ is_active_agent a).

Definition schedule_ok (sch : ScheduleState) : Prop :=
  forall i, selectedAgentId sch = Some i -> is_active_agent i.

Definition meetings_inv (st : MeetingsState) : Prop :=
  (isImportModalOpen st = true -> isGoogleCalendarConnected st = true) /\
  import_ok (import st) /\ schedule_ok (schedule st).

Lemma toggle_ok st e :
  import_ok st -> e ∈ ev_id <$> mockGoogleCalendarEvents -> import_ok (toggleEvent st e).
Proof.
  intros (Hnd & Hev & Hag) He. unfold toggleEvent. case_bool_decide as Hin; simpl.
  - split_and!.
    + by apply NoDup_list_filter.
    + intros e' [? _]%elem_of_list_filter_In. auto.
    + intros e' a. cbn [eventAgents selectedEvents]. destruct (decide (e' = e)) as [->|Hne].
      * by rewrite lookup_delete_eq.
      * rewrite lookup_delete_ne by congruence. intros [? ?]%Hag.
        split; [|done]. apply elem_of_list_filter_In. split; [done|].
        apply negb_true_iff, String.eqb_neq. done.
  - split_and!.
    + apply NoDup_app. split_and!; [done| |apply NoDup_singleton]. set_solver.
    + set_solver.
    + intros e' a H. destruct (Hag e' a H). simpl. set_solver.
Qed.

Lemma assign_ok st e a :
  import_ok st -> e ∈ selectedEvents st -> is_active_agent a -> import_ok (assignAgent st e a).
Proof.
  intros (Hnd & Hev & Hag) He Ha. split_and!; [done..|]. simpl.
  intros e' a'. destruct (decide (e' = e)) as [->|Hne].
  - rewrite lookup_insert_eq. by intros [= <-].
  - rewrite lookup_insert_ne by congruence. apply Hag.
Qed.

(** The ids of the checked items of the agent menu. *)
Definition menu_checked (sel : option string) : list string :=
  match agent_menu sel with
  | AgentItems l => ai_id <$> List.filter ai_checked l
  | NoActiveAgents => []
  end.

Lemma active_agent_cases a : is_active_agent a -> a = "agent_1"%string \/ a = "agent_2"%string.
Proof.
  unfold is_active_agent. assert (agent_id <$> activeAgents = ["agent_1"; "agent_2"])%string as -> by reflexivity.
  rewrite !elem_of_cons, elem_of_nil. tauto.
Qed.

(** The picker of an event whose agent is assigned: the event is selected,
    the label is the agent's name (never the fallback "Selected"), and
    the menu checks that agent and no other. *)
Lemma event_card_assigned tl st ev a :
  import_ok st -> eventAgents st !! ev_id ev = Some a ->
  ec_selected (event_card tl st ev) = true /\
  ec_picker (event_card tl st ev) = Some (picker_label (Some a), agent_menu (Some a)) /\
  picker_label (Some a) <> "Selected"%string /\ menu_checked (Some a) = [a].
Proof.
  intros (_ & _ & Hag) Ha. destruct (Hag _ _ Ha) as [Hsel Hact].
  unfold event_card. cbn [ec_selected ec_picker]. rewrite Ha, bool_decide_eq_true_2 by done.
  split_and!; [done|done|..]; destruct (active_agent_cases a Hact) as [->| ->]; vm_compute; congruence.
Qed.

Lemma initial_import_ok : import_ok initial_import.
Proof. split_and!; [constructor|set_solver|done]. Qed.

Lemma schedule_handle_ok sch e :
  schedule_ok sch -> (match e with SPickAgent i => is_active_agent i | _ => True end) ->
  schedule_ok (schedule_handle sch e).1.
Proof.
  intros Hs He. destruct e; simpl; try exact Hs.
  - by intros i [= <-].
  - unfold handleSubmit. destruct (selectedAgentId sch) eqn:E; [|done].
    case_match; [by intros i|done].
Qed.

(** C31: In every state a user reaches on the meetings page, the import
    dialog is open only once the calendar is connected; its selection has
    no duplicate and holds only calendar events; agents are assigned only
    to selected events and are active agents; and the agent picked in the
    schedule dialog is an active agent. *)
Theorem meetings_reachable_inv st : reachable st -> meetings_inv st.
Proof.
  induction 1 as [|st ev Hr IH Hav].
  { split_and!; [done|apply initial_import_ok|done]. }
  destruct IH as (Hconn & Himp & Hsch). destruct st as [q sm cm im conn sch imp].
  simpl in *. destruct ev; simpl in *; try by split_and!.
  1: { destruct Hav as [_ He].
    assert (schedule_ok (schedule_handle sch e).1) as Hs'.
    { apply schedule_handle_ok; [done|]. destruct e; try exact I; exact He. }
    destruct (schedule_handle sch e) as [sch' [p|]]; simpl in *; by split_and!. }
  all: split_and!; try done;
    first [apply initial_import_ok | apply toggle_ok; tauto | apply assign_ok; tauto].
Qed.

Lemma step_import st :
  mo_imported (step st MImport).2 = (handleImport mockGoogleCalendarEvents (import st)).2.
Proof. by destruct st. Qed.

Lemma handleImport_ids events st :
  im_eventId <$> (handleImport events st).2 = selectedEvents st.
Proof.
  simpl. rewrite <- list_fmap_compose. rewrite <- (list_fmap_id (selectedEvents st)) at 2.
  by apply list_fmap_ext.
Qed.

(** C37: Importing from a reachable dialog hands [onImport] one entry per
    selected event, never none and never twice the same event; each entry
    is a calendar event carrying that event's description as context, with
    at most one agent, an active one. *)
Theorem import_entries_ok st :
  reachable st -> available st MImport ->
  let l := mo_imported (step st MImport).2 in
  l <> [] /\ NoDup (im_eventId <$> l) /\
  forall x, x ∈ l -> exists ev, ev ∈ mockGoogleCalendarEvents /\ ev_id ev = im_eventId x /\
    im_context x = ev_description ev /\ Forall is_active_agent (im_agentIds x) /\
    length (im_agentIds x) <= 1.
Proof.
  intros Hr [Hopen Hne]. destruct (meetings_reachable_inv st Hr) as (_ & (Hnd & Hev & Hag) & _).
  simpl. rewrite step_import.
  destruct st as [q sm cm im conn sch [sel ea]]. simpl in Hne, Hnd, Hag.
  split_and!.
  - unfold import_disabled in Hne. simpl in Hne. case_bool_decide; [done|].
    by destruct sel.
  - by rewrite handleImport_ids.
  - intros x (e & -> & He)%list_elem_of_fmap.
    destruct (find_key_some ev_id e mockGoogleCalendarEvents (Hev e He)) as (ev & Hf & Hid & Hin).
    exists ev. cbn [im_eventId im_context im_agentIds eventAgents]. rewrite Hf.
    cbn [fmap option_fmap option_map default]. rewrite js_or_empty_fallback.
    split_and!; [done..| |].
    + case_match; [|constructor].
      case_match; [constructor|]. constructor; [|constructor]. by eapply Hag.
    + repeat case_match; simpl; lia.
Qed.

(** C38: Submitting the schedule dialog from a reachable state (the button
    being enabled) alerts the name of the agent picked, never "Unknown",
    closes the dialog and resets the form. *)
Theorem schedule_submit_alert st :
  reachable st -> available st (MSchedule SSubmit) ->
  exists a, a ∈ activeAgents /\ selectedAgentId (schedule st) = Some (agent_id a) /\
    mo_alert (step st (MSchedule SSubmit)).2 =
      Some ("Meeting with " ++ js_or (agent_name a) "Unknown" ++ " would be scheduled.")%string /\
    isModalOpen (step st (MSchedule SSubmit)).1 = false /\
    schedule (step st (MSchedule SSubmit)).1 =
      mkSchedule "" None "" (isAgentDropdownOpen (schedule st)).
Proof.
  intros Hr [_ Hen]. destruct (meetings_reachable_inv st Hr) as (_ & _ & Hsch).
  destruct st as [q sm cm im conn [link sel desc dd] imp].
  unfold submit_disabled in Hen. simpl in Hen.
  destruct sel as [i|]; [|by rewrite orb_true_r in Hen].
  destruct (js_blank link) eqn:Hl; [done|].
  destruct (js_blank desc) eqn:Hd; [by rewrite orb_true_r in Hen|].
  destruct (list_elem_of_fmap agent_id activeAgents i) as [[a [-> Ha]] _]; [by apply Hsch|].
  exists a. unfold step, schedule_handle, handleSubmit. simpl. rewrite Hl, Hd. simpl.
  split_and!; [done|done| |done|done].
  unfold activeAgents in Ha. simpl in Ha.
  repeat (apply elem_of_cons in Ha as [->|Ha]; [reflexivity|]). by apply elem_of_nil in Ha.
Qed.

(** C34: The document count of a card does not depend on the meeting:
    [doc.source === 'meeting'] holds for both fixture documents, so every
    meeting card, whatever its id, reports two generated documents. *)
Theorem documentCount_ignores_meeting m : documentCount m = 2.
Proof.
  unfold documentCount. simpl. by rewrite !orb_true_r.
Qed.

(** ** The dialogs' renders *)

(** Every active agent has a non-empty id and name and is the one the
    dialogs find by its id. *)
Lemma active_agents_found :
  Forall (fun a => (agent_id a === "") = false /\ agent_name a <> "" /\
                   List.find (fun b => agent_id b === agent_id a) activeAgents = Some a) activeAgents.
Proof. vm_compute. repeat constructor; discriminate. Qed.

(** With an active agent picked, the trigger and the badge both show its
    name, and the trigger is no longer muted. *)
Lemma schedule_view_names_picked st a :
  a ∈ activeAgents -> selectedAgentId st = Some (agent_id a) ->
  sv_trigger (schedule_view st) = agent_name a /\
  sv_badge (schedule_view st) = Some (Some (agent_name a)) /\
  sv_trigger_muted (schedule_view st) = false.
Proof.
  intros Ha Hs. pose proof active_agents_found as Hall. rewrite Forall_forall in Hall.
  destruct (Hall a Ha) as (Hid & Hn & Hf).
  unfold schedule_view, trigger_label, picked_agent_label. rewrite Hs, Hid. cbv beta iota.
  cbn [sv_trigger sv_badge sv_trigger_muted fmap option_fmap option_map]. rewrite !Hf. split_and!; [by apply js_or_nonempty|done|by apply bool_decide_eq_false].
Qed.

(** The two dialogs render the same agent menu for the same selection. *)
Lemma schedule_menu_agrees sel : schedule_menu sel = agent_menu sel.
Proof. reflexivity. Qed.

End MeetingsPage.

(** ** Witnesses *)

Module MeetingsWitnesses.
Import ScheduleModal ImportModal MeetingsPage.

(** Connect the calendar, open the import dialog, select the client
    presentation and give it the SOC2 auditor. *)
Definition import_session : MeetingsState :=
  (step (step (step (step (step initial_meetings MOpenConnect).1 MConnect).1 MOpenImport).1
    (MToggleEvent "google_event_2")).1 (MAssignAgent "google_event_2" "agent_1")).1.

Lemma import_session_reachable : reachable import_session.
Proof.
  apply reach_step; [|split_and!; [reflexivity|decide_goal|decide_goal]].
  apply reach_step; [|split; [reflexivity|decide_goal]].
  apply reach_step; [|reflexivity].
  apply reach_step; [|split; reflexivity].
  apply reach_step; [constructor|reflexivity].
Qed.

Lemma meetings_reachable_inv_witness : meetings_inv import_session.
Proof. apply meetings_reachable_inv. exact import_session_reachable. Defined.

Lemma import_entries_ok_witness :
  let l := mo_imported (step import_session MImport).2 in
  l <> [] /\ NoDup (im_eventId <$> l) /\
  forall x, x ∈ l -> exists ev, ev ∈ mockGoogleCalendarEvents /\ ev_id ev = im_eventId x /\
    im_context x = ev_description ev /\ Forall is_active_agent (im_agentIds x) /\
    length (im_agentIds x) <= 1.
Proof.
  apply import_entries_ok; [exact import_session_reachable|].
  split; [reflexivity|reflexivity].
Defined.

(** Open the schedule dialog, fill the link and the description, and pick
    the product manager. *)
Definition schedule_session : MeetingsState :=
  (step (step (step (step initial_meetings MOpenSchedule).1
    (MSchedule (SSetLink "https://zoom.us/j/1"))).1
    (MSchedule (SSetDescription "Kickoff"))).1 (MSchedule (SPickAgent "agent_2"))).1.

Lemma schedule_submit_alert_witness :
  exists a, a ∈ activeAgents /\ selectedAgentId (schedule schedule_session) = Some (agent_id a) /\
    mo_alert (step schedule_session (MSchedule SSubmit)).2 =
      Some ("Meeting with " ++ js_or (agent_name a) "Unknown" ++ " would be scheduled.")%string /\
    isModalOpen (step schedule_session (MSchedule SSubmit)).1 = false /\
    schedule (step schedule_session (MSchedule SSubmit)).1 =
      mkSchedule "" None "" (isAgentDropdownOpen (schedule schedule_session)).
Proof.
  apply schedule_submit_alert; [|split; reflexivity].
  apply reach_step; [|split; [reflexivity|decide_goal]].
  apply reach_step; [|split; [reflexivity|exact I]].
  apply reach_step; [|split; [reflexivity|exact I]].
  apply reach_step; [constructor|exact I].
Defined.

End MeetingsWitnesses.
