(* ===== verification/Documents.v ===== *)
(** * Documents: the documents page, [app/documents/page.tsx]

    The page loads its list from [/api/documents] when it mounts (an API
    route that is not part of the repository: its answer is an input),
    normalises each document's [sourceId], filters the list by a search
    query, a type and a source, and opens markdown documents in a viewer
    that fetches [/api/documents/<filename>]. The viewer works out the
    file name from [sourceId] or, failing that, from the storage URL.

    - [load_documents] is the mount effect on each outcome of the fetch;
    - [doc_filename] is the file-name computation of [handleViewDocument],
      with [new URL(u).pathname] a parameter ([None] when the constructor
      throws);
    - [view_begin] / [view_finish] split [handleViewDocument] at its
      [await];
    - [documents_body] and [viewer_view] are the list and the viewer as
      rendered; [page_step] is every control of the page on [DocsPage],
      the state with the content requests in flight, whose answers are
      events in any order. *)

From S2P Require Import Spec2Rocq.
From S2P Require Import Types.
From S2P Require Import JsString.
From Stdlib Require Import Ascii.
Import Types.
Import JsString.

Module DocumentsPage.

Record DocumentsState := mkDocs {
  searchQuery : string;
  filterType : string;
  filterSource : string;
  documents : list Document;
  isLoading : bool;
  error : option string;
  selectedDocument : option Document;
  markdownContent : string;
  isLoadingContent : bool
}.

(** The state of the first render (lines 31-39). *)
Definition initial_docs : DocumentsState :=
  mkDocs "" "all" "all" [] true None None "" false.

(** [x?.toLowerCase().includes(q)]: [undefined] is falsy. *)
Definition opt_includes (x : option string) (q : string) : bool :=
  match x with
  | Some s => js_includes (js_toLowerCase s) (js_toLowerCase q)
  | None => false
  end.

(** [filteredDocuments] (lines 41-51). *)
Definition doc_matches (st : DocumentsState) (d : Document) : bool :=
  (js_includes (js_toLowerCase (document_name d)) (js_toLowerCase (searchQuery st))
   || opt_includes (document_description d) (searchQuery st)
   || opt_includes (document_sourceName d) (searchQuery st))
  && ((filterType st === "all") || (document_type d === filterType st))
  && ((filterSource st === "all") || bool_decide (document_source d = Some (filterSource st))).

Definition filteredDocuments (st : DocumentsState) : list Document :=
  List.filter (doc_matches st) (documents st).

(** [getTypeIcon] and [getTypeColor] (lines 53-81); icons by name. *)
Definition getTypeIcon (t : string) : string :=
  if t === "pdf" then "closed-book"
  else if t === "docx" then "blue-book"
  else if t === "markdown" then "memo"
  else "page-facing-up".

Definition getTypeColor (t : string) : string :=
  if t === "pdf" then "bg-red-500/20 text-red-400 border-red-500/30"
  else if t === "docx" then "bg-blue-500/20 text-blue-400 border-blue-500/30"
  else if t === "markdown" then "bg-purple-500/20 text-purple-400 border-purple-500/30"
  else "bg-gray-500/20 text-gray-400 border-gray-500/30".

(** [s || d] on an optional string. *)
Definition opt_or (x : option string) (d : string) : string :=
  match x with Some s => js_or s d | None => d end.

Definition slash : Ascii.ascii := "/"%char.
Definition qmark : Ascii.ascii := "?"%char.

(** A template literal's rendering of an optional string. *)
Definition show_opt (x : option string) : string :=
  match x with Some s => s | None => "undefined" end.

(** [arr.pop()] of a non-empty array: its last element. *)
Definition js_last (l : list string) : string := default "" (last l).

(** [doc.sourceId || doc.id || doc.fileUrl?.split('/').pop() || doc.name]
    (line 107). *)
Definition normalize (d : Document) : Document :=
  let sid :=
    js_or (opt_or (document_sourceId d) (document_id d))
      (js_or (match document_fileUrl d with
              | Some u => js_last (js_split slash u)
              | None => ""
              end) (document_name d)) in
  mkDocument (document_id d) (document_name d) (document_title d) (document_type d)
    (document_description d) (document_sourceName d) (document_createdAt d) (Some sid)
    (document_source d) (document_content d) (document_fileUrl d).

(** What [fetch('/api/documents')] gives: a thrown error with its message,
    a response that is not ok, or the parsed array. *)
Inductive ListFetch :=
| ListThrows (msg : string)
| ListNotOk
| ListOk (docs : list Document).

(** The mount effect (lines 94-122), once the fetch has settled. *)
Definition load_documents (r : ListFetch) (st : DocumentsState) : DocumentsState :=
  let '(docs, err) :=
    match r with
    | ListThrows m => ([], Some m)
    | ListNotOk => ([], Some "Failed to fetch documents")
    | ListOk ds => (normalize <$> ds, None)
    end in
  mkDocs (searchQuery st) (filterType st) (filterSource st) docs false err
    (selectedDocument st) (markdownContent st) (isLoadingContent st).

(** [handleDownload] (lines 124-133): open the file, or alert. *)
Inductive DownloadAction := OpenWindow (url : string) | AlertDownload (msg : string).

Definition handleDownload (d : Document) : DownloadAction :=
  match document_fileUrl d with
  | Some u => if String.eqb u "" then AlertDownload ("Downloading " ++ document_name d ++ "...")
              else OpenWindow u
  | None => AlertDownload ("Downloading " ++ document_name d ++ "...")
  end.

Section Filename.
(** [new URL(u).pathname], [None] when the URL does not parse. *)
Variable url_pathname : string -> option string.

(** [parts[i]] read as a truthy string. *)
Definition truthy_at (l : list string) (i : nat) : option string :=
  match l !! i with Some s => if String.eqb s "" then None else Some s | None => None end.

Definition before_query (s : string) : string := default "" (head (js_split qmark s)).

(** The [URL] branch (lines 157-171). *)
Definition filename_from_path (path : string) : string :=
  let pathParts := List.filter (fun p => negb (String.eqb p "")) (js_split slash path) in
  let bucketIndex := js_findIndex (fun p => p === "k_doc") pathParts in
  match (if (bucketIndex =? -1)%Z then None else truthy_at pathParts (S (Z.to_nat bucketIndex))) with
  | Some f => before_query f
  | None =>
      let lastPart := js_last pathParts in
      if negb (String.eqb lastPart "") && negb (lastPart === "k_doc")
      then before_query lastPart else ""
  end.

(** The [catch] branch (lines 172-181). *)
Definition filename_from_string (u : string) : string :=
  let urlParts := js_split slash u in
  let bucketIndex := js_findIndex (fun p => p === "k_doc") urlParts in
  match (if (bucketIndex =? -1)%Z then None else truthy_at urlParts (S (Z.to_nat bucketIndex))) with
  | Some f => before_query f
  | None => before_query (js_last urlParts)
  end.

(** The [else if (doc.fileUrl)] branch: [URL] parsing, or its [catch]. *)
Definition filename_from_url (d : Document) : string :=
  match document_fileUrl d with
  | Some u => if String.eqb u "" then ""
              else match url_pathname u with
                   | Some p => filename_from_path p
                   | None => filename_from_string u
                   end
  | None => ""
  end.

(** The file name [handleViewDocument] asks for (lines 149-186), or the
    message it throws. *)
Definition doc_filename (d : Document) : string + string :=
  let filename :=
    match document_sourceId d with
    | Some sid => if negb (String.eqb sid "") && negb (sid === "undefined") then sid
                  else filename_from_url d
    | None => filename_from_url d
    end in
  if String.eqb filename "" || (filename === "undefined") then
    inr ("Could not determine filename. sourceId: " ++ show_opt (document_sourceId d)
         ++ ", fileUrl: " ++ show_opt (document_fileUrl d))%string
  else inl filename.

(** What a click on View starts (lines 135-145): a download for a document
    that is not markdown or has no URL; otherwise the viewer opens and
    either fetches [/api/documents/<filename>] or, when no file name can be
    found, shows the error at once (the [throw] happens before any
    [await]). *)
Inductive ViewStart :=
| ViewDownload (a : DownloadAction)
| ViewFetch (filename : string)
| ViewShown.

Definition error_content (m : string) : string := "Error loading document content: " ++ m.

Definition view_begin (d : Document) (st : DocumentsState) : DocumentsState * ViewStart :=
  if negb (document_type d === "markdown") || String.eqb (opt_or (document_fileUrl d) "") ""
  then (st, ViewDownload (handleDownload d))
  else
    match doc_filename d with
    | inl f => (mkDocs (searchQuery st) (filterType st) (filterSource st) (documents st)
                  (isLoading st) (error st) (Some d) "" true, ViewFetch f)
    | inr m => (mkDocs (searchQuery st) (filterType st) (filterSource st) (documents st)
                  (isLoading st) (error st) (Some d) (error_content m) false, ViewShown)
    end.
End Filename.

(** What [fetch('/api/documents/<filename>')] gives: a thrown error, a
    response that is not ok with the [error] field of its body (if the body
    parses), or the [content] field of the body. *)
Inductive ContentFetch :=
| ContentThrows (msg : string)
| ContentNotOk (errorField : option string)
| ContentOk (content : option string).

(** [handleViewDocument] after its [await] (lines 189-202). The content is
    written whether or not the viewer is still open. *)
Definition view_finish (r : ContentFetch) (st : DocumentsState) : DocumentsState :=
  let content :=
    match r with
    | ContentThrows m => error_content m
    | ContentNotOk e => error_content (opt_or e "Failed to fetch document content")
    | ContentOk c => opt_or c ""
    end in
  mkDocs (searchQuery st) (filterType st) (filterSource st) (documents st) (isLoading st)
    (error st) (selectedDocument st) content false.

(** The viewer's [onOpenChange] (lines 352-355). *)
Definition close_viewer (st : DocumentsState) : DocumentsState :=
  mkDocs (searchQuery st) (filterType st) (filterSource st) (documents st) (isLoading st)
    (error st) None "" (isLoadingContent st).

(** ** What the page renders (lines 205-349) *)

(** The filter buttons' labels (lines 233 and 261). *)
Definition type_label (st : DocumentsState) : string :=
  "Type: " ++ (if filterType st === "all" then "All" else string_map upper_ascii (filterType st)).

Definition source_label (st : DocumentsState) : string :=
  "Source: " ++ (if filterSource st === "all" then "All"
                 else if filterSource st === "meeting" then "Meetings" else "Workflows").

(** One row: the name, the formatted date, and whether a View button is
    shown (markdown with a URL). *)
Record DocRow := mkRow { row_name : string; row_date : string; row_view : bool }.

Inductive DocumentsBody :=
| BodyLoading
| BodyError (message : string)
| BodyRows (rows : list DocRow)
| BodyEmpty (message : string).

Section Body.
(** [formatDate] (lines 83-92): [toLocaleDateString]. *)
Variable formatDate : string -> string.

Definition documents_body (st : DocumentsState) : DocumentsBody :=
  if isLoading st then BodyLoading
  else match error st with
  | Some e => BodyError e
  | None =>
      match filteredDocuments st with
      | [] =>
          BodyEmpty (if negb (String.eqb (searchQuery st) "") || negb (filterType st === "all")
                        || negb (filterSource st === "all")
                     then "Try adjusting your search or filters"
                     else "Documents created from meetings and workflows will appear here")
      | l => BodyRows ((fun d => mkRow (document_name d) (formatDate (document_createdAt d))
                                   ((document_type d === "markdown")
                                    && negb (String.eqb (opt_or (document_fileUrl d) "") ""))) <$> l)
      end
  end.
End Body.

(** The two filter menus (lines 238-280): the value each item sets and
    its text. *)
Definition type_filters : list (string * string) :=
  [("all", "All Types"); ("pdf", "PDF"); ("docx", "DOCX"); ("markdown", "Markdown"); ("text", "Text")].

Definition source_filters : list (string * string) :=
  [("all", "All Sources"); ("meeting", "Meetings"); ("workflow", "Workflows")].

(** The viewer dialog (lines 352-412): open while a document is selected,
    titled by its name, described by its description or
    "Markdown document", showing a spinner while the content loads and
    the markdown otherwise. *)
Inductive ViewerBody := ViewerLoading | ViewerMarkdown (content : string).

Record ViewerView := mkViewer { vw_title : string; vw_description : string; vw_body : ViewerBody }.

Definition viewer_view (st : DocumentsState) : option ViewerView :=
  (fun d => mkViewer (document_name d) (opt_or (document_description d) "Markdown document")
              (if isLoadingContent st then ViewerLoading else ViewerMarkdown (markdownContent st)))
  <$> selectedDocument st.

(** ** The page with its requests in flight *)

(** The page's state and the file names of the content fetches not yet
    answered; each answers once, in any order. *)
Record DocsPage := mkPage { page : DocumentsState; in_flight : list string }.

Inductive DocEvent :=
| DSearch (v : string)                    (* line 223 *)
| DFilterType (v : string)                (* lines 238-252 *)
| DFilterSource (v : string)              (* lines 266-274 *)
| DView (d : Document)                    (* line 318 *)
| DDownload (d : Document)                (* line 327 *)
| DCloseViewer                            (* line 352 *)
| DContentReturns (i : nat) (r : ContentFetch).

Section Page.
Variable url_pathname : string -> option string.

Definition page_step (p : DocsPage) (e : DocEvent) : DocsPage * option DownloadAction :=
  let st := page p in
  match e with
  | DSearch v => (mkPage (mkDocs v (filterType st) (filterSource st) (documents st) (isLoading st)
                     (error st) (selectedDocument st) (markdownContent st) (isLoadingContent st))
                   (in_flight p), None)
  | DFilterType v => (mkPage (mkDocs (searchQuery st) v (filterSource st) (documents st) (isLoading st)
                     (error st) (selectedDocument st) (markdownContent st) (isLoadingContent st))
                   (in_flight p), None)
  | DFilterSource v => (mkPage (mkDocs (searchQuery st) (filterType st) v (documents st) (isLoading st)
                     (error st) (selectedDocument st) (markdownContent st) (isLoadingContent st))
                   (in_flight p), None)
  | DView d =>
      let '(st', vs) := view_begin url_pathname d st in
      match vs with
      | ViewDownload a => (mkPage st' (in_flight p), Some a)
      | ViewFetch f => (mkPage st' (in_flight p ++ [f]), None)
      | ViewShown => (mkPage st' (in_flight p), None)
      end
  | DDownload d => (p, Some (handleDownload d))
  | DCloseViewer => (mkPage (close_viewer st) (in_flight p), None)
  | DContentReturns i r =>
      match in_flight p !! i with
      | Some _ => (mkPage (view_finish r st) (delete i (in_flight p)), None)
      | None => (p, None)
      end
  end.

Fixpoint page_run (p : DocsPage) (es : list DocEvent) : DocsPage :=
  match es with
  | [] => p
  | e :: es' => page_run (page_step p e).1 es'
  end.

End Page.

(** ** Properties *)

(** The path of a storage object [/<p1>/.../<pn>/k_doc/<name>], without
    its leading slash. *)
Fixpoint tail_path (ps : list string) (name : string) : string :=
  match ps with
  | [] => "k_doc" ++ String slash name
  | p :: ps' => p ++ String slash (tail_path ps' name)
  end.

Definition plain_segment (p : string) : Prop :=
  p <> "" /\ has_char slash p = false /\ p <> "k_doc".

Lemma split_tail_path ps name :
  Forall plain_segment ps -> has_char slash name = false ->
  js_split slash (tail_path ps name) = ps ++ ["k_doc"; name].
Proof.
  intros Hps Hn. induction Hps as [|p ps [_ [Hp _]] _ IH]; cbn [tail_path].
  - rewrite (js_split_app slash "k_doc" name) by reflexivity. by rewrite js_split_no_sep.
  - by rewrite js_split_app, IH.
Qed.

Lemma filter_nonempty_id l :
  Forall (fun p => p <> "") l -> List.filter (fun p => negb (String.eqb p "")) l = l.
Proof.
  induction 1 as [|p l Hp _ IH]; simpl; [done|].
  by rewrite (proj2 (String.eqb_neq _ _) Hp), IH.
Qed.

Lemma filter_nonempty_cons_empty l :
  List.filter (fun p => negb (String.eqb p "")) ("" :: l) =
  List.filter (fun p => negb (String.eqb p "")) l.
Proof. done. Qed.

Lemma findIndex_bucket ps name :
  Forall plain_segment ps ->
  js_findIndex (fun p => p === "k_doc") (ps ++ ["k_doc"; name]) = Z.of_nat (length ps).
Proof.
  intros Hps. apply (js_findIndex_first _ _ _ "k_doc").
  - by rewrite lookup_app_r, Nat.sub_diag.
  - apply String.eqb_refl.
  - intros j y Hj Hy. rewrite lookup_app_l in Hy by done.
    destruct (proj1 (Forall_lookup _ _) Hps j y Hy) as (_ & _ & Hk).
    by apply String.eqb_neq.
Qed.

(** The storage-URL branch recovers the object's name: for a
    document with no [sourceId] whose URL has the path
    [/<segments>/k_doc/<name>], the viewer asks for [<name>]. *)
Theorem storage_url_filename url_pathname d u ps name :
  document_sourceId d = None -> document_fileUrl d = Some u -> u <> "" ->
  url_pathname u = Some (String slash (tail_path ps name)) ->
  Forall plain_segment ps -> name <> "" -> name <> "undefined" ->
  has_char slash name = false -> has_char qmark name = false ->
  doc_filename url_pathname d = inl name.
Proof.
  intros Hs Hu Hne Hp Hps Hn1 Hn2 Hsl Hq.
  unfold doc_filename, filename_from_url. rewrite Hs, Hu, (proj2 (String.eqb_neq _ _) Hne), Hp.
  unfold filename_from_path.
  assert (js_split slash (String slash (tail_path ps name)) = "" :: ps ++ ["k_doc"; name]) as ->.
  { simpl. f_equal. by apply split_tail_path. }
  rewrite filter_nonempty_cons_empty, filter_nonempty_id.
  2: { apply Forall_app. split.
       - eapply Forall_impl; [exact Hps|]. intros x Hx. apply Hx.
       - repeat constructor; done. }
  rewrite findIndex_bucket by done.
  rewrite (proj2 (Z.eqb_neq (Z.of_nat (length ps)) (-1))) by lia.
  rewrite Nat2Z.id. unfold truthy_at. rewrite lookup_app_r by lia.
  replace (S (length ps) - length ps) with 1 by lia. simpl.
  rewrite (proj2 (String.eqb_neq _ _) Hn1).
  unfold before_query. rewrite js_split_no_sep by done. simpl.
  by rewrite (proj2 (String.eqb_neq _ _) Hn1), (proj2 (String.eqb_neq _ _) Hn2).
Qed.

(** C35: After [normalize] the viewer never reads the storage URL: a
    document the API sends without [sourceId] gets its [id] as [sourceId]
    (not its file name, as the comment at line 104 says), so
    [handleViewDocument] asks for [/api/documents/<id>]. *)
Theorem normalized_view_uses_id url_pathname d :
  document_sourceId d = None -> document_id d <> "" -> document_id d <> "undefined" ->
  doc_filename url_pathname (normalize d) = inl (document_id d).
Proof.
  intros Hs Hi1 Hi2. unfold doc_filename, normalize. cbn [document_sourceId]. rewrite Hs.
  cbn [opt_or]. rewrite !(js_or_nonempty (document_id d)) by done.
  rewrite (proj2 (String.eqb_neq _ _) Hi1), (proj2 (String.eqb_neq _ _) Hi2). simpl.
  by rewrite (proj2 (String.eqb_neq _ _) Hi1), (proj2 (String.eqb_neq _ _) Hi2).
Qed.

(** ** Witnesses *)

(** A markdown document in the [k_doc] bucket, as the API could send it. *)
Definition notes_doc : Document :=
  mkDocument "doc-42" "Notes" "Notes" "markdown" None None "2024-01-10T11:00:00Z" None
    (Some "workflow") None
    (Some "https://p.supabase.co/storage/v1/object/public/k_doc/notes.md").

(** [new URL(...).pathname] of that URL. *)
Definition notes_pathname (_ : string) : option string :=
  Some "/storage/v1/object/public/k_doc/notes.md".

Lemma normalized_view_uses_id_witness :
  doc_filename notes_pathname (normalize notes_doc) = inl "doc-42"%string.
Proof. apply normalized_view_uses_id; first [reflexivity | decide_goal]. Defined.

(** C16: The answer to a closed viewer's request is shown for the next
    document: view [a], close the viewer, view [b], and let [a]'s request
    answer first. The dialog is titled [b] and shows [a]'s content, with
    [b]'s request still in flight; nothing ties an answer to the
    document that asked for it. *)
Theorem stale_content_shown url_pathname p a b fa fb c :
  document_type a = "markdown"%string -> document_type b = "markdown"%string ->
  opt_or (document_fileUrl a) "" <> ""%string -> opt_or (document_fileUrl b) "" <> ""%string ->
  doc_filename url_pathname a = inl fa -> doc_filename url_pathname b = inl fb ->
  let p' := page_run url_pathname p
              [DView a; DCloseViewer; DView b; DContentReturns (length (in_flight p)) (ContentOk (Some c))] in
  viewer_view (page p') =
    Some (mkViewer (document_name b) (opt_or (document_description b) "Markdown document")
            (ViewerMarkdown (opt_or (Some c) ""))) /\
  in_flight p' = in_flight p ++ [fb].
Proof.
  intros Ha Hb Hua Hub Hfa Hfb. unfold page_run, page_step, view_begin.
  rewrite Ha, Hb. simpl. rewrite (proj2 (String.eqb_neq _ _) Hua), (proj2 (String.eqb_neq _ _) Hub).
  simpl. rewrite Hfa. simpl. rewrite Hfb. simpl.
  rewrite <- app_assoc, lookup_app_r, Nat.sub_diag by lia. simpl. split; [done|].
  rewrite delete_middle. done.
Qed.

(** A second markdown document, viewed after [notes_doc]. *)
Definition plan_doc : Document :=
  mkDocument "doc-43" "Plan" "Plan" "markdown" None None "2024-01-11T09:00:00Z" (Some "plan.md")
    (Some "workflow") None
    (Some "https://p.supabase.co/storage/v1/object/public/k_doc/plan.md").

Lemma stale_content_shown_witness :
  let p' := page_run notes_pathname (mkPage initial_docs [])
              [DView notes_doc; DCloseViewer; DView plan_doc; DContentReturns 0 (ContentOk (Some "# Notes"))] in
  viewer_view (page p') =
    Some (mkViewer "Plan" "Markdown document" (ViewerMarkdown "# Notes")) /\
  in_flight p' = ["plan.md"]%string.
Proof.
  exact (stale_content_shown notes_pathname (mkPage initial_docs []) notes_doc plan_doc
           "notes.md" "plan.md" "# Notes" eq_refl eq_refl ltac:(decide_goal) ltac:(decide_goal)
           eq_refl eq_refl).
Defined.

End DocumentsPage.
