(* ===== verification/MeetingDetail.v ===== *)
(** * MeetingDetail: the meeting page, [app/meetings/[meetingId]/page.tsx]

    [LiveSessionPage] looks the route's meeting up in the fixtures, and
    either shows "Meeting not found" or a three-column page: the transcript
    (a state initialised with seven mock segments), tabs with the summary,
    the documents and the assigned workflow, and a workflow sidebar.

    - [page] is the render, as a value: [PageNotFound] or [PageFound];
    - [handleCitationClick] is the citation handler, over an explicit DOM
      state (the elements carrying the [highlight-citation] class and the
      pending [setTimeout] callbacks, fired in order by [TimerFired]);
    - [step] composes the handlers with the controls of the page, and
      [available] is the set of events that a rendered control raises.

    The fixtures the page imports ([meetings], [agents], [documents],
    [workflows]) are Section variables, instantiated by [MockData] in
    [live_page]; [toLocaleDateString] is the variable [formatDate]. *)

From S2P Require Import Spec2Rocq.
From S2P Require Import Types.
From S2P Require Import MockData.
From S2P Require Import JsString.
Import Types.
Import JsString.

Module MeetingDetail.

(** [TranscriptSegment] (lines 14-20); [speaker: 'user' | 'agent']. *)
Inductive Speaker := SpeakerUser | SpeakerAgent.

#[export] Instance Speaker_eq_dec : EqDecision Speaker.
Proof. solve_decision. Defined.

Record TranscriptSegment := mkSegment {
  seg_id : string;
  seg_speaker : Speaker;
  seg_text : string;
  seg_timestamp : string;
  seg_citationId : option nat
}.

(** The initial value of the [transcript] state (lines 31-39). *)
Definition initial_transcript : list TranscriptSegment := [
  mkSegment "1" SpeakerUser "Welcome everyone to today's standup. Let's start with updates." "00:00:15" None;
  mkSegment "2" SpeakerAgent "Thank you. I've reviewed the SOC2 compliance requirements and identified three key areas that need attention." "00:00:32" (Some 1);
  mkSegment "3" SpeakerUser "Can you elaborate on those areas?" "00:01:05" None;
  mkSegment "4" SpeakerAgent "Certainly. The first area is access management. We need to implement role-based access controls with proper audit logging." "00:01:18" (Some 2);
  mkSegment "5" SpeakerAgent "The second area involves data encryption at rest and in transit, which requires updating our infrastructure." "00:02:45" (Some 3);
  mkSegment "6" SpeakerUser "What about the third area?" "00:03:12" None;
  mkSegment "7" SpeakerAgent "The third area is monitoring and alerting. We need to establish real-time monitoring for security events." "00:03:28" (Some 4)
]%string.

(** The DOM id of a rendered segment: [`segment-${segment.id}`]. *)
Definition segment_elem (s : TranscriptSegment) : string := "segment-" ++ seg_id s.

(** The values of the [Tabs] (lines 157-178), [defaultValue="summary"]. *)
Inductive TabValue := TabSummary | TabAssets | TabWorkflows.

#[export] Instance TabValue_eq_dec : EqDecision TabValue.
Proof. solve_decision. Defined.

(** The page state: the [transcript] state, whether [transcriptRef] is
    attached, the elements with the [highlight-citation] class (a
    [classList], so a set), the pending [setTimeout] callbacks, each
    naming the element whose class it removes, and the active tab (the
    uncontrolled state of [Tabs]). *)
Record LiveState := mkLive {
  transcript : list TranscriptSegment;
  ref_attached : bool;
  highlighted : list string;
  timers : list string;
  active_tab : TabValue
}.

Definition initial_live : LiveState := mkLive initial_transcript true [] [] TabSummary.

(** [document.getElementById]: the first rendered segment with that id. *)
Definition getElementById (st : LiveState) (elem : string) : option string :=
  segment_elem <$> List.find (fun s => segment_elem s === elem) (transcript st).

(** [classList.add] and [classList.remove]. *)
Definition class_add (x : string) (l : list string) : list string :=
  if bool_decide (x ∈ l) then l else l ++ [x].
Definition class_remove (x : string) (l : list string) : list string :=
  List.filter (fun y => negb (y === x)) l.

(** [handleCitationClick] (lines 42-54). *)
Definition handleCitationClick (n : nat) (st : LiveState) : LiveState :=
  match List.find (fun t => bool_decide (seg_citationId t = Some n)) (transcript st) with
  | Some segment =>
      if ref_attached st then
        match getElementById st (segment_elem segment) with
        | Some element =>
            mkLive (transcript st) (ref_attached st)
              (class_add element (highlighted st)) (timers st ++ [element]) (active_tab st)
        | None => st
        end
      else st
  | None => st
  end.

(** The [setTimeout] callback (lines 49-51), fired after 2000 ms; the
    callbacks fire in the order they were scheduled. *)
Definition timer_fired (st : LiveState) : LiveState :=
  match timers st with
  | element :: rest =>
      mkLive (transcript st) (ref_attached st) (class_remove element (highlighted st)) rest
        (active_tab st)
  | [] => st
  end.

(** The default summary (lines 78-83). *)
Definition default_summary : list string := [
  "Discussed SOC2 compliance requirements and identified three key areas needing attention";
  "Access management requires role-based access controls with audit logging";
  "Data encryption at rest and in transit needs infrastructure updates";
  "Monitoring and alerting systems need real-time security event tracking"
]%string.

(** [meeting.summary || [...]]: an array is truthy even when empty. *)
Definition meetingSummary (m : Meeting) : list string :=
  match meeting_summary m with Some l => l | None => default_summary end.

Section Fixtures.
Variable meetings : list Meeting.
Variable agents : list Agent.
Variable documents : list Document.
Variable workflows : list Workflow.

(** [meetings.find(m => m.id === meetingId)] (line 27). *)
Definition find_meeting (meetingId : string) : option Meeting :=
  List.find (fun m => meeting_id m === meetingId) meetings.

(** [agents.find(a => meeting.agentIds.includes(a.id))] (line 69): the
    first agent of the fixture order, not of [agentIds]. *)
Definition meetingAgent (m : Meeting) : option Agent :=
  List.find (fun a => bool_decide (agent_id a ∈ meeting_agentIds m)) agents.

(** [documents.filter(doc => doc.sourceId === meetingId || doc.source === 'meeting')] (line 72). *)
Definition meetingDocuments (meetingId : string) : list Document :=
  List.filter (fun d => bool_decide (document_sourceId d = Some meetingId)
                        || bool_decide (document_source d = Some "meeting")) documents.

(** [meeting.workflowId ? workflows.find(w => w.id === meeting.workflowId) : null]
    (line 75): an empty id is falsy. *)
Definition assignedWorkflow (m : Meeting) : option Workflow :=
  match meeting_workflowId m with
  | Some w => if w === "" then None else List.find (fun x => workflow_id x === w) workflows
  | None => None
  end.

(** [toLocaleDateString("en-US", ...)] of the document dates (line 245). *)
Variable formatDate : string -> string.

(** The header (lines 85-107): the title and the agent badge. *)
Record Header := mkHeader { h_title : string; h_agent : option string }.

Definition header (m : Meeting) : Header :=
  mkHeader (meeting_title m) (agent_name <$> meetingAgent m).

(** [{segment.citationId && <span>[n]</span>}] (lines 140-142): React
    renders the number [0] itself, a positive id as a badge. *)
Inductive CitationMark := NoMark | MarkZero | MarkBadge (n : nat).

Definition citation_mark (c : option nat) : CitationMark :=
  match c with
  | None => NoMark
  | Some 0 => MarkZero
  | Some n => MarkBadge n
  end.

(** One transcript row (lines 123-150): its DOM id, whether it has the
    agent styling and icon, its timestamp, its citation mark and text. *)
Record SegmentRow := mkSegRow {
  row_elem : string;
  row_agent : bool;
  row_timestamp : string;
  row_citation : CitationMark;
  row_text : string
}.

Definition segment_row (t : TranscriptSegment) : SegmentRow :=
  mkSegRow (segment_elem t) (bool_decide (seg_speaker t = SpeakerAgent))
    (seg_timestamp t) (citation_mark (seg_citationId t)) (seg_text t).

Definition transcript_rows (st : LiveState) : list SegmentRow :=
  segment_row <$> transcript st.

(** [getTypeIcon] of the assets tab (lines 216-224), icons by name. *)
Definition asset_type_icon (t : string) : string :=
  if t === "pdf" then "page-facing-up"
  else if t === "docx" then "blue-book"
  else if t === "markdown" then "memo"
  else if t === "text" then "page-with-curl"
  else "page-facing-up".

(** [{x && <p>{x}</p>}] for an optional string: shown when truthy. *)
Definition shown (o : option string) : option string :=
  match o with Some x => if x === "" then None else Some x | None => None end.

(** One document of the assets tab (lines 226-270). *)
Record AssetRow := mkAssetRow {
  asset_key : string;
  asset_icon : string;
  asset_name : string;
  asset_description : option string;
  asset_type : string;
  asset_date : string;
  asset_view : bool
}.

Definition asset_row (d : Document) : AssetRow :=
  mkAssetRow (document_id d) (asset_type_icon (document_type d)) (document_name d)
    (shown (document_description d)) (string_map upper_ascii (document_type d))
    (formatDate (document_createdAt d)) (document_type d === "markdown").

(** The assets tab (lines 203-284): the count in the heading, and the rows
    or, for no document, the empty state. *)
Record AssetsTab := mkAssets { assets_count : nat; assets_rows : option (list AssetRow) }.

Definition assets_tab (meetingId : string) : AssetsTab :=
  let ds := meetingDocuments meetingId in
  mkAssets (length ds) (if bool_decide (0 < length ds) then Some (asset_row <$> ds) else None).

(** The workflows tab (lines 286-339): the description ([|| 'No
    description']) and the numbered steps, or [None] for the empty state. *)
Record WorkflowPanel := mkPanel {
  panel_description : string;
  panel_steps : list (nat * option string * option string)
}.

Definition workflows_tab (m : Meeting) : option WorkflowPanel :=
  (fun w => mkPanel (js_or (default "" (workflow_description w)) "No description")
     (imap (fun idx s => (S idx, step_name s, shown (step_description s))) (workflow_steps w)))
  <$> assignedWorkflow m.

(** The assigned workflow of the sidebar (lines 350-384): its name, its
    first three steps and the [+n more] line. *)
Record SidebarWorkflow := mkSidebar {
  sb_name : string;
  sb_steps : list (nat * option string);
  sb_more : option nat
}.

Definition sidebar_workflow (m : Meeting) : option SidebarWorkflow :=
  (fun w => mkSidebar (workflow_name w)
     (imap (fun idx s => (S idx, step_name s)) (take 3 (workflow_steps w)))
     (if bool_decide (3 < length (workflow_steps w))
      then Some (length (workflow_steps w) - 3) else None))
  <$> assignedWorkflow m.

(** One card of "Available Workflows" (lines 390-416). *)
Record AvailableCard := mkAvail {
  avail_key : string;
  avail_name : string;
  avail_description : option string;
  avail_steps : nat;
  avail_active : bool
}.

Definition available_cards (m : Meeting) : list AvailableCard :=
  (fun w => mkAvail (workflow_id w) (workflow_name w) (shown (workflow_description w))
     (length (workflow_steps w)) (bool_decide (Some (workflow_id w) = meeting_workflowId m)))
  <$> take 3 workflows.

(** The [View All (n)] button (lines 417-427). *)
Definition view_all : option nat :=
  if bool_decide (3 < length workflows) then Some (length workflows) else None.

(** The content of the active tab. *)
Inductive TabContent :=
| ShowSummary (items : list string)
| ShowAssets (tab : AssetsTab)
| ShowWorkflows (panel : option WorkflowPanel).

Definition tab_content (meetingId : string) (m : Meeting) (t : TabValue) : TabContent :=
  match t with
  | TabSummary => ShowSummary (meetingSummary m)
  | TabAssets => ShowAssets (assets_tab meetingId)
  | TabWorkflows => ShowWorkflows (workflows_tab m)
  end.

Record LiveView := mkView {
  v_header : Header;
  v_transcript : list SegmentRow;
  v_tab : TabValue;
  v_content : TabContent;
  v_sidebar : option SidebarWorkflow;
  v_available : list AvailableCard;
  v_view_all : option nat
}.

Inductive Page := PageNotFound | PageFound (v : LiveView).

(** [LiveSessionPage]'s render (lines 56-67 and 85-434). *)
Definition page (meetingId : string) (st : LiveState) : Page :=
  match find_meeting meetingId with
  | None => PageNotFound
  | Some m =>
      PageFound (mkView (header m) (transcript_rows st) (active_tab st)
        (tab_content meetingId m (active_tab st)) (sidebar_workflow m)
        (available_cards m) view_all)
  end.

(** The events: the Back buttons (lines 61 and 93), a tab trigger, the
    [View All] button (line 422), a call of [handleCitationClick], and the
    firing of the oldest pending timer. *)
Inductive LiveEvent :=
| EvBack
| EvTab (t : TabValue)
| EvViewAll
| EvCitation (n : nat)
| EvTimer.

(** A step returns the next state and the route pushed, if any. *)
Definition step (ev : LiveEvent) (st : LiveState) : LiveState * option string :=
  match ev with
  | EvBack => (st, Some "/meetings")
  | EvTab t => (mkLive (transcript st) (ref_attached st) (highlighted st) (timers st) t, None)
  | EvViewAll => (st, Some "/workflows")
  | EvCitation n => (handleCitationClick n st, None)
  | EvTimer => (timer_fired st, None)
  end%string.

(** The events a rendered control (or a pending timer) raises. No control
    of the page calls [handleCitationClick]. *)
Definition available (meetingId : string) (st : LiveState) (ev : LiveEvent) : Prop :=
  match page meetingId st with
  | PageNotFound => ev = EvBack
  | PageFound v =>
      ev = EvBack \/ (exists t, ev = EvTab t) \/ (ev = EvViewAll /\ is_Some (v_view_all v))
      \/ (ev = EvTimer /\ timers st <> [])
  end.

(** The states the page reaches from [initial_live]. *)
Inductive reachable (meetingId : string) : LiveState -> Prop :=
| reach_init : reachable meetingId initial_live
| reach_step st ev : reachable meetingId st -> available meetingId st ev ->
    reachable meetingId (step ev st).1.

End Fixtures.

(** The page on the fixtures of [data/mockData.ts]. *)
Definition live_page (formatDate : string -> string) (meetingId : string) (st : LiveState) : Page :=
  page MockData.meetings MockData.agents MockData.documents MockData.workflows
    formatDate meetingId st.

(** ** The citation handler *)

Lemma getElementById_rendered st seg :
  seg ∈ transcript st ->
  getElementById st (segment_elem seg) = Some (segment_elem seg).
Proof.
  intros Hin. unfold getElementById.
  destruct (find_key_some segment_elem (segment_elem seg) (transcript st))
    as (x & -> & Hx & _).
  { apply list_elem_of_fmap. eauto. }
  simpl. by rewrite Hx.
Qed.

Lemma find_citation_in n l seg :
  List.find (fun t => bool_decide (seg_citationId t = Some n)) l = Some seg ->
  seg ∈ l /\ seg_citationId seg = Some n.
Proof.
  intros Hf. apply List.find_some in Hf as [Hin Hc].
  split; [by apply list_elem_of_In | by apply bool_decide_eq_true in Hc].
Qed.

(** A click on citation [n] highlights the element of the first segment
    that carries [n] and schedules the removal of its highlight. *)
Lemma citation_click_highlights n st seg :
  List.find (fun t => bool_decide (seg_citationId t = Some n)) (transcript st) = Some seg ->
  ref_attached st = true ->
  handleCitationClick n st =
    mkLive (transcript st) true (class_add (segment_elem seg) (highlighted st))
      (timers st ++ [segment_elem seg]) (active_tab st).
Proof.
  intros Hf Hr. pose proof (find_citation_in _ _ _ Hf) as [Hin _].
  unfold handleCitationClick. by rewrite Hf, Hr, getElementById_rendered.
Qed.

(** A citation that no segment carries changes nothing. *)
Lemma citation_click_unknown n st :
  Forall (fun t => seg_citationId t <> Some n) (transcript st) ->
  handleCitationClick n st = st.
Proof.
  intros Hall. unfold handleCitationClick.
  destruct (List.find _ _) eqn:Hf; [|done].
  apply find_citation_in in Hf as [Hin Hc].
  rewrite Forall_forall in Hall. by destruct (Hall _ Hin).
Qed.

Lemma class_remove_not_in x l : x ∉ class_remove x l.
Proof.
  unfold class_remove. rewrite list_elem_of_In, filter_In. case_streq; naive_solver.
Qed.

Lemma class_add_in x l : x ∈ class_add x l.
Proof. unfold class_add. case_bool_decide; set_solver. Qed.

(** [handleCitationClick] highlights the element of the first
    segment that carries the citation, and with no other timer pending its
    [setTimeout] callback removes that highlight and leaves no timer. *)
Lemma citation_click_then_timer n st seg :
  List.find (fun t => bool_decide (seg_citationId t = Some n)) (transcript st) = Some seg ->
  ref_attached st = true -> timers st = [] ->
  segment_elem seg ∈ highlighted (handleCitationClick n st) /\
  (segment_elem seg ∉ highlighted (timer_fired (handleCitationClick n st))) /\
  timers (timer_fired (handleCitationClick n st)) = [].
Proof.
  intros Hf Hr Ht. rewrite (citation_click_highlights _ _ _ Hf Hr). unfold timer_fired.
  rewrite Ht. simpl.
  split; [apply class_add_in | split; [apply class_remove_not_in | done]].
Qed.

(** Two clicks on the same citation: the first timer already removes the
    highlight while the second is still pending, so the highlight of the
    second click lasts less than 2000 ms. *)
Example double_click_cut_short :
  let st := timer_fired (handleCitationClick 2 (handleCitationClick 2 initial_live)) in
  highlighted st = [] /\ timers st = ["segment-4"%string].
Proof. vm_compute. auto. Qed.

(** ** The render *)

Section PageFacts.
Context (meetings : list Meeting) (agents : list Agent) (documents : list Document)
  (workflows : list Workflow) (formatDate : string -> string).

(** The page shows "Meeting not found" exactly when no fixture meeting has
    the route's id. *)
Lemma page_not_found_iff meetingId st :
  page meetings agents documents workflows formatDate meetingId st = PageNotFound <->
  Forall (fun m => meeting_id m <> meetingId) meetings.
Proof.
  unfold page, find_meeting. rewrite Forall_forall. split.
  - destruct (List.find _ _) eqn:Hf; [done|]. intros _ m Hm Hid.
    apply list_elem_of_In, (List.find_none _ _ Hf) in Hm. by rewrite Hid, String.eqb_refl in Hm.
  - intros Hall. destruct (List.find _ _) eqn:Hf; [|done].
    apply List.find_some in Hf as [Hm Hid]. apply String.eqb_eq in Hid.
    by destruct (Hall m); [apply list_elem_of_In|].
Qed.

(** Every document whose source is ["meeting"] is listed for every
    meeting, whatever its [sourceId]. *)
Lemma meetingDocuments_source_meeting meetingId d :
  d ∈ documents -> document_source d = Some "meeting"%string ->
  d ∈ meetingDocuments documents meetingId.
Proof.
  intros Hd Hs. unfold meetingDocuments. rewrite list_elem_of_In, filter_In.
  split; [by apply list_elem_of_In|]. rewrite Hs. apply orb_true_iff. right.
  by apply bool_decide_eq_true_2.
Qed.

(** The sidebar lists the first [min 3 n] of the [n] steps, and the
    [+k more] line accounts for the others. *)
Lemma sidebar_workflow_counts m sb :
  sidebar_workflow workflows m = Some sb ->
  exists w, assignedWorkflow workflows m = Some w /\
    length (sb_steps sb) = Nat.min 3 (length (workflow_steps w)) /\
    length (sb_steps sb) + default 0 (sb_more sb) = length (workflow_steps w).
Proof.
  unfold sidebar_workflow. destruct (assignedWorkflow workflows m) as [w|]; [|done].
  intros [= <-]. exists w. cbn [sb_steps sb_more]. rewrite length_imap, length_take.
  split_and!; [done|lia|]. case_bool_decide; cbn [default from_option id]; lia.
Qed.

(** A card of "Available Workflows" is marked active only for the
    meeting's [workflowId]. *)
Lemma available_card_active m c :
  c ∈ available_cards workflows m -> avail_active c = true ->
  meeting_workflowId m = Some (avail_key c).
Proof.
  unfold available_cards. intros (w & -> & _)%list_elem_of_fmap. simpl.
  by case_bool_decide.
Qed.

(** The transcript column keeps the order and the number of segments. *)
Lemma transcript_rows_elems st :
  row_elem <$> transcript_rows st = segment_elem <$> transcript st.
Proof. unfold transcript_rows. rewrite <- list_fmap_compose. done. Qed.

End PageFacts.

(** On the fixtures every meeting's assets tab lists the same two
    documents. *)
Lemma live_assets_count meetingId :
  assets_count (assets_tab MockData.documents (fun d => d) meetingId) = 2.
Proof.
  unfold assets_tab, meetingDocuments. simpl. rewrite !orb_true_r. done.
Qed.

(** ** Reachable states *)

Section Reach.
Context (meetings : list Meeting) (agents : list Agent) (documents : list Document)
  (workflows : list Workflow) (formatDate : string -> string) (meetingId : string).

Notation available' := (available meetings agents documents workflows formatDate meetingId).
Notation reachable' := (reachable meetings agents documents workflows formatDate meetingId).

(** No rendered control raises a citation click. *)
Lemma available_no_citation st ev : available' st ev -> forall n, ev <> EvCitation n.
Proof.
  unfold available. intros Hav n ->. case_match; naive_solver.
Qed.

(** A pending timer is the only way an [EvTimer] is available. *)
Lemma available_timer st : available' st EvTimer -> timers st <> [].
Proof. unfold available. case_match; naive_solver. Qed.

(** The citation jump of the meeting page is dead code: in every
    state the page reaches, the transcript is the initial one, no segment
    is highlighted and no timer is pending, although the transcript's hint
    tells the user to click citation numbers. *)
Theorem citation_highlight_unreachable st :
  reachable' st ->
  transcript st = initial_transcript /\ highlighted st = [] /\ timers st = [].
Proof.
  induction 1 as [|st ev Hr IH Hav]; [done|].
  destruct IH as (Ht & Hh & Hq).
  destruct ev as [|t| |n|]; simpl; try done.
  - by destruct (available_no_citation _ _ Hav n).
  - by destruct (available_timer _ Hav).
Qed.

End Reach.

(** A session on the fixtures: open meeting 1, switch to the assets tab. *)
Definition assets_session : LiveState :=
  (step (EvTab TabAssets) initial_live).1.

Lemma assets_session_reachable :
  reachable MockData.meetings MockData.agents MockData.documents MockData.workflows
    (fun d => d) "meeting_1" assets_session.
Proof.
  apply (reach_step _ _ _ _ _ _ initial_live (EvTab TabAssets)); [constructor|].
  unfold available. simpl. right. left. eauto.
Defined.

Definition citation_segment : TranscriptSegment :=
  mkSegment "4" SpeakerAgent "Certainly. The first area is access management. We need to implement role-based access controls with proper audit logging." "00:01:18" (Some 2).

Lemma citation_click_then_timer_witness :
  segment_elem citation_segment ∈ highlighted (handleCitationClick 2 initial_live) /\
  (segment_elem citation_segment ∉ highlighted (timer_fired (handleCitationClick 2 initial_live))) /\
  timers (timer_fired (handleCitationClick 2 initial_live)) = [].
Proof.
  apply (citation_click_then_timer 2 initial_live citation_segment);
    vm_compute; reflexivity.
Defined.

End MeetingDetail.
