(* ===== verification/Agents.v ===== *)
(** * Agents: the agents page and its dialog

    [app/agents/page.tsx] lists the fixture agents filtered by a search
    query and opens [components/modals/AddAgentModal.tsx], a form whose
    questions and channels are lists of inputs that the user grows,
    shrinks and edits by index.

    - Module [AddAgentModal]: the form state, every handler, the
      [isFormValid] guard of the submit button, and the payload passed to
      [onAdd];
    - Module [AgentsPage]: the search filter, [handleAddAgent] (an
      [alert]), the render as data, and the page's step relation that
      composes the two. *)

From S2P Require Import Spec2Rocq.
From S2P Require Import Types.
From S2P Require Import MockData.
From S2P Require Import JsString.
From Stdlib Require Import Ascii.
Import Types.
Import JsString.

Module AddAgentModal.

Record AgentForm := mkForm {
  name : string;
  persona : string;
  description : string;
  systemPrompt : string;
  questions : list string;
  channels : list string
}.

(** The initial state (lines 37-42): one empty question and one empty
    channel. *)
Definition initial_form : AgentForm := mkForm "" "" "" "" [""] [""].

(** The argument of [onAdd] (lines 22-29). *)
Record AgentPayload := mkPayload {
  p_name : string;
  p_persona : string;
  p_description : string;
  p_systemPrompt : string;
  p_questions : list string;
  p_channels : list string
}.

(** [xs.filter(q => q.trim() !== "")] *)
Definition non_blank (xs : list string) : list string :=
  List.filter (fun q => negb (js_blank q)) xs.

(** [isFormValid] (lines 101-105); its value is truthy exactly when
    this is [true]. *)
Definition isFormValid (f : AgentForm) : bool :=
  negb (js_blank (name f)) && negb (js_blank (persona f))
  && negb (js_blank (description f)) && negb (js_blank (systemPrompt f))
  && bool_decide (0 < length (non_blank (questions f)))
  && bool_decide (0 < length (non_blank (channels f))).

(** [handleSubmit] (lines 44-67): on a valid form, the payload for
    [onAdd], the reset, and [onOpenChange(false)] (the [bool] is the
    argument of [onOpenChange], when it is called). *)
Definition handleSubmit (f : AgentForm) : AgentForm * option AgentPayload * option bool :=
  let filteredQuestions := non_blank (questions f) in
  let filteredChannels := non_blank (channels f) in
  if negb (js_blank (name f)) && negb (js_blank (persona f))
     && negb (js_blank (description f)) && negb (js_blank (systemPrompt f))
     && bool_decide (0 < length filteredQuestions)
     && bool_decide (0 < length filteredChannels)
  then (initial_form,
        Some (mkPayload (js_trim (name f)) (js_trim (persona f)) (js_trim (description f))
                (js_trim (systemPrompt f)) filteredQuestions filteredChannels),
        Some false)
  else (f, None, None).

(** [addQuestion] / [addChannel]: [[...xs, ""]]. *)
Definition add_entry (xs : list string) : list string := xs ++ [""].

(** [removeQuestion] / [removeChannel] (lines 73-77, 89-93): guarded by
    [xs.length > 1]; [xs.filter((_, i) => i !== index)] drops the entry at
    [index] (nothing when [index] is out of range), which is [delete]. *)
Definition remove_entry (index : nat) (xs : list string) : list string :=
  if bool_decide (1 < length xs) then delete index xs else xs.

(** [updateQuestion] / [updateChannel] (lines 79-83, 95-99):
    [updated[index] = value]. The indices come from the rendered inputs,
    so they are in range, where [<[index:=value]>] is the assignment. *)
Definition update_entry (index : nat) (value : string) (xs : list string) : list string :=
  <[index := value]> xs.

Inductive FormEvent :=
| SetName (v : string)
| SetPersona (v : string)
| SetDescription (v : string)
| SetSystemPrompt (v : string)
| AddQuestion
| RemoveQuestion (index : nat)
| UpdateQuestion (index : nat) (v : string)
| AddChannel
| RemoveChannel (index : nat)
| UpdateChannel (index : nat) (v : string)
| Cancel                                    (* [onOpenChange(false)], line 254 *)
| Submit.

(** The dialog's handlers: the new form, the payload for [onAdd] and the
    argument of [onOpenChange]. *)
Definition form_handle (f : AgentForm) (ev : FormEvent)
  : AgentForm * option AgentPayload * option bool :=
  let '(mkForm n p d s qs cs) := f in
  match ev with
  | SetName v => (mkForm v p d s qs cs, None, None)
  | SetPersona v => (mkForm n v d s qs cs, None, None)
  | SetDescription v => (mkForm n p v s qs cs, None, None)
  | SetSystemPrompt v => (mkForm n p d v qs cs, None, None)
  | AddQuestion => (mkForm n p d s (add_entry qs) cs, None, None)
  | RemoveQuestion i => (mkForm n p d s (remove_entry i qs) cs, None, None)
  | UpdateQuestion i v => (mkForm n p d s (update_entry i v qs) cs, None, None)
  | AddChannel => (mkForm n p d s qs (add_entry cs), None, None)
  | RemoveChannel i => (mkForm n p d s qs (remove_entry i cs), None, None)
  | UpdateChannel i v => (mkForm n p d s qs (update_entry i v cs), None, None)
  | Cancel => (f, None, Some false)
  | Submit => handleSubmit f
  end.

(** The controls the dialog renders (lines 122-265): an X button per
    entry only when there are at least two, inputs by index, and the
    submit button enabled when [isFormValid()] is truthy. *)
Definition form_available (f : AgentForm) (ev : FormEvent) : Prop :=
  match ev with
  | RemoveQuestion i => 1 < length (questions f) /\ i < length (questions f)
  | UpdateQuestion i _ => i < length (questions f)
  | RemoveChannel i => 1 < length (channels f) /\ i < length (channels f)
  | UpdateChannel i _ => i < length (channels f)
  | Submit => isFormValid f = true
  | _ => True
  end.

(** ** The form's lists never become empty *)

Definition form_inv (f : AgentForm) : Prop :=
  1 <= length (questions f) /\ 1 <= length (channels f).

Lemma add_entry_length xs : length (add_entry xs) = S (length xs).
Proof. unfold add_entry. rewrite length_app. simpl. lia. Qed.

(** [delete] out of range, as the index filter: nothing is dropped. *)
Lemma delete_out_of_range {A} (i : nat) (l : list A) : length l <= i -> delete i l = l.
Proof.
  revert i. induction l as [|x l IH]; intros [|i] Hi; simpl in *; try done; [lia|].
  f_equal. apply IH. lia.
Qed.

Lemma remove_entry_length i xs :
  1 <= length xs -> 1 <= length (remove_entry i xs).
Proof.
  unfold remove_entry. case_bool_decide; [|done].
  destruct (decide (i < length xs)).
  - rewrite length_delete by (apply lookup_lt_is_Some; lia). lia.
  - rewrite delete_out_of_range by lia. lia.
Qed.

Lemma update_entry_length i v xs : length (update_entry i v xs) = length xs.
Proof. apply length_insert. Qed.

Lemma initial_form_inv : form_inv initial_form.
Proof. split; simpl; lia. Qed.

Lemma handleSubmit_inv f : form_inv f -> form_inv (handleSubmit f).1.1.
Proof. unfold handleSubmit. intros H. case_match; [apply initial_form_inv|done]. Qed.

(** Every handler keeps at least one question input and one channel
    input: [removeQuestion] and [removeChannel] are guarded by
    [length > 1], and the reset restores one empty entry. *)
Lemma form_handle_inv f ev : form_inv f -> form_inv (form_handle f ev).1.1.
Proof.
  destruct f as [n p d s qs cs]. unfold form_inv. simpl. intros [Hq Hc].
  destruct ev; simpl;
    rewrite ?add_entry_length, ?update_entry_length;
    try (apply (handleSubmit_inv (mkForm n p d s qs cs)); split; done);
    auto using remove_entry_length with lia.
Qed.

(** ** The submit handler *)

(** A submission that reaches [onAdd] comes from a valid form, resets
    the form, closes the dialog and passes trimmed fields with only the
    non-blank questions and channels, at least one of each. *)
Lemma handleSubmit_payload f f' p o :
  handleSubmit f = (f', Some p, o) ->
  f' = initial_form /\ o = Some false /\ isFormValid f = true /\
  p_name p = js_trim (name f) /\ p_systemPrompt p = js_trim (systemPrompt f) /\
  p_questions p = non_blank (questions f) /\ p_questions p <> [] /\
  p_channels p = non_blank (channels f) /\ p_channels p <> [] /\
  Forall (fun q => js_blank q = false) (p_questions p ++ p_channels p).
Proof.
  unfold handleSubmit, isFormValid. case_match eqn:Hv; [|done].
  intros [= <- <- <-]. simpl. repeat rewrite andb_true_iff in Hv.
  destruct Hv as [[_ Hq%bool_decide_eq_true] Hc%bool_decide_eq_true].
  split_and!; try done.
  - intros E. rewrite E in Hq. simpl in Hq. lia.
  - intros E. rewrite E in Hc. simpl in Hc. lia.
  - apply Forall_app. unfold non_blank. split; apply Forall_forall;
      intros x Hx%list_elem_of_In; apply filter_In in Hx as [_ Hx];
      by apply negb_true_iff in Hx.
Qed.

(** The submit handler does nothing exactly when the submit button is
    disabled. *)
Lemma handleSubmit_disabled f :
  isFormValid f = false -> handleSubmit f = (f, None, None).
Proof. unfold handleSubmit, isFormValid. by intros ->. Qed.

(** Cancel closes the dialog but keeps what was typed. *)
Lemma cancel_keeps_form f : form_handle f Cancel = (f, None, Some false).
Proof. by destruct f. Qed.

End AddAgentModal.

Module AgentsPage.
Import AddAgentModal.

Record AgentsState := mkAgents {
  searchQuery : string;
  isModalOpen : bool;
  form : AgentForm
}.

Definition initial_agents : AgentsState := mkAgents "" false initial_form.

(** [filteredAgents] (lines 19-23): the query, lower-cased, is a
    substring of the name, the persona or the description. *)
Definition agent_matches (q : string) (a : Agent) : bool :=
  js_includes (js_toLowerCase (agent_name a)) (js_toLowerCase q)
  || js_includes (js_toLowerCase (agent_persona a)) (js_toLowerCase q)
  || js_includes (js_toLowerCase (agent_description a)) (js_toLowerCase q).

Definition filteredAgents (agents : list Agent) (q : string) : list Agent :=
  List.filter (agent_matches q) agents.

(** [handleAddAgent] (lines 25-36): a log line and the alert
    [Agent "<name>" would be created.]; the agent is not added. *)
Definition handleAddAgent (p : AgentPayload) : string :=
  "Agent " ++ dquote ++ p_name p ++ dquote ++ " would be created.".

Inductive AgentsOutput := AlertOut (msg : string).

(** One card (lines 84-134): name, persona, description, the status
    badge ([true] for Active), the channel badges and the [lastActive]
    line when it is truthy. *)
Record AgentCard := mkCard {
  card_key : string;
  card_name : string;
  card_persona : string;
  card_description : string;
  card_active : bool;
  card_channels : list string;
  card_lastActive : option string
}.

Inductive AgentsBody :=
| Cards (cards : list AgentCard)
| NoAgents (message : string) (create_button : bool).

Section Render.
(** [formatDate] (lines 38-41): [toLocaleDateString]. *)
Variable formatDate : string -> string.

Definition agent_card (a : Agent) : AgentCard :=
  mkCard (agent_id a) (agent_name a) (agent_persona a) (agent_description a)
    (bool_decide (agent_status a = Active)) (agent_channels a)
    (match agent_lastActive a with
     | Some d => if d === "" then None else Some (formatDate d)
     | None => None
     end).

(** The body (lines 82-155): the cards, or the empty state whose text
    and button depend on whether the query is truthy. *)
Definition agents_body (agents : list Agent) (st : AgentsState) : AgentsBody :=
  match filteredAgents agents (searchQuery st) with
  | [] => NoAgents (if searchQuery st === "" then "Get started by creating your first AI agent"
                    else "Try adjusting your search terms")
                   (searchQuery st === "")
  | l => Cards (agent_card <$> l)
  end.

End Render.

Inductive AgentsEvent :=
| NewAgent                        (* line 55 *)
| CreateFirst                     (* line 149 *)
| Search (v : string)             (* line 67 *)
| Dialog (ev : FormEvent).

(** [onOpenChange={setIsModalOpen}] and [onAdd={handleAddAgent}]. *)
Definition step (st : AgentsState) (ev : AgentsEvent) : AgentsState * list AgentsOutput :=
  match ev with
  | NewAgent | CreateFirst => (mkAgents (searchQuery st) true (form st), [])
  | Search v => (mkAgents v (isModalOpen st) (form st), [])
  | Dialog e =>
      let '(f', payload, open') := form_handle (form st) e in
      (mkAgents (searchQuery st) (default (isModalOpen st) open') f',
       match payload with Some p => [AlertOut (handleAddAgent p)] | None => [] end)
  end.

(** The events a rendered control raises; the dialog's controls only
    while it is open, and [CreateFirst] only in the empty state without a
    query. *)
Definition available (agents : list Agent) (st : AgentsState) (ev : AgentsEvent) : Prop :=
  match ev with
  | NewAgent | Search _ => True
  | CreateFirst => filteredAgents agents (searchQuery st) = [] /\ searchQuery st = ""
  | Dialog e => isModalOpen st = true /\ form_available (form st) e
  end%string.

Inductive reachable (agents : list Agent) : AgentsState -> Prop :=
| reach_init : reachable agents initial_agents
| reach_step st ev : reachable agents st -> available agents st ev ->
    reachable agents (step st ev).1.

(** An empty query keeps every agent. *)
Lemma filteredAgents_empty_query agents : filteredAgents agents "" = agents.
Proof.
  unfold filteredAgents, agent_matches. induction agents as [|a l IH]; [done|].
  simpl. by rewrite js_includes_empty, IH.
Qed.

(** C26: In every reachable state of the agents page the dialog keeps at
    least one question input and one channel input: the remove buttons
    are guarded by [length > 1] and the reset restores one empty entry. *)
Lemma agents_reachable_form_inv agents st : reachable agents st -> form_inv (form st).
Proof.
  induction 1 as [|st ev _ IH _]; [apply initial_form_inv|].
  destruct ev; simpl; try done.
  destruct (form_handle (form st) ev) as [[f' pl] o] eqn:E. simpl.
  change f' with (f', pl, o).1.1. rewrite <- E. by apply form_handle_inv.
Qed.

(** Submitting a valid form alerts [Agent "<trimmed name>" would be
    created.], closes the dialog and resets the form; the list of agents
    on the page is the fixture list, which nothing changes. *)
Lemma submit_alerts st :
  isModalOpen st = true -> isFormValid (form st) = true ->
  step st (Dialog Submit) =
    (mkAgents (searchQuery st) false initial_form,
     [AlertOut (handleAddAgent
        (mkPayload (js_trim (name (form st))) (js_trim (persona (form st)))
           (js_trim (description (form st))) (js_trim (systemPrompt (form st)))
           (non_blank (questions (form st))) (non_blank (channels (form st)))))]).
Proof.
  destruct st as [q o [n p d s qs cs]]. simpl. intros _ Hv.
  unfold handleSubmit. unfold isFormValid in Hv. simpl in Hv |- *. by rewrite Hv.
Qed.

End AgentsPage.

(** ** Witnesses *)

Module AgentsWitnesses.
Import AddAgentModal AgentsPage.

Definition filled_form : AgentForm :=
  mkForm " SOC2 Auditor " "Compliance" "Audits controls" "You audit."
    ["What is in scope?"; "  "] [""; "Zoom"].

Definition filled_payload : AgentPayload :=
  mkPayload "SOC2 Auditor" "Compliance" "Audits controls" "You audit."
    ["What is in scope?"] ["Zoom"].

Lemma handleSubmit_payload_witness :
  initial_form = initial_form /\ Some false = Some false /\ isFormValid filled_form = true /\
  p_name filled_payload = js_trim (name filled_form) /\
  p_systemPrompt filled_payload = js_trim (systemPrompt filled_form) /\
  p_questions filled_payload = non_blank (questions filled_form) /\ p_questions filled_payload <> [] /\
  p_channels filled_payload = non_blank (channels filled_form) /\ p_channels filled_payload <> [] /\
  Forall (fun q => js_blank q = false) (p_questions filled_payload ++ p_channels filled_payload).
Proof.
  apply (handleSubmit_payload filled_form initial_form filled_payload (Some false)).
  vm_compute. reflexivity.
Defined.

(** Open the dialog, add a question, then remove the first one. *)
Definition agents_session : AgentsState :=
  (step (step (step initial_agents NewAgent).1 (Dialog AddQuestion)).1
     (Dialog (RemoveQuestion 0))).1.

Lemma agents_session_reachable : reachable MockData.agents agents_session.
Proof.
  apply reach_step; [apply reach_step; [apply reach_step; [constructor|]|]|];
    simpl; split_and?; (done || lia).
Defined.

Lemma agents_reachable_form_inv_witness : form_inv (form agents_session).
Proof. apply (agents_reachable_form_inv _ _ agents_session_reachable). Defined.

End AgentsWitnesses.
