(* ===== verification/ParseEmail.v ===== *)
(** * ParseEmail: the [parse-meeting-email] edge function

    [src/supabase/functions/parse-meeting-email/index.ts] answers a
    request: a CORS preflight, or an email's [subject] and [body] to turn
    into meeting details through an AI gateway. The handler is a chain of
    steps any of which may throw; the [catch] turns every exception into a
    500 response carrying its message. Here each step returns a [result],
    the first [Throw] ends the chain, and the [catch] is the last match of
    [serve]. The outside world is a section variable: the environment's
    key, the gateway ([fetch]) and [JSON.parse] of the tool-call arguments;
    the details object is opaque. *)

From S2P Require Import Spec2Rocq.

Module ParseEmail.

(** The outcome of a step that may throw: the thrown message, or a value. *)
Inductive result (A : Type) := Throw (msg : string) | Ok (a : A).
Arguments Throw {A} msg.
Arguments Ok {A} a.


(** [const corsHeaders = {...}] (lines 3-6). *)
Definition corsHeaders : list (string * string) :=
  [("Access-Control-Allow-Origin", "*");
   ("Access-Control-Allow-Headers", "authorization, x-client-info, apikey, content-type")].

Definition jsonHeaders : list (string * string) :=
  corsHeaders ++ [("Content-Type", "application/json")].

(** What [req.json()] gives: the fields read, [undefined] being [None]. *)
Inductive RequestBody :=
| BodyInvalid (msg : string)
| BodyFields (subject body : option string).

Record Request := mkRequest { req_method : string; req_json : RequestBody }.

(** The call made to the gateway. *)
Record GatewayRequest := mkGateway {
  gw_authorization : string;
  gw_user_content : string
}.

(** What [fetch] gives back: a thrown network error, or a response with its
    [ok] flag, [status], and the result of its [.json()] (which throws on a
    body that is not JSON), where
    [choices[0].message.tool_calls[0].function.arguments] is read. *)
Inductive FetchOutcome :=
| FetchThrows (msg : string)
| FetchResponse (ok : bool) (status : N) (json : result (option string)).

Inductive ResponseBody (D : Type) :=
| RNull
| RSuccess (meetingDetails : D)
| RError (error : string).
Arguments RNull {D}.
Arguments RSuccess {D} meetingDetails.
Arguments RError {D} error.

Record Response (D : Type) := mkResponse {
  resp_status : N;
  resp_headers : list (string * string);
  resp_body : ResponseBody D
}.
Arguments mkResponse {D}.
Arguments resp_status {D}.
Arguments resp_headers {D}.
Arguments resp_body {D}.

(** The template literal renders [undefined] as the text "undefined". *)
Definition show_field (f : option string) : string :=
  match f with Some s => s | None => "undefined" end.

Definition nl : string := String (Ascii.ascii_of_nat 10) EmptyString.

(** [`Extract meeting details from this email:\n\nSubject: ${subject}\n\nBody: ${body}`] *)
Definition user_content (subject body : option string) : string :=
  "Extract meeting details from this email:" ++ nl ++ nl ++ "Subject: " ++ show_field subject
  ++ nl ++ nl ++ "Body: " ++ show_field body.

Section Handler.
(** The details object the model returns, opaque to the function. *)
Variable Details : Type.
(** [Deno.env.get('LOVABLE_API_KEY')] *)
Variable api_key : option string.
(** The gateway. *)
Variable fetch : GatewayRequest -> FetchOutcome.
(** [JSON.parse(toolCall.function.arguments)] *)
Variable parse_arguments : string -> result Details.

(** The body of the [try] (lines 14-101): the gateway request it sends,
    if it gets that far, and the details or the thrown message. *)
Definition extract (rb : RequestBody) : option GatewayRequest * result Details :=
  match rb with
  | BodyInvalid m => (None, Throw m)
  | BodyFields subject body =>
      (* [if (!LOVABLE_API_KEY) throw ...]: the key unset or empty *)
      match api_key with
      | None => (None, Throw "LOVABLE_API_KEY is not configured")
      | Some "" => (None, Throw "LOVABLE_API_KEY is not configured")
      | Some key =>
          let gr := mkGateway ("Bearer " ++ key) (user_content subject body) in
          (Some gr,
           match fetch gr with
           | FetchThrows m => Throw m
           | FetchResponse false status _ => Throw ("AI Gateway error: " ++ pretty status)
           | FetchResponse true _ (Throw m) => Throw m
           | FetchResponse true _ (Ok None) => Throw "No tool call in response"
           | FetchResponse true _ (Ok (Some args)) => parse_arguments args
           end)
      end
  end.

(** The whole handler (lines 8-116): the preflight, then the [try] and
    its [catch]. *)
Definition serve (req : Request) : option GatewayRequest * Response Details :=
  if req_method req === "OPTIONS" then (None, mkResponse 200 corsHeaders RNull)
  else
    let '(sent, r) := extract (req_json req) in
    (sent,
     match r with
     | Ok d => mkResponse 200 jsonHeaders (RSuccess d)
     | Throw m => mkResponse 500 jsonHeaders (RError m)
     end).
End Handler.

(** ** Properties *)

Section Properties.
Context {Details : Type} (api_key : option string)
        (fetch : GatewayRequest -> FetchOutcome)
        (parse_arguments : string -> result Details).

(** Every response, preflight, success or error, allows any origin. *)
Theorem serve_cors req :
  ("Access-Control-Allow-Origin", "*") ∈ resp_headers (serve Details api_key fetch parse_arguments req).2.
Proof.
  unfold serve. destruct (req_method req === "OPTIONS"); [simpl; by left|].
  destruct (extract _ _ _ _ _) as [sent [m|d]]; simpl; by left.
Qed.

(** The status tells the outcome: 500 exactly for an error body, 200
    for the preflight and for extracted details. *)
Theorem serve_status req :
  match resp_body (serve Details api_key fetch parse_arguments req).2 with
  | RError _ => resp_status (serve Details api_key fetch parse_arguments req).2 = 500%N
  | _ => resp_status (serve Details api_key fetch parse_arguments req).2 = 200%N
  end.
Proof.
  unfold serve. destruct (req_method req === "OPTIONS"); [done|].
  by destruct (extract _ _ _ _ _) as [sent [m|d]].
Qed.

(** C23: Without the key, unset or empty, the function answers 500 with
    the key error and never calls the gateway. *)
Theorem serve_missing_key req subject body :
  api_key = None \/ api_key = Some "" -> req_method req <> "OPTIONS" ->
  req_json req = BodyFields subject body ->
  serve Details api_key fetch parse_arguments req = (None, mkResponse 500 jsonHeaders (RError "LOVABLE_API_KEY is not configured")).
Proof.
  intros Hk Hm Hb. unfold serve.
  rewrite (proj2 (String.eqb_neq _ _) Hm), Hb. simpl. by destruct Hk as [-> | ->].
Qed.

(** C24: A gateway answer that is not [ok] becomes a 500 whose message
    carries the gateway's status; the request sent carries the key as a
    bearer token. *)
Theorem serve_gateway_error req subject body key status j :
  api_key = Some key -> key <> "" -> req_method req <> "OPTIONS" ->
  req_json req = BodyFields subject body ->
  fetch (mkGateway ("Bearer " ++ key) (user_content subject body)) =
    FetchResponse false status j ->
  serve Details api_key fetch parse_arguments req =
    (Some (mkGateway ("Bearer " ++ key) (user_content subject body)),
     mkResponse 500 jsonHeaders (RError ("AI Gateway error: " ++ pretty status))).
Proof.
  intros Hk Hne Hm Hb Hf. unfold serve.
  rewrite (proj2 (String.eqb_neq _ _) Hm), Hb. simpl. rewrite Hk.
  destruct key; [done|]. simpl. by rewrite Hf.
Qed.

(** C25: When the gateway returns a tool call whose arguments parse, the
    function answers 200 with exactly the parsed details. *)
Theorem serve_success req subject body key status args d :
  api_key = Some key -> key <> "" -> req_method req <> "OPTIONS" ->
  req_json req = BodyFields subject body ->
  fetch (mkGateway ("Bearer " ++ key) (user_content subject body)) =
    FetchResponse true status (Ok (Some args)) ->
  parse_arguments args = Ok d ->
  (serve Details api_key fetch parse_arguments req).2 = mkResponse 200 jsonHeaders (RSuccess d).
Proof.
  intros Hk Hne Hm Hb Hf Hp. unfold serve.
  rewrite (proj2 (String.eqb_neq _ _) Hm), Hb. simpl. rewrite Hk.
  destruct key; [done|]. simpl. by rewrite Hf, Hp.
Qed.
End Properties.

(** ** Witnesses *)

Definition sample_request : Request :=
  mkRequest "POST" (BodyFields (Some "Sync") (Some "Tomorrow 10:00")).

Definition gateway_down (_ : GatewayRequest) : FetchOutcome :=
  FetchResponse false 502 (Throw "Bad Gateway").

Definition gateway_up (_ : GatewayRequest) : FetchOutcome :=
  FetchResponse true 200 (Ok (Some "{title: Sync}")).

Definition parse_ok (args : string) : result string := Ok args.

Lemma serve_missing_key_witness :
  serve string (Some "") gateway_up parse_ok sample_request =
    (None, mkResponse 500 jsonHeaders (RError "LOVABLE_API_KEY is not configured")).
Proof.
  apply (serve_missing_key (Some "") gateway_up parse_ok sample_request (Some "Sync") (Some "Tomorrow 10:00"));
    [by right | decide_goal | reflexivity].
Defined.

Lemma serve_gateway_error_witness :
  serve string (Some "k1") gateway_down parse_ok sample_request =
    (Some (mkGateway ("Bearer " ++ "k1") (user_content (Some "Sync") (Some "Tomorrow 10:00"))),
     mkResponse 500 jsonHeaders (RError ("AI Gateway error: " ++ pretty 502%N))).
Proof.
  apply (serve_gateway_error (Some "k1") gateway_down parse_ok sample_request
           (Some "Sync") (Some "Tomorrow 10:00") "k1" 502%N (Throw "Bad Gateway"));
    [reflexivity | done | decide_goal | reflexivity | reflexivity].
Defined.

Lemma serve_success_witness :
  (serve string (Some "k1") gateway_up parse_ok sample_request).2 =
    mkResponse 200 jsonHeaders (RSuccess "{title: Sync}").
Proof.
  apply (serve_success (Some "k1") gateway_up parse_ok sample_request
           (Some "Sync") (Some "Tomorrow 10:00") "k1" 200%N "{title: Sync}");
    [reflexivity | done | decide_goal | reflexivity | reflexivity | reflexivity].
Defined.

(** The message of a 502 reads "AI Gateway error: 502". *)
Example gateway_error_message :
  ("AI Gateway error: " ++ pretty 502%N = "AI Gateway error: 502")%string.
Proof. reflexivity. Qed.

End ParseEmail.
