(* ===== verification/EmailToMeeting.v ===== *)
(** * EmailToMeeting: the email import page, [src/src/pages/EmailToMeeting.tsx]

    The page sends an email's subject and body to the [parse-meeting-email]
    edge function, shows the extracted details in an editable form, checks
    them against a [zod] schema and posts them to a webhook.

    - [MeetingDetails] and [validate] are the interface and the schema
      (lines 14-54); [validate] gives the message of the first error, in
      the order of the schema's keys, as [error.errors[0]] does;
    - the class [ParseFunction] is what the page needs of
      [supabase.functions.invoke("parse-meeting-email")]: for a subject and
      a body, an error or [data.meetingDetails]. The page's theorems are
      proved against the class; [edge_function] implements it with the
      edge function of [ParseEmail] and the client's rule that a non-2xx
      answer is an error whose message is the client's own;
    - [handleParse] and [handleSendToWebhook] are split at their [await]
      into a begin and a finish; [step] composes them with the inputs, and
      the model-only fields [pending_parse] and [pending_webhook] record the
      promise in flight. *)

From S2P Require Import Spec2Rocq.
From S2P Require Import JsString.
From S2P Require Import ParseEmail.
From Stdlib Require Import Ascii ZArith.
Import JsString ParseEmail.

Module EmailToMeeting.

(** [interface MeetingDetails] (lines 14-23); [null] is [None]. *)
Record MeetingDetails := mkDetails {
  md_title : string;
  md_date : option string;
  md_time : option string;
  md_duration : option Z;
  md_location : option string;
  md_attendees : option (list string);
  md_agenda : option string;
  md_notes : option string
}.

(** The checks of a schema, in order: whether each fails, and its message;
    [error.errors[0].message] is the first failing one. *)
Definition first_error (checks : list (bool * string)) : option string :=
  snd <$> List.find fst checks.

(** [val !== null && val.trim() !== ""] fails. *)
Definition blank_or_null (o : option string) : bool :=
  match o with Some x => js_blank x | None => true end.

(** [meetingDetailsSchema] (lines 25-54), keys in schema order. [title]
    is trimmed before its length checks; [location], [agenda] and [notes]
    accept anything. *)
Definition validate (d : MeetingDetails) : option string :=
  first_error [
    (bool_decide (String.length (js_trim (md_title d)) < 1), "Meeting title is required");
    (bool_decide (200 < String.length (js_trim (md_title d))), "Title must be less than 200 characters");
    (blank_or_null (md_date d), "Meeting date is required");
    (blank_or_null (md_time d), "Meeting time is required");
    (match md_duration d with Some n => negb (0 <? n)%Z | None => true end,
     "Meeting duration must be greater than 0");
    (match md_attendees d with Some (_ :: _) => false | _ => true end,
     "At least one attendee is required")
  ]%string.

(** A [toast]: title, description and whether it is [destructive]. *)
Record Toast := mkToast { toast_title : string; toast_description : string; toast_destructive : bool }.

(** What [const { data, error } = await supabase.functions.invoke(...)]
    leaves the page with: an [error], or [data.meetingDetails] ([None]
    when it is falsy). *)
Inductive InvokeResult :=
| InvokeError (message : string)
| InvokeData (meetingDetails : option MeetingDetails).

(** The contract the page relies on. *)
Class ParseFunction := { invoke_parse : string -> string -> InvokeResult }.

Record EmailState := mkEmail {
  loading : bool;
  emailSubject : string;
  emailBody : string;
  meetingDetails : option MeetingDetails;
  webhookUrl : string;
  pending_parse : option (string * string);
  pending_webhook : bool
}.

Definition initial_email : EmailState := mkEmail false "" "" None "" None false.

(** [handleParse] up to its [await] (lines 65-82): the toast for a blank
    subject, or [setLoading(true)] and the invocation with the subject and
    body of the moment. *)
Definition parse_begin (st : EmailState) : EmailState * list Toast :=
  if js_blank (emailSubject st) then
    (st, [mkToast "Missing Information" "Please enter an email subject." true])
  else
    (mkEmail true (emailSubject st) (emailBody st) (meetingDetails st) (webhookUrl st)
       (Some (emailSubject st, emailBody st)) (pending_webhook st), []).

(** The rest of [handleParse] (lines 84-104) on the invocation's result;
    [finally] clears [loading]. *)
Definition parse_finish (r : InvokeResult) (st : EmailState) : EmailState * list Toast :=
  let done_ d := mkEmail false (emailSubject st) (emailBody st) d (webhookUrl st)
                   None (pending_webhook st) in
  match r with
  | InvokeData (Some d) => (done_ (Some d), [mkToast "Success" "Email parsed successfully!" false])
  | InvokeData None =>
      (done_ (meetingDetails st), [mkToast "Error" "No meeting details returned" true])
  | InvokeError m => (done_ (meetingDetails st), [mkToast "Error" m true])
  end%string.

(** [handleSendToWebhook] up to its [await] (lines 107-150): the guards,
    each with its toast, then [setLoading(true)] and the [POST] of the
    details to the URL. [url_valid] is whether [new URL(webhookUrl)]
    succeeds. *)
Definition webhook_begin (url_valid : string -> bool) (st : EmailState)
  : EmailState * list Toast * option (string * MeetingDetails) :=
  let missing := (st, [mkToast "Missing Information"
                         "Please enter a webhook URL and parse an email first." true], None) in
  if js_blank (webhookUrl st) then missing
  else match meetingDetails st with
  | None => missing
  | Some d =>
      if negb (url_valid (webhookUrl st)) then
        (st, [mkToast "Invalid Webhook URL"
                "Please enter a valid webhook URL (e.g., https://example.com/webhook)" true], None)
      else match validate d with
      | Some m => (st, [mkToast "Validation Error" m true], None)
      | None =>
          (mkEmail true (emailSubject st) (emailBody st) (meetingDetails st) (webhookUrl st)
             (pending_parse st) true, [], Some (webhookUrl st, d))
      end
  end%string.

(** The rest of [handleSendToWebhook] (lines 152-166): [ok] is whether the
    [fetch] resolved with [response.ok]; a throw and a non-ok answer give
    the same toast. *)
Definition webhook_finish (ok : bool) (st : EmailState) : EmailState * list Toast :=
  (mkEmail false (emailSubject st) (emailBody st) (meetingDetails st) (webhookUrl st)
     (pending_parse st) false,
   [if ok then mkToast "Success" "Meeting details sent to webhook successfully!" false
    else mkToast "Error" "Failed to send data to webhook. Please check the URL and try again." true])%string.

(** The fields of the details form (lines 232-337). *)
Inductive DetailsField :=
| FTitle | FDate | FTime | FDuration | FLocation | FAttendees | FAgenda | FNotes.

(** [e.target.value.split(",").map((a) => a.trim()).filter(Boolean)] *)
Definition parse_attendees (v : string) : list string :=
  List.filter (fun a => negb (a === "")) (js_trim <$> js_split ","%char v).

Section Edits.
(** [parseInt], [None] for [NaN]. *)
Variable parseInt : string -> option Z.

(** [setMeetingDetails({ ...meetingDetails, <field>: ... })]; the duration
    is [parseInt(v) || null], so [0] becomes [null]. *)
Definition edit_details (f : DetailsField) (v : string) (d : MeetingDetails) : MeetingDetails :=
  let '(mkDetails t da ti du lo att ag no) := d in
  match f with
  | FTitle => mkDetails v da ti du lo att ag no
  | FDate => mkDetails t (Some v) ti du lo att ag no
  | FTime => mkDetails t da (Some v) du lo att ag no
  | FDuration =>
      mkDetails t da ti (match parseInt v with Some n => if (n =? 0)%Z then None else Some n
                         | None => None end) lo att ag no
  | FLocation => mkDetails t da ti du (Some v) att ag no
  | FAttendees => mkDetails t da ti du lo (Some (parse_attendees v)) ag no
  | FAgenda => mkDetails t da ti du lo att (Some v) no
  | FNotes => mkDetails t da ti du lo att ag (Some v)
  end.

End Edits.

(** The value an input shows: [x || ""]; attendees are joined by ", ". *)
Definition field_value (f : DetailsField) (d : MeetingDetails) : string :=
  match f with
  | FTitle => md_title d
  | FDate => default "" (md_date d)
  | FTime => default "" (md_time d)
  | FDuration => match md_duration d with Some n => if (n =? 0)%Z then "" else pretty n | None => "" end
  | FLocation => default "" (md_location d)
  | FAttendees => match md_attendees d with Some l => js_join ", " (Some <$> l) | None => "" end
  | FAgenda => default "" (md_agenda d)
  | FNotes => default "" (md_notes d)
  end%string.

(** The render (lines 169-391): the extract button's label and state, the
    details form (its inputs' values, or the placeholder text when there
    are no details), and the JSON and webhook cards once there are. *)
Record EmailView := mkEmailView {
  v_extract_label : string;
  v_extract_disabled : bool;
  v_fields : option (list (DetailsField * string));
  v_json : option MeetingDetails;
  v_webhook_disabled : option bool
}.

Definition all_fields : list DetailsField :=
  [FTitle; FDate; FTime; FDuration; FLocation; FAttendees; FAgenda; FNotes].

Definition view (st : EmailState) : EmailView :=
  mkEmailView (if loading st then "Extracting..." else "Extract Meeting Details")
    (loading st)
    ((fun d => (fun f => (f, field_value f d)) <$> all_fields) <$> meetingDetails st)
    (meetingDetails st)
    ((fun _ => loading st) <$> meetingDetails st).

Inductive EmailEvent :=
| SetSubject (v : string)                 (* line 204 *)
| SetBody (v : string)                    (* line 214 *)
| SetWebhookUrl (v : string)              (* line 378 *)
| EditField (f : DetailsField) (v : string)
| ParseClick                              (* line 219 *)
| ParseReturns (r : InvokeResult)
| WebhookClick                            (* line 381 *)
| WebhookReturns (ok : bool).

(** The outputs: toasts and webhook requests. *)
Inductive EmailOutput :=
| ToastOut (t : Toast)
| PostOut (url : string) (details : MeetingDetails).

Section Page.
Variable parseInt : string -> option Z.
Variable url_valid : string -> bool.

Definition set_inputs (st : EmailState) (s b u : string) : EmailState :=
  mkEmail (loading st) s b (meetingDetails st) u (pending_parse st) (pending_webhook st).

Definition step (st : EmailState) (ev : EmailEvent) : EmailState * list EmailOutput :=
  match ev with
  | SetSubject v => (set_inputs st v (emailBody st) (webhookUrl st), [])
  | SetBody v => (set_inputs st (emailSubject st) v (webhookUrl st), [])
  | SetWebhookUrl v => (set_inputs st (emailSubject st) (emailBody st) v, [])
  | EditField f v =>
      (mkEmail (loading st) (emailSubject st) (emailBody st)
         (edit_details parseInt f v <$> meetingDetails st) (webhookUrl st)
         (pending_parse st) (pending_webhook st), [])
  | ParseClick => let '(st', ts) := parse_begin st in (st', ToastOut <$> ts)
  | ParseReturns r => let '(st', ts) := parse_finish r st in (st', ToastOut <$> ts)
  | WebhookClick =>
      let '(st', ts, post) := webhook_begin url_valid st in
      (st', (ToastOut <$> ts) ++ match post with Some (u, d) => [PostOut u d] | None => [] end)
  | WebhookReturns ok => let '(st', ts) := webhook_finish ok st in (st', ToastOut <$> ts)
  end.

Context `{PF : ParseFunction}.

(** The events a control raises, and the answers of the promises in
    flight: the buttons are [disabled={loading}], the details inputs and
    the webhook card exist once details are set, and a parse answer is
    what the function gives for the subject and body sent. *)
Definition available (st : EmailState) (ev : EmailEvent) : Prop :=
  match ev with
  | SetSubject _ | SetBody _ => True
  | SetWebhookUrl _ | EditField _ _ => is_Some (meetingDetails st)
  | ParseClick => loading st = false
  | ParseReturns r => exists s b, pending_parse st = Some (s, b) /\ r = invoke_parse s b
  | WebhookClick => is_Some (meetingDetails st) /\ loading st = false
  | WebhookReturns _ => pending_webhook st = true
  end.

Inductive reachable : EmailState -> Prop :=
| reach_init : reachable initial_email
| reach_step st ev : reachable st -> available st ev -> reachable (step st ev).1.

End Page.

(** ** The edge function behind the contract *)

Section EdgeClient.
Context (api_key : option string) (fetch : GatewayRequest -> FetchOutcome)
  (parse_arguments : string -> result (option MeetingDetails)).

(** The client's message for an answer outside 2xx: the answer's body is
    not read. *)
Definition non_2xx_message : string := "Edge Function returned a non-2xx status code".

(** How [supabase.functions.invoke] reads the function's response. *)
Definition invoke_response (r : Response (option MeetingDetails)) : InvokeResult :=
  if bool_decide (200 <= resp_status r < 300)%N then
    match resp_body r with RSuccess d => InvokeData d | _ => InvokeData None end
  else InvokeError non_2xx_message.

(** The request the page sends (lines 77-82): [{ subject, body }]. *)
Definition parse_request (subject body : string) : Request :=
  mkRequest "POST" (BodyFields (Some subject) (Some body)).

#[export] Instance edge_function : ParseFunction :=
  { invoke_parse s b :=
      invoke_response (serve (option MeetingDetails) api_key fetch parse_arguments
                         (parse_request s b)).2 }.

End EdgeClient.

(** ** Loading and the promises in flight *)

Section Facts.
Variable parseInt : string -> option Z.
Variable url_valid : string -> bool.
Context `{PF : ParseFunction}.

(** [loading] is set exactly while a parse or a webhook call is in
    flight, and the two are never in flight together. *)
Definition email_inv (st : EmailState) : Prop :=
  (loading st = true <-> is_Some (pending_parse st) \/ pending_webhook st = true) /\
  ~ (is_Some (pending_parse st) /\ pending_webhook st = true).

Lemma email_inv_idle st :
  email_inv st -> loading st = false -> pending_parse st = None /\ pending_webhook st = false.
Proof.
  intros [Hl _] Hf. rewrite Hf in Hl. split.
  - destruct (pending_parse st); [|done]. exfalso.
    assert (false = true) by (apply Hl; left; by eexists). discriminate.
  - destruct (pending_webhook st); [|done]. exfalso.
    assert (false = true) by (apply Hl; by right). discriminate.
Qed.

Lemma parse_begin_inv st : email_inv st -> loading st = false -> email_inv (parse_begin st).1.
Proof.
  intros Hi Hf. destruct (email_inv_idle st Hi Hf) as [Hp Hw].
  unfold parse_begin. case_match; [done|]. unfold email_inv. simpl. rewrite Hw.
  split; [naive_solver|]. intros [_ ?]. discriminate.
Qed.

Lemma webhook_begin_inv st : email_inv st -> loading st = false ->
  email_inv (webhook_begin url_valid st).1.1.
Proof.
  intros Hi Hf. destruct (email_inv_idle st Hi Hf) as [Hp Hw].
  unfold webhook_begin. repeat case_match; try done.
  unfold email_inv. simpl. rewrite Hp. split; [naive_solver|]. by intros [[? ?] _].
Qed.

Lemma email_step_inv st ev : email_inv st -> available st ev -> email_inv (step parseInt url_valid st ev).1.
Proof.
  intros Hi Hav. destruct ev; simpl in Hav |- *; try done.
  - destruct (parse_begin st) as [s0 l] eqn:E. simpl. change s0 with (s0, l).1. rewrite <- E.
    by apply parse_begin_inv.
  - destruct Hav as (x & y & Hp & _). destruct Hi as [Hl Hn].
    assert (pending_webhook st = false) as Hw.
    { destruct (pending_webhook st); [|done]. exfalso. apply Hn. rewrite Hp. split; [eexists|]; done. }
    unfold parse_finish. unfold email_inv.
    destruct r as [m|[d|]]; simpl; rewrite Hw; split; try naive_solver;
      intros [[? ?] _]; discriminate.
  - destruct Hav as [_ Hf].
    destruct (webhook_begin url_valid st) as [[s0 ts] post] eqn:E. simpl.
    change s0 with (s0, ts, post).1.1. rewrite <- E. by apply webhook_begin_inv.
  - destruct Hi as [Hl Hn].
    assert (pending_parse st = None) as Hp.
    { destruct (pending_parse st); [|done]. exfalso. apply Hn. split; [eexists|]; done. }
    unfold email_inv. simpl. rewrite Hp. split; [naive_solver|]. by intros [[? ?] _].
Qed.

Lemma reachable_email_inv st : reachable parseInt url_valid st -> email_inv st.
Proof.
  induction 1 as [|st ev _ IH Hav].
  - unfold email_inv. simpl. split; [naive_solver|]. by intros [[? ?] _].
  - by apply email_step_inv.
Qed.

(** Against the contract: a click with a non-blank subject followed by an
    answer with details shows those details and a success toast. *)
Lemma parse_roundtrip st d :
  loading st = false -> js_blank (emailSubject st) = false ->
  invoke_parse (emailSubject st) (emailBody st) = InvokeData (Some d) ->
  let st1 := (step parseInt url_valid st ParseClick).1 in
  available st1 (ParseReturns (invoke_parse (emailSubject st) (emailBody st))) /\
  step parseInt url_valid st1 (ParseReturns (invoke_parse (emailSubject st) (emailBody st))) =
    (mkEmail false (emailSubject st) (emailBody st) (Some d) (webhookUrl st) None
       (pending_webhook st), [ToastOut (mkToast "Success" "Email parsed successfully!" false)]).
Proof.
  intros Hl Hs Hr. simpl. unfold parse_begin. rewrite Hs. simpl.
  split; [by eexists _, _|]. by rewrite Hr.
Qed.

(** A webhook request carries the details on display, which pass the
    schema, to the non-blank URL typed, which parses as a URL. *)
Lemma webhook_posts_valid st u d :
  PostOut u d ∈ (step parseInt url_valid st WebhookClick).2 ->
  meetingDetails st = Some d /\ validate d = None /\ u = webhookUrl st /\
  js_blank u = false /\ url_valid u = true.
Proof.
  simpl. unfold webhook_begin.
  destruct (js_blank (webhookUrl st)) eqn:Hb; [by intros Hin%list_elem_of_In; simpl in Hin; intuition congruence|].
  destruct (meetingDetails st) as [d0|]; [|by intros Hin%list_elem_of_In; simpl in Hin; intuition congruence].
  destruct (url_valid (webhookUrl st)) eqn:Hu; simpl; [|by intros Hin%list_elem_of_In; simpl in Hin; intuition congruence].
  destruct (validate d0) eqn:Hv; simpl; [by intros Hin%list_elem_of_In; simpl in Hin; intuition congruence|].
  intros Hin%list_elem_of_In. simpl in Hin. destruct Hin as [[= <- <-]|[]]. done.
Qed.

End Facts.

(** ** The page on the edge function *)

Section EdgeFacts.
Context (api_key : option string) (fetch : GatewayRequest -> FetchOutcome)
  (parse_arguments : string -> result (option MeetingDetails)).

Lemma serve_parse_request s b :
  serve (option MeetingDetails) api_key fetch parse_arguments (parse_request s b) =
  (let '(sent, r) := extract (option MeetingDetails) api_key fetch parse_arguments
                        (BodyFields (Some s) (Some b)) in
   (sent, match r with
          | Ok d => mkResponse 200 jsonHeaders (RSuccess d)
          | Throw m => mkResponse 500 jsonHeaders (RError m)
          end)).
Proof. done. Qed.

(** Every failure of the function reaches the page as the client's
    generic message: the function's own message (a missing key, the
    gateway's status, a parse error) is never shown. *)
Lemma edge_error_message s b m :
  @invoke_parse (edge_function api_key fetch parse_arguments) s b = InvokeError m ->
  m = non_2xx_message /\
  exists sent m', extract (option MeetingDetails) api_key fetch parse_arguments
                    (BodyFields (Some s) (Some b)) = (sent, Throw m').
Proof.
  intros H. unfold invoke_parse, edge_function in H. rewrite serve_parse_request in H.
  destruct (extract _ _ _ _ _) as [sent [m'|d]]; unfold invoke_response in H; simpl in H.
  - injection H as <-. eauto.
  - discriminate.
Qed.

(** With the key missing, the page's parse ends with the toast
    "Edge Function returned a non-2xx status code", not with the
    function's message. *)
Lemma page_missing_key_toast parseInt url_valid st :
  api_key = None -> loading st = false -> js_blank (emailSubject st) = false ->
  let st1 := (step parseInt url_valid st ParseClick).1 in
  let r := @invoke_parse (edge_function api_key fetch parse_arguments)
             (emailSubject st) (emailBody st) in
  r = InvokeError non_2xx_message /\
  step parseInt url_valid st1 (ParseReturns r) =
    (mkEmail false (emailSubject st) (emailBody st) (meetingDetails st) (webhookUrl st) None
       (pending_webhook st), [ToastOut (mkToast "Error" non_2xx_message true)]).
Proof.
  intros Hk Hl Hs. simpl. rewrite Hk. unfold parse_begin. rewrite Hs. simpl.
  split; done.
Qed.

(** A tool call whose arguments parse to details reaches the page as
    those details. *)
Lemma edge_success s b key status args d :
  api_key = Some key -> key <> "" ->
  fetch (mkGateway ("Bearer " ++ key) (user_content (Some s) (Some b))) =
    FetchResponse true status (Ok (Some args)) ->
  parse_arguments args = Ok (Some d) ->
  @invoke_parse (edge_function api_key fetch parse_arguments) s b = InvokeData (Some d).
Proof.
  intros Hk Hne Hf Hp. simpl. rewrite serve_parse_request. simpl. rewrite Hk.
  destruct key; [done|]. simpl. by rewrite Hf, Hp.
Qed.

End EdgeFacts.

(** ** The schema *)

Lemma first_error_none checks : first_error checks = None <-> Forall (fun c => c.1 = false) checks.
Proof.
  unfold first_error. induction checks as [|[b m] l IH]; simpl.
  - split; auto.
  - rewrite Forall_cons. destruct b; simpl; [split; [done|]; intros [? _]; discriminate|].
    rewrite IH. naive_solver.
Qed.

(** The details pass the schema exactly when the trimmed title has 1 to
    200 characters, date and time are set and not blank, the duration is
    positive and there is an attendee. *)
Lemma validate_none d :
  validate d = None <->
  1 <= String.length (js_trim (md_title d)) <= 200 /\
  blank_or_null (md_date d) = false /\ blank_or_null (md_time d) = false /\
  (exists n, md_duration d = Some n /\ (0 < n)%Z) /\
  (exists a l, md_attendees d = Some (a :: l)).
Proof.
  unfold validate. rewrite first_error_none, !Forall_cons. simpl.
  rewrite !bool_decide_eq_false.
  destruct (md_duration d) as [n|]; [|naive_solver].
  destruct (md_attendees d) as [[|a l]|]; [naive_solver| |naive_solver].
  rewrite negb_false_iff, Z.ltb_lt. split.
  - intros (? & ? & ? & ? & ? & ? & _). split_and!; [lia|lia|done|done|eauto|eauto].
  - intros ([? ?] & ? & ? & (? & [= <-] & ?) & _). split_and!; try done; try lia.
Qed.

End EmailToMeeting.
