(* ===== verification/Workflows.v ===== *)
(** * Workflows: the workflows list page and its run dialog

    [app/workflows/page.tsx] lists the fixture workflows filtered by a
    search query; a card's Run button selects the workflow and opens
    [components/modals/RunWorkflowModal.tsx], where the user picks a
    completed meeting and runs the workflow on it (an [alert]).

    - Module [RunModal]: the dialog's state, [handleExecute], the meeting
      picker, the render ([None] when there is no workflow: the component
      returns [null]) and its events;
    - Module [WorkflowsPage]: the search filter, [handleRunWorkflow],
      [handleExecuteWorkflow], [handleDeleteWorkflow], the cards, and the
      page's step relation, which composes the dialog's outputs with the
      page's callbacks. [confirm] is an input and [alert] an output. *)

From S2P Require Import Spec2Rocq.
From S2P Require Import Types.
From S2P Require Import MockData.
From S2P Require Import JsString.
Import Types.
Import JsString.

Module RunModal.

Record RunState := mkRun {
  selectedMeetingId : option string;
  isMeetingDropdownOpen : bool
}.

Definition initial_run : RunState := mkRun None false.

(** [meetings.filter(m => m.status === 'Completed')] (line 43). *)
Definition completedMeetings (meetings : list Meeting) : list Meeting :=
  List.filter (fun m => bool_decide (meeting_status m = Completed)) meetings.

(** A selection is truthy when it is a non-empty string. *)
Definition truthy_id (o : option string) : option string :=
  match o with Some m => if m === "" then None else Some m | None => None end.

(** [handleExecute] (lines 45-50): the argument of [onExecute], and the
    state after; a falsy selection does nothing. *)
Definition handleExecute (st : RunState) : RunState * option string :=
  match truthy_id (selectedMeetingId st) with
  | Some m => (mkRun None (isMeetingDropdownOpen st), Some m)
  | None => (st, None)
  end.

(** The trigger's text (lines 79-81). *)
Definition trigger_label (meetings : list Meeting) (st : RunState) : string :=
  match truthy_id (selectedMeetingId st) with
  | Some i =>
      js_or (default "" (meeting_title <$>
               List.find (fun m => meeting_id m === i) (completedMeetings meetings)))
        "Selected"
  | None => "Choose a meeting..."
  end.

(** A step's label (line 131):
    [step.type.replace(/_/g, ' ').replace(/\b\w/g, l => l.toUpperCase())]. *)
Definition run_step_label (s : WorkflowStep) : string :=
  capitalize_words (replace_underscores (step_type_value (step_type s))).

(** The dropdown's content (lines 89-114): one item per completed meeting
    (its id, title and formatted date), or the disabled placeholder. *)
Inductive MeetingItems :=
| Items (items : list (string * string * string))
| NoCompleted.

Record RunView := mkRunView {
  rv_description : string;
  rv_trigger : string;
  rv_items : MeetingItems;
  rv_workflow_description : option string;
  rv_steps : list (nat * string);
  rv_run_disabled : bool
}.

Section Render.
(** [new Date(meeting.scheduledAt).toLocaleDateString()] (line 104). *)
Variable formatDate : string -> string.

(** The dialog (lines 52-157); [None] for [if (!workflow) return null]. *)
Definition run_view (meetings : list Meeting) (workflow : option Workflow) (st : RunState)
  : option RunView :=
  (fun w =>
     mkRunView ("Execute " ++ dquote ++ workflow_name w ++ dquote ++ " on a completed meeting.")
       (trigger_label meetings st)
       (match completedMeetings meetings with
        | [] => NoCompleted
        | ms => Items ((fun m => (meeting_id m, meeting_title m, formatDate (meeting_scheduledAt m))) <$> ms)
        end)
       (match workflow_description w with
        | Some d => if d === "" then None else Some d
        | None => None
        end)
       (imap (fun index s => (S index, run_step_label s)) (workflow_steps w))
       (bool_decide (truthy_id (selectedMeetingId st) = None)))
  <$> workflow.
End Render.

Inductive RunEvent :=
| SetDropdown (b : bool)        (* the menu's [onOpenChange] *)
| PickMeeting (meetingId : string)
| CancelRun                     (* Cancel, or the dialog's own close *)
| Execute.

(** The outputs: [onExecute(meetingId)] and [onOpenChange(false)]. *)
Inductive RunOutput := OnExecute (meetingId : string) | OnClose.

Definition run_handle (st : RunState) (ev : RunEvent) : RunState * list RunOutput :=
  match ev with
  | SetDropdown b => (mkRun (selectedMeetingId st) b, [])
  | PickMeeting i => (mkRun (Some i) false, [])
  | CancelRun => (st, [OnClose])
  | Execute =>
      let '(st', m) := handleExecute st in
      (st', match m with Some i => [OnExecute i] | None => [] end)
  end.

(** The dialog's controls, while it is rendered: an item per completed
    meeting, and Run enabled by a truthy selection. *)
Definition run_available (meetings : list Meeting) (st : RunState) (ev : RunEvent) : Prop :=
  match ev with
  | PickMeeting i => i ∈ meeting_id <$> completedMeetings meetings
  | Execute => is_Some (truthy_id (selectedMeetingId st))
  | _ => True
  end.

End RunModal.

Module WorkflowsPage.
Import RunModal.

Record ListState := mkList {
  searchQuery : string;
  isRunModalOpen : bool;
  selectedWorkflow : option Workflow;
  run : RunState
}.

Definition initial_list : ListState := mkList "" false None initial_run.

(** [workflow.name.toLowerCase().includes(q) ||
     workflow.description?.toLowerCase().includes(q)] (lines 22-25). *)
Definition matches_query (q : string) (w : Workflow) : bool :=
  js_includes (js_toLowerCase (workflow_name w)) (js_toLowerCase q)
  || match workflow_description w with
     | Some d => js_includes (js_toLowerCase d) (js_toLowerCase q)
     | None => false
     end.

Definition filteredWorkflows (q : string) (ws : list Workflow) : list Workflow :=
  List.filter (matches_query q) ws.

(** [handleRunWorkflow] (lines 28-34). *)
Definition handleRunWorkflow (ws : list Workflow) (workflowId : string) (st : ListState)
  : ListState :=
  match List.find (fun w => workflow_id w === workflowId) ws with
  | Some w => mkList (searchQuery st) true (Some w) (run st)
  | None => st
  end.

(** [selectedWorkflow?.name] in a template literal. *)
Definition selected_name (o : option Workflow) : string :=
  match o with Some w => workflow_name w | None => "undefined" end.

(** [handleExecuteWorkflow] (lines 36-45): the alert, then the dialog
    closes and the selection is cleared. *)
Definition handleExecuteWorkflow (st : ListState) : ListState * string :=
  (mkList (searchQuery st) false None (run st),
   "Workflow " ++ dquote ++ selected_name (selectedWorkflow st) ++ dquote
   ++ " would be executed on meeting.")%string.

(** [handleDeleteWorkflow] (lines 47-53): the alert when [confirm] says
    yes; nothing is deleted. *)
Definition handleDeleteWorkflow (confirmed : bool) : option string :=
  if confirmed then Some "Workflow would be deleted."%string else None.

(** One card (lines 97-161). *)
Record WorkflowCard := mkCard {
  card_key : string;
  card_name : string;
  card_description : string;
  card_count : string;
  card_steps : list (nat * option string);
  card_more : option nat
}.

Definition workflow_card (w : Workflow) : WorkflowCard :=
  let n := length (workflow_steps w) in
  mkCard (workflow_id w) (workflow_name w)
    (js_or (default "" (workflow_description w)) "No description")
    (pretty n ++ " step" ++ (if bool_decide (n <> 1) then "s" else ""))%string
    (imap (fun idx s => (S idx, step_name s)) (take 3 (workflow_steps w)))
    (if bool_decide (3 < n) then Some (n - 3) else None).

Inductive WorkflowsBody :=
| Cards (cards : list WorkflowCard)
| NoWorkflows (message : string) (create_button : bool).

(** The body (lines 95-182). *)
Definition workflows_body (ws : list Workflow) (st : ListState) : WorkflowsBody :=
  match filteredWorkflows (searchQuery st) ws with
  | [] => NoWorkflows
            (if searchQuery st === "" then
               "Create your first workflow to transform meeting conversations into documents"
             else "Try adjusting your search terms")
            (searchQuery st === "")
  | l => Cards (workflow_card <$> l)
  end.

Inductive ListEvent :=
| CreateWorkflow                         (* lines 67 and 176 *)
| Search (v : string)                    (* line 79 *)
| RunClick (workflowId : string)         (* line 141 *)
| EditClick (workflowId : string)        (* line 148, an empty handler *)
| DeleteClick (workflowId : string) (confirmed : bool)   (* line 155 *)
| RunDialog (ev : RunEvent).

Inductive ListOutput := Navigate (path : string) | AlertOut (msg : string).

(** The page's handlers; the dialog's [onOpenChange] is
    [setIsRunModalOpen] and its [onExecute] is [handleExecuteWorkflow]. *)
Definition step (ws : list Workflow) (st : ListState) (ev : ListEvent) : ListState * list ListOutput :=
  match ev with
  | CreateWorkflow => (st, [Navigate "/studio"])
  | Search v => (mkList v (isRunModalOpen st) (selectedWorkflow st) (run st), [])
  | RunClick i => (handleRunWorkflow ws i st, [])
  | EditClick _ => (st, [])
  | DeleteClick _ c =>
      (st, match handleDeleteWorkflow c with Some m => [AlertOut m] | None => [] end)
  | RunDialog e =>
      let '(r', outs) := run_handle (run st) e in
      let st1 := mkList (searchQuery st) (isRunModalOpen st) (selectedWorkflow st) r' in
      match outs with
      | [OnExecute _] => let '(st2, msg) := handleExecuteWorkflow st1 in (st2, [AlertOut msg])
      | [OnClose] => (mkList (searchQuery st1) false (selectedWorkflow st1) (run st1), [])
      | _ => (st1, [])
      end
  end%string.

(** The controls: a card's buttons for each listed workflow, the empty
    state's button without a query, and the dialog's controls while it is
    open and has a workflow. *)
Definition available (meetings : list Meeting) (ws : list Workflow) (st : ListState)
    (ev : ListEvent) : Prop :=
  match ev with
  | CreateWorkflow | Search _ => True
  | RunClick i | EditClick i | DeleteClick i _ =>
      i ∈ workflow_id <$> filteredWorkflows (searchQuery st) ws
  | RunDialog e =>
      isRunModalOpen st = true /\ is_Some (selectedWorkflow st) /\ run_available meetings (run st) e
  end.

Inductive reachable (meetings : list Meeting) (ws : list Workflow) : ListState -> Prop :=
| reach_init : reachable meetings ws initial_list
| reach_step st ev : reachable meetings ws st -> available meetings ws st ev ->
    reachable meetings ws (step ws st ev).1.

(** ** Properties *)

(** An empty search lists every workflow. *)
Lemma filteredWorkflows_empty ws : filteredWorkflows "" ws = ws.
Proof.
  induction ws as [|w ws IH]; [done|]. simpl.
  unfold matches_query at 1. rewrite js_includes_empty. simpl. by rewrite IH.
Qed.

Section Reach.
Context (meetings : list Meeting) (ws : list Workflow).

(** The page's invariant: the dialog is open only with a selected
    workflow, the selected workflow is a fixture workflow, and the picked
    meeting is a completed one. *)
Definition list_inv (st : ListState) : Prop :=
  (isRunModalOpen st = true -> is_Some (selectedWorkflow st)) /\
  (forall w, selectedWorkflow st = Some w -> w ∈ ws) /\
  (forall m, selectedMeetingId (run st) = Some m -> m ∈ meeting_id <$> completedMeetings meetings).

Lemma handleRunWorkflow_inv i st : list_inv st -> list_inv (handleRunWorkflow ws i st).
Proof.
  unfold handleRunWorkflow. destruct (List.find _ _) as [w|] eqn:E; [|done].
  intros (_ & _ & Hm). split_and!; simpl; [by eexists| |done].
  intros w' [= <-]. apply List.find_some in E as [Hw _]. by apply list_elem_of_In.
Qed.

Lemma run_handle_sel r e :
  run_available meetings r e ->
  (forall m, selectedMeetingId r = Some m -> m ∈ meeting_id <$> completedMeetings meetings) ->
  forall m, selectedMeetingId (run_handle r e).1 = Some m ->
  m ∈ meeting_id <$> completedMeetings meetings.
Proof.
  intros Hav Hm. destruct e; simpl in *; try done.
  - by intros m [= <-].
  - unfold handleExecute. destruct (truthy_id _); simpl; [by intros ? [=]|exact Hm].
Qed.

Lemma list_step_inv st ev : list_inv st -> available meetings ws st ev -> list_inv (step ws st ev).1.
Proof.
  intros Hi Hav. destruct ev as [| | i | | | e]; simpl; try done.
  - by apply handleRunWorkflow_inv.
  - destruct Hav as (_ & _ & Hav). destruct Hi as (Ho & Hw & Hm).
    pose proof (run_handle_sel _ _ Hav Hm) as Hm'.
    destruct (run_handle (run st) e) as [r' outs] eqn:E. simpl in Hm'.
    destruct outs as [|[i|] [|]]; simpl; split_and!; simpl; try done; by intros ? [=].
Qed.

Lemma reachable_list_inv st : reachable meetings ws st -> list_inv st.
Proof.
  induction 1 as [|st ev _ IH Hav].
  - split_and!; simpl; try done; by intros ? [=].
  - by apply list_step_inv.
Qed.

(** Running from any reachable state alerts the name of the selected
    fixture workflow (never [undefined]), hands over a completed meeting,
    and closes the dialog with both selections cleared. *)
Lemma execute_from_reachable st :
  reachable meetings ws st -> available meetings ws st (RunDialog Execute) ->
  exists w m, selectedWorkflow st = Some w /\ w ∈ ws /\
    selectedMeetingId (run st) = Some m /\ m ∈ meeting_id <$> completedMeetings meetings /\
    step ws st (RunDialog Execute) =
      (mkList (searchQuery st) false None (mkRun None (isMeetingDropdownOpen (run st))),
       [AlertOut ("Workflow " ++ dquote ++ workflow_name w ++ dquote
                  ++ " would be executed on meeting.")]).
Proof.
  intros Hr (Ho & [w Hw] & Hs). destruct (reachable_list_inv _ Hr) as (_ & Hws & Hm).
  simpl in Hs. destruct (selectedMeetingId (run st)) as [m|] eqn:Esel; [|by destruct Hs].
  exists w, m. split_and!; auto.
  simpl. unfold handleExecute. rewrite Esel. simpl in Hs |- *.
  destruct (m === "") eqn:E; [by destruct Hs|]. by rewrite Hw.
Qed.

End Reach.

(** Cancelling keeps the picked meeting: the dialog opened for another
    workflow shows it selected and Run enabled. *)
Example selection_survives_cancel :
  let st1 := (step MockData.workflows initial_list (RunClick "workflow_1")).1 in
  let st2 := (step MockData.workflows st1 (RunDialog (PickMeeting "meeting_1"))).1 in
  let st3 := (step MockData.workflows st2 (RunDialog CancelRun)).1 in
  let st4 := (step MockData.workflows st3 (RunClick "workflow_2")).1 in
  selectedMeetingId (run st4) = Some "meeting_1"%string /\
  option_map workflow_id (selectedWorkflow st4) = Some "workflow_2"%string.
Proof. vm_compute. auto. Qed.

End WorkflowsPage.
