(* ===== verification/SetupSession.v ===== *)
(** * SetupSession: the session setup form, [src/src/pages/SetupSession.tsx]

    The page collects a session's title, description, agent persona,
    session type and the invited expert's name and email, and posts them
    to a fixed Power Automate webhook. [handleSubmit] is split at its
    [await]: [submit_begin] runs on the form's submit event (which the
    browser only fires when the [required] inputs are filled and the email
    is well formed, and the submit button is enabled), [submit_finish] on
    the answer. The model-only field [pending] holds the payload in flight.
    The clock ([new Date().toISOString()]) and the browser's email check
    are parameters. *)

From S2P Require Import Spec2Rocq.
From S2P Require Import JsString.
Import JsString.

Module SetupSession.

(** [WEBHOOK_URL] (lines 18-19). *)
Definition WEBHOOK_URL : string :=
  "https://default2fb7e7d5ed0c4ce79d90267cf0d100.0b.environment.api.powerplatform.com:443/powerautomate/automations/direct/workflows/6be6b1419eac4ec780e84013bc589b13/triggers/manual/paths/invoke?api-version=1&sp=%2Ftriggers%2Fmanual%2Frun&sv=1.0&sig=qoI415XohdHRhXAA4cHkbqUkge8Sip8KzE0mnQfMxj8".

(** [formData] (lines 24-32). *)
Record FormData := mkFormData {
  title : string;
  description : string;
  persona : string;
  firstName : string;
  lastName : string;
  inviteEmail : string;
  sessionType : string
}.

Definition initial_form : FormData :=
  mkFormData "" "" "rachael-payment-ops" "" "" "" "guided".

(** The [Select] options (lines 174-176 and 203-204). *)
Definition sessionTypes : list string := ["guided"; "freeform"; "structured"].
Definition personas : list string := ["rachael-payment-ops"; "ross-soc2"].

(** [getPayload()] (lines 35-44). *)
Record Payload := mkPayload {
  p_form : FormData;
  p_createdAt : string
}.

Definition getPayload (f : FormData) (now : string) : Payload := mkPayload f now.

Record SetupState := mkSetup {
  formData : FormData;
  isSubmitting : bool;
  pending : option Payload
}.

Definition initial_setup : SetupState := mkSetup initial_form false None.

(** The form's fields and [setFormData({ ...formData, <field>: value })]. *)
Inductive Field := FTitle | FDescription | FPersona | FFirstName | FLastName | FInviteEmail | FSessionType.

Definition set_field (fd : Field) (v : string) (f : FormData) : FormData :=
  let '(mkFormData t d p fn ln e s) := f in
  match fd with
  | FTitle => mkFormData v d p fn ln e s
  | FDescription => mkFormData t v p fn ln e s
  | FPersona => mkFormData t d v fn ln e s
  | FFirstName => mkFormData t d p v ln e s
  | FLastName => mkFormData t d p fn v e s
  | FInviteEmail => mkFormData t d p fn ln v s
  | FSessionType => mkFormData t d p fn ln e v
  end.

(** The browser's constraint validation before [onSubmit]: the three
    [required] inputs are non-empty and the [type="email"] input is a
    valid address. The title and the description are not required. *)
Definition form_submittable (email_valid : string -> bool) (f : FormData) : bool :=
  negb (firstName f === "") && negb (lastName f === "") && negb (inviteEmail f === "")
  && email_valid (inviteEmail f).

Record Toast := mkToast { toast_title : string; toast_description : string; toast_destructive : bool }.

(** [handleSubmit] up to its [await] (lines 46-60): [setIsSubmitting(true)]
    and the [POST] of the payload. *)
Definition submit_begin (now : string) (st : SetupState) : SetupState * Payload :=
  let payload := getPayload (formData st) now in
  (mkSetup (formData st) true (Some payload), payload).

(** The rest (lines 62-82), on whether the answer was [ok] ([fetch]
    throwing and a non-ok status give the same toast). The toast names the
    email of the render that submitted, the one sent. *)
Definition submit_finish (ok : bool) (sent : FormData) (st : SetupState)
  : SetupState * Toast * option string :=
  (mkSetup (formData st) false None,
   if ok then mkToast "Invitation Sent!"
                ("Knowledge extraction session invitation has been sent to " ++ inviteEmail sent) false
   else mkToast "Failed to Send"
          "Could not send invitation to Power Automate. Please check your webhook URL." true,
   if ok then Some "/dashboard" else None).

(** [copyPayload] (lines 85-92): the text copied and the toast. No
    control of the page calls it. *)
Definition copyPayload (now : string) (f : FormData) : Payload * Toast :=
  (getPayload f now, mkToast "Copied to Clipboard" "Payload structure copied successfully" false).

(** The persona texts (lines 154-159 and 210-229): every value other
    than Rachael's shows Ross. *)
Definition is_rachael (f : FormData) : bool := persona f === "rachael-payment-ops".

Definition suggested_for (f : FormData) : string :=
  if is_rachael f then "Payment Ops" else "SOC 2".

Definition suggested_items (f : FormData) : string :=
  if is_rachael f
  then "Payment processing workflows, reconciliation procedures, vendor payment protocols, fraud detection processes, payment exceptions handling, compliance requirements"
  else "Security controls implementation, audit evidence collection, compliance documentation, access control procedures, incident response protocols, policy enforcement".

Definition persona_label (f : FormData) : string :=
  if is_rachael f then "Rachael-Payment Ops Analyst" else "Ross the SOC 2 Compliance Assistant".

Definition persona_blurb (f : FormData) : string :=
  if is_rachael f
  then "Rachael specializes in payment operations and will focus on payment processing workflows, compliance, and reconciliation procedures."
  else "Ross is a SOC 2 compliance specialist who will focus on security controls, audit requirements, and compliance documentation.".

Definition focus_areas (f : FormData) : string :=
  if is_rachael f
  then "Payment gateways, ACH processing, wire transfers, payment reconciliation, chargeback management, PCI compliance, vendor onboarding, payment fraud prevention"
  else "Access controls, encryption standards, vulnerability management, incident response plans, security monitoring, audit logging, third-party risk assessment, policy documentation".

(** The submit button (lines 299-307): its label and [disabled]. *)
Definition submit_label (st : SetupState) : string :=
  if isSubmitting st then "Sending..." else "Create & Send Invitation".

Inductive SetupEvent :=
| SetField (fd : Field) (v : string)
| Submit (now : string)
| SubmitReturns (ok : bool)
| Preview                       (* line 292 *)
| Back.                         (* line 100 *)

Inductive SetupOutput :=
| PostOut (url : string) (payload : Payload)
| ToastOut (t : Toast)
| Navigate (path : string).

Definition step (st : SetupState) (ev : SetupEvent) : SetupState * list SetupOutput :=
  match ev with
  | SetField fd v => (mkSetup (set_field fd v (formData st)) (isSubmitting st) (pending st), [])
  | Submit now =>
      let '(st', p) := submit_begin now st in (st', [PostOut WEBHOOK_URL p])
  | SubmitReturns ok =>
      match pending st with
      | Some p =>
          let '(st', t, nav) := submit_finish ok (p_form p) st in
          (st', ToastOut t :: match nav with Some r => [Navigate r] | None => [] end)
      | None => (st, [])
      end
  | Preview => (st, [Navigate "/session/demo"])
  | Back => (st, [Navigate "/"])
  end.

Section Controls.
Variable email_valid : string -> bool.

(** The events: the inputs (the selects offer their options), a submit
    when the button is enabled and the form passes the browser's checks,
    and the answer of the request in flight. *)
Definition available (st : SetupState) (ev : SetupEvent) : Prop :=
  match ev with
  | SetField FPersona v => v ∈ personas
  | SetField FSessionType v => v ∈ sessionTypes
  | SetField _ _ | Preview | Back => True
  | Submit _ => isSubmitting st = false /\ form_submittable email_valid (formData st) = true
  | SubmitReturns _ => is_Some (pending st)
  end.

Inductive reachable : SetupState -> Prop :=
| reach_init : reachable initial_setup
| reach_step st ev : reachable st -> available st ev -> reachable (step st ev).1.

End Controls.

(** ** Properties *)

Section Facts.
Variable email_valid : string -> bool.

(** The page's invariant: [isSubmitting] is set exactly while a request
    is in flight, and the selects hold one of their options. *)
Definition setup_inv (st : SetupState) : Prop :=
  (isSubmitting st = true <-> is_Some (pending st)) /\
  persona (formData st) ∈ personas /\ sessionType (formData st) ∈ sessionTypes.

Lemma setup_step_inv st ev :
  setup_inv st -> available email_valid st ev -> setup_inv (step st ev).1.
Proof.
  intros (Hs & Hp & Ht) Hav. destruct ev as [fd v|now|ok| |]; simpl; try (split_and!; done).
  - unfold setup_inv. simpl. split; [done|].
    destruct (formData st), fd; simpl in *; split; done.
  - simpl in Hav. destruct (pending st) as [p|] eqn:E; [|by destruct Hav].
    unfold setup_inv. simpl. split; [split; [discriminate|by intros [? ?]]|done].
Qed.

Lemma reachable_setup_inv st : reachable email_valid st -> setup_inv st.
Proof.
  induction 1 as [|st ev _ IH Hav].
  - split_and!; [split; [discriminate|by intros [? ?]]|left|left].
  - by apply setup_step_inv.
Qed.

(** No second request while one is in flight. *)
Lemma no_double_submit st now :
  reachable email_valid st -> is_Some (pending st) -> ~ available email_valid st (Submit now).
Proof.
  intros Hr Hp [Hs _]. destruct (reachable_setup_inv st Hr) as ([_ H] & _).
  rewrite (H Hp) in Hs. discriminate.
Qed.

(** A successful answer toasts the email that was sent and goes to the
    dashboard, even when the email field was edited while the request
    was in flight. *)
Lemma success_toast_names_sent_email st now v :
  let st1 := (step st (Submit now)).1 in
  let st2 := (step st1 (SetField FInviteEmail v)).1 in
  step st2 (SubmitReturns true) =
    (mkSetup (set_field FInviteEmail v (formData st)) false None,
     [ToastOut (mkToast "Invitation Sent!"
        ("Knowledge extraction session invitation has been sent to " ++ inviteEmail (formData st))
        false); Navigate "/dashboard"]).
Proof. done. Qed.

End Facts.

End SetupSession.
