(* ===== verification/Dashboard.v ===== *)
(** * Dashboard: the home page [app/page.tsx] and its components

    [Home] owns the page state (the sidebar, the current view, the
    selected session, two modals and the configuration drawer) and renders
    [components/dashboard/]: [SessionsSidebar], [DashboardView] or
    [SessionDetailView], [StartSessionModal], [ScheduleSessionModal] and
    [ConfigDrawer]. The drawer's Run button starts a 2-second [setTimeout]
    whose callback dispatches a window event [assetGenerated] and closes
    the drawer; [SessionDetailView] listens for that event while it is
    mounted and prepends an asset to its list.

    The model keeps the state of every mounted component: [detail] is the
    state of [SessionDetailView], [None] while it is not mounted (its state
    is lost when it unmounts, and it stays mounted, with its state, when a
    second session is opened from the sidebar); the modals and the drawer
    are always mounted (they return [null] after their hooks), so their
    state survives closing. The pending timers are explicit, and the
    environment fires any of them: their order is not fixed by the code. *)

From S2P Require Import Spec2Rocq.
From S2P Require Import JsString.
From Stdlib Require Import QArith.
From stdpp Require Import well_founded.
Import JsString.

Module Dashboard.

(** ** The session modals *)

(** The agents both modals offer (lines 22-27 and 19-24). *)
Record ModalAgent := mkModalAgent { ma_id : string; ma_name : string; ma_description : string }.

Definition modal_agents : list ModalAgent := [
  mkModalAgent "rachael" "Rachael" "Finance Expert";
  mkModalAgent "ross" "Ross" "Compliance Specialist";
  mkModalAgent "monica" "Monica" "Operations Manager";
  mkModalAgent "chandler" "Chandler" "Data Analyst"
]%string.

Definition nl : string := String (Ascii.ascii_of_nat 10) EmptyString.

(** [StartSessionModal]'s state (lines 12-17). *)
Record StartForm := mkStart {
  st_agent : option string;
  st_title : string;
  st_email : string;
  st_notes : string
}.

Definition initial_start : StartForm := mkStart None "" "" "".

(** A string is truthy when it is not empty. *)
Definition truthy (s : string) : bool := negb (s === "").

Definition truthy_opt (o : option string) : bool :=
  match o with Some s => truthy s | None => false end.

(** [handleSubmit] (lines 26-36): the alert, the reset and [onClose()]
    (the [bool]). *)
Definition start_submit (f : StartForm) : StartForm * option string * bool :=
  match f with
  | mkStart (Some a) t e _ =>
      if truthy a && truthy t && truthy e then
        (initial_start,
         Some ("Session Started!" ++ nl ++ nl ++ "Agent: " ++ a ++ nl ++ "Title: " ++ t ++ nl
               ++ "Invitee: " ++ e ++ nl ++ nl
               ++ "In a real application, an email with your unique phone number would be sent to the SME."),
         true)
      else (f, None, false)
  | _ => (f, None, false)
  end%string.

(** The submit button's [disabled] (line 128). *)
Definition start_disabled (f : StartForm) : bool :=
  negb (truthy_opt (st_agent f)) || negb (truthy (st_title f)) || negb (truthy (st_email f)).

(** [ScheduleSessionModal]'s state (lines 12-20). *)
Record ScheduleForm := mkSchedule {
  sc_agent : option string;
  sc_title : string;
  sc_date : string;
  sc_time : string;
  sc_duration : string;
  sc_email : string;
  sc_notes : string
}.

Definition initial_schedule : ScheduleForm := mkSchedule None "" "" "" "" "" "".

(** [handleSubmit] (lines 29-46). *)
Definition schedule_submit (f : ScheduleForm) : ScheduleForm * option string * bool :=
  match f with
  | mkSchedule (Some a) t d tm du e _ =>
      if truthy a && truthy t && truthy d && truthy tm && truthy du && truthy e then
        (initial_schedule,
         Some ("Session Scheduled!" ++ nl ++ nl ++ "Agent: " ++ a ++ nl ++ "Title: " ++ t ++ nl
               ++ "Date: " ++ d ++ nl ++ "Time: " ++ tm ++ nl ++ "Duration: " ++ du ++ " minutes"
               ++ nl ++ "Invitee: " ++ e ++ nl ++ nl
               ++ "In a real application, a calendar invitation with your unique phone number would be sent to the SME."),
         true)
      else (f, None, false)
  | _ => (f, None, false)
  end%string.

(** The submit button's [disabled] (lines 184-191). *)
Definition schedule_disabled (f : ScheduleForm) : bool :=
  negb (truthy_opt (sc_agent f)) || negb (truthy (sc_title f)) || negb (truthy (sc_date f))
  || negb (truthy (sc_time f)) || negb (truthy (sc_duration f)) || negb (truthy (sc_email f)).

(** ** The automations and the drawer *)

(** [currentAutomation]: the [{ type, title, icon }] of the card. *)
Record Automation := mkAutomation { au_type : string; au_title : string; au_icon : string }.

(** The six cards of [AutomationOptions] (lines 12-49). *)
Definition automations : list Automation := [
  mkAutomation "summary" "Generate Summary" "page";
  mkAutomation "insights" "Extract Insights" "bar-chart";
  mkAutomation "training" "Create Training Module" "books";
  mkAutomation "actions" "Action Items List" "check-mark";
  mkAutomation "kb-article" "Knowledge Base Article" "direct-hit";
  mkAutomation "minutes" "Meeting Minutes" "memo"
]%string.

(** [ConfigDrawer]'s [config] (lines 17-21). *)
Record Config := mkConfig { outputTone : string; targetAudience : string; additionalInstructions : string }.

Definition initial_config : Config := mkConfig "professional" "" "".

Definition tones : list string := ["professional"; "casual"; "technical"; "friendly"; "formal"]%string.

Record DrawerState := mkDrawer { config : Config; isProcessing : bool }.

Definition initial_drawer : DrawerState := mkDrawer initial_config false.

(** ** The session detail *)

Record SessionRef := mkSessionRef { agentName : string; sessionName : string; sessionId : string }.

(** A generated asset (lines 35-43 of [SessionDetailView]). *)
Record Asset := mkAsset { as_type : string; as_title : string; as_icon : string; as_timestamp : string }.

(** [SessionDetailView]'s state (lines 18-20); [progress] is a percentage. *)
Record DetailState := mkDetail { isPlaying : bool; progress : Q; assets : list Asset }.

Definition initial_detail : DetailState := mkDetail false 35 [].

(** [togglePlayPause] (lines 60-62). *)
Definition togglePlayPause (d : DetailState) : DetailState :=
  mkDetail (negb (isPlaying d)) (progress d) (assets d).

(** [handleSeek] (lines 64-70): [(offsetX / offsetWidth) * 100]. *)
Definition handleSeek (offsetX barWidth : Q) (d : DetailState) : DetailState :=
  mkDetail (isPlaying d) (offsetX / barWidth * 100) (assets d).

(** [handleAssetGenerated] (lines 23-52): the new asset goes first; the
    scroll it schedules changes no state. *)
Definition handleAssetGenerated (a : Automation) (timestamp : string) (d : DetailState) : DetailState :=
  mkDetail (isPlaying d) (progress d)
    (mkAsset (au_type a) (au_title a) (au_icon a) timestamp :: assets d).

(** The alerts of [GeneratedAssets] (lines 16-26). *)
Inductive AssetAction := ViewAsset | ChatAsset | ExportAsset.

Definition asset_alert (act : AssetAction) (type : string) : string :=
  match act with
  | ViewAsset => "Opening " ++ type ++ " asset viewer!" ++ nl ++ nl
                 ++ "This would display the generated content in a full viewer."
  | ChatAsset => "Opening chat refinement for " ++ type ++ "!" ++ nl ++ nl
                 ++ "This would allow you to refine the asset through conversation."
  | ExportAsset => "Exporting " ++ type ++ " asset!" ++ nl ++ nl
                   ++ "This would download the asset in your preferred format (PDF, DOCX, etc.)."
  end%string.

(** ** What the session detail renders *)

(** A card of [GeneratedAssets] (lines 36-71): its key, icon, title, the
    [Generated:] line, and the three buttons with the alert each raises. *)
Record AssetCard := mkAssetCard {
  ac_key : string;
  ac_icon : string;
  ac_title : string;
  ac_generated : string;
  ac_buttons : list (string * AssetAction)
}.

Definition asset_card (i : nat) (a : Asset) : AssetCard :=
  mkAssetCard (as_type a ++ "-" ++ as_timestamp a ++ "-" ++ pretty (N.of_nat i))
    (as_icon a) (as_title a) ("Generated: " ++ as_timestamp a)
    [("View", ViewAsset); ("Chat", ChatAsset); ("down-arrow", ExportAsset)]%string.

(** [GeneratedAssets] (lines 28-74): [null] for no asset, else one card
    per asset, newest first. *)
Definition assets_view (l : list Asset) : option (list AssetCard) :=
  match l with
  | [] => None
  | _ => Some (imap asset_card l)
  end.

(** A card of [AutomationOptions] (lines 55-85): its icon, title,
    description and the automation its Apply button opens. *)
Record AutomationCard := mkAutoCard {
  card_icon : string;
  card_title : string;
  card_description : string;
  card_automation : Automation
}.

Definition automation_descriptions : list string := [
  "Create an executive summary of the session with key takeaways and action items.";
  "AI-powered analysis to identify patterns, themes, and critical insights from the conversation.";
  "Transform session content into a structured training module with lessons and quizzes.";
  "Extract and organize all action items, decisions, and next steps mentioned in the session.";
  "Convert tacit knowledge into a well-structured article for your knowledge base.";
  "Generate formal meeting minutes with attendees, discussions, and resolutions."
]%string.

Definition automation_cards : list AutomationCard :=
  zip_with (fun a d => mkAutoCard (au_icon a) (au_title a) d a) automations automation_descriptions.

(** [SessionDetailView]'s render (lines 71-160): the breadcrumb's agent,
    the title and id, the info grid, the play button's icon, the progress
    bar's width, the assets and the automation cards. The info grid is
    written out in the markup: the agent line appends "(Rachael)" to any
    agent, and the topic, parties, date and duration are the same for
    every session. *)
Record DetailView := mkDetailView {
  dv_agent : string;
  dv_title : string;
  dv_session_id : string;
  dv_info : list (string * string);
  dv_play_icon : string;
  dv_width : Q;
  dv_assets : option (list AssetCard);
  dv_automations : list AutomationCard
}.

Definition detail_info (s : SessionRef) : list (string * string) := [
  ("Agent Name", agentName s ++ " (Rachael)"); ("Topic", "Financial Compliance & Reporting");
  ("Invited Parties", "john.doe@company.com, sarah.smith@company.com");
  ("Date & Time", "December 15, 2024 at 2:30 PM EST"); ("Duration", "45 minutes")]%string.

Definition detail_view (s : SessionRef) (d : DetailState) : DetailView :=
  mkDetailView (agentName s) (sessionName s) ("Session ID: " ++ sessionId s) (detail_info s)
    (if isPlaying d then "pause" else "play") (progress d) (assets_view (assets d)) automation_cards.

(** ** The page *)

(** [currentView] (line 14). *)
Inductive View := VDashboard | VSession.

#[export] Instance View_eq_dec : EqDecision View.
Proof. solve_decision. Defined.

(** The state of the page and of its mounted components; [timers] are
    the pending callbacks of [handleRunAutomation], each with the
    automation and the config its closure captured. *)
Record Home := mkHome {
  isSidebarOpen : bool;
  currentView : View;
  selectedSession : option SessionRef;
  isStartModalOpen : bool;
  isScheduleModalOpen : bool;
  isConfigDrawerOpen : bool;
  currentAutomation : option Automation;
  expandedGroups : gmap string bool;
  start : StartForm;
  schedule : ScheduleForm;
  drawer : DrawerState;
  detail : option DetailState;
  timers : list (Automation * Config)
}.

(** [SessionsSidebar]'s initial groups (lines 13-18). *)
Definition initial_groups : gmap string bool :=
  <["agentA" := false]> (<["agentB" := false]> (<["allAutomations" := false]>
    (<["drafts" := false]> ∅))).

Definition initial_home : Home :=
  mkHome false VDashboard None false false false None initial_groups
    initial_start initial_schedule initial_drawer None [].

(** [toggleGroup] (lines 20-25): [!prev[groupId]], [undefined] reading as
    false. *)
Definition toggleGroup (g : string) (m : gmap string bool) : gmap string bool :=
  <[g := negb (default false (m !! g))]> m.

(** The sessions of the sidebar's groups (lines 58-110). *)
Definition sidebar_sessions : list (string * SessionRef) := [
  ("agentA", mkSessionRef "Agent A" "Session 1 - Finance" "SID-2024-001");
  ("agentA", mkSessionRef "Agent A" "Session 2 - Operations" "SID-2024-002");
  ("agentA", mkSessionRef "Agent A" "Session 3 - Compliance" "SID-2024-003");
  ("agentB", mkSessionRef "Agent B" "Session 1 - Data Analysis" "SID-2024-004");
  ("agentB", mkSessionRef "Agent B" "Session 2 - Strategy" "SID-2024-005")
]%string.

(** A group of [SessionsSidebar]'s render (lines 26-175): its key, icon,
    label, whether it is expanded (the header's class and chevron) and,
    when expanded, its items, each with the event its click raises (the
    automation and draft items have no handler). *)
Record SidebarGroup := mkSidebarGroup {
  sg_key : string;
  sg_icon : string;
  sg_label : string;
  sg_expanded : bool;
  sg_items : option (list (string * option SessionRef))
}.

Definition group_view (m : gmap string bool) (key icon label : string)
    (items : list (string * option SessionRef)) : SidebarGroup :=
  let e := default false (m !! key) in
  mkSidebarGroup key icon label e (if e then Some items else None).

Definition session_items (g : string) : list (string * option SessionRef) :=
  (fun gs => (sessionName gs.2, Some gs.2)) <$> List.filter (fun gs => gs.1 === g) sidebar_sessions.

Definition sidebar_view (m : gmap string bool) : list SidebarGroup := [
  group_view m "agentA" "woman" "Agent A" (session_items "agentA");
  group_view m "agentB" "man" "Agent B" (session_items "agentB");
  group_view m "allAutomations" "zap" "All Automations"
    [("Workflow 1", None); ("Workflow 2", None); ("Workflow 3", None)];
  group_view m "drafts" "memo" "Drafts" [("Draft Automation 1", None); ("Draft Automation 2", None)]
]%string.

(** The sessions a click in the rendered sidebar opens. *)
Definition sidebar_clickable (m : gmap string bool) : list SessionRef :=
  concat ((fun g => match sg_items g with
                    | Some l => omap snd l
                    | None => []
                    end) <$> sidebar_view m).

(** [toggleSidebar] (lines 29-31). *)
Definition toggleSidebar (h : Home) : Home :=
  let '(mkHome sb v sel so sco dro au g sf scf dr de tm) := h in
  mkHome (negb sb) v sel so sco dro au g sf scf dr de tm.

(** [openSessionDetail] (lines 33-37); [SessionDetailView] mounts with a
    fresh state when the view was the dashboard and keeps its state when
    it was already shown. *)
Definition openSessionDetail (s : SessionRef) (h : Home) : Home :=
  let '(mkHome sb v sel so sco dro au g sf scf dr de tm) := h in
  mkHome false VSession (Some s) so sco dro au g sf scf dr
    (match v with VDashboard => Some initial_detail | VSession => de end) tm.

(** [backToDashboard] (lines 39-42): [SessionDetailView] unmounts, its
    listener with it. *)
Definition backToDashboard (h : Home) : Home :=
  let '(mkHome sb v sel so sco dro au g sf scf dr de tm) := h in
  mkHome sb VDashboard None so sco dro au g sf scf dr None tm.

(** [openConfigDrawer] (lines 44-47), followed by [ConfigDrawer]'s effect
    on [[open, automation]] (lines 24-34), which resets its form. *)
Definition openConfigDrawer (a : Automation) (h : Home) : Home :=
  let '(mkHome sb v sel so sco dro au g sf scf dr de tm) := h in
  mkHome sb v sel so sco true (Some a) g sf scf initial_drawer de tm.

(** [closeConfigDrawer] (lines 49-52). *)
Definition closeConfigDrawer (h : Home) : Home :=
  let '(mkHome sb v sel so sco dro au g sf scf dr de tm) := h in
  mkHome sb v sel so sco false None g sf scf dr de tm.

(** [handleRunAutomation] (lines 36-57 of [ConfigDrawer]) up to the
    [setTimeout]: [isProcessing] and the timer, which captures the
    automation and the config of this render. *)
Definition runAutomation (h : Home) : Home :=
  let '(mkHome sb v sel so sco dro au g sf scf dr de tm) := h in
  match au with
  | Some a => mkHome sb v sel so sco dro au g sf scf (mkDrawer (config dr) true) de
                (tm ++ [(a, config dr)])
  | None => h
  end.

(** The timer's callback (lines 42-56): the window event, heard by
    [SessionDetailView] only while it is mounted, then
    [setIsProcessing(false)] and [onClose()], the page's
    [closeConfigDrawer], whatever the drawer shows by then. *)
Definition timer_callback (a : Automation) (timestamp : string) (h : Home) : Home :=
  let '(mkHome sb v sel so sco dro au g sf scf dr de tm) := h in
  closeConfigDrawer
    (mkHome sb v sel so sco dro au g sf scf (mkDrawer (config dr) false)
       (handleAssetGenerated a timestamp <$> de) tm).

(** The pending timer [i] fires. *)
Definition fire_timer (i : nat) (timestamp : string) (h : Home) : Home :=
  match timers h !! i with
  | Some (a, _) =>
      let '(mkHome sb v sel so sco dro au g sf scf dr de tm) := h in
      timer_callback a timestamp (mkHome sb v sel so sco dro au g sf scf dr de (delete i tm))
  | None => h
  end.




Inductive StartEvent :=
| StPick (agentId : string) | StTitle (v : string) | StEmail (v : string) | StNotes (v : string)
| StSubmit | StClose.

Inductive ScheduleEvent :=
| ScPick (agentId : string) | ScTitle (v : string) | ScDate (v : string) | ScTime (v : string)
| ScDuration (v : string) | ScEmail (v : string) | ScNotes (v : string)
| ScSubmit | ScClose.

Inductive DrawerEvent :=
| DrTone (v : string) | DrAudience (v : string) | DrInstructions (v : string)
| DrRun | DrClose.

Inductive HomeEvent :=
| ToggleSidebar                          (* hamburger, X, overlay, Automate buttons *)
| ToggleGroup (g : string)
| SessionClick (s : SessionRef)
| OpenStart | OpenSchedule               (* [DashboardView]'s buttons *)
| Start (e : StartEvent)
| Schedule (e : ScheduleEvent)
| Back | PlayPause | Seek (offsetX barWidth : Q)
| Apply (a : Automation)                 (* an [AutomationOptions] card *)
| AssetButton (act : AssetAction) (index : nat)
| Drawer (e : DrawerEvent)
| TimerFires (index : nat) (timestamp : string).

(** [DashboardView] (lines 9-92): each card and button and the callback
    it calls; the buttons sit in a [div] that stops the click's
    propagation to the card, so one click calls one callback. *)
Definition dashboard_buttons : list (string * HomeEvent) := [
  ("Start Tacit Session card", OpenStart); ("Start Now", OpenStart);
  ("Schedule Session", OpenSchedule);
  ("Automate Knowledge Assets card", ToggleSidebar); ("Automate Past Sessions", ToggleSidebar);
  ("Build New Automations", ToggleSidebar)
]%string.

Definition with_start (f : StartForm) (so : bool) (h : Home) : Home :=
  let '(mkHome sb v sel _ sco dro au g _ scf dr de tm) := h in
  mkHome sb v sel so sco dro au g f scf dr de tm.

Definition with_schedule (f : ScheduleForm) (sco : bool) (h : Home) : Home :=
  let '(mkHome sb v sel so _ dro au g sf _ dr de tm) := h in
  mkHome sb v sel so sco dro au g sf f dr de tm.

Definition with_drawer (dr : DrawerState) (h : Home) : Home :=
  let '(mkHome sb v sel so sco dro au g sf scf _ de tm) := h in
  mkHome sb v sel so sco dro au g sf scf dr de tm.

Definition with_detail (de : option DetailState) (h : Home) : Home :=
  let '(mkHome sb v sel so sco dro au g sf scf dr _ tm) := h in
  mkHome sb v sel so sco dro au g sf scf dr de tm.

Definition with_groups (g : gmap string bool) (h : Home) : Home :=
  let '(mkHome sb v sel so sco dro au _ sf scf dr de tm) := h in
  mkHome sb v sel so sco dro au g sf scf dr de tm.

Definition start_handle (e : StartEvent) (h : Home) : Home * list string :=
  let f := start h in
  match e with
  | StPick i => (with_start (mkStart (Some i) (st_title f) (st_email f) (st_notes f)) (isStartModalOpen h) h, [])
  | StTitle v => (with_start (mkStart (st_agent f) v (st_email f) (st_notes f)) (isStartModalOpen h) h, [])
  | StEmail v => (with_start (mkStart (st_agent f) (st_title f) v (st_notes f)) (isStartModalOpen h) h, [])
  | StNotes v => (with_start (mkStart (st_agent f) (st_title f) (st_email f) v) (isStartModalOpen h) h, [])
  | StSubmit =>
      let '(f', msg, closed) := start_submit f in
      (with_start f' (if closed then false else isStartModalOpen h) h,
       match msg with Some m => [m] | None => [] end)
  | StClose => (with_start f false h, [])
  end.

Definition schedule_handle (e : ScheduleEvent) (h : Home) : Home * list string :=
  let '(mkSchedule a t d tm du em no) := schedule h in
  let keep f := (with_schedule f (isScheduleModalOpen h) h, @nil string) in
  match e with
  | ScPick i => keep (mkSchedule (Some i) t d tm du em no)
  | ScTitle v => keep (mkSchedule a v d tm du em no)
  | ScDate v => keep (mkSchedule a t v tm du em no)
  | ScTime v => keep (mkSchedule a t d v du em no)
  | ScDuration v => keep (mkSchedule a t d tm v em no)
  | ScEmail v => keep (mkSchedule a t d tm du v no)
  | ScNotes v => keep (mkSchedule a t d tm du em v)
  | ScSubmit =>
      let '(f', msg, closed) := schedule_submit (schedule h) in
      (with_schedule f' (if closed then false else isScheduleModalOpen h) h,
       match msg with Some m => [m] | None => [] end)
  | ScClose => (with_schedule (schedule h) false h, [])
  end.

Definition drawer_handle (e : DrawerEvent) (h : Home) : Home :=
  let '(mkDrawer (mkConfig t a i) p) := drawer h in
  match e with
  | DrTone v => with_drawer (mkDrawer (mkConfig v a i) p) h
  | DrAudience v => with_drawer (mkDrawer (mkConfig t v i) p) h
  | DrInstructions v => with_drawer (mkDrawer (mkConfig t a v) p) h
  | DrRun => runAutomation h
  | DrClose => closeConfigDrawer h
  end.

(** One event; the outputs are the [alert] messages. *)
Definition step (h : Home) (e : HomeEvent) : Home * list string :=
  match e with
  | ToggleSidebar => (toggleSidebar h, [])
  | ToggleGroup g => (with_groups (toggleGroup g (expandedGroups h)) h, [])
  | SessionClick s => (openSessionDetail s h, [])
  | OpenStart => (with_start (start h) true h, [])
  | OpenSchedule => (with_schedule (schedule h) true h, [])
  | Start e => start_handle e h
  | Schedule e => schedule_handle e h
  | Back => (backToDashboard h, [])
  | PlayPause => (with_detail (togglePlayPause <$> detail h) h, [])
  | Seek x w => (with_detail (handleSeek x w <$> detail h) h, [])
  | Apply a => (openConfigDrawer a h, [])
  | AssetButton act i =>
      (h, match detail h ≫= fun d => assets d !! i with
          | Some a => [asset_alert act (as_type a)]
          | None => []
          end)
  | Drawer e => (drawer_handle e h, [])
  | TimerFires i ts => (fire_timer i ts h, [])
  end.

(** The events that a rendered control raises (and the pending timers):
    sessions of an expanded group of the open sidebar, the dashboard's
    buttons on the dashboard, the detail's controls in the session view,
    each dialog's controls while it is open (Run while not processing),
    and the seek bar with a click inside a bar of positive width: the
    handler reads [e.clientX - rect.left] and [rect.width] of the bar the
    click landed on, so the browser's hit test puts the offset between 0
    and the width, which is positive for a bar that can be clicked. *)
Definition available (h : Home) (e : HomeEvent) : Prop :=
  match e with
  | ToggleSidebar => True
  | ToggleGroup g => isSidebarOpen h = true /\ g ∈ ["agentA"; "agentB"; "allAutomations"; "drafts"]%string
  | SessionClick s => isSidebarOpen h = true /\
      exists g, (g, s) ∈ sidebar_sessions /\ expandedGroups h !! g = Some true
  | OpenStart | OpenSchedule => currentView h = VDashboard /\ e ∈ dashboard_buttons.*2
  | Start _ => isStartModalOpen h = true
  | Schedule _ => isScheduleModalOpen h = true
  | Back | PlayPause | Apply _ => currentView h = VSession /\
      (match e with Apply a => a ∈ automations | _ => True end)
  | Seek x w => currentView h = VSession /\ (0 <= x)%Q /\ (x <= w)%Q /\ (0 < w)%Q
  | AssetButton _ i => currentView h = VSession /\ is_Some (detail h ≫= fun d => assets d !! i)
  | Drawer e => isConfigDrawerOpen h = true /\ is_Some (currentAutomation h) /\
      (match e with DrRun => isProcessing (drawer h) = false | DrTone v => v ∈ tones | _ => True end)
  | TimerFires i _ => is_Some (timers h !! i)
  end.

Inductive reachable : Home -> Prop :=
| reach_init : reachable initial_home
| reach_step h e : reachable h -> available h e -> reachable (step h e).1.

(** ** Properties *)

(** The page's invariant: the session view is shown exactly while
    [SessionDetailView] is mounted, and then a session is selected, so
    [selectedSession!] (line 95) never reads [null]; the drawer is open
    only with an automation. *)
Definition home_inv (h : Home) : Prop :=
  (currentView h = VSession <-> is_Some (detail h)) /\
  (currentView h = VSession -> is_Some (selectedSession h)) /\
  (isConfigDrawerOpen h = true -> is_Some (currentAutomation h)).

Lemma home_inv_fields h h' :
  currentView h' = currentView h -> detail h' = detail h ->
  selectedSession h' = selectedSession h ->
  isConfigDrawerOpen h' = isConfigDrawerOpen h -> currentAutomation h' = currentAutomation h ->
  home_inv h -> home_inv h'.
Proof. unfold home_inv. intros -> -> -> -> ->. done. Qed.

Lemma home_inv_detail_map f h :
  home_inv h -> home_inv (with_detail (f <$> detail h) h).
Proof.
  destruct h. unfold home_inv. simpl. by rewrite fmap_is_Some.
Qed.

Lemma closeConfigDrawer_inv h : home_inv h -> home_inv (closeConfigDrawer h).
Proof.
  destruct h; unfold home_inv; simpl. intros (? & ? & _). split_and!; try done.
Qed.

Lemma fire_timer_inv i ts h : home_inv h -> home_inv (fire_timer i ts h).
Proof.
  intros Hi. unfold fire_timer. destruct (timers h !! i) as [[a c]|]; [|done].
  destruct h as [sb v sel so sco dro au g sf scf dr de tm]. unfold timer_callback.
  apply closeConfigDrawer_inv. destruct Hi as (H1 & H2 & H3). unfold home_inv; simpl in *.
  by rewrite fmap_is_Some.
Qed.

Lemma openSessionDetail_inv s h : home_inv h -> home_inv (openSessionDetail s h).
Proof.
  destruct h as [sb [] sel so sco dro au g sf scf dr de tm]; unfold home_inv; simpl;
    intros (H1 & H2 & H3); split_and!; try done; try (intros _; by eexists).
Qed.

Lemma backToDashboard_inv h : home_inv h -> home_inv (backToDashboard h).
Proof.
  destruct h; unfold home_inv; simpl. intros (_ & _ & H3). split_and!; try done.
Qed.

Lemma openConfigDrawer_inv a h : home_inv h -> home_inv (openConfigDrawer a h).
Proof. destruct h; unfold home_inv; simpl. intros (? & ? & _). split_and!; try done. Qed.

Lemma start_handle_inv e h : home_inv h -> home_inv (start_handle e h).1.
Proof.
  intros Hi. destruct e; unfold start_handle; try (destruct (start_submit _) as [[? ?] ?]);
    eapply home_inv_fields; try exact Hi; by destruct h.
Qed.

Lemma schedule_handle_inv e h : home_inv h -> home_inv (schedule_handle e h).1.
Proof.
  intros Hi. unfold schedule_handle. destruct (schedule h).
  destruct e; try (destruct (schedule_submit _) as [[? ?] ?]);
    eapply home_inv_fields; try exact Hi; by destruct h.
Qed.

Lemma drawer_handle_inv e h : home_inv h -> home_inv (drawer_handle e h).
Proof.
  intros Hi. unfold drawer_handle. destruct (drawer h) as [[t au i] p].
  destruct e; try (eapply home_inv_fields; try exact Hi; by destruct h).
  - unfold runAutomation. destruct h as [sb v sel so sco dro [a|] g sf scf dr det tm]; [|done].
    eapply home_inv_fields; try exact Hi; done.
  - by apply closeConfigDrawer_inv.
Qed.

Lemma home_step_inv h e : home_inv h -> available h e -> home_inv (step h e).1.
Proof.
  intros Hi Hav.
  destruct e as [|g|sess| | |se|se| | |x w|a|act i|de|i ts]; simpl;
    try (eapply home_inv_fields; [..|exact Hi]; by destruct h).
  - by apply openSessionDetail_inv.
  - by apply start_handle_inv.
  - by apply schedule_handle_inv.
  - by apply backToDashboard_inv.
  - by apply home_inv_detail_map.
  - by apply home_inv_detail_map.
  - by apply openConfigDrawer_inv.
  - by apply drawer_handle_inv.
  - by apply fire_timer_inv.
Qed.

Lemma reachable_home_inv h : reachable h -> home_inv h.
Proof.
  induction 1 as [|h e _ IH Hav].
  - unfold home_inv; simpl. split_and!; [split; [discriminate|by intros [? ?]]|discriminate|discriminate].
  - by apply home_step_inv.
Qed.

(** A timer firing while the detail is mounted prepends exactly one asset,
    with the automation its closure captured, and closes the drawer. *)
Lemma fire_timer_records i ts h a c d :
  timers h !! i = Some (a, c) -> detail h = Some d ->
  detail (fire_timer i ts h) = Some (handleAssetGenerated a ts d) /\
  isConfigDrawerOpen (fire_timer i ts h) = false /\ currentAutomation (fire_timer i ts h) = None /\
  timers (fire_timer i ts h) = delete i (timers h).
Proof.
  intros Ht Hd. unfold fire_timer. rewrite Ht.
  destruct h as [sb v sel so sco dro au g sf scf dr de tm]. simpl in *. by subst.
Qed.

(** A seek inside a bar of positive width sets a progress between 0 and
    100 per cent. *)
Lemma handleSeek_bounds x w d :
  (0 <= x)%Q -> (x <= w)%Q -> (0 < w)%Q ->
  (0 <= progress (handleSeek x w d) <= 100)%Q.
Proof.
  intros Hx Hxw Hw. simpl. split.
  - apply Qmult_le_0_compat; [apply Qle_shift_div_l; [done|]; by rewrite Qmult_0_l|done].
  - rewrite <- (Qmult_1_l 100) at 2. apply Qmult_le_compat_r; [|done].
    apply Qle_shift_div_r; [done|]. by rewrite Qmult_1_l.
Qed.

(** The handlers that leave the mounted detail alone. *)
Lemma start_handle_detail e h : detail (start_handle e h).1 = detail h.
Proof. destruct e; unfold start_handle; try (destruct (start_submit _) as [[? ?] ?]); by destruct h. Qed.

Lemma schedule_handle_detail e h : detail (schedule_handle e h).1 = detail h.
Proof.
  unfold schedule_handle. destruct (schedule h).
  destruct e; try (destruct (schedule_submit _) as [[? ?] ?]); by destruct h.
Qed.

Lemma drawer_handle_detail e h : detail (drawer_handle e h) = detail h.
Proof.
  unfold drawer_handle. destruct (drawer h) as [[t au i] p].
  destruct e; try by destruct h.
  unfold runAutomation. by destruct h as [sb v sel so sco dro [a|] g sf scf dr det tm].
Qed.


Definition progress_ok (h : Home) : Prop :=
  forall d, detail h = Some d -> (0 <= progress d <= 100)%Q.

Lemma progress_ok_map f h :
  (forall d, (0 <= progress d <= 100)%Q -> (0 <= progress (f d) <= 100)%Q) ->
  progress_ok h -> progress_ok (with_detail (f <$> detail h) h).
Proof.
  intros Hf Hp d'. destruct h as [sb v sel so sco dro au g sf scf dr [d|] tm]; simpl; [|done].
  intros [= <-]. by apply Hf, Hp.
Qed.

Lemma sidebar_clickable_filter m :
  sidebar_clickable m = snd <$> List.filter (fun gs => bool_decide (m !! gs.1 = Some true)) sidebar_sessions.
Proof.
  unfold sidebar_clickable, sidebar_view, group_view, session_items, sidebar_sessions. cbn -[lookup].
  destruct (m !! "agentA"%string) as [[]|], (m !! "agentB"%string) as [[]|],
    (m !! "allAutomations"%string) as [[]|], (m !! "drafts"%string) as [[]|]; reflexivity.
Qed.

(** The sessions the rendered sidebar lets a user open are those of the
    expanded groups: the condition [available] puts on [SessionClick]. *)
Lemma sidebar_clickable_spec m s :
  s ∈ sidebar_clickable m <-> exists g, (g, s) ∈ sidebar_sessions /\ m !! g = Some true.
Proof.
  rewrite sidebar_clickable_filter, list_elem_of_fmap. split.
  - intros ([g s'] & -> & Hin). apply list_elem_of_In, filter_In in Hin as [Hin Hb].
    exists g. split; [by apply list_elem_of_In|]. by apply bool_decide_eq_true in Hb.
  - intros (g & Hin & Hm). exists (g, s). split; [done|].
    apply list_elem_of_In, filter_In. split; [by apply list_elem_of_In|]. by apply bool_decide_eq_true.
Qed.

(** The Apply buttons of the cards open exactly the listed automations,
    in order. *)
Lemma automation_cards_open : card_automation <$> automation_cards = automations.
Proof. reflexivity. Qed.

(** ** Interleavings *)

Definition session1 : SessionRef := mkSessionRef "Agent A" "Session 1 - Finance" "SID-2024-001".
Definition session2 : SessionRef := mkSessionRef "Agent A" "Session 2 - Operations" "SID-2024-002".
Definition summary : Automation := mkAutomation "summary" "Generate Summary" "page".
Definition insights : Automation := mkAutomation "insights" "Extract Insights" "bar-chart".

Definition run_events (h : Home) (es : list HomeEvent) : Home :=
  fold_left (fun h e => (step h e).1) es h.

(** A sequence of events each raised by a control of the state it meets. *)
Fixpoint valid_run (h : Home) (es : list HomeEvent) : Prop :=
  match es with
  | [] => True
  | e :: es' => available h e /\ valid_run (step h e).1 es'
  end.

Lemma valid_run_reachable h es : reachable h -> valid_run h es -> reachable (run_events h es).
Proof.
  revert h. induction es as [|e es IH]; intros h Hr Hv; [done|].
  destruct Hv as [Hav Hv]. apply IH; [by constructor|done].
Qed.

(** Open session 1 from the sidebar and run the summary automation. *)
Definition running_summary : list HomeEvent :=
  [ToggleSidebar; ToggleGroup "agentA"; SessionClick session1; Apply summary; Drawer DrRun]%string.

(** Going back to the dashboard before the 2 seconds are over loses the
    asset: the listener is gone when the event is dispatched, and the
    session opened again shows none. *)
Definition back_during_run : list HomeEvent :=
  running_summary ++ [Back; TimerFires 0 "t"; ToggleSidebar; SessionClick session1].

Lemma back_during_run_valid : valid_run initial_home back_during_run.
Proof.
  unfold back_during_run, running_summary. simpl.
  repeat split; try done; try (eexists; split; [by repeat constructor|reflexivity]);
    repeat constructor.
Qed.

Example asset_lost_after_back :
  reachable (run_events initial_home back_during_run) /\
  currentView (run_events initial_home back_during_run) = VSession /\
  option_map assets (detail (run_events initial_home back_during_run)) = Some [].
Proof.
  split; [apply valid_run_reachable; [constructor|apply back_during_run_valid]|].
  vm_compute. auto.
Qed.

(** The timer of a run closes the drawer the user opened afterwards for
    another automation, and still records the first automation's asset. *)
Definition reopen_during_run : list HomeEvent :=
  running_summary ++ [Drawer DrClose; Apply insights].

Lemma reopen_during_run_valid : valid_run initial_home (reopen_during_run ++ [TimerFires 0 "t"]).
Proof.
  unfold reopen_during_run, running_summary. simpl.
  repeat split; try done; try (eexists; split; [by repeat constructor|reflexivity]);
    repeat constructor.
Qed.

Example stale_timer_closes_new_drawer :
  let h0 := run_events initial_home reopen_during_run in
  let h := (step h0 (TimerFires 0 "t")).1 in
  reachable h /\
  isConfigDrawerOpen h0 = true /\ currentAutomation h0 = Some insights /\
  isConfigDrawerOpen h = false /\ currentAutomation h = None /\
  option_map (fmap as_title ∘ assets) (detail h) = Some ["Generate Summary"]%string.
Proof.
  simpl. split.
  - change (reachable (run_events initial_home (reopen_during_run ++ [TimerFires 0 "t"]))).
    apply valid_run_reachable; [constructor|apply reopen_during_run_valid].
  - vm_compute. auto 10.
Qed.

(** An asset generated for session 1 is still listed after session 2 is
    opened from the sidebar: [SessionDetailView] stays mounted. *)
Definition switch_session : list HomeEvent :=
  running_summary ++ [TimerFires 0 "t"; ToggleSidebar; SessionClick session2].

Lemma switch_session_valid : valid_run initial_home switch_session.
Proof.
  unfold switch_session, running_summary. simpl.
  repeat split; try done; try (eexists; split; [by repeat constructor|reflexivity]);
    repeat constructor.
Qed.

Example assets_follow_to_other_session :
  reachable (run_events initial_home switch_session) /\
  selectedSession (run_events initial_home switch_session) = Some session2 /\
  option_map (fmap as_title ∘ assets) (detail (run_events initial_home switch_session))
    = Some ["Generate Summary"]%string.
Proof.
  split; [apply valid_run_reachable; [constructor|apply switch_session_valid]|].
  vm_compute. auto.
Qed.

(** Two sessions of the same agent show the same topic, invited parties,
    date and duration: the info grid is written out in the markup. *)
Example detail_info_same_sessions : detail_info session1 = detail_info session2.
Proof. reflexivity. Qed.

(** ** Bounds and termination *)

(** The progress bar of the mounted session detail stays within 0 and 100
    per cent in every reachable state: it starts at 35 and a seek is a
    click inside the bar. *)
Theorem detail_progress_bounds h : reachable h -> progress_ok h.
Proof.
  induction 1 as [|h e Hr IH Hav]; [done|].
  assert (Hk : forall h', detail h' = detail h -> progress_ok h') by (intros h' E d Hd; apply IH; congruence).
  destruct e; simpl.
  all: try (apply Hk; first [by destruct h | apply start_handle_detail | apply schedule_handle_detail
                            | apply drawer_handle_detail]).
  - destruct h as [sb [] sel so sco dro au g sf scf dr det tm]; simpl; [|exact IH].
    intros d [= <-]. simpl. split; unfold Qle; simpl; lia.
  - by destruct h.
  - apply progress_ok_map; [done|exact IH].
  - destruct Hav as (_ & Hx & Hxw & Hw). apply progress_ok_map; [|exact IH].
    intros d _. by apply handleSeek_bounds.
  - unfold fire_timer. destruct (timers h !! index) as [[a c]|]; [|exact IH].
    destruct h as [sb v sel so sco dro au g sf scf dr [d0|] tm]; simpl; [|done].
    intros d [= <-]. apply (IH d0 eq_refl).
Qed.


End Dashboard.
