(* ===== verification/Library.v ===== *)
(** * Library: the knowledge library page, [src/src/pages/KnowledgeLibrary.tsx]

    The page keeps a search query and a category, lists four hard-coded
    knowledge assets and shows four hard-coded statistics. The render
    ([library_view]) is a function of the state: neither the query nor
    the category takes part in it, and the statistics do not follow from
    the assets. *)

From S2P Require Import Spec2Rocq.
From S2P Require Import JsString.
Import JsString.

Module Library.

(** An element of [knowledgeAssets] (lines 16-73); the icon by name. *)
Record KnowledgeAsset := mkAsset {
  ka_id : nat;
  ka_title : string;
  ka_description : string;
  ka_type : string;
  ka_icon : string;
  ka_sme : string;
  ka_date : string;
  ka_duration : string;
  ka_tags : list string;
  ka_formats : list string;
  ka_views : nat;
  ka_status : string
}.

Definition knowledgeAssets : list KnowledgeAsset := [
  mkAsset 1 "Advanced Troubleshooting Procedures"
    "Complete guide for handling complex customer escalations and decision-making criteria"
    "Guide" "FileText" "Sarah Johnson" "2025-01-15" "45 min session"
    ["Customer Success"; "Escalation"; "Troubleshooting"] ["Written Guide"; "Audio Snippets"; "FAQ"]
    127 "Ready";
  mkAsset 2 "Database Performance Optimization"
    "Expert techniques for identifying and resolving database bottlenecks"
    "Course" "BookOpen" "Marcus Chen" "2025-01-12" "30 min session"
    ["Database"; "Performance"; "Technical"] ["Interactive Course"; "Code Examples"; "Quiz"]
    89 "Ready";
  mkAsset 3 "Sales Objection Handling Masterclass"
    "Advanced strategies for overcoming common and uncommon sales objections"
    "Training" "PlayCircle" "Jennifer Liu" "2025-01-10" "60 min session"
    ["Sales"; "Communication"; "Strategy"] ["Video Modules"; "Role-play Scenarios"; "Checklist"]
    234 "Ready";
  mkAsset 4 "Compliance Audit Preparation"
    "Step-by-step process for preparing and managing regulatory compliance audits"
    "Process" "HelpCircle" "Robert Davis" "2025-01-08" "25 min session"
    ["Compliance"; "Audit"; "Legal"] ["Process Map"; "Checklist"; "Templates"]
    56 "In Progress"
]%string.

(** [categories] (lines 75-81). *)
Definition categories : list (string * string) := [
  ("all", "All Categories"); ("customer-success", "Customer Success");
  ("technical", "Technical"); ("sales", "Sales"); ("compliance", "Compliance")
]%string.

(** [getStatusColor] and [getTypeColor] (lines 83-99). *)
Definition getStatusColor (status : string) : string :=
  if status === "Ready" then "bg-green-100 text-green-700"
  else if status === "In Progress" then "bg-yellow-100 text-yellow-700"
  else "bg-gray-100 text-gray-700".

Definition getTypeColor (type : string) : string :=
  if type === "Guide" then "bg-blue-100 text-blue-700"
  else if type === "Course" then "bg-purple-100 text-purple-700"
  else if type === "Training" then "bg-orange-100 text-orange-700"
  else if type === "Process" then "bg-green-100 text-green-700"
  else "bg-gray-100 text-gray-700".

Record LibraryState := mkLibrary { searchQuery : string; selectedCategory : string }.

Definition initial_library : LibraryState := mkLibrary "" "all".

(** One card (lines 165-250): title, type and status badges with their
    colours, description, SME, date, [<views> views], duration, tags and
    formats. *)
Record AssetCard := mkCard {
  card_key : nat;
  card_title : string;
  card_type : string * string;
  card_status : string * string;
  card_description : string;
  card_meta : list string;
  card_tags : list string;
  card_formats : list string
}.

Definition asset_card (a : KnowledgeAsset) : AssetCard :=
  mkCard (ka_id a) (ka_title a) (ka_type a, getTypeColor (ka_type a))
    (ka_status a, getStatusColor (ka_status a)) (ka_description a)
    [ka_sme a; ka_date a; pretty (ka_views a) ++ " views"; ka_duration a]%string
    (ka_tags a) (ka_formats a).

(** The statistics (lines 253-274), as written. *)
Definition quick_stats : list (string * string) :=
  [("24", "Total Assets"); ("12", "Active SMEs"); ("180h", "Knowledge Captured");
   ("1.2k", "Total Views")]%string.

Record LibraryView := mkView {
  v_search : string;
  v_category : string;
  v_cards : list AssetCard;
  v_stats : list (string * string)
}.

(** The render (lines 101-277): the inputs show the state, the grid maps
    every asset. *)
Definition library_view (st : LibraryState) : LibraryView :=
  mkView (searchQuery st) (selectedCategory st) (asset_card <$> knowledgeAssets) quick_stats.

Inductive LibraryEvent :=
| Search (v : string)               (* line 135 *)
| SelectCategory (v : string)       (* line 141 *)
| Back.                             (* line 109 *)

Definition step (st : LibraryState) (e : LibraryEvent) : LibraryState * option string :=
  match e with
  | Search v => (mkLibrary v (selectedCategory st), None)
  | SelectCategory v => (mkLibrary (searchQuery st) v, None)
  | Back => (st, Some "/"%string)
  end.

(** ** Properties *)

(** The grid is the same for every query and category: the filters are
    never applied. *)
Lemma library_cards_ignore_filters st st' :
  v_cards (library_view st) = v_cards (library_view st').
Proof. done. Qed.

(** The statistics do not count the assets: 4 assets with 506 views in
    all, against "24" and "1.2k". *)
Lemma quick_stats_disagree :
  length knowledgeAssets = 4 /\ sum_list (ka_views <$> knowledgeAssets) = 506 /\
  quick_stats !! 0 = Some ("24", "Total Assets")%string /\
  quick_stats !! 3 = Some ("1.2k", "Total Views")%string.
Proof. vm_compute. auto. Qed.

End Library.
