(* ===== verification/Demo.v ===== *)
(** * Demo: the live session demo, [src/src/pages/SessionDemo.tsx]

    The page shows a running clock ([setInterval] every second from the
    mount), a recording toggle, a transcript of three mock messages and
    navigation buttons. [formatTime] renders the clock; [Tick] is one
    firing of the interval. [addMessage] is defined by the page and
    modelled, but no control calls it. *)

From S2P Require Import Spec2Rocq.
From S2P Require Import JsString.
From Stdlib Require Import Ascii.
Import JsString.

Module Demo.

(** A message (lines 13-35); [type] is ['ai' | 'sme']. *)
Inductive Sender := AI | SME.

Record Message := mkMessage {
  msg_id : nat;
  msg_sender : string;
  msg_content : string;
  msg_timestamp : string;
  msg_type : Sender
}.

Definition initial_messages : list Message := [
  mkMessage 1 "AI Agent" "Hello! I'm excited to learn from your expertise today. I'll be acting as a new hire who wants to understand your processes. Could you start by giving me an overview of your main responsibilities?" "10:00 AM" AI;
  mkMessage 2 "SME" "Sure! I handle our customer escalation process. When a regular support ticket can't be resolved by tier 1 support, it comes to me. The key is knowing when to escalate versus when to dig deeper." "10:01 AM" SME;
  mkMessage 3 "AI Agent" "That's really helpful! Could you walk me through a specific example? What signals tell you whether to escalate or investigate further?" "10:02 AM" AI
]%string.

Record DemoState := mkDemo { isRecording : bool; sessionTime : nat; messages : list Message }.

Definition initial_demo : DemoState := mkDemo false 0 initial_messages.

(** [formatTime] (lines 45-49). *)
Definition formatTime (seconds : nat) : string :=
  let mins := seconds / 60 in
  let secs := seconds mod 60 in
  (js_padStart 2 "0"%char (pretty mins) ++ ":" ++ js_padStart 2 "0"%char (pretty secs))%string.

(** [addMessage] (lines 51-60): the id is [messages.length + 1] of the
    render, the timestamp the clock's [toLocaleTimeString]. *)
Definition addMessage (content : string) (type : Sender) (timestamp : string) (st : DemoState)
  : DemoState :=
  mkDemo (isRecording st) (sessionTime st)
    (messages st ++ [mkMessage (length (messages st) + 1)
                      (match type with AI => "AI Agent" | SME => "SME" end)%string
                      content timestamp type]).

Inductive DemoEvent :=
| Tick                       (* the interval, lines 37-43 *)
| ToggleRecording            (* line 162 *)
| BackToSetup                (* line 70 *)
| EndSession.                (* line 183 *)

Definition step (st : DemoState) (e : DemoEvent) : DemoState * option string :=
  match e with
  | Tick => (mkDemo (isRecording st) (S (sessionTime st)) (messages st), None)
  | ToggleRecording => (mkDemo (negb (isRecording st)) (sessionTime st) (messages st), None)
  | BackToSetup => (st, Some "/dashboard"%string)
  | EndSession => (st, Some "/knowledge-library"%string)
  end.

Inductive reachable : DemoState -> Prop :=
| reach_init : reachable initial_demo
| reach_step st e : reachable st -> reachable (step st e).1.


(** ** The render (lines 62-253) *)

(** A transcript entry (lines 202-218): its key, the sender with its
    colour class, the timestamp and the content. *)
Record TranscriptEntry := mkEntry {
  te_key : nat;
  te_sender : string;
  te_class : string;
  te_timestamp : string;
  te_content : string
}.

Definition transcript_entry (m : Message) : TranscriptEntry :=
  mkEntry (msg_id m) (msg_sender m)
    (match msg_type m with AI => "text-accent" | SME => "text-primary" end)%string
    (msg_timestamp m) (msg_content m).

(** The AI insights card (lines 224-248): a title and a line each. *)
Definition ai_insights : list (string * string) := [
  ("Key Topic Identified", "Escalation decision criteria");
  ("Follow-up Question", "Ask about specific metrics used");
  ("Knowledge Gap", "Process documentation needed")
]%string.

(** What the page shows: the clock badge (line 86), the recording button's
    variant and icon (lines 159-166), the transcript and the insights. *)
Record DemoView := mkDemoView {
  dv_clock : string;
  dv_record_variant : string;
  dv_record_icon : string;
  dv_transcript : list TranscriptEntry;
  dv_insights : list (string * string)
}.

Definition demo_view (st : DemoState) : DemoView :=
  mkDemoView (formatTime (sessionTime st))
    (if isRecording st then "destructive" else "secondary")
    (if isRecording st then "MicOff" else "Mic")
    (transcript_entry <$> messages st) ai_insights.

(** ** Properties *)

(** The two digits [padStart(2, '0')] gives a number below 100. *)
Definition two_digits (n : nat) : string :=
  String (ascii_of_nat (48 + n / 10)) (String (ascii_of_nat (48 + n mod 10)) EmptyString).

Lemma pad_pretty_below_100 :
  Forall (fun n => js_padStart 2 "0"%char (pretty n) = two_digits n) (seq 0 100).
Proof. vm_compute. repeat constructor. Qed.

Lemma pad_pretty_two_digits n : n < 100 -> js_padStart 2 "0"%char (pretty n) = two_digits n.
Proof.
  intros Hn. pose proof pad_pretty_below_100 as H. rewrite Forall_forall in H.
  apply H, list_elem_of_In, in_seq. lia.
Qed.

Lemma ascii_digit_inj a b : a < 10 -> b < 10 ->
  ascii_of_nat (48 + a) = ascii_of_nat (48 + b) -> a = b.
Proof.
  intros Ha Hb E. apply (f_equal nat_of_ascii) in E.
  rewrite !nat_ascii_embedding in E by lia. lia.
Qed.

Lemma two_digits_inj m n : m < 100 -> n < 100 -> two_digits m = two_digits n -> m = n.
Proof.
  intros Hm Hn. unfold two_digits. intros E.
  assert (H1 : ascii_of_nat (48 + m / 10) = ascii_of_nat (48 + n / 10)) by congruence.
  assert (H2 : ascii_of_nat (48 + m mod 10) = ascii_of_nat (48 + n mod 10)) by congruence.
  pose proof (Nat.mod_upper_bound m 10 ltac:(lia)) as Hm1. pose proof (Nat.mod_upper_bound n 10 ltac:(lia)) as Hn1.
  assert (m / 10 < 10) by (apply Nat.Div0.div_lt_upper_bound; lia).
  assert (n / 10 < 10) by (apply Nat.Div0.div_lt_upper_bound; lia).
  apply ascii_digit_inj in H1, H2; try lia.
  rewrite (Nat.div_mod_eq m 10), (Nat.div_mod_eq n 10). lia.
Qed.

(** Below 100 minutes the clock reads [MM:SS]. *)
Lemma formatTime_digits s :
  s < 60 * 100 -> formatTime s = (two_digits (s / 60) ++ ":" ++ two_digits (s mod 60))%string.
Proof.
  intros Hs. unfold formatTime. cbv zeta.
  pose proof (Nat.mod_upper_bound s 60 ltac:(lia)).
  assert (s / 60 < 100) by (apply Nat.Div0.div_lt_upper_bound; lia).
  rewrite !pad_pretty_two_digits by lia. done.
Qed.

(** Below 100 minutes two different times read differently. *)
Lemma formatTime_inj s t : s < 60 * 100 -> t < 60 * 100 -> formatTime s = formatTime t -> s = t.
Proof.
  intros Hs Ht. rewrite !formatTime_digits by done. intros E.
  unfold two_digits in E. cbv beta iota fix delta [String.append] in E.
  assert (two_digits (s / 60) = two_digits (t / 60)) as Hm by (unfold two_digits; congruence).
  assert (two_digits (s mod 60) = two_digits (t mod 60)) as Hsec by (unfold two_digits; congruence).
  pose proof (Nat.mod_upper_bound s 60 ltac:(lia)). pose proof (Nat.mod_upper_bound t 60 ltac:(lia)).
  assert (s / 60 < 100) by (apply Nat.Div0.div_lt_upper_bound; lia).
  assert (t / 60 < 100) by (apply Nat.Div0.div_lt_upper_bound; lia).
  apply two_digits_inj in Hm, Hsec; try lia.
  rewrite (Nat.div_mod_eq s 60), (Nat.div_mod_eq t 60). lia.
Qed.

(** From 100 minutes on, the minutes take three digits. *)
Example formatTime_100_minutes : formatTime (60 * 100) = "100:00"%string.
Proof. vm_compute. reflexivity. Qed.

(** [padStart(2, '0')] leaves the three digits of a number from 100 to
    999 as they are. *)
Lemma pad_pretty_three_digits m :
  100 <= m < 1000 -> String.length (js_padStart 2 "0"%char (pretty m)) = 3.
Proof.
  intros Hm.
  assert (forallb (fun n => String.length (js_padStart 2 "0"%char (pretty n)) =? 3) (seq 100 900) = true)
    as H by (vm_compute; reflexivity).
  rewrite forallb_forall in H. apply Nat.eqb_eq, H, in_seq. lia.
Qed.

(** C33: The session clock has a fixed width below 100 minutes: it reads
    the minutes and the seconds (below 60) as two digits each around a
    colon, five characters; from 100 to 999 minutes the minutes take three
    digits and the badge widens to six characters. *)
Theorem formatTime_width s :
  (s < 60 * 100 ->
   formatTime s = (two_digits (s / 60) ++ ":" ++ two_digits (s mod 60))%string /\
   s mod 60 < 60 /\ String.length (formatTime s) = 5) /\
  (60 * 100 <= s < 60 * 1000 -> String.length (formatTime s) = 6).
Proof.
  split.
  - intros Hs. rewrite formatTime_digits by done.
    split_and!; [done|apply Nat.mod_upper_bound; lia|reflexivity].
  - intros Hs. unfold formatTime. cbv zeta. rewrite !string_length_append.
    rewrite (pad_pretty_two_digits (s mod 60)) by (pose proof (Nat.mod_upper_bound s 60); lia).
    rewrite pad_pretty_three_digits; [reflexivity|]. split.
    + apply Nat.div_le_lower_bound; lia.
    + apply Nat.Div0.div_lt_upper_bound; lia.
Qed.

(** The clock counts the ticks, and the transcript never changes: no
    control calls [addMessage]. *)
Lemma reachable_messages st : reachable st -> messages st = initial_messages.
Proof. induction 1 as [|st e _ IH]; [done|]. by destruct e. Qed.

(** After [n] ticks from the mount the clock badge shows [n] seconds as
    minutes and seconds, and the transcript shows the three mock messages
    with distinct keys, whatever the recording button did meanwhile. *)
Lemma demo_view_reachable st :
  reachable st ->
  dv_clock (demo_view st) = formatTime (sessionTime st) /\
  NoDup (te_key <$> dv_transcript (demo_view st)) /\ length (dv_transcript (demo_view st)) = 3.
Proof.
  intros Hr%reachable_messages. unfold demo_view. simpl. rewrite Hr.
  split_and!; [done| |done]. vm_compute. repeat constructor; set_solver.
Qed.

Lemma formatTime_width_witness :
  formatTime 754 = "12:34"%string /\ String.length (formatTime 754) = 5 /\
  String.length (formatTime (60 * 100)) = 6.
Proof.
  destruct (formatTime_width 754) as [H1 _]. destruct (formatTime_width (60 * 100)) as [_ H2].
  destruct (H1 ltac:(lia)) as (-> & _ & Hl). split_and!; [reflexivity|exact Hl|apply H2; lia].
Defined.

End Demo.
