(* ===== verification/Projects.v ===== *)
(** * Projects: the project switcher and the knowledge document viewer

    - Module [AddProjectModal]: [components/modals/AddProjectModal.tsx],
      its form and [handleSubmit];
    - Module [TopBar]: [components/layout/TopBar.tsx], the project
      switcher over the fixture projects (falling back to the first one),
      the dialog's wiring and [handleAddProject] (an [alert]). No page
      renders [TopBar], and it reads [useAuth] from a module that is not among
      the sources: the user's name is a parameter of the avatar here;
    - Module [KnowledgeDocument]: [components/modals/KnowledgeDocumentModal.tsx],
      the render of a [KnowledgeItem] as a value. *)

From S2P Require Import Spec2Rocq.
From S2P Require Import Types.
From S2P Require Import MockData.
From S2P Require Import JsString.
Import Types.
Import JsString.

Module AddProjectModal.

Record ProjectForm := mkForm { name : string; description : string }.

Definition initial_form : ProjectForm := mkForm "" "".

(** The argument of [onAdd] (line 21): [description] is [undefined] when
    blank. *)
Record ProjectPayload := mkPayload { p_name : string; p_description : option string }.

(** [handleSubmit] (lines 32-43): the payload, the reset, and
    [onOpenChange(false)] (the [bool]). *)
Definition handleSubmit (f : ProjectForm) : ProjectForm * option ProjectPayload * bool :=
  if js_blank (name f) then (f, None, false)
  else (initial_form,
        Some (mkPayload (js_trim (name f))
                (if js_blank (description f) then None else Some (js_trim (description f)))),
        true).

(** The submit button's [disabled] (line 96). *)
Definition submit_disabled (f : ProjectForm) : bool := js_blank (name f).

Inductive FormEvent := SetName (v : string) | SetDescription (v : string) | Cancel | Submit.

Definition form_handle (f : ProjectForm) (e : FormEvent)
  : ProjectForm * option ProjectPayload * bool :=
  match e with
  | SetName v => (mkForm v (description f), None, false)
  | SetDescription v => (mkForm (name f) v, None, false)
  | Cancel => (f, None, true)
  | Submit => handleSubmit f
  end.

(** A submitted project has a non-blank name, trimmed, and no blank
    description. *)
Lemma project_submit_payload f f' pl c :
  handleSubmit f = (f', Some pl, c) ->
  f' = initial_form /\ c = true /\ js_blank (name f) = false /\ p_name pl = js_trim (name f) /\
  (forall d, p_description pl = Some d -> js_blank (description f) = false /\ d = js_trim (description f)).
Proof.
  unfold handleSubmit. destruct (js_blank (name f)) eqn:Hn; [done|].
  intros [= <- <- <-]. split_and!; try done. simpl.
  destruct (js_blank (description f)) eqn:Hd; [done|]. by intros d [= <-].
Qed.

End AddProjectModal.

Module TopBar.
Import AddProjectModal.

Record TopBarState := mkTop {
  isProjectModalOpen : bool;
  selectedProjectId : string;
  form : ProjectForm
}.

(** The initial state (lines 27-28). *)
Definition initial_top : TopBarState := mkTop false "project_personal" initial_form.

(** [projects.find(p => p.id === selectedProjectId) || projects[0]]
    (line 30); [None] only when there is no project at all. *)
Definition currentProject (projects : list Project) (st : TopBarState) : option Project :=
  match List.find (fun p => project_id p === selectedProjectId st) projects with
  | Some p => Some p
  | None => head projects
  end.

(** [handleAddProject] (lines 32-36). *)
Definition handleAddProject (pl : ProjectPayload) : string :=
  ("Project " ++ dquote ++ p_name pl ++ dquote ++ " would be created.")%string.

Inductive TopBarEvent :=
| PickProject (id : string)            (* line 62 *)
| CreateProject                        (* line 86 *)
| Dialog (e : FormEvent).

Definition step (st : TopBarState) (e : TopBarEvent) : TopBarState * list string :=
  match e with
  | PickProject i => (mkTop (isProjectModalOpen st) i (form st), [])
  | CreateProject => (mkTop true (selectedProjectId st) (form st), [])
  | Dialog fe =>
      let '(f', pl, closed) := form_handle (form st) fe in
      (mkTop (if closed then false else isProjectModalOpen st) (selectedProjectId st) f',
       match pl with Some p => [handleAddProject p] | None => [] end)
  end.

(** The avatar (line 120): [user?.name?.charAt(0).toUpperCase() || "U"],
    the user's name as an option ([useAuth]'s user or its name absent). An
    empty name gives [""], which is falsy. *)
Definition avatar_initial (user_name : option string) : string :=
  match user_name with
  | Some (String c _) => String (upper_ascii c) EmptyString
  | _ => "U"
  end.

(** The avatar always shows exactly one character. *)
Lemma avatar_initial_length n : String.length (avatar_initial n) = 1.
Proof. by destruct n as [[|c s]|]. Qed.

(** The switcher shows a fixture project whatever the selection, as long
    as there is one. *)
Lemma currentProject_some projects st :
  projects <> [] -> exists p, currentProject projects st = Some p /\ p ∈ projects.
Proof.
  intros Hne. unfold currentProject. destruct (List.find _ _) as [p|] eqn:E.
  - apply List.find_some in E as [Hp _]. exists p. split; [done|]. by apply list_elem_of_In.
  - destruct projects as [|p ps]; [done|]. exists p. split; [done|]. apply list_elem_of_here.
Qed.

(** On the fixtures the initial selection is the personal project. *)
Example initial_project :
  option_map project_name (currentProject MockData.projects initial_top) = Some "Personal"%string.
Proof. reflexivity. Qed.

End TopBar.

Module KnowledgeDocument.

(** The dialog (lines 25-75); [None] for [if (!item) return null]. *)
Inductive DocumentBody := Markdown (md : string) | Snippet (snippet : string).

Record DocumentView := mkView {
  dv_title : string;
  dv_date : string;
  dv_agent : option string;
  dv_source : option string;
  dv_body : DocumentBody
}.

Section Render.
(** [new Date(x).toLocaleDateString('en-US', ...)] (lines 40-44). *)
Variable formatDate : string -> string.

Definition document_view (item : option KnowledgeItem) : option DocumentView :=
  (fun it =>
     mkView (ki_title it)
       (formatDate (js_or (default "" (ki_createdDate it)) (ki_createdAt it)))
       (ki_agentName it) (ki_sourceMeetingTitle it)
       (match ki_markdownContent it with
        | Some md => if md === "" then Snippet (default "" (ki_contentSnippet it)) else Markdown md
        | None => Snippet (default "" (ki_contentSnippet it))
        end))
  <$> item.
End Render.

End KnowledgeDocument.
