(* ===== verification/Layout.v ===== *)
(** * Layout: the sidebar context, the application sidebar and the dashboard header

    - Module [SidebarContext]: [contexts/TacitSidebarContext.tsx]. The
      context's value is an interface, the class [TacitSidebar] on the
      provider's state, with the laws [TacitSidebarLaws] every provider
      keeps; [useTacitSidebar] is the hook with its error outside a
      provider. [TacitChrome] is the one provider ([chrome_sidebar]).
    - Module [AppSidebar]: [components/layout/AppSidebar.tsx], a client of
      the context: its own state ([isMeetingsExpanded]), the active
      navigation item, the current meetings (sliced, then sorted) and the
      two renders (collapsed rail and full sidebar). Its theorems are
      proved against the interface.
    - Module [DashboardHeader]: [components/dashboard/DashboardHeader.tsx],
      the avatar dropdown with its document click listener and the logout
      confirmation. *)

From S2P Require Import Spec2Rocq.
From S2P Require Import Types.
From S2P Require Import MockData.
From S2P Require Import JsString.
From S2P Require Import Chrome.
From stdpp Require Import sorting.
Import Types.
Import JsString.

Module SidebarContext.

(** [TacitSidebarContextType] (lines 5-10), on the state [S] of the
    component that provides it. *)
Class TacitSidebar (S : Type) := {
  openSidebar : S -> S;
  closeSidebar : S -> S;
  toggleSidebar : S -> S;
  isSidebarOpen : S -> bool
}.

(** What the provider promises: the three callbacks do what their names
    say to the flag the context exposes. *)
Class TacitSidebarLaws (S : Type) `{TacitSidebar S} := {
  openSidebar_open s : isSidebarOpen (openSidebar s) = true;
  closeSidebar_closed s : isSidebarOpen (closeSidebar s) = false;
  toggleSidebar_negb s : isSidebarOpen (toggleSidebar s) = negb (isSidebarOpen s)
}.

(** [useTacitSidebar] (lines 42-48): the context, or the error thrown
    outside a provider ([None] is [undefined]). *)
Definition useTacitSidebar {S} (ctx : option (TacitSidebar S)) : TacitSidebar S + string :=
  match ctx with
  | Some c => inl c
  | None => inr "useTacitSidebar must be used within a TacitSidebarProvider"%string
  end.

(** [TacitChrome] passes its handlers and its flag to the provider
    (TacitChrome.tsx, lines 196-200). *)
#[export] Instance chrome_sidebar (p : Chrome.ChromeProps) : TacitSidebar Chrome.ChromeState := {
  openSidebar s := (Chrome.handle p s Chrome.EvOpenSidebar).1;
  closeSidebar s := (Chrome.handle p s Chrome.EvCloseSidebar).1;
  toggleSidebar s := (Chrome.handle p s Chrome.EvToggleSidebar).1;
  isSidebarOpen := Chrome.isSidebarOpen
}.

#[export] Instance chrome_sidebar_laws p : TacitSidebarLaws Chrome.ChromeState (H := chrome_sidebar p).
Proof. split; by intros []. Qed.

End SidebarContext.

Module AppSidebar.
Import SidebarContext.

(** [navItems] (lines 19-26), without the icons. *)
Definition navItems : list (string * string) := [
  ("Dashboard", "/"); ("Agents", "/agents"); ("Meetings", "/meetings");
  ("Workflows", "/workflows"); ("Documents", "/documents"); ("Settings", "/settings")
]%string.

(** The active test of a link (lines 75 and 121). *)
Definition isActive (pathname href : string) : bool :=
  (pathname === href) || (negb (href === "/") && is_prefix href pathname).

(** The [status] string of a meeting ([types/index.ts]). *)
Definition meeting_status_value (s : MeetingStatus) : string :=
  match s with
  | Scheduled => "Scheduled" | InProgress => "In Progress"
  | Completed => "Completed" | Cancelled => "Cancelled"
  end.

Definition is_current (m : Meeting) : bool :=
  match meeting_status m with Scheduled | InProgress => true | _ => false end.

(** [getStatusColor] and [getStatusBadge] (lines 34-56). *)
Definition getStatusColor (s : MeetingStatus) : string :=
  match s with
  | InProgress => "bg-[#22c55e]" | Scheduled => "bg-yellow-500"
  | Completed => "bg-white/20" | Cancelled => "bg-gray-500"
  end.

Definition getStatusBadge (s : MeetingStatus) : string * string :=
  match s with
  | InProgress => ("Active", "bg-[#22c55e]/20 text-[#22c55e] border-[#22c55e]/30")
  | Scheduled => ("Upcoming", "bg-yellow-500/20 text-yellow-400 border-yellow-500/30")
  | s => (meeting_status_value s, "bg-white/10 text-white/60 border-white/20")
  end%string.

Section Meetings.
(** [new Date(s).getTime()]. *)
Variable getTime : string -> Z.

Definition earlier (a b : Meeting) : Prop := (getTime (meeting_scheduledAt a) <= getTime (meeting_scheduledAt b))%Z.

#[local] Instance earlier_dec : RelDecision earlier.
Proof. intros a b. unfold earlier. apply _. Defined.

(** [currentMeetings] (lines 29-32): the first three current meetings of
    the array, then sorted by date ([Array.prototype.sort] is stable, as
    [merge_sort] is). *)
Definition currentMeetings (ms : list Meeting) : list Meeting :=
  merge_sort earlier (take 3 (filter is_current ms)).

(** One card of the meetings section (lines 156-196): the title, the
    description, the dot's colour, the badge and, for a scheduled meeting,
    the [formatDistanceToNow] of its date. *)
Record MeetingCard := mkCard {
  card_key : string;
  card_title : string;
  card_description : string;
  card_isNow : bool;
  card_dot : string;
  card_badge : string * string;
  card_when : option string
}.

Variable formatDistanceToNow : string -> string.

Definition meeting_card (m : Meeting) : MeetingCard :=
  mkCard (meeting_id m) (meeting_title m) (meeting_description m)
    (bool_decide (meeting_status m = InProgress)) (getStatusColor (meeting_status m))
    (getStatusBadge (meeting_status m))
    (if bool_decide (meeting_status m = Scheduled)
     then Some (formatDistanceToNow (meeting_scheduledAt m)) else None).

(** The two renders: the rail (lines 58-94) shows the links only; the full
    sidebar (lines 96-206) the links with their names and the meetings
    section, whose list shows when expanded ([[]] renders
    "No active meetings"). *)
Inductive SidebarView :=
| Rail (links : list (string * string * bool))
| Full (links : list (string * string * bool)) (expanded : bool) (cards : option (list MeetingCard)).

Definition sidebar_view (pathname : string) (open_ expanded : bool) (ms : list Meeting) : SidebarView :=
  if open_ then
    Full ((fun it => (it.1, it.2, isActive pathname it.2)) <$> navItems) expanded
      (if expanded then Some (meeting_card <$> currentMeetings ms) else None)
  else Rail ((fun it => (it.1, it.2, isActive pathname it.2)) <$> navItems).

End Meetings.

(** The events of the sidebar: the toggle button of either render (lines
    66 and 109) calls the context's [toggleSidebar]; the section header
    (line 142) flips [isMeetingsExpanded]. *)
Inductive SidebarEvent := ClickToggle | ToggleMeetings.

Section Client.
Context {S : Type} `{TacitSidebar S}.

(** The provider's state and the sidebar's own [isMeetingsExpanded]
    (line 17, initially [true]). *)
Definition step (st : S * bool) (e : SidebarEvent) : S * bool :=
  match e with
  | ClickToggle => (toggleSidebar st.1, st.2)
  | ToggleMeetings => (st.1, negb st.2)
  end.

Definition render (getTime : string -> Z) (fd : string -> string) (pathname : string)
    (st : S * bool) (ms : list Meeting) : SidebarView :=
  sidebar_view getTime fd pathname (isSidebarOpen st.1) st.2 ms.

Definition is_full (v : SidebarView) : bool := match v with Full _ _ _ => true | Rail _ => false end.

End Client.

(** ** Properties *)

(** Two prefixes of one string are prefixes of each other. *)
Lemma is_prefix_comparable a b s :
  is_prefix a s = true -> is_prefix b s = true -> is_prefix a b || is_prefix b a = true.
Proof.
  revert b s. induction a as [|x a IH]; intros b s Ha Hb; [done|].
  destruct b as [|y b]; [by rewrite orb_true_r|].
  destruct s as [|z s]; [done|]. simpl in *.
  apply andb_true_iff in Ha as [Hx Ha], Hb as [Hy Hb].
  apply Ascii.eqb_eq in Hx, Hy. subst. rewrite Ascii.eqb_refl. simpl. eauto.
Qed.

Definition hrefs : list string := snd <$> navItems.

(** No link other than ["/"] is a prefix of another link. *)
Lemma hrefs_prefix_free :
  forallb (fun a => forallb (fun b => (a === "/") || negb (is_prefix a b) || (a === b)) hrefs) hrefs = true.
Proof. vm_compute. reflexivity. Qed.

Lemma hrefs_prefix_eq a b :
  a ∈ hrefs -> b ∈ hrefs -> a <> "/"%string -> is_prefix a b = true -> a = b.
Proof.
  intros Ha%list_elem_of_In Hb%list_elem_of_In Hs Hp. pose proof hrefs_prefix_free as H.
  rewrite forallb_forall in H. specialize (H a Ha). rewrite forallb_forall in H.
  specialize (H b Hb). rewrite Hp, !orb_true_iff, !String.eqb_eq in H. naive_solver.
Qed.

Lemma isActive_cases p h :
  isActive p h = true -> p = h \/ (h <> "/"%string /\ is_prefix h p = true).
Proof.
  unfold isActive. rewrite orb_true_iff, andb_true_iff, negb_true_iff, String.eqb_eq, String.eqb_neq.
  tauto.
Qed.

(** Whatever the path, at most one link is active. *)
Lemma isActive_unique p a b :
  a ∈ hrefs -> b ∈ hrefs -> isActive p a = true -> isActive p b = true -> a = b.
Proof.
  intros Ha Hb HA HB. apply isActive_cases in HA as [->|[Hna Pa]], HB as [Eb|[Hnb Pb]]; try done.
  - symmetry. by apply hrefs_prefix_eq.
  - subst. by apply hrefs_prefix_eq.
  - pose proof (is_prefix_comparable a b p Pa Pb) as E.
    apply orb_true_iff in E as [E|E].
    + by apply hrefs_prefix_eq.
    + symmetry. by apply hrefs_prefix_eq.
Qed.

Section MeetingsFacts.
Variable getTime : string -> Z.

#[local] Instance earlier_total : Total (earlier getTime).
Proof. intros a b. unfold earlier. lia. Qed.

(** The section lists at most three current meetings, sorted by date: the
    first three current meetings of the array, reordered. *)
Lemma currentMeetings_spec ms :
  Sorted (earlier getTime) (currentMeetings getTime ms) /\
  currentMeetings getTime ms ≡ₚ take 3 (filter is_current ms) /\
  length (currentMeetings getTime ms) <= 3.
Proof.
  unfold currentMeetings. split_and!.
  - apply Sorted_merge_sort, _.
  - apply merge_sort_Permutation.
  - rewrite merge_sort_Permutation, length_take. lia.
Qed.

(** The slice comes before the sort: of four current meetings the fourth
    is never listed, however soon it is. *)
Lemma currentMeetings_drops_fourth m1 m2 m3 m4 :
  Forall (fun m => is_current m = true) [m1; m2; m3; m4] -> m4 ∉ [m1; m2; m3] ->
  m4 ∉ currentMeetings getTime [m1; m2; m3; m4].
Proof.
  intros Hc Hn. unfold currentMeetings. rewrite merge_sort_Permutation.
  rewrite Forall_forall in Hc.
  rewrite !filter_cons_True by (apply Is_true_true_2, Hc; set_solver). done.
Qed.

End MeetingsFacts.

Section ClientFacts.
Context {S : Type} `{TacitSidebarLaws S}.

(** Against the context's interface: the toggle button switches between
    the rail and the full sidebar, and the meetings section keeps its
    state through a collapse and an expand. *)
Lemma toggle_switches_render getTime fd p st ms :
  is_full (render getTime fd p (step st ClickToggle) ms) = negb (is_full (render getTime fd p st ms)) /\
  (step (step st ClickToggle) ClickToggle).2 = st.2.
Proof.
  unfold render, step, sidebar_view. simpl. rewrite toggleSidebar_negb.
  split; [|done]. by destruct (isSidebarOpen st.1).
Qed.

End ClientFacts.

End AppSidebar.

Module DashboardHeader.

(** The events: a click on the avatar (line 60), a click on Logout (line
    68) with the answer to [confirm], and a click anywhere else. Each
    click runs the element's handler, then the document listener (lines
    10-15), which closes the dropdown unless the target is inside
    [.user-avatar-container] (the avatar and the dropdown, lines 58-75). *)
Inductive HeaderEvent := AvatarClick | LogoutClick (confirmed : bool) | OutsideClick.

Definition handleClickOutside (inside : bool) (isDropdownOpen : bool) : bool :=
  if inside then isDropdownOpen else false.

(** [handleLogout] (lines 21-27): the dropdown closes, and on confirmation
    the page goes to ["/"]. *)
Definition handleLogout (confirmed : bool) : bool * option string :=
  (false, if confirmed then Some "/"%string else None).

Definition step (isDropdownOpen : bool) (e : HeaderEvent) : bool * option string :=
  match e with
  | AvatarClick => (handleClickOutside true (negb isDropdownOpen), None)
  | LogoutClick c => let '(o, r) := handleLogout c in (handleClickOutside true o, r)
  | OutsideClick => (handleClickOutside false isDropdownOpen, None)
  end.

(** Logout is rendered only while the dropdown is open (line 65). *)
Definition available (isDropdownOpen : bool) (e : HeaderEvent) : bool :=
  match e with LogoutClick _ => isDropdownOpen | _ => true end.

(** Every click but one on the avatar leaves the dropdown closed; logout
    leaves the page only when confirmed. *)
Lemma header_step_closes o e :
  e <> AvatarClick -> (step o e).1 = false /\ ((step o e).2 = Some "/"%string <-> e = LogoutClick true).
Proof. destruct e as [|[]|]; simpl; intuition congruence. Qed.

End DashboardHeader.
