(* ===== verification/Landing.v ===== *)
(** * Landing: the Vite landing page, [src/src/pages/Index.tsx] with its hero

    - Module [Hero]: [src/src/components/sections/Hero.tsx], the image
      carousel. Its state is the component's three [useState]s ([api] as a
      flag: the carousel has handed its API over), the carousel's selected
      slide, a clock in milliseconds, the next firing of the autoplay
      [setInterval] (which exists exactly while [api && isAutoPlaying], the
      effect's guard) and the due times of the pending resume [setTimeout]s
      of [handleDotClick]. Time passes by [Advance], which cannot jump over
      a due timer; timers fire at their due time.
    - Module [Index]: the page's navigation buttons (the hero's and the
      call to action's). The marketing sections ([Features], [HowItWorks],
      [Demos]) are static markup. *)

From S2P Require Import Spec2Rocq.
From stdpp Require Import sorting.

Module Hero.

(** [heroImages] (lines 13-26): the carousel has three slides. *)
Definition slide_count : nat := 3.
#[local] Arguments slide_count : simpl never.

(** The interval's period (line 48) and the pause after a dot click
    (line 61), in milliseconds. *)
Definition autoplay_ms : nat := 6 * 1000.
Definition resume_ms : nat := 10 * 1000.

Record HeroState := mkHero {
  api : bool;
  sel : nat;                   (* [api.selectedScrollSnap()] *)
  current : nat;
  isAutoPlaying : bool;
  clock : nat;
  interval : option nat;       (* the next firing of the interval *)
  resumes : list nat           (* the due times of the resume timeouts *)
}.

(** The first render (lines 9-11): no API yet, slide 0, autoplay on. *)
Definition initial_hero : HeroState := mkHero false 0 0 true 0 None [].

(** [setIsAutoPlaying(b)] with the second effect (lines 43-51): when the
    value changes the effect's cleanup clears the interval and, if [api]
    is set and [b] holds, a new one starts, due in 6 seconds ([autoplay_ms]). Setting the
    value it already has does not re-render, and the interval runs on. *)
Definition setIsAutoPlaying (b : bool) (st : HeroState) : HeroState :=
  if eqb b (isAutoPlaying st) then st
  else mkHero (api st) (sel st) (current st) b (clock st)
         (if b && api st then Some (clock st + autoplay_ms) else None) (resumes st).

(** The carousel selects a slide and emits ["select"]; [onSelect] (lines
    31-33) copies the selection into [current] once [api] is set. *)
Definition select_slide (i : nat) (st : HeroState) : HeroState :=
  mkHero (api st) i (if api st then i else current st) (isAutoPlaying st) (clock st)
    (interval st) (resumes st).

(** [setApi] from the carousel: both effects run (lines 28-51): [onSelect]
    once, and the interval if autoplay is on. *)
Definition setApi (st : HeroState) : HeroState :=
  mkHero true (sel st) (sel st) (isAutoPlaying st) (clock st)
    (if isAutoPlaying st then Some (clock st + autoplay_ms) else None) (resumes st).

(** The interval's callback (line 47): [api.scrollNext()] on a looping
    carousel; the interval is due again 6 seconds later. *)
Definition fire_interval (st : HeroState) : HeroState :=
  let st' := select_slide (S (sel st) mod slide_count) st in
  mkHero (api st') (sel st') (current st') (isAutoPlaying st') (clock st')
    (Some (clock st + autoplay_ms)) (resumes st').

(** [handleDotClick] (lines 53-62): nothing without [api]; otherwise
    autoplay off, [api.scrollTo(index)], and a timeout that turns autoplay
    back on 10 seconds later. No earlier timeout is cleared. *)
Definition handleDotClick (index : nat) (st : HeroState) : HeroState :=
  if negb (api st) then st
  else
    let st1 := select_slide index (setIsAutoPlaying false st) in
    mkHero (api st1) (sel st1) (current st1) (isAutoPlaying st1) (clock st1) (interval st1)
      (resumes st1 ++ [clock st + resume_ms]).

(** The resume timeout's callback (lines 59-61). *)
Definition fire_resume (st : HeroState) : HeroState :=
  let st1 := mkHero (api st) (sel st) (current st) (isAutoPlaying st) (clock st) (interval st)
               (tail (resumes st)) in
  setIsAutoPlaying true st1.

Definition advance (d : nat) (st : HeroState) : HeroState :=
  mkHero (api st) (sel st) (current st) (isAutoPlaying st) (clock st + d) (interval st) (resumes st).

Inductive HeroEvent :=
| SetApi                  (* the carousel's [setApi] (line 133) *)
| DotClick (i : nat)      (* a dot (line 159) *)
| IntervalFires
| ResumeFires             (* the earliest pending resume timeout *)
| Swipe (i : nat)         (* a drag on the carousel, which snaps to slide [i] *)
| Advance (d : nat).

Definition step (st : HeroState) (e : HeroEvent) : HeroState :=
  match e with
  | SetApi => setApi st
  | DotClick i => handleDotClick i st
  | IntervalFires => fire_interval st
  | ResumeFires => fire_resume st
  | Swipe i => select_slide i st
  | Advance d => advance d st
  end.

(** The due times of every pending timer. *)
Definition due_times (st : HeroState) : list nat :=
  match interval st with Some t => t :: resumes st | None => resumes st end.

(** When an event can happen: the carousel hands its API over once, a dot
    exists for each slide, a timer fires at its due time, and time cannot
    pass a due timer. The carousel's drag is handled by the Embla instance
    that [setApi] hands over, so it needs [api]; it snaps to one of the
    slides and emits ["select"], and touches neither [isAutoPlaying] nor
    the timers. *)
Definition available (st : HeroState) (e : HeroEvent) : bool :=
  match e with
  | SetApi => negb (api st)
  | DotClick i => i <? slide_count
  | IntervalFires => bool_decide (interval st = Some (clock st))
  | ResumeFires => bool_decide (head (resumes st) = Some (clock st))
  | Swipe i => api st && (i <? slide_count)
  | Advance d => forallb (fun t => clock st + d <=? t) (due_times st)
  end.

Inductive reachable : HeroState -> Prop :=
| reach_init : reachable initial_hero
| reach_step st e : reachable st -> available st e = true -> reachable (step st e).

(** An explicit sequence of events, each available when it happens. *)
Fixpoint run (st : HeroState) (es : list HeroEvent) : option HeroState :=
  match es with
  | [] => Some st
  | e :: es' => if available st e then run (step st e) es' else None
  end.


(** ** The render (lines 63-174) *)

(** [heroImages] (lines 13-26): the source and alt text of each slide. *)
Definition heroImages : list (string * string) := [
  ("/lovable-uploads/a7f7db26-29f2-4e58-90cb-952ab8607775.png",
   "The Problem - Comic showing tacit knowledge locked in SME brains");
  ("/lovable-uploads/04d335b8-715e-4e13-889a-9d3edeae0aec.png",
   "The Solution - Comic showing Tacit-AI helping capture knowledge through conversations");
  ("/lovable-uploads/1838940c-9f12-4f52-b2bc-9a2d8706707f.png",
   "The Value Delivered - Comic showing knowledge captured in guides, SOPs, FAQs, and training")
]%string.

(** A dot of the navigation (lines 156-167): its key, its class (the
    highlighted one for the current slide), its aria-label and the click. *)
Record Dot := mkDot { dot_key : nat; dot_class : string; dot_label : string; dot_click : HeroEvent }.

Definition dot_active_class : string := "w-3 h-3 rounded-full transition-all duration-300 bg-white shadow-lg scale-110".
Definition dot_idle_class : string := "w-3 h-3 rounded-full transition-all duration-300 bg-white/50 hover:bg-white/70".

Definition hero_dot (st : HeroState) (index : nat) : Dot :=
  mkDot index (if current st =? index then dot_active_class else dot_idle_class)
    ("Go to slide " ++ pretty (S index))%string (DotClick index).

(** The statistics (lines 113-126). *)
Definition hero_stats : list (string * string) :=
  [("95%", "Time Saved"); ("500+", "SMEs Onboarded"); ("10k+", "Hours Extracted")]%string.

(** What the hero shows: a carousel item per image (key, source, alt),
    the dots, and the statistics; its two buttons are [Index.handle]'s. *)
Record HeroView := mkHeroView {
  hv_slides : list (nat * string * string);
  hv_dots : list Dot;
  hv_stats : list (string * string)
}.

Definition hero_view (st : HeroState) : HeroView :=
  mkHeroView (imap (fun i im => (i, im.1, im.2)) heroImages)
    (imap (fun i _ => hero_dot st i) heroImages) hero_stats.

(** ** The specification

    What the component's comments promise (lines 43-62): a slideshow that
    shows one of the slides and either auto-plays, moving to the next slide
    (looping), or is paused after the user picked a slide, until auto-play
    resumes; the user may also drag to a slide, which leaves auto-play as
    it is. Each move carries its label; timing is left out. *)
Record Slideshow := mkSlideshow { shown : nat; auto : bool }.

Inductive SlideLabel := LTick | LPick (j : nat) | LResume | LSwipe (j : nat).

Inductive spec_step : SlideLabel -> Slideshow -> Slideshow -> Prop :=
| spec_tick i : spec_step LTick (mkSlideshow i true) (mkSlideshow (S i mod slide_count) true)
| spec_pick i b j : j < slide_count -> spec_step (LPick j) (mkSlideshow i b) (mkSlideshow j false)
| spec_resume i b : spec_step LResume (mkSlideshow i b) (mkSlideshow i true)
| spec_swipe i b j : j < slide_count -> spec_step (LSwipe j) (mkSlideshow i b) (mkSlideshow j b).

Inductive spec_reachable : Slideshow -> Prop :=
| spec_init : spec_reachable (mkSlideshow 0 true)
| spec_next s l s' : spec_reachable s -> spec_step l s s' -> spec_reachable s'.

(** The slideshow a state of the component shows: the dot that is lit
    and whether it auto-plays. *)
Definition abs (st : HeroState) : Slideshow := mkSlideshow (current st) (isAutoPlaying st).

(** The move of the slideshow an event of the component is: the interval
    ticks, a dot click once [api] is set picks, a resume timeout resumes,
    a drag swipes; handing over the API and the passing of time are
    silent. *)
Definition label (st : HeroState) (e : HeroEvent) : option SlideLabel :=
  match e with
  | SetApi | Advance _ => None
  | DotClick j => if api st then Some (LPick j) else None
  | IntervalFires => Some LTick
  | ResumeFires => Some LResume
  | Swipe j => Some (LSwipe j)
  end.

(** ** Properties *)

(** The carousel's invariant: the dots show the selected slide; the
    interval runs exactly while [api && isAutoPlaying], due within 6
    seconds; the resume timeouts are due within 10 seconds, in order; and
    a paused carousel has one pending. No timer is overdue. *)
Definition hero_inv (st : HeroState) : Prop :=
  current st = sel st /\ sel st < slide_count /\
  (is_Some (interval st) <-> api st && isAutoPlaying st = true) /\
  (forall t, interval st = Some t -> clock st <= t <= clock st + autoplay_ms) /\
  Forall (fun t => clock st <= t <= clock st + resume_ms) (resumes st) /\
  StronglySorted le (resumes st) /\
  (isAutoPlaying st = false -> resumes st <> []).

Ltac hero_simpl :=
  repeat match goal with
  | st : HeroState |- _ => destruct st
  | H : hero_inv _ |- _ => destruct H as (? & ? & ? & ? & ? & ? & ?)
  end; unfold hero_inv in *; simpl in *.

Lemma setApi_inv st : hero_inv st -> available st SetApi = true -> hero_inv (setApi st).
Proof.
  intros Hi Ha. hero_simpl. apply negb_true_iff in Ha. subst. simpl in *.
  split_and!; try done.
  - destruct isAutoPlaying0; simpl; split; intros; done.
  - intros t. destruct isAutoPlaying0; intros [= <-]; lia.
Qed.

Lemma handleDotClick_inv st i : hero_inv st -> available st (DotClick i) = true -> hero_inv (handleDotClick i st).
Proof.
  intros Hi Ha%Nat.ltb_lt. unfold handleDotClick. destruct (api st) eqn:Eapi; [|done].
  hero_simpl. subst.
  unfold setIsAutoPlaying. destruct isAutoPlaying0; simpl; split_and!; try done.
  all: try (intros _; by destruct resumes0).
  all: try (apply Forall_app; split; [done|constructor; [lia|done]]).
  all: apply StronglySorted_app_2; [|done|repeat constructor].
  all: intros x1 x2 Hx1 ->%list_elem_of_singleton; rewrite Forall_forall in H3; by apply H3 in Hx1 as [_ ?].
Qed.

Lemma fire_interval_inv st : hero_inv st -> available st IntervalFires = true -> hero_inv (fire_interval st).
Proof.
  intros (Hc & Hs & Hi & Hb & Hr & Hso & Hp) Ha%bool_decide_eq_true.
  pose proof (proj1 Hi (ex_intro _ _ Ha)) as Hap. apply andb_true_iff in Hap as [Hapi Hpl].
  unfold fire_interval, select_slide, hero_inv. cbn [api sel current isAutoPlaying clock interval resumes].
  rewrite Hapi, Hpl. split_and!; try done.
  - apply Nat.mod_upper_bound. unfold slide_count. lia.
  - intros t [= <-]. lia.
Qed.

Lemma fire_resume_inv st : hero_inv st -> available st ResumeFires = true -> hero_inv (fire_resume st).
Proof.
  intros Hi Ha%bool_decide_eq_true. hero_simpl. subst.
  destruct resumes0 as [|r rs]; [done|]. simpl in Ha. injection Ha as ->.
  apply Forall_cons in H3 as [_ H3]. apply StronglySorted_cons in H4 as [_ H4].
  unfold setIsAutoPlaying. destruct isAutoPlaying0; simpl; split_and!; try done.
  - destruct api0; simpl; split; [done| |intros [? ?]; done|done]. intros _. eexists; done.
  - intros t. destruct api0; intros; simplify_eq; lia.
Qed.

Lemma advance_inv st d : hero_inv st -> available st (Advance d) = true -> hero_inv (advance d st).
Proof.
  intros Hi Ha. hero_simpl. unfold due_times in Ha. simpl in Ha.
  assert (Hr : Forall (fun t => clock0 + d <= t) resumes0).
  { apply Forall_forall. intros t Ht. apply forallb_forall with (x := t) in Ha.
    - by apply Nat.leb_le in Ha.
    - destruct interval0; [right|]; by apply list_elem_of_In. }
  split_and!; try done.
  - intros t Ht. destruct interval0 as [t'|]; [|done]. injection Ht as <-.
    simpl in Ha. apply andb_true_iff in Ha as [Ha _]. apply Nat.leb_le in Ha.
    specialize (H2 t' eq_refl). lia.
  - rewrite Forall_forall in *. intros t Ht. specialize (H3 t Ht). specialize (Hr t Ht). lia.
Qed.

Lemma swipe_inv st i : hero_inv st -> available st (Swipe i) = true -> hero_inv (select_slide i st).
Proof.
  intros Hi Ha. apply andb_true_iff in Ha as [Hapi Hlt%Nat.ltb_lt].
  hero_simpl. subst. by split_and!.
Qed.

Lemma hero_step_inv st e : hero_inv st -> available st e = true -> hero_inv (step st e).
Proof.
  destruct e; simpl.
  - apply setApi_inv.
  - apply handleDotClick_inv.
  - apply fire_interval_inv.
  - apply fire_resume_inv.
  - apply swipe_inv.
  - apply advance_inv.
Qed.

Lemma reachable_hero_inv st : reachable st -> hero_inv st.
Proof.
  induction 1 as [|st e _ IH Ha].
  - repeat split; cbn; try done; [unfold slide_count; lia|constructor].
  - by apply hero_step_inv.
Qed.

(** The image list has a slide for each dot the model counts. *)
Lemma heroImages_length : length heroImages = slide_count.
Proof. reflexivity. Qed.

(** In every state the carousel reaches exactly one dot is highlighted,
    the current slide's, and each dot's click picks its own slide. *)
Lemma hero_view_one_active st :
  reachable st ->
  List.filter (fun d => String.eqb (dot_class d) dot_active_class) (hv_dots (hero_view st)) =
    [hero_dot st (current st)] /\
  Forall (fun d => dot_click d = DotClick (dot_key d)) (hv_dots (hero_view st)).
Proof.
  intros (Hc & Hs & _)%reachable_hero_inv. unfold slide_count in Hs.
  split; [|repeat constructor].
  unfold hero_view, hero_dot. destruct (current st) as [|[|[|n]]]; [..|lia]; reflexivity.
Qed.

(** C36: Autoplay always comes back: in every reachable state where the
    carousel is paused, the earliest resume timeout is due within
    [resume_ms], time can pass until then, and when it fires autoplay is
    on again. Time cannot pass the timeout without it firing. *)
Theorem paused_autoplay_resumes st :
  reachable st -> isAutoPlaying st = false ->
  exists d st', d <= resume_ms /\ run st [Advance d; ResumeFires] = Some st' /\
    isAutoPlaying st' = true /\ clock st' = clock st + d.
Proof.
  intros Hr Hp. destruct (reachable_hero_inv st Hr) as (_ & _ & Hi & _ & Hb & Hs & Hn).
  specialize (Hn Hp). destruct (resumes st) as [|r rs] eqn:Er; [done|].
  assert (interval st = None) as Hiv.
  { destruct (interval st) eqn:E; [|done]. rewrite Hp, andb_false_r in Hi. discriminate (proj1 Hi (ex_intro _ _ eq_refl)). }
  apply Forall_cons in Hb as [Hr1 _]. apply StronglySorted_cons in Hs as [Hs _].
  exists (r - clock st). destruct st as [a sl c p k iv rs0]; simpl in *. subst.
  eexists. split; [lia|]. unfold run, available, due_times. simpl.
  replace (k + (r - k)) with r by lia.
  rewrite Nat.leb_refl. simpl.
  assert (forallb (fun t => r <=? t) rs = true) as ->.
  { apply forallb_forall. intros t Ht%list_elem_of_In. rewrite Forall_forall in Hs.
    apply Nat.leb_le, Hs, Ht. }
  rewrite bool_decide_eq_true_2 by done. split; [done|]. simpl. split; [done|lia].
Qed.

(** Two dot clicks five seconds apart: the first click's timeout, which
    no later click clears, turns autoplay back on five seconds after the
    last click, not ten. *)
Example resume_after_second_click :
  match run initial_hero [SetApi; DotClick 1; Advance (5 * 1000); DotClick 2;
                          Advance (5 * 1000); ResumeFires] with
  | Some st => isAutoPlaying st = true /\ clock st = 10 * 1000 /\ current st = 2 /\
               resumes st = [15 * 1000]
  | None => False
  end.
Proof. vm_compute. auto. Qed.

(** Each event of the component is the move of the slideshow its label
    names, or leaves the slideshow as it is when it is silent. *)
Lemma hero_step_simulates st e :
  hero_inv st -> available st e = true ->
  match label st e with
  | None => abs (step st e) = abs st
  | Some l => spec_step l (abs st) (abs (step st e))
  end.
Proof.
  intros Hi Ha. destruct e as [|i| | |i|d]; simpl in Ha |- *.
  - destruct Hi as [Hc _]. unfold abs, setApi. simpl. by rewrite Hc.
  - unfold handleDotClick. destruct (api st) eqn:Eapi; [|done].
    apply Nat.ltb_lt in Ha. unfold abs, setIsAutoPlaying, select_slide. simpl.
    destruct (isAutoPlaying st) eqn:Ep; simpl; rewrite ?Eapi, ?Ep; by apply spec_pick.
  - apply bool_decide_eq_true in Ha. destruct Hi as (Hc & _ & Hiv & _).
    pose proof (proj1 Hiv (ex_intro _ _ Ha)) as Hap. apply andb_true_iff in Hap as [Hapi Hpl].
    unfold abs, fire_interval, select_slide. simpl. rewrite Hapi, Hpl, Hc. constructor.
  - unfold fire_resume, setIsAutoPlaying, abs. simpl.
    destruct (isAutoPlaying st); simpl; constructor.
  - apply andb_true_iff in Ha as [Hapi Hlt%Nat.ltb_lt].
    unfold abs, select_slide. simpl. rewrite Hapi. by constructor.
  - done.
Qed.

(** C27: The carousel implements the slideshow: every state the
    component reaches shows a slideshow the specification reaches, and
    each event is exactly the move its label names (the interval only
    ticks an auto-playing show to the next slide, a dot click pauses on
    the slide picked, a resume timeout resumes on the same slide, a drag
    keeps auto-play as it is), or, when silent, changes nothing shown. *)
Theorem hero_refines_slideshow st :
  reachable st ->
  spec_reachable (abs st) /\
  (forall e, available st e = true ->
     match label st e with
     | None => abs (step st e) = abs st
     | Some l => spec_step l (abs st) (abs (step st e))
     end).
Proof.
  intros Hr. split.
  - induction Hr as [|st e Hr IH Ha]; [constructor|].
    pose proof (hero_step_simulates st e (reachable_hero_inv st Hr) Ha) as Hs.
    destruct (label st e); [by eapply spec_next|by rewrite Hs].
  - intros e. apply hero_step_simulates, reachable_hero_inv, Hr.
Qed.

(** The carousel after a click on the second dot and ten seconds. *)
Definition paused_hero : HeroState := step (step (step initial_hero SetApi) (DotClick 1)) (Advance resume_ms).

Lemma paused_autoplay_resumes_witness :
  exists d st', d <= resume_ms /\ run paused_hero [Advance d; ResumeFires] = Some st' /\
    isAutoPlaying st' = true /\ clock st' = clock paused_hero + d.
Proof.
  apply paused_autoplay_resumes; [|reflexivity].
  repeat apply reach_step; try constructor; reflexivity.
Defined.

Lemma hero_refines_slideshow_witness :
  reachable paused_hero /\ spec_reachable (abs paused_hero) /\
  spec_step LResume (abs paused_hero) (abs (step paused_hero ResumeFires)).
Proof.
  assert (H : reachable paused_hero).
  { repeat apply reach_step; try constructor; reflexivity. }
  destruct (hero_refines_slideshow _ H) as [Hs Hstep].
  split_and!; [exact H|exact Hs|]. exact (Hstep ResumeFires eq_refl).
Defined.

End Hero.

Module Index.

(** The buttons that leave the landing page: the hero's (Hero.tsx, lines
    91-109) and the call to action's (Index.tsx, lines 33-51). The hero's
    second button scrolls to the [#demos] section of the same page. *)
Inductive IndexEvent := StartExtracting | ListenToDemos | StartKnowledgeExtraction | BrowseLibrary.

Inductive IndexOutput := Navigate (path : string) | ScrollTo (id : string).

Definition handle (e : IndexEvent) : IndexOutput :=
  match e with
  | StartExtracting => Navigate "/dashboard"
  | ListenToDemos => ScrollTo "demos"
  | StartKnowledgeExtraction => Navigate "/setup-session"
  | BrowseLibrary => Navigate "/knowledge-library"
  end%string.

(** The routes of [src/src/App.tsx] (lines 30-35). *)
Definition app_routes : list string :=
  ["/"; "/setup-session"; "/dashboard"; "/session/demo"; "/knowledge-library"; "/email-to-meeting"]%string.

(** The section ids of the page (Demos.tsx line 7, Features.tsx line 39,
    HowItWorks.tsx line 38). *)
Definition section_ids : list string := ["demos"; "features"; "how-it-works"]%string.

End Index.
