(* ===== verification/Marketing.v ===== *)
(** * Marketing: the static sections of the landing page

    [src/src/components/sections/]: [Features.tsx] (a card per entry of
    its [features] array and a strip of figures), [HowItWorks.tsx] (a card
    per entry of its [steps] array with an arrow connector between
    consecutive cards, and two scenario cards) and [Demos.tsx] (one demo
    card). They hold no state and no handler: each is its data and the
    view that maps over it. The icons are kept by name. *)

From S2P Require Import Spec2Rocq.
From S2P Require Import JsString.
From S2P Require Import Landing.
From Stdlib Require Import Ascii.
Import JsString.

Module Features.

(** An entry of [features] (lines 5-36). *)
Record Feature := mkFeature { ft_icon : string; ft_title : string; ft_description : string; ft_gradient : string }.

Definition features : list Feature := [
  mkFeature "Bot" "AI Agent as Trainee" "Our intelligent AI agent adapts different personas to naturally extract knowledge from SMEs through conversational interactions." "from-primary to-primary-glow";
  mkFeature "MessageSquare" "Adaptive Questioning" "Dynamic questioning that adjusts based on responses, identifying knowledge gaps and seeking clarification in real-time." "from-primary-glow to-accent";
  mkFeature "FileText" "Automated Structuring" "Transform unstructured conversations into logical hierarchies with summaries, guides, FAQs, and learning modules." "from-secondary to-primary";
  mkFeature "Search" "Searchable Knowledge Library" "Central repository with tagging, categorization, and version control for all captured knowledge assets." "from-primary to-accent";
  mkFeature "Share2" "Multi-Format Content" "Generate various learning assets including written guides, audio snippets, quizzes, and structured courses." "from-accent to-primary-glow"
]%string.

(** A card (lines 58-73): its key, the overlay's and the icon box's
    classes with the entry's gradient, the icon, title and description. *)
Record FeatureCard := mkFeatureCard {
  fc_key : nat;
  fc_overlay_class : string;
  fc_icon_class : string;
  fc_icon : string;
  fc_title : string;
  fc_description : string
}.

Definition feature_card (index : nat) (f : Feature) : FeatureCard :=
  mkFeatureCard index
    ("absolute inset-0 bg-gradient-to-br " ++ ft_gradient f ++ " opacity-5 group-hover:opacity-10 transition-smooth")
    ("w-12 h-12 rounded-lg bg-gradient-to-br " ++ ft_gradient f ++ " flex items-center justify-center mb-4 shadow-glow")
    (ft_icon f) (ft_title f) (ft_description f).

(** The strip of figures under the cards (lines 77-92). *)
Definition cta_figures : list (string * string) :=
  [("Users", "500+ SMEs"); ("Zap", "10k+ Hours Extracted"); ("Brain", "95% Accuracy")]%string.

Definition features_view : list FeatureCard * list (string * string) :=
  (imap feature_card features, cta_figures).

End Features.

Module HowItWorks.

(** An entry of [steps] (lines 6-35). *)
Record HowStep := mkHowStep { hs_icon : string; hs_step : string; hs_title : string; hs_description : string; hs_color : string }.

Definition steps : list HowStep := [
  mkHowStep "UserPlus" "01" "Setup & Invitation" "L&D Associate or SME creates a session and invites participants. Our AI agent configures its persona based on the knowledge extraction context." "text-primary";
  mkHowStep "MessageCircle" "02" "AI-Guided Conversation" "SME engages in natural conversation with the AI agent, which asks intelligent questions and adapts its approach based on responses." "text-accent";
  mkHowStep "FileOutput" "03" "Automated Synthesis" "The platform automatically structures the conversation into learning assets: guides, FAQs, quizzes, and course modules." "text-primary-glow";
  mkHowStep "Search" "04" "Knowledge Library" "Generated content is stored in a searchable library with tagging and categorization for easy access by team members." "text-primary"
]%string.

(** A card (lines 57-81): key, icon, the number badge, title and
    description, and whether the arrow connector follows it
    ([index < steps.length - 1]). The [color] field is never read. *)
Record StepCard := mkStepCard {
  sc_key : nat;
  sc_icon : string;
  sc_badge : string;
  sc_title : string;
  sc_description : string;
  sc_arrow : bool
}.

Definition step_card (index : nat) (s : HowStep) : StepCard :=
  mkStepCard index (hs_icon s) (hs_step s) (hs_title s) (hs_description s)
    (index <? length steps - 1).

(** The two scenario cards (lines 85-99). *)
Definition use_cases : list (string * string) := [
  ("Scenario 1: Urgent Documentation", "L&D Associate identifies a knowledge gap and needs to establish reference SOPs from the most experienced SME. They set up a Tacit-AI session and invite the SME to share their expertise.");
  ("Scenario 2: SME Self-Service", "SME is overwhelmed with repetitive help requests from colleagues. They proactively create a knowledge extraction session to document their expertise and reduce future interruptions.")
]%string.

Definition how_view : list StepCard * list (string * string) := (imap step_card steps, use_cases).

End HowItWorks.

Module Demos.

(** The demo card (lines 18-49): title, scenario, the use-case and
    industry badges, and the audio source. *)
Record DemoCard := mkDemoCard {
  dc_title : string;
  dc_scenario : string;
  dc_use_cases : list string;
  dc_industries : list string;
  dc_audio : string
}.

Definition demo_card : DemoCard :=
  mkDemoCard "Payments Operations"
    "Scenario: Vikas a Payment Ops Manager speaks with AI-Payments Operations Analyst Racheal to help her understand Payments Operations setup in Advantage Bank."
    ["Ai-Assisted Process Discovery"; "AI-Assisted Onboarding"] ["Management Consulting"; "B2B SaaS"]
    "/audio/vikas-racheal.mp3".

End Demos.

(** ** Properties *)

(** An arrow connector follows every card of the four steps but the last,
    and the number badges read [01], [02], ... in the cards' order. *)
Lemma how_arrows_between :
  HowItWorks.sc_arrow <$> (HowItWorks.how_view).1 = [true; true; true; false] /\
  HowItWorks.sc_badge <$> (HowItWorks.how_view).1 =
    (fun i => js_padStart 2 "0"%char (pretty (S i))) <$> seq 0 (length HowItWorks.steps).
Proof. split; reflexivity. Qed.

(** The landing page gives its "95%" figure two meanings: the hero's
    statistics call it time saved, the features' strip accuracy; the other
    two figures agree. *)
Lemma ninety_five_percent_two_meanings :
  In ("95%", "Time Saved")%string Hero.hero_stats /\ In ("Brain", "95% Accuracy")%string Features.cta_figures /\
  In ("500+", "SMEs Onboarded")%string Hero.hero_stats /\ In ("10k+", "Hours Extracted")%string Hero.hero_stats /\
  In ("Zap", "10k+ Hours Extracted")%string Features.cta_figures.
Proof. vm_compute. tauto. Qed.
