(* ===== verification/ViteDashboard.v ===== *)
(** * ViteDashboard: the dashboard of the Vite app, [src/src/pages/Dashboard.tsx]

    The Vite app keeps its own copy of the home page and of five of its
    components under [src/src/components/dashboard/]: [DashboardView],
    [SessionDetailView], [AutomationOptions], [GeneratedAssets] and
    [ConfigDrawer]. This file translates those copies over the state of
    [Dashboard] ([Home], [DetailState], [DrawerState]) and composes them
    the way [src/src/pages/Dashboard.tsx] does. The page also imports
    [DashboardHeader], [SessionsSidebar], [StartSessionModal] and
    [ScheduleSessionModal], which the Vite sources do not contain: their
    handlers are taken from [Dashboard] (the Next copies).

    The theorem [vite_step_refines] shows that the copies have not drifted:
    the Vite page's step is the Next page's, event for event, so every
    theorem of [Dashboard] about reachable states holds for the Vite page. *)

From S2P Require Import Spec2Rocq.
From S2P Require Import JsString.
From S2P Require Import Dashboard.
From Stdlib Require Import QArith.
Import JsString Dashboard.

Module ViteDashboard.

(** ** The components *)

(** [automations] of [AutomationOptions] (lines 10-49), the icon by
    name; [processingAutomations] (line 8) is never set, so no card is
    disabled. *)
Definition automations : list Automation := [
  mkAutomation "summary" "Generate Summary" "page";
  mkAutomation "insights" "Extract Insights" "bar-chart";
  mkAutomation "training" "Create Training Module" "books";
  mkAutomation "actions" "Action Items List" "check-mark";
  mkAutomation "kb-article" "Knowledge Base Article" "direct-hit";
  mkAutomation "minutes" "Meeting Minutes" "memo"
]%string.

(** [viewAsset], [chatAsset], [exportAsset] of [GeneratedAssets] (lines
    14-24). *)
Definition viewAsset (type : string) : string :=
  "Opening " ++ type ++ " asset viewer!" ++ nl ++ nl
  ++ "This would display the generated content in a full viewer.".

Definition chatAsset (type : string) : string :=
  "Opening chat refinement for " ++ type ++ "!" ++ nl ++ nl
  ++ "This would allow you to refine the asset through conversation.".

Definition exportAsset (type : string) : string :=
  "Exporting " ++ type ++ " asset!" ++ nl ++ nl
  ++ "This would download the asset in your preferred format (PDF, DOCX, etc.).".

Definition asset_alert (act : AssetAction) (type : string) : string :=
  match act with
  | ViewAsset => viewAsset type
  | ChatAsset => chatAsset type
  | ExportAsset => exportAsset type
  end.

(** [SessionDetailView]'s handlers (lines 20-65): the window listener
    prepends the asset, [togglePlayPause] and [handleSeek]. *)
Definition handleAssetGenerated (a : Automation) (timestamp : string) (d : DetailState) : DetailState :=
  mkDetail (isPlaying d) (progress d)
    (mkAsset (au_type a) (au_title a) (au_icon a) timestamp :: assets d).

Definition togglePlayPause (d : DetailState) : DetailState :=
  mkDetail (negb (isPlaying d)) (progress d) (assets d).

Definition handleSeek (clickPosition barWidth : Q) (d : DetailState) : DetailState :=
  mkDetail (isPlaying d) (clickPosition / barWidth * 100) (assets d).

(** [ConfigDrawer]'s reset effect (lines 22-31): the form and
    [isProcessing] as on mount. *)
Definition drawer_reset : DrawerState :=
  mkDrawer (mkConfig "professional" "" "") false.

(** [GeneratedAssets]' render (lines 26-70): [null] for no asset, else a
    card per asset with its key and three buttons. *)
Definition asset_card (i : nat) (a : Asset) : AssetCard :=
  mkAssetCard (as_type a ++ "-" ++ as_timestamp a ++ "-" ++ pretty (N.of_nat i))
    (as_icon a) (as_title a) ("Generated: " ++ as_timestamp a)
    [("View", ViewAsset); ("Chat", ChatAsset); ("down-arrow", ExportAsset)]%string.

Definition assets_view (l : list Asset) : option (list AssetCard) :=
  match l with
  | [] => None
  | _ => Some (imap asset_card l)
  end.

(** [AutomationOptions]' cards (lines 10-87), with their descriptions. *)
Definition automation_descriptions : list string := [
  "Create an executive summary of the session with key takeaways and action items.";
  "AI-powered analysis to identify patterns, themes, and critical insights from the conversation.";
  "Transform session content into a structured training module with lessons and quizzes.";
  "Extract and organize all action items, decisions, and next steps mentioned in the session.";
  "Convert tacit knowledge into a well-structured article for your knowledge base.";
  "Generate formal meeting minutes with attendees, discussions, and resolutions."
]%string.

Definition automation_cards : list AutomationCard :=
  zip_with (fun a d => mkAutoCard (au_icon a) (au_title a) d a) automations automation_descriptions.

(** [SessionDetailView]'s render (lines 67-157). *)
Definition detail_info (s : SessionRef) : list (string * string) := [
  ("Agent Name", agentName s ++ " (Rachael)"); ("Topic", "Financial Compliance & Reporting");
  ("Invited Parties", "john.doe@company.com, sarah.smith@company.com");
  ("Date & Time", "December 15, 2024 at 2:30 PM EST"); ("Duration", "45 minutes")]%string.

Definition detail_view (s : SessionRef) (d : DetailState) : DetailView :=
  mkDetailView (agentName s) (sessionName s) ("Session ID: " ++ sessionId s) (detail_info s)
    (if isPlaying d then "pause" else "play") (progress d) (assets_view (assets d)) automation_cards.

(** [DashboardView] (lines 7-89): each card and button with the callback
    it calls; the buttons' container stops the click's propagation. *)
Definition dashboard_buttons : list (string * HomeEvent) := [
  ("Start Tacit Session card", OpenStart); ("Start Now", OpenStart);
  ("Schedule Session", OpenSchedule);
  ("Automate Knowledge Assets card", ToggleSidebar); ("Automate Past Sessions", ToggleSidebar);
  ("Build New Automations", ToggleSidebar)
]%string.

(** ** The page *)

(** [toggleSidebar], [openSessionDetail], [backToDashboard],
    [openConfigDrawer] (with the drawer's reset effect) and
    [closeConfigDrawer] (lines 27-50). *)
Definition toggleSidebar (h : Home) : Home :=
  let '(mkHome sb v sel so sco dro au g sf scf dr de tm) := h in
  mkHome (negb sb) v sel so sco dro au g sf scf dr de tm.

Definition openSessionDetail (s : SessionRef) (h : Home) : Home :=
  let '(mkHome sb v sel so sco dro au g sf scf dr de tm) := h in
  mkHome false VSession (Some s) so sco dro au g sf scf dr
    (match v with VDashboard => Some initial_detail | VSession => de end) tm.

Definition backToDashboard (h : Home) : Home :=
  let '(mkHome sb v sel so sco dro au g sf scf dr de tm) := h in
  mkHome sb VDashboard None so sco dro au g sf scf dr None tm.

Definition openConfigDrawer (a : Automation) (h : Home) : Home :=
  let '(mkHome sb v sel so sco dro au g sf scf dr de tm) := h in
  mkHome sb v sel so sco true (Some a) g sf scf drawer_reset de tm.

Definition closeConfigDrawer (h : Home) : Home :=
  let '(mkHome sb v sel so sco dro au g sf scf dr de tm) := h in
  mkHome sb v sel so sco false None g sf scf dr de tm.

(** [handleRunAutomation] of [ConfigDrawer] (lines 33-54): nothing
    without an automation; otherwise [isProcessing] and the 2-second
    timer, which captures this render's automation and config. *)
Definition handleRunAutomation (h : Home) : Home :=
  let '(mkHome sb v sel so sco dro au g sf scf dr de tm) := h in
  match au with
  | Some a => mkHome sb v sel so sco dro au g sf scf (mkDrawer (config dr) true) de
                (tm ++ [(a, config dr)])
  | None => h
  end.

(** The timer's callback (lines 39-53): the window event reaches the
    mounted [SessionDetailView], then [setIsProcessing(false)] and
    [onClose()], the page's [closeConfigDrawer]. *)
Definition timer_callback (a : Automation) (timestamp : string) (h : Home) : Home :=
  let '(mkHome sb v sel so sco dro au g sf scf dr de tm) := h in
  closeConfigDrawer
    (mkHome sb v sel so sco dro au g sf scf (mkDrawer (config dr) false)
       (handleAssetGenerated a timestamp <$> de) tm).

Definition fire_timer (i : nat) (timestamp : string) (h : Home) : Home :=
  match timers h !! i with
  | Some (a, _) =>
      let '(mkHome sb v sel so sco dro au g sf scf dr de tm) := h in
      timer_callback a timestamp (mkHome sb v sel so sco dro au g sf scf dr de (delete i tm))
  | None => h
  end.

(** The drawer's inputs, Run and close button (lines 56-150). *)
Definition drawer_handle (e : DrawerEvent) (h : Home) : Home :=
  let '(mkDrawer (mkConfig t a i) p) := drawer h in
  match e with
  | DrTone v => with_drawer (mkDrawer (mkConfig v a i) p) h
  | DrAudience v => with_drawer (mkDrawer (mkConfig t v i) p) h
  | DrInstructions v => with_drawer (mkDrawer (mkConfig t a v) p) h
  | DrRun => handleRunAutomation h
  | DrClose => closeConfigDrawer h
  end.

(** The page (lines 10-118) wires the callbacks into its children:
    [DashboardView]'s buttons open the modals or toggle the sidebar,
    [SessionDetailView] gets [backToDashboard] and [openConfigDrawer],
    [ConfigDrawer] gets [closeConfigDrawer]. The sidebar's groups and the
    two session modals are the Next copies' handlers. *)
Definition step (h : Home) (e : HomeEvent) : Home * list string :=
  match e with
  | ToggleSidebar => (toggleSidebar h, [])
  | ToggleGroup g => (with_groups (toggleGroup g (expandedGroups h)) h, [])
  | SessionClick s => (openSessionDetail s h, [])
  | OpenStart => (with_start (start h) true h, [])
  | OpenSchedule => (with_schedule (schedule h) true h, [])
  | Start e => start_handle e h
  | Schedule e => schedule_handle e h
  | Back => (backToDashboard h, [])
  | PlayPause => (with_detail (togglePlayPause <$> detail h) h, [])
  | Seek x w => (with_detail (handleSeek x w <$> detail h) h, [])
  | Apply a => (openConfigDrawer a h, [])
  | AssetButton act i =>
      (h, match detail h ≫= fun d => assets d !! i with
          | Some a => [asset_alert act (as_type a)]
          | None => []
          end)
  | Drawer e => (drawer_handle e h, [])
  | TimerFires i ts => (fire_timer i ts h, [])
  end.

(** ** The copies agree *)

Lemma vite_drawer_handle_eq e h : drawer_handle e h = Dashboard.drawer_handle e h.
Proof. destruct h as [??????? ? ?? [[]] ??]; destruct e; reflexivity. Qed.

Lemma vite_fire_timer_eq i ts h : fire_timer i ts h = Dashboard.fire_timer i ts h.
Proof. unfold fire_timer, Dashboard.fire_timer. by destruct (timers h !! i) as [[]|], h. Qed.

(** C19: The Vite page is the Next page: for every state and every event, the
    page built from the copies under [src/src] takes the same step, with
    the same alerts, as the page of [app/page.tsx]; the copies offer the
    same automation cards, dashboard buttons and asset alerts, and render
    the same session detail. *)
Theorem vite_step_refines :
  (forall h e, step h e = Dashboard.step h e) /\
  automations = Dashboard.automations /\ dashboard_buttons = Dashboard.dashboard_buttons /\
  (forall act t, asset_alert act t = Dashboard.asset_alert act t) /\
  (forall s d, detail_view s d = Dashboard.detail_view s d).
Proof.
  split_and!; [|done|done|by intros []|done].
  intros h e. destruct e; simpl; try done.
  all: first [ by destruct h | by destruct h, currentView0
             | f_equal; first [apply vite_drawer_handle_eq | apply vite_fire_timer_eq] ].
Qed.

End ViteDashboard.
